(** * FinSight agent: report formatter, report extractor and orchestration

    A shallow embedding of the FinSight multi-agent pipeline
    ([src/orchestrator.py], [src/agents/*.py], [src/models.py]) and of the
    report reader ([api.py]), with the properties of its specification.

    Modelling conventions.
    - A Python [str] is a [string] holding the UTF-8 encoding of the text.
      Literal search, [.], [[^\n]], [split], [in] and [replace] agree with
      Python on such strings; the classes [\d], [\w], [\s] and [str.strip]
      are the ASCII ones, so texts whose non-ASCII characters are Unicode
      digits, letters or spaces are outside the model.
    - A Python [float] is a binary64 [float] of the kernel; [int] is [Z].
    - An exception is a value of [exn] in the error monad [except].
    - The clock, the file system, the completion capability and the
      validation providers are inputs of the functions that use them. *)

From Stdlib Require Import ZArith NArith PArith Bool List String Ascii Lia.
From Stdlib Require Import Floats SpecFloat.
From Stdlib Require Import DecimalString DecimalN.
Import ListNotations.

#[local] Set Warnings "-inexact-float".
#[local] Open Scope string_scope.
#[local] Open Scope list_scope.

(* ================================================================== *)
(** * Python strings *)

Module PyStr.

Definition nl : string := String "010" "".

Definition ascii_eqb (a b : ascii) : bool := Ascii.eqb a b.

Definition code (c : ascii) : N := N_of_ascii c.

(** [str.isspace] on ASCII: tab, LF, VT, FF, CR, FS, GS, RS, US, space. *)
Definition is_space (c : ascii) : bool :=
  let n := code c in
  ((9 <=? n) && (n <=? 13) || (28 <=? n) && (n <=? 32))%N.

Definition is_digit (c : ascii) : bool :=
  let n := code c in ((48 <=? n) && (n <=? 57))%N.

Definition is_upper (c : ascii) : bool :=
  let n := code c in ((65 <=? n) && (n <=? 90))%N.

Definition is_lower (c : ascii) : bool :=
  let n := code c in ((97 <=? n) && (n <=? 122))%N.

Definition is_alnum (c : ascii) : bool :=
  is_digit c || is_upper c || is_lower c.

(** [\w] on ASCII. *)
Definition is_word (c : ascii) : bool :=
  is_alnum c || ascii_eqb c "_".

Fixpoint all_chars (p : ascii -> bool) (s : string) : bool :=
  match s with
  | EmptyString => true
  | String c s' => p c && all_chars p s'
  end.

Fixpoint mem_char (c : ascii) (set : string) : bool :=
  match set with
  | EmptyString => false
  | String d set' => ascii_eqb c d || mem_char c set'
  end.

Fixpoint rev_onto (s acc : string) : string :=
  match s with
  | EmptyString => acc
  | String c s' => rev_onto s' (String c acc)
  end.

Definition rev (s : string) : string := rev_onto s "".

(** [s.lstrip(chars)] with the set of characters given as a predicate. *)
Fixpoint lstrip_by (p : ascii -> bool) (s : string) : string :=
  match s with
  | EmptyString => EmptyString
  | String c s' => if p c then lstrip_by p s' else s
  end.

Definition rstrip_by (p : ascii -> bool) (s : string) : string :=
  rev (lstrip_by p (rev s)).

Definition strip_by (p : ascii -> bool) (s : string) : string :=
  rstrip_by p (lstrip_by p s).

(** [s.strip()] *)
Definition strip (s : string) : string := strip_by is_space s.

(** [s.strip(chars)] and [s.lstrip(chars)] *)
Definition strip_chars (set s : string) : string :=
  strip_by (fun c => mem_char c set) s.

Definition lstrip_chars (set s : string) : string :=
  lstrip_by (fun c => mem_char c set) s.

(** [s.startswith(p)] *)
Fixpoint startswith (p s : string) : bool :=
  match p with
  | EmptyString => true
  | String a p' =>
      match s with
      | EmptyString => false
      | String b s' => ascii_eqb a b && startswith p' s'
      end
  end.

(** [needle in s] *)
Fixpoint contains (needle s : string) : bool :=
  startswith needle s ||
  match s with
  | EmptyString => false
  | String _ s' => contains needle s'
  end.

(** [s.split(sep)] for a one-character separator. *)
Fixpoint split_on (sep : ascii) (s : string) : list string :=
  match s with
  | EmptyString => [EmptyString]
  | String c s' =>
      if ascii_eqb c sep then EmptyString :: split_on sep s'
      else match split_on sep s' with
           | [] => [String c EmptyString]
           | w :: ws => String c w :: ws
           end
  end.

(** [sep.join(xs)] *)
Fixpoint join (sep : string) (xs : list string) : string :=
  match xs with
  | [] => EmptyString
  | [x] => x
  | x :: xs' => x ++ sep ++ join sep xs'
  end.

(** [s.replace(c, '')] for a one-character [c]. *)
Fixpoint remove_char (c : ascii) (s : string) : string :=
  match s with
  | EmptyString => EmptyString
  | String d s' =>
      if ascii_eqb d c then remove_char c s' else String d (remove_char c s')
  end.

Definition upper_char (c : ascii) : ascii :=
  if is_lower c then ascii_of_N (code c - 32) else c.

Definition lower_char (c : ascii) : ascii :=
  if is_upper c then ascii_of_N (code c + 32) else c.

Fixpoint map_chars (f : ascii -> ascii) (s : string) : string :=
  match s with
  | EmptyString => EmptyString
  | String c s' => String (f c) (map_chars f s')
  end.

(** [s.upper()] and [s.lower()] on ASCII letters. *)
Definition upper (s : string) : string := map_chars upper_char s.
Definition lower (s : string) : string := map_chars lower_char s.

(** [s[:n]] *)
Fixpoint take (n : nat) (s : string) : string :=
  match n, s with
  | O, _ => EmptyString
  | _, EmptyString => EmptyString
  | S n', String c s' => String c (take n' s')
  end.

(** [xs[1:-1]] *)
Definition inner {A} (xs : list A) : list A :=
  List.removelast (List.tl xs).

(** The concatenation of the pieces produced by a loop body, as
    [for x in xs: report += f(x)]. *)
Fixpoint concat_map {A} (f : A -> string) (xs : list A) : string :=
  match xs with
  | [] => EmptyString
  | x :: xs' => f x ++ concat_map f xs'
  end.

(** [enumerate(xs, start)] *)
Fixpoint enumerate {A} (start : Z) (xs : list A) : list (Z * A) :=
  match xs with
  | [] => []
  | x :: xs' => (start, x) :: enumerate (start + 1) xs'
  end.

End PyStr.

(* ================================================================== *)
(** * Python numbers: rendering and parsing *)

Module PyNum.
Import PyStr.

(** Decimal digits of a natural number, as [str(n)]. *)
Definition dec_of_N (n : N) : string :=
  NilZero.string_of_uint (N.to_uint n).

(** [str(n)] / [f"{n}"] for an [int]. *)
Definition fmt_int (z : Z) : string :=
  match z with
  | Zneg p => "-" ++ dec_of_N (Npos p)
  | _ => dec_of_N (Z.to_N z)
  end.

Definition pad2 (n : N) : string :=
  if (n <? 10)%N then "0" ++ dec_of_N n else dec_of_N n.

(** Nearest integer to [num / den], ties to even ([0 < den]). *)
Definition round_half_even (num den : Z) : Z :=
  let q := (num / den)%Z in
  let r := (num mod den)%Z in
  if (den <? 2 * r)%Z then (q + 1)%Z
  else if (2 * r =? den)%Z then (if Z.even q then q else (q + 1)%Z)
  else q.

(** The number of hundredths nearest to the exact value [m * 2^e]. *)
Definition hundredths (m : positive) (e : Z) : Z :=
  if (0 <=? e)%Z then (Zpos m * 100 * 2 ^ e)%Z
  else round_half_even (Zpos m * 100) (2 ^ (- e)).

Definition fixed2_of_hundredths (h : Z) : string :=
  dec_of_N (Z.to_N (h / 100)) ++ "." ++ pad2 (Z.to_N (h mod 100)).

Definition sign_str (s : bool) : string := if s then "-" else "".

(** [f"{x:.2f}"]: the exact binary value rounded to two decimals, ties to
    even, as CPython's correctly rounded conversion does. *)
Definition fmt_2f (x : float) : string :=
  match Prim2SF x with
  | S754_nan => "nan"
  | S754_infinity s => sign_str s ++ "inf"
  | S754_zero s => sign_str s ++ "0.00"
  | S754_finite s m e => sign_str s ++ fixed2_of_hundredths (hundredths m e)
  end.

(** [f"{x:.2%}"]: the float product [x * 100] rendered with [.2f] and a
    percent sign. *)
Definition fmt_pct (x : float) : string :=
  fmt_2f (PrimFloat.mul x 100) ++ "%".

(** ** [float(s)] *)

Definition prec : Z := 53.
Definition emax : Z := 1024.

Definition sf_of_pos (s : bool) (p : positive) : spec_float :=
  S754_finite s p 0.

(** The binary64 value nearest to [(-1)^s * d * 10^e10]. *)
Definition float_of_decimal (s : bool) (d : N) (e10 : Z) : float :=
  match d with
  | N0 => SF2Prim (S754_zero s)
  | Npos p =>
      if (0 <=? e10)%Z then
        SF2Prim (binary_normalize prec emax
                   (if s then Zneg p * 10 ^ e10 else Zpos p * 10 ^ e10)%Z
                   0 false)
      else
        SF2Prim (SFdiv prec emax (sf_of_pos s p)
                   (sf_of_pos false (Z.to_pos (10 ^ (- e10)))))
  end.

Definition digit_val (c : ascii) : N := (code c - 48)%N.

(** A digit part [digit (["_"] digit)*]: returns the accumulated value, the
    number of digits read and the rest of the text. *)
Fixpoint read_digits (acc : N) (cnt : nat) (after_digit : bool) (s : string)
  : N * nat * string :=
  match s with
  | String c s' =>
      if is_digit c then
        read_digits (acc * 10 + digit_val c)%N (S cnt) true s'
      else if ascii_eqb c "_" && after_digit then
        match s' with
        | String d _ =>
            if is_digit d then read_digits acc cnt false s'
            else (acc, cnt, s)
        | EmptyString => (acc, cnt, s)
        end
      else (acc, cnt, s)
  | EmptyString => (acc, cnt, s)
  end.

Definition read_sign (s : string) : bool * string :=
  match s with
  | String "-" s' => (true, s')
  | String "+" s' => (false, s')
  | _ => (false, s)
  end.

(** The optional exponent part; [None] when an exponent marker is
    followed by no digit. *)
Definition read_exponent (s : string) : option (Z * string) :=
  match s with
  | String c s' =>
      if ascii_eqb c "e" || ascii_eqb c "E" then
        let '(neg, s1) := read_sign s' in
        let '(v, cnt, rest) := read_digits 0 0 false s1 in
        match cnt with
        | O => None
        | _ => Some ((if neg then - Z.of_N v else Z.of_N v)%Z, rest)
        end
      else Some (0%Z, s)
  | EmptyString => Some (0%Z, s)
  end.

(** The white space that [float] removes around its argument. *)
Definition is_c_space (c : ascii) : bool :=
  let n := code c in ((9 <=? n) && (n <=? 13) || (n =? 32))%N.

(** The text of a float after its sign: a special value, or digits with
    an optional fraction and an optional exponent. *)
Definition parse_magnitude (neg : bool) (s : string) : option float :=
  let low := lower s in
  if String.eqb low "nan" then Some PrimFloat.nan
  else if String.eqb low "inf" || String.eqb low "infinity" then
    Some (if neg then PrimFloat.neg_infinity else PrimFloat.infinity)
  else
    let '(ip, icnt, s1) := read_digits 0 0 false s in
    let '(fp, fcnt, s2) :=
      match s1 with
      | String "." s1' => read_digits ip 0 false s1'
      | _ => (ip, O, s1)
      end in
    match icnt, fcnt with
    | O, O => None
    | _, _ =>
        match read_exponent s2 with
        | Some (e, EmptyString) =>
            Some (float_of_decimal neg fp (e - Z.of_nat fcnt))
        | _ => None
        end
    end.

(** [float(s)]; [None] is [ValueError]. *)
Definition py_float (s0 : string) : option float :=
  let '(neg, s) := read_sign (strip_by is_c_space s0) in
  parse_magnitude neg s.

(** [int(s)] on a text of decimal digits, as captured by [(\d+)]. *)
Fixpoint int_of_digits (acc : N) (s : string) : N :=
  match s with
  | String c s' => int_of_digits (acc * 10 + digit_val c)%N s'
  | EmptyString => acc
  end.

Definition py_int (s : string) : Z := Z.of_N (int_of_digits 0 s).

(** [a >= b] on floats. *)
Definition float_ge (a b : float) : bool := PrimFloat.leb b a.

End PyNum.

(* ================================================================== *)
(** * Regular expressions: the fragment of Python's [re] used by api.py *)

Module Re.
Import PyStr.

Inductive regex : Type :=
| REps
| RChar (p : ascii -> bool)          (* a character class *)
| RLit (l : string)                  (* literal text *)
| RSeq (r1 r2 : regex)
| RAlt (r1 r2 : regex)               (* r1|r2, r1 tried first *)
| RStar (greedy : bool) (r : regex)  (* r* and r*? *)
| RGroup (i : nat) (r : regex)       (* capturing group number i *)
| REnd                               (* \Z *)
| RLook (r : regex).                 (* (?=r) *)

(** Captured groups, most recent first. *)
Definition caps : Type := list (nat * string).

(** A match: the text after the match and the groups. *)
Definition match_obj : Type := (string * caps)%type.

Fixpoint drop_prefix (l s : string) : option string :=
  match l with
  | EmptyString => Some s
  | String a l' =>
      match s with
      | String b s' => if ascii_eqb a b then drop_prefix l' s' else None
      | EmptyString => None
      end
  end.

Definition consumed (s s' : string) : string :=
  take (String.length s - String.length s') s.

(** One repetition [r*] or [r*?] of a body matcher: a greedy repetition
    tries one more iteration first, a lazy one tries to stop first. An
    iteration that consumes nothing is not repeated, so [fuel], the length
    of the text, is never exhausted before the text is. *)
Fixpoint star_loop
    (body : string -> caps -> (string -> caps -> option match_obj)
            -> option match_obj)
    (greedy : bool) (k : string -> caps -> option match_obj)
    (fuel : nat) (s : string) (c : caps) {struct fuel} : option match_obj :=
  match fuel with
  | O => k s c
  | S fuel' =>
      let again :=
        fun (_ : unit) =>
          body s c
            (fun s' c' =>
               if (String.length s' <? String.length s)%nat
               then star_loop body greedy k fuel' s' c' else None) in
      if greedy then
        match again tt with
        | Some m => Some m
        | None => k s c
        end
      else
        match k s c with
        | Some m => Some m
        | None => again tt
        end
  end.

(** Backtracking matcher in continuation-passing style: [rmatch r s c k]
    matches [r] at the start of [s] and hands the rest to [k]; when [k]
    fails the next alternative is tried, in the order of Python's
    engine. *)
Fixpoint rmatch (r : regex) (s : string) (c : caps)
    (k : string -> caps -> option match_obj) {struct r} : option match_obj :=
  match r with
  | REps => k s c
  | RChar p =>
      match s with
      | String a s' => if p a then k s' c else None
      | EmptyString => None
      end
  | RLit l =>
      match drop_prefix l s with
      | Some s' => k s' c
      | None => None
      end
  | RSeq r1 r2 => rmatch r1 s c (fun s' c' => rmatch r2 s' c' k)
  | RAlt r1 r2 =>
      match rmatch r1 s c k with
      | Some m => Some m
      | None => rmatch r2 s c k
      end
  | RStar greedy r1 =>
      star_loop (rmatch r1) greedy k (String.length s) s c
  | RGroup i r1 =>
      rmatch r1 s c (fun s' c' => k s' ((i, consumed s s') :: c'))
  | REnd =>
      match s with
      | EmptyString => k s c
      | String _ _ => None
      end
  | RLook r1 =>
      match rmatch r1 s c (fun s' c' => Some (s', c')) with
      | Some (_, c') => k s c'
      | None => None
      end
  end.

(** [re.match(r, s)] *)
Definition match_at (r : regex) (s : string) : option match_obj :=
  rmatch r s [] (fun s' c' => Some (s', c')).

(** [re.search(r, s)]: the match at the leftmost position that has one. *)
Fixpoint search (r : regex) (s : string) : option match_obj :=
  match match_at r s with
  | Some m => Some m
  | None =>
      match s with
      | EmptyString => None
      | String _ s' => search r s'
      end
  end.

(** [m.group(i)] for a group that took part in the match. *)
Fixpoint lookup (i : nat) (c : caps) : option string :=
  match c with
  | [] => None
  | (j, t) :: c' => if Nat.eqb i j then Some t else lookup i c'
  end.

Definition group (i : nat) (m : match_obj) : string :=
  match lookup i (snd m) with
  | Some t => t
  | None => EmptyString
  end.

(** [re.findall(r, s)]: successive non-overlapping matches, each search
    resuming where the previous match ended (one character further after
    an empty match). *)
Fixpoint findall_fuel (fuel : nat) (r : regex) (s : string)
  : list match_obj :=
  match fuel with
  | O => []
  | S fuel' =>
      match search r s with
      | None => []
      | Some (rest, c) =>
          (rest, c) ::
          (if (String.length rest <? String.length s)%nat
           then findall_fuel fuel' r rest
           else match rest with
                | EmptyString => []
                | String _ rest' => findall_fuel fuel' r rest'
                end)
      end
  end.

Definition findall (r : regex) (s : string) : list match_obj :=
  findall_fuel (S (String.length s)) r s.

(** ** Pattern syntax *)

Definition lit := RLit.
Definition cls := RChar.
Definition star (r : regex) : regex := RStar true r.
Definition lazy (r : regex) : regex := RStar false r.
Definition plus (r : regex) : regex := RSeq r (RStar true r).
Definition grp := RGroup.
Definition alt := RAlt.

Fixpoint seq (rs : list regex) : regex :=
  match rs with
  | [] => REps
  | [r] => r
  | r :: rs' => RSeq r (seq rs')
  end.

Definition is_nl (c : ascii) : bool := ascii_eqb c "010".

(** [.] without and with [re.DOTALL] *)
Definition dot : regex := RChar (fun c => negb (is_nl c)).
Definition dot_all : regex := RChar (fun _ => true).

(** [\s], [\w], [\d], [[-\d.]], [[\d.]], [[^\n]] *)
Definition ws : regex := RChar is_space.
Definition word : regex := RChar is_word.
Definition digit : regex := RChar is_digit.
Definition is_signed_num (c : ascii) : bool :=
  ascii_eqb c "-" || is_digit c || ascii_eqb c ".".
Definition is_num (c : ascii) : bool := is_digit c || ascii_eqb c ".".
Definition signed_num : regex := RChar is_signed_num.
Definition num : regex := RChar is_num.
Definition not_nl : regex := RChar (fun c => negb (is_nl c)).

End Re.

(* ================================================================== *)
(** * Data models (src/models.py) *)

Module AnalysisQuestion.
Inductive priority_t := high | medium | low.
Record t := mk {
  category : string;
  focus_item : string;
  question : string;
  priority : priority_t
}.
End AnalysisQuestion.

Module SentimentAnalysisResult.
(** [Literal["very_positive", "positive", "neutral", "negative",
    "very_negative"]] *)
Inductive sentiment_t :=
  very_positive | positive | neutral | negative | very_negative.

Definition sentiment_str (l : sentiment_t) : string :=
  match l with
  | very_positive => "very_positive"
  | positive => "positive"
  | neutral => "neutral"
  | negative => "negative"
  | very_negative => "very_negative"
  end.

Record t := mk {
  overall_sentiment : sentiment_t;
  sentiment_score : float;
  market_sentiment : string;
  key_sentiment_drivers : list string;
  news_headlines : list string;
  confidence : float;
  tool_validations : list string
}.
End SentimentAnalysisResult.

Module SignificantEvent.
(** [Literal["high", "medium", "low"]] *)
Inductive impact_t := high | medium | low.

Definition impact_str (i : impact_t) : string :=
  match i with
  | high => "high"
  | medium => "medium"
  | low => "low"
  end.

Record t := mk {
  event_type : string;
  description : string;
  mentioned_in_call : bool;
  verified : bool;
  source : string;
  impact_assessment : impact_t
}.
End SignificantEvent.

Module SignificantEventDetectionResult.
Record t := mk {
  events : list SignificantEvent.t;
  total_events_found : Z;
  verified_count : Z;
  confidence : float;
  tool_validations : list string
}.
End SignificantEventDetectionResult.

Module TranscriptAnalysisAnswer.
Record t := mk {
  category : string;
  focus_item : string;
  question : string;
  answer : string;
  confidence : float;
  relevant_quotes : list string
}.
End TranscriptAnalysisAnswer.

Module VolatilityPredictionResult.
(** [Literal["very_high", "high", "moderate", "low", "very_low"]] *)
Inductive volatility_t := very_high | high | moderate | low | very_low.

Definition volatility_str (v : volatility_t) : string :=
  match v with
  | very_high => "very_high"
  | high => "high"
  | moderate => "moderate"
  | low => "low"
  | very_low => "very_low"
  end.

Record t := mk {
  predicted_volatility : volatility_t;
  volatility_score : float;
  transcript_insights : list TranscriptAnalysisAnswer.t;
  key_volatility_drivers : list string;
  sentiment_impact : string;
  event_impact : string;
  confidence : float;
  historical_volatility : float;
  tool_validations : list string
}.
End VolatilityPredictionResult.

Module GuardrailViolation.
Record t := mk {
  timestamp : string;
  agent : string;
  guardrail_type : string;
  description : string;
  action_taken : string
}.
End GuardrailViolation.

Module AgentCapability.
Record t := mk {
  agent_name : string;
  capabilities : list string;
  limitations : list string;
  confidence_threshold : float
}.
End AgentCapability.

Module FinSightSelfModel.
Record t := mk {
  system_name : string;
  version : string;
  mission : string;
  agent_capabilities : list AgentCapability.t;
  operating_boundaries : list string;
  min_confidence_for_recommendation : float;
  active_guardrails : list string;
  guardrail_violations : list GuardrailViolation.t
}.
End FinSightSelfModel.

Module MetacognitiveDecision.
Record t := mk {
  user_intent : string;
  analysis_plan : list string;
  agents_to_invoke : list string;
  confidence : float;
  reasoning : string
}.
End MetacognitiveDecision.

Definition DEFAULT_ANALYSIS_QUESTIONS : list AnalysisQuestion.t :=
  [ AnalysisQuestion.mk "Financial Performance" "Dividends"
      "Did this company pay investors a dividend? If yes, what was the amount and frequency?"
      AnalysisQuestion.high;
    AnalysisQuestion.mk "Financial Performance" "Revenue Growth"
      "What was the year-over-year revenue growth rate mentioned in the call?"
      AnalysisQuestion.high;
    AnalysisQuestion.mk "Strategic Initiatives" "Key Projects"
      "What are the key projects or initiatives currently being undertaken by the company?"
      AnalysisQuestion.high;
    AnalysisQuestion.mk "Risk Factors" "Challenges"
      "What challenges, risks, or headwinds did the management discuss?"
      AnalysisQuestion.high;
    AnalysisQuestion.mk "Forward Guidance" "Outlook"
      "What guidance did the company provide for the next quarter or fiscal year?"
      AnalysisQuestion.high ].

Definition get_default_self_model : FinSightSelfModel.t :=
  FinSightSelfModel.mk
    "FinSight Agent"
    "1.0"
    "Provide comprehensive, multi-agent financial analysis of earnings calls while maintaining transparency, accuracy, and ethical boundaries"
    [ AgentCapability.mk "Sentiment Analysis Agent"
        [ "Analyze sentiment from earnings call transcripts";
          "Correlate with market news sentiment using Tavily";
          "Identify sentiment drivers and trends" ]
        [ "Cannot predict future sentiment with certainty";
          "Limited to English language sources" ]
        0.65%float;
      AgentCapability.mk "Significant Event Detection Agent"
        [ "Identify corporate events from transcripts";
          "Verify events against SEC filings using EDGAR";
          "Assess event materiality and impact" ]
        [ "Cannot access all global press releases";
          "SEC filings may have reporting delays" ]
        0.7%float;
      AgentCapability.mk "Volatility Prediction Agent"
        [ "Extract structured insights from transcripts";
          "Analyze multi-modal signals";
          "Validate predictions using yfinance market data" ]
        [ "Cannot guarantee prediction accuracy";
          "Subject to unforeseen market shocks" ]
        0.6%float ]
    [ "NO personalized investment advice or stock recommendations";
      "NO guarantees about future stock performance";
      "All outputs are for educational and analytical purposes only";
      "Must disclose confidence levels and limitations" ]
    0.7%float
    [ "Confidence threshold enforcement";
      "Source verification requirement";
      "Investment advice prohibition";
      "Transparent limitation disclosure" ]
    [].

(* ================================================================== *)
(** * Exceptions *)

Inductive exn : Type :=
| ValueError (msg : string)
| IndexError (msg : string)
| RuntimeError (msg : string).

Inductive except (A : Type) : Type :=
| Ok (a : A)
| Raise (e : exn).
Arguments Ok {A} a.
Arguments Raise {A} e.

Definition bind {A B} (m : except A) (f : A -> except B) : except B :=
  match m with
  | Ok a => f a
  | Raise e => Raise e
  end.

Notation "x <- m ;; k" := (bind m (fun x => k))
  (at level 61, m at next level, right associativity).

Definition exn_str (e : exn) : string :=
  match e with
  | ValueError m => m
  | IndexError m => m
  | RuntimeError m => m
  end.

(* ================================================================== *)
(** * Report formatter (src/orchestrator.py) *)

Module Formatter.
Import PyStr PyNum.
#[local] Open Scope string_scope.

Definition yes_no (b : bool) : string := if b then "Yes" else "No".

Definition nonempty {A} (xs : list A) : bool :=
  match xs with [] => false | _ => true end.

(** [chr(10).join(f'- {x}' for x in xs)] *)
Definition bullet_lines (xs : list string) : string :=
  join nl (map (fun x => "- " ++ x) xs).

Definition bullet_lines_or_none (xs : list string) : string :=
  if nonempty xs then bullet_lines xs else "None".

(** [for x in xs: report += f"- {x}\n"] *)
Definition bullets (xs : list string) : string :=
  concat_map (fun x => "- " ++ x ++ nl) xs.

Definition format_sentiment_report (ticker timestamp : string)
    (result : SentimentAnalysisResult.t) : string :=
  let r := result in
  "# Sentiment Analysis Report

**Ticker:** " ++ ticker ++ "  
**Generated:** " ++ timestamp ++ "  
**Agent:** Sentiment Analysis Agent

---

## Overall Assessment

- **Sentiment:** " ++ SentimentAnalysisResult.sentiment_str
                        (SentimentAnalysisResult.overall_sentiment r) ++ "
- **Score:** " ++ fmt_2f (SentimentAnalysisResult.sentiment_score r) ++ " (range: -1.0 to 1.0)
- **Confidence:** " ++ fmt_pct (SentimentAnalysisResult.confidence r) ++ "

## Market Sentiment

" ++ SentimentAnalysisResult.market_sentiment r ++ "

## Key Sentiment Drivers

" ++ bullet_lines (SentimentAnalysisResult.key_sentiment_drivers r) ++ "

## News Headlines Analyzed

" ++ bullet_lines_or_none (SentimentAnalysisResult.news_headlines r) ++ "

## Tool Validations

" ++ bullet_lines_or_none (SentimentAnalysisResult.tool_validations r) ++ "
".

Definition event_block (impact_label : string)
    (ie : Z * SignificantEvent.t) : string :=
  let '(i, event) := ie in
  "
### Event " ++ fmt_int i ++ ": " ++ SignificantEvent.event_type event ++ "

- **Description:** " ++ SignificantEvent.description event ++ "
- **Mentioned in Call:** " ++ yes_no (SignificantEvent.mentioned_in_call event) ++ "
- **Verified:** " ++ yes_no (SignificantEvent.verified event) ++ "
- **Source:** " ++ SignificantEvent.source event ++ "
- **" ++ impact_label ++ ":** " ++
    upper (SignificantEvent.impact_str
             (SignificantEvent.impact_assessment event)) ++ "
".

Definition events_section (result : SignificantEventDetectionResult.t)
  : string :=
  concat_map (event_block "Impact")
    (enumerate 1 (SignificantEventDetectionResult.events result)).

Definition or_else (s default : string) : string :=
  match s with
  | EmptyString => default
  | _ => s
  end.

Definition format_event_report (ticker timestamp : string)
    (result : SignificantEventDetectionResult.t) : string :=
  let r := result in
  "# Event Detection Report

**Ticker:** " ++ ticker ++ "  
**Generated:** " ++ timestamp ++ "  
**Agent:** Significant Event Detection Agent

---

## Summary

- **Total Events Found:** " ++ fmt_int (SignificantEventDetectionResult.total_events_found r) ++ "
- **Verified Events:** " ++ fmt_int (SignificantEventDetectionResult.verified_count r) ++ "
- **Confidence:** " ++ fmt_pct (SignificantEventDetectionResult.confidence r) ++ "

## Detected Events

" ++ or_else (events_section r) "*No events detected*" ++ "

## Tool Validations

" ++ bullet_lines_or_none (SignificantEventDetectionResult.tool_validations r) ++ "
".

Definition insight_block (insight : TranscriptAnalysisAnswer.t) : string :=
  "
### " ++ TranscriptAnalysisAnswer.focus_item insight ++ "

**Question:** " ++ TranscriptAnalysisAnswer.question insight ++ "  
**Answer:** " ++ TranscriptAnalysisAnswer.answer insight ++ "  
**Confidence:** " ++ fmt_pct (TranscriptAnalysisAnswer.confidence insight) ++ "
".

Definition insights_section (result : VolatilityPredictionResult.t)
  : string :=
  concat_map insight_block
    (VolatilityPredictionResult.transcript_insights result).

Definition format_volatility_report (ticker timestamp : string)
    (result : VolatilityPredictionResult.t) : string :=
  let r := result in
  "# Volatility Prediction Report

**Ticker:** " ++ ticker ++ "  
**Generated:** " ++ timestamp ++ "  
**Agent:** Volatility Prediction Agent

---

## Prediction

- **Predicted Volatility:** " ++ VolatilityPredictionResult.volatility_str
                                   (VolatilityPredictionResult.predicted_volatility r) ++ "
- **Volatility Score:** " ++ fmt_2f (VolatilityPredictionResult.volatility_score r) ++ " (range: 0.0 to 1.0)
- **Historical Volatility:** " ++ fmt_pct (VolatilityPredictionResult.historical_volatility r) ++ "
- **Confidence:** " ++ fmt_pct (VolatilityPredictionResult.confidence r) ++ "

## Key Volatility Drivers

" ++ bullet_lines (VolatilityPredictionResult.key_volatility_drivers r) ++ "

## Sentiment Impact

" ++ VolatilityPredictionResult.sentiment_impact r ++ "

## Event Impact

" ++ VolatilityPredictionResult.event_impact r ++ "

## Transcript Insights

" ++ or_else (insights_section r) "*No insights available*" ++ "

## Tool Validations

" ++ bullet_lines_or_none (VolatilityPredictionResult.tool_validations r) ++ "
".

(** The result handed to [_save_agent_report], by stage. *)
Inductive stage_result : Type :=
| SentimentR (r : SentimentAnalysisResult.t)
| EventR (r : SignificantEventDetectionResult.t)
| VolatilityR (r : VolatilityPredictionResult.t).

(** The [agent_name] under which each node saves its result. *)
Definition agent_name_of (res : stage_result) : string :=
  match res with
  | SentimentR _ => "sentiment"
  | EventR _ => "event_detection"
  | VolatilityR _ => "volatility"
  end.

Definition _format_agent_report (ticker timestamp : string)
    (res : stage_result) : string :=
  match res with
  | SentimentR r => format_sentiment_report ticker timestamp r
  | EventR r => format_event_report ticker timestamp r
  | VolatilityR r => format_volatility_report ticker timestamp r
  end.

End Formatter.

(* ================================================================== *)
(** * Report extractor (api.py) *)

Module Api.
Import PyStr PyNum Re.
#[local] Open Scope string_scope.

(** ** The output directory *)

Record File := mkFile {
  file_name : string;
  st_mtime : Z;
  file_text : string
}.

(** Shell-style matching of one path component: [*] is any run of
    characters, [?] any one character, everything else is literal. Bracket
    expressions are not modelled; no pattern of api.py has one unless the
    ticker brings it. *)
Fixpoint fnmatch (pat name : string) : bool :=
  match pat with
  | EmptyString =>
      match name with EmptyString => true | _ => false end
  | String c pat' =>
      if ascii_eqb c "*" then
        (fix any (name : string) : bool :=
           fnmatch pat' name ||
           match name with
           | EmptyString => false
           | String _ name' => any name'
           end) name
      else
        match name with
        | EmptyString => false
        | String d name' =>
            (ascii_eqb c "?" || ascii_eqb c d) && fnmatch pat' name'
        end
  end.

(** [list(self.output_dir.glob(pattern))] *)
Definition glob (output_dir : list File) (pattern : string) : list File :=
  filter (fun f => fnmatch pattern (file_name f)) output_dir.

(** [max(files, key=lambda p: p.stat().st_mtime)]: the first file of
    greatest modification time. *)
Fixpoint latest_from (best : File) (files : list File) : File :=
  match files with
  | [] => best
  | f :: files' =>
      if (st_mtime best <? st_mtime f)%Z then latest_from f files'
      else latest_from best files'
  end.

(** ** [_extract_metadata] *)

(** [\*\*Label:\*\*\s*(value)] followed by [suffix] *)
Definition label_re (label : string) (value : regex) (suffix : regex)
  : regex :=
  seq [lit ("**" ++ label ++ ":**"); star ws; grp 1 value; suffix].

Definition re_ticker := label_re "Ticker" (plus word) REps.
Definition re_generated := label_re "Generated" (plus not_nl) REps.
Definition re_agent := label_re "Agent" (plus not_nl) REps.
Definition re_sentiment := label_re "Sentiment" (plus word) REps.
Definition re_score := label_re "Score" (plus signed_num) REps.
Definition re_confidence := label_re "Confidence" (plus num) (lit "%").
Definition re_total_events := label_re "Total Events Found" (plus digit) REps.
Definition re_verified_events := label_re "Verified Events" (plus digit) REps.
Definition re_predicted_volatility :=
  label_re "Predicted Volatility" (plus word) REps.
Definition re_volatility_score :=
  label_re "Volatility Score" (plus num) REps.
Definition re_historical_volatility :=
  label_re "Historical Volatility" (plus num) (lit "%").

(** [m.group(1)] of [re.search(pattern, content)], when there is a match. *)
Definition search1 (r : regex) (content : string) : option string :=
  option_map (group 1) (search r content).

(** [float(value)], raising [ValueError] as Python does. *)
Definition to_float (value : string) : except float :=
  match py_float value with
  | Some x => Ok x
  | None =>
      Raise (ValueError ("could not convert string to float: '" ++ value ++ "'"))
  end.

(** A captured value converted with [conv] when the pattern matched. *)
Definition opt_conv {A} (conv : string -> except A) (v : option string)
  : except (option A) :=
  match v with
  | None => Ok None
  | Some t => x <- conv t ;; Ok (Some x)
  end.

(** The [metadata] dictionary: a key is present when its pattern matched. *)
Record metadata := mkMetadata {
  md_ticker : option string;
  md_generated : option string;
  md_agent : option string;
  md_sentiment : option string;
  md_score : option float;
  md_confidence : option float;
  md_total_events : option Z;
  md_verified_events : option Z;
  md_predicted_volatility : option string;
  md_volatility_score : option float;
  md_historical_volatility : option float
}.

Definition _extract_metadata (content : string) : except metadata :=
  let ticker := search1 re_ticker content in
  let generated := search1 re_generated content in
  let agent := search1 re_agent content in
  let sentiment := search1 re_sentiment content in
  score <- opt_conv to_float (search1 re_score content) ;;
  confidence <- opt_conv to_float (search1 re_confidence content) ;;
  let total_events := option_map py_int (search1 re_total_events content) in
  let verified_events :=
    option_map py_int (search1 re_verified_events content) in
  let predicted_volatility := search1 re_predicted_volatility content in
  volatility_score <-
    opt_conv to_float (search1 re_volatility_score content) ;;
  historical_volatility <-
    opt_conv to_float (search1 re_historical_volatility content) ;;
  Ok (mkMetadata ticker generated agent sentiment score confidence
        total_events verified_events predicted_volatility volatility_score
        historical_volatility).

(** [d.get(key, default)] *)
Definition get {A} (v : option A) (default : A) : A :=
  match v with
  | Some a => a
  | None => default
  end.

(** ** Shared pieces *)

(** [[line.strip('- ').strip() for line in text.split('\n')
      if line.strip().startswith('-')]] *)
Definition dash_items (text : string) : list string :=
  map (fun line => strip (strip_chars "- " line))
    (filter (fun line => startswith "-" (strip line))
       (split_on "010" text)).

(** [## Title\n\n(.*?)\n\n##] with [re.DOTALL] *)
Definition section_re (title : string) : regex :=
  seq [lit ("## " ++ title ++ nl ++ nl); grp 1 (lazy dot_all);
       lit (nl ++ nl ++ "##")].

(** The stripped body of a section, [""] when the section is absent. *)
Definition section_text (title content : string) : string :=
  match search (section_re title) content with
  | Some m => strip (group 1 m)
  | None => ""
  end.

Definition section_items (title content : string) : list string :=
  match search (section_re title) content with
  | Some m => dash_items (strip (group 1 m))
  | None => []
  end.

(** [\*\*Label:\*\*\n(.*?)(?:stop1|stop2|\Z)] with [re.DOTALL] *)
Definition block_re (label stop1 stop2 : string) : regex :=
  seq [lit ("**" ++ label ++ ":**" ++ nl); grp 1 (lazy dot_all);
       alt (lit stop1) (alt (lit stop2) REnd)].

Definition block_items (r : regex) (content : string) : list string :=
  match search r content with
  | Some m => dash_items (strip (group 1 m))
  | None => []
  end.

Definition re_validations : regex :=
  block_re "Tool Validations" (nl ++ nl ++ "##") (nl ++ nl ++ "---").
Definition re_validations_vol : regex :=
  block_re "Tool Validations" (nl ++ nl ++ "###") (nl ++ nl ++ "##").
Definition re_headlines : regex :=
  block_re "News Headlines Analyzed" (nl ++ nl ++ "**") (nl ++ nl ++ "##").

(** ** [analyze_sentiment] *)

Record SentimentData := mkSentimentData {
  sd_ticker : string;
  sd_sentiment : string;
  sd_score : float;
  sd_confidence : float;
  sd_market_summary : string;
  sd_key_drivers : list string;
  sd_tool_validations : list string;
  sd_news_headlines : list string;
  sd_generated : string
}.

(** The body of [analyze_sentiment] once the artifact text is read; [now]
    is [datetime.now().strftime('%Y-%m-%d %H:%M:%S')]. *)
Definition sentiment_of_text (ticker now content : string)
  : except SentimentData :=
  metadata <- _extract_metadata content ;;
  let market_summary := section_text "Market Sentiment" content in
  let key_drivers := section_items "Key Sentiment Drivers" content in
  let tool_validations := block_items re_validations content in
  let news_headlines := block_items re_headlines content in
  Ok (mkSentimentData
        (get (md_ticker metadata) ticker)
        (get (md_sentiment metadata) "positive")
        (get (md_score metadata) 0.75%float)
        (get (md_confidence metadata) 85.0%float)
        market_summary key_drivers tool_validations news_headlines
        (get (md_generated metadata) now)).

(** An operation on the newest artifact matching [pattern]: [None] when no
    file matches. *)
Definition on_latest {A} (output_dir : list File) (pattern : string)
    (body : string -> except A) : except (option A) :=
  match glob output_dir pattern with
  | [] => Ok None
  | f :: files =>
      r <- body (file_text (latest_from f files)) ;; Ok (Some r)
  end.

Definition analyze_sentiment (output_dir : list File) (now ticker : string)
  : except (option SentimentData) :=
  on_latest output_dir ("sentiment_" ++ ticker ++ "_*.md")
    (sentiment_of_text ticker now).

(** ** [detect_events] *)

Record EventData := mkEventData {
  ev_type : string;
  ev_description : string;
  ev_impact : string;
  ev_source : string;
  ev_verified : bool
}.

Record EventsData := mkEventsData {
  ed_ticker : string;
  ed_total_events : Z;
  ed_verified_events : Z;
  ed_confidence : float;
  ed_events : list EventData;
  ed_tool_validations : list string;
  ed_generated : string
}.

(** [### Event \d+: (\w+)\n\n(.*?)\n\n(?:###|\n##|\Z)] with [re.DOTALL] *)
Definition re_event_section : regex :=
  seq [lit "### Event "; plus digit; lit ": "; grp 1 (plus word);
       lit (nl ++ nl); grp 2 (lazy dot_all); lit (nl ++ nl);
       alt (lit "###") (alt (lit (nl ++ "##")) REnd)].

Definition re_description : regex :=
  seq [lit "**Description:**"; star ws; grp 1 (lazy dot); lit nl].
Definition re_impact := label_re "Impact" (plus word) REps.
Definition re_source := label_re "Source" (plus word) REps.
Definition re_verified := label_re "Verified" (plus word) REps.

Definition event_of_section (m : match_obj) : EventData :=
  let event_type := group 1 m in
  let event_content := group 2 m in
  mkEventData
    event_type
    (get (search1 re_description event_content) "")
    (get (search1 re_impact event_content) "MEDIUM")
    (get (search1 re_source event_content) "transcript")
    (match search1 re_verified event_content with
     | Some v => String.eqb (lower v) "yes"
     | None => true
     end).

Definition extract_events (content : string) : list EventData :=
  map event_of_section (findall re_event_section content).

Definition events_of_text (ticker now content : string)
  : except EventsData :=
  metadata <- _extract_metadata content ;;
  let events := extract_events content in
  let tool_validations := block_items re_validations content in
  Ok (mkEventsData
        ticker
        (get (md_total_events metadata) (Z.of_nat (List.length events)))
        (get (md_verified_events metadata) (Z.of_nat (List.length events)))
        (get (md_confidence metadata) 90.0%float)
        events tool_validations
        (get (md_generated metadata) now)).

Definition detect_events (output_dir : list File) (now ticker : string)
  : except (option EventsData) :=
  on_latest output_dir ("event_detection_" ++ ticker ++ "_*.md")
    (events_of_text ticker now).

(** ** [predict_volatility] *)

Record InsightData := mkInsightData {
  in_title : string;
  in_question : string;
  in_answer : string;
  in_confidence : float
}.

Record VolatilityData := mkVolatilityData {
  vd_ticker : string;
  vd_predicted_volatility : string;
  vd_volatility_score : float;
  vd_historical_volatility : float;
  vd_confidence : float;
  vd_key_drivers : list string;
  vd_sentiment_impact : string;
  vd_event_impact : string;
  vd_tool_validations : list string;
  vd_transcript_insights : list InsightData;
  vd_generated : string
}.

(** [### Transcript Insights\n\n(.*?)(?:\n\n##|\n\n---|\Z)] with
    [re.DOTALL] *)
Definition re_insights_section : regex :=
  seq [lit ("### Transcript Insights" ++ nl ++ nl); grp 1 (lazy dot_all);
       alt (lit (nl ++ nl ++ "##")) (alt (lit (nl ++ nl ++ "---")) REnd)].

(** [#### (.*?)\n\*\*Question:\*\*\s*(.*?)\n\*\*Answer:\*\*\s*(.*?)
     \n\*\*Confidence:\*\*\s*([\d.]+)%] with [re.DOTALL] *)
Definition re_insight_block : regex :=
  seq [lit "#### "; grp 1 (lazy dot_all);
       lit (nl ++ "**Question:**"); star ws; grp 2 (lazy dot_all);
       lit (nl ++ "**Answer:**"); star ws; grp 3 (lazy dot_all);
       lit (nl ++ "**Confidence:**"); star ws; grp 4 (plus num); lit "%"].

Fixpoint mapM {A B} (f : A -> except B) (xs : list A) : except (list B) :=
  match xs with
  | [] => Ok []
  | x :: xs' => y <- f x ;; ys <- mapM f xs' ;; Ok (y :: ys)
  end.

Definition insight_of_block (m : match_obj) : except InsightData :=
  confidence <- to_float (group 4 m) ;;
  Ok (mkInsightData (strip (group 1 m)) (strip (group 2 m))
        (strip (group 3 m)) confidence).

Definition extract_insights (content : string) : except (list InsightData) :=
  match search re_insights_section content with
  | Some m => mapM insight_of_block (findall re_insight_block (strip (group 1 m)))
  | None => Ok []
  end.

Definition volatility_of_text (ticker now content : string)
  : except VolatilityData :=
  metadata <- _extract_metadata content ;;
  let key_drivers := section_items "Key Volatility Drivers" content in
  let sentiment_impact := section_text "Sentiment Impact" content in
  let event_impact := section_text "Event Impact" content in
  let tool_validations := block_items re_validations_vol content in
  transcript_insights <- extract_insights content ;;
  Ok (mkVolatilityData
        ticker
        (get (md_predicted_volatility metadata) "medium")
        (get (md_volatility_score metadata) 0.65%float)
        (get (md_historical_volatility metadata) 20.0%float)
        (get (md_confidence metadata) 85.0%float)
        key_drivers sentiment_impact event_impact tool_validations
        transcript_insights
        (get (md_generated metadata) now)).

Definition predict_volatility (output_dir : list File) (now ticker : string)
  : except (option VolatilityData) :=
  on_latest output_dir ("volatility_" ++ ticker ++ "_*.md")
    (volatility_of_text ticker now).

(** ** [generate_final_report] *)

(** [\*\*Label:\*\*\s*(\w+)\s*\(Score:\s*([\d.]+),\s*Confidence:\s*([\d.]+)%\)] *)
Definition summary_re (label : string) : regex :=
  seq [lit ("**" ++ label ++ ":**"); star ws; grp 1 (plus word); star ws;
       lit "(Score:"; star ws; grp 2 (plus num); lit ","; star ws;
       lit "Confidence:"; star ws; grp 3 (plus num); lit "%)"].

(** [\*\*Events Detected:\*\*\s*(\d+)\s*\((\d+)\s*verified,\s*Confidence:\s*([\d.]+)%\)] *)
Definition re_events_summary : regex :=
  seq [lit "**Events Detected:**"; star ws; grp 1 (plus digit); star ws;
       lit "("; grp 2 (plus digit); star ws; lit "verified,"; star ws;
       lit "Confidence:"; star ws; grp 3 (plus num); lit "%)"].

(** [## Title\n\n(.*?)(?:\n\n---|\n\n##)] with [re.DOTALL] *)
Definition numbered_section_re (title : string) : regex :=
  seq [lit ("## " ++ title ++ nl ++ nl); grp 1 (lazy dot_all);
       alt (lit (nl ++ nl ++ "---")) (lit (nl ++ nl ++ "##"))].

(** [\*\*Label:\*\*\s*(.*?)(?:stop|\Z)] with [re.DOTALL] *)
Definition field_until (label stop : string) : regex :=
  seq [lit ("**" ++ label ++ ":**"); star ws; grp 1 (lazy dot_all);
       alt (lit stop) REnd].

(** [\*\*Agents Invoked:\*\*\s*(.*?)(?:\n|\Z)] *)
Definition re_agents : regex :=
  seq [lit "**Agents Invoked:**"; star ws; grp 1 (lazy dot);
       alt (lit nl) REnd].

(** [\d+\.\s*(.*?)(?=\n\d+\.|\Z)] with [re.DOTALL] *)
Definition re_plan_item : regex :=
  seq [plus digit; lit "."; star ws; grp 1 (lazy dot_all);
       RLook (alt (seq [lit nl; plus digit; lit "."]) REnd)].

Record Metacognitive := mkMetacognitive {
  mc_user_intent : option string;
  mc_analysis_plan : option (list string);
  mc_agents_invoked : option string;
  mc_coordinator_confidence : option float;
  mc_reasoning : option string
}.

Definition extract_metacognitive (content : string) : except Metacognitive :=
  match search (numbered_section_re "1. Coordinator's Metacognitive Analysis")
          content with
  | None => Ok (mkMetacognitive None None None None None)
  | Some sec =>
      let meta_text := strip (group 1 sec) in
      let user_intent :=
        search1 (field_until "User Intent" (nl ++ nl ++ "**")) meta_text in
      let plan :=
        search1 (field_until "Analysis Plan" (nl ++ nl ++ "**")) meta_text in
      let agents := search1 re_agents meta_text in
      let coord_conf :=
        search1 (label_re "Coordinator Confidence" (plus num) (lit "%"))
          meta_text in
      let reasoning :=
        search1 (field_until "Reasoning" (nl ++ nl ++ "---")) meta_text in
      conf <- opt_conv to_float coord_conf ;;
      Ok (mkMetacognitive
            (option_map strip user_intent)
            (option_map
               (fun p => map (fun m => strip (group 1 m))
                           (findall re_plan_item (strip p))) plan)
            (option_map strip agents)
            conf
            (option_map strip reasoning))
  end.

(** [\|\s*Agent\s*\|\s*Confidence.*?\n\|.*?\n((?:\|.*?\n)+)] *)
Definition re_table : regex :=
  seq [lit "|"; star ws; lit "Agent"; star ws; lit "|"; star ws;
       lit "Confidence"; lazy dot; lit nl; lit "|"; lazy dot; lit nl;
       grp 1 (plus (seq [lit "|"; lazy dot; lit nl]))].

Record ConfidenceRow := mkConfidenceRow {
  cr_agent : string;
  cr_confidence : float;
  cr_threshold : float;
  cr_status : string
}.

(** The character sequence whose presence in the status cell reads as a
    pass, exactly as it is spelled in api.py (U+00E2 U+0153 U+201C). *)
Definition pass_mark : string := "âœ“".

(** One row of the table: [None] when it has fewer than four cells. *)
Definition confidence_row (row : string) : except (option ConfidenceRow) :=
  let cols := map strip (inner (split_on "|" row)) in
  match cols with
  | c0 :: c1 :: c2 :: c3 :: _ =>
      conf <- to_float (remove_char "%" c1) ;;
      thresh <- to_float (remove_char "%" c2) ;;
      let status := if contains pass_mark c3 then "Pass" else "Fail" in
      Ok (Some (mkConfidenceRow c0 conf thresh status))
  | _ => Ok None
  end.

Fixpoint collect_rows (rows : list string) : except (list ConfidenceRow) :=
  match rows with
  | [] => Ok []
  | row :: rows' =>
      r <- confidence_row row ;;
      rs <- collect_rows rows' ;;
      Ok (match r with Some x => x :: rs | None => rs end)
  end.

Definition extract_confidence_summary (content : string)
  : except (list ConfidenceRow) :=
  match search re_table content with
  | Some m => collect_rows (split_on "010" (strip (group 1 m)))
  | None => Ok []
  end.

Record Guardrails := mkGuardrails {
  gr_checks_performed : option Z;
  gr_active_guardrails : option (list string);
  gr_operating_boundaries : option (list string)
}.

Definition re_active_guardrails : regex :=
  seq [lit ("**Active Guardrails:**" ++ nl); grp 1 (lazy dot_all);
       alt (lit (nl ++ nl ++ "**")) REnd].
Definition re_boundaries : regex :=
  seq [lit ("**Operating Boundaries:**" ++ nl); grp 1 (lazy dot_all);
       alt (lit (nl ++ nl ++ "---")) REnd].

Definition extract_guardrails (content : string) : Guardrails :=
  match search (numbered_section_re "5. Guardrails and System Boundaries")
          content with
  | None => mkGuardrails None None None
  | Some sec =>
      let guard_text := strip (group 1 sec) in
      mkGuardrails
        (option_map py_int
           (search1 (label_re "Guardrail Checks Performed" (plus digit) REps)
              guard_text))
        (Some (block_items re_active_guardrails guard_text))
        (Some (block_items re_boundaries guard_text))
  end.

Record FinalReportData := mkFinalReportData {
  fr_ticker : string;
  fr_generated : string;
  fr_version : string;
  fr_sentiment : string;
  fr_sentiment_score : float;
  fr_sentiment_confidence : float;
  fr_events_detected : Z;
  fr_events_verified : Z;
  fr_events_confidence : float;
  fr_predicted_volatility : string;
  fr_volatility_score : float;
  fr_volatility_confidence : float;
  fr_historical_volatility : float;
  fr_confidence_summary : list ConfidenceRow;
  fr_metacognitive_analysis : Metacognitive;
  fr_guardrails : Guardrails
}.

(** [float(m.group(i)) if m else default] *)
Definition float_group (m : option match_obj) (i : nat) (default : float)
  : except float :=
  match m with
  | Some mo => to_float (group i mo)
  | None => Ok default
  end.

Definition int_group (m : option match_obj) (i : nat) (default : Z) : Z :=
  match m with
  | Some mo => py_int (group i mo)
  | None => default
  end.

Definition str_group (m : option match_obj) (i : nat) (default : string)
  : string :=
  match m with
  | Some mo => group i mo
  | None => default
  end.

Definition final_report_of_text (ticker now content : string)
  : except FinalReportData :=
  let sentiment_match := search (summary_re "Sentiment") content in
  let events_match := search re_events_summary content in
  let volatility_match := search (summary_re "Predicted Volatility") content in
  let hist_vol_match := search re_historical_volatility content in
  metacognitive <- extract_metacognitive content ;;
  confidence_summary <- extract_confidence_summary content ;;
  let guardrails := extract_guardrails content in
  let gen_match := search re_generated content in
  let version_match :=
    search (label_re "System Version" (plus not_nl) REps) content in
  sentiment_score <- float_group sentiment_match 2 0.75%float ;;
  sentiment_confidence <- float_group sentiment_match 3 85.0%float ;;
  events_confidence <- float_group events_match 3 85.0%float ;;
  volatility_score <- float_group volatility_match 2 0.65%float ;;
  volatility_confidence <- float_group volatility_match 3 85.0%float ;;
  historical_volatility <- float_group hist_vol_match 1 20.0%float ;;
  Ok (mkFinalReportData
        ticker
        (str_group gen_match 1 now)
        (str_group version_match 1 "1.0")
        (str_group sentiment_match 1 "positive")
        sentiment_score sentiment_confidence
        (int_group events_match 1 0)
        (int_group events_match 2 0)
        events_confidence
        (str_group volatility_match 1 "medium")
        volatility_score volatility_confidence historical_volatility
        confidence_summary metacognitive guardrails).

Definition generate_final_report (output_dir : list File)
    (now ticker : string) : except (option FinalReportData) :=
  on_latest output_dir ("final_report_" ++ ticker ++ "_*.md")
    (final_report_of_text ticker now).

End Api.

(* ================================================================== *)
(** * Final report (src/orchestrator.py, [_generate_final_report]) *)

Module Report.
Import PyStr PyNum Formatter.
#[local] Open Scope string_scope.

Definition executive_summary (timestamp ticker version : string)
    (sent : option SentimentAnalysisResult.t)
    (events : option SignificantEventDetectionResult.t)
    (vol : option VolatilityPredictionResult.t) : string :=
  let sentiment_name :=
    match sent with
    | Some s => SentimentAnalysisResult.sentiment_str
                  (SentimentAnalysisResult.overall_sentiment s)
    | None => "N/A"
    end in
  let sentiment_score :=
    match sent with
    | Some s => fmt_2f (SentimentAnalysisResult.sentiment_score s)
    | None => "0.00"
    end in
  let sentiment_conf :=
    match sent with
    | Some s => fmt_pct (SentimentAnalysisResult.confidence s)
    | None => "0%"
    end in
  let events_total :=
    match events with
    | Some e => SignificantEventDetectionResult.total_events_found e
    | None => 0%Z
    end in
  let events_verified :=
    match events with
    | Some e => SignificantEventDetectionResult.verified_count e
    | None => 0%Z
    end in
  let events_conf :=
    match events with
    | Some e => fmt_pct (SignificantEventDetectionResult.confidence e)
    | None => "0%"
    end in
  let volatility_name :=
    match vol with
    | Some v => VolatilityPredictionResult.volatility_str
                  (VolatilityPredictionResult.predicted_volatility v)
    | None => "N/A"
    end in
  let volatility_score :=
    match vol with
    | Some v => fmt_2f (VolatilityPredictionResult.volatility_score v)
    | None => "0.00"
    end in
  let volatility_conf :=
    match vol with
    | Some v => fmt_pct (VolatilityPredictionResult.confidence v)
    | None => "0%"
    end in
  let hist_vol :=
    match vol with
    | Some v => fmt_pct (VolatilityPredictionResult.historical_volatility v)
    | None => "0%"
    end in
  "# FinSight Multi-Agent Analysis Report

**Generated:** " ++ timestamp ++ "  
**Company:** " ++ ticker ++ "  
**System Version:** " ++ version ++ "

---

## Executive Summary

- **Sentiment:** " ++ sentiment_name ++ " (Score: " ++ sentiment_score ++ ", Confidence: " ++ sentiment_conf ++ ")
- **Events Detected:** " ++ fmt_int events_total ++ " (" ++ fmt_int events_verified ++ " verified, Confidence: " ++ events_conf ++ ")
- **Predicted Volatility:** " ++ volatility_name ++ " (Score: " ++ volatility_score ++ ", Confidence: " ++ volatility_conf ++ ")
- **Historical Volatility:** " ++ hist_vol ++ "

---

## 1. Coordinator's Metacognitive Analysis

".

Definition plan_line (ie : Z * string) : string :=
  let '(i, step) := ie in
  let clean_step := lstrip_chars "0123456789. " step in
  fmt_int i ++ ". " ++ clean_step ++ nl.

Definition coordinator_section (decision : option MetacognitiveDecision.t)
  : string :=
  match decision with
  | Some d =>
      "**User Intent:** " ++ MetacognitiveDecision.user_intent d ++ "

**Analysis Plan:**
" ++ concat_map plan_line (enumerate 1 (MetacognitiveDecision.analysis_plan d))
      ++ nl ++ "**Agents Invoked:** "
      ++ join ", " (MetacognitiveDecision.agents_to_invoke d) ++ nl
      ++ "**Coordinator Confidence:** "
      ++ fmt_pct (MetacognitiveDecision.confidence d) ++ nl
      ++ nl ++ "**Reasoning:** " ++ MetacognitiveDecision.reasoning d ++ nl
  | None => ""
  end.

(** [if xs: report += title; for x in xs: report += f"- {x}\n"] *)
Definition titled_bullets (title : string) (xs : list string) : string :=
  if nonempty xs then title ++ bullets xs else "".

Definition sentiment_body (s : SentimentAnalysisResult.t) : string :=
  "**Overall Sentiment:** " ++ SentimentAnalysisResult.sentiment_str
                                 (SentimentAnalysisResult.overall_sentiment s) ++ "  
**Sentiment Score:** " ++ fmt_2f (SentimentAnalysisResult.sentiment_score s) ++ " (range: -1.0 to 1.0)  
**Confidence:** " ++ fmt_pct (SentimentAnalysisResult.confidence s) ++ "

**Market Sentiment Summary:**
" ++ SentimentAnalysisResult.market_sentiment s ++ "

**Key Sentiment Drivers:**
" ++ bullets (SentimentAnalysisResult.key_sentiment_drivers s)
  ++ titled_bullets (nl ++ "**News Headlines Analyzed:**" ++ nl)
       (SentimentAnalysisResult.news_headlines s)
  ++ titled_bullets (nl ++ "**Tool Validations:**" ++ nl)
       (SentimentAnalysisResult.tool_validations s).

Definition sentiment_section (sent : option SentimentAnalysisResult.t)
  : string :=
  match sent with
  | Some s => sentiment_body s
  | None => "*Sentiment analysis not available.*" ++ nl
  end.

Definition events_body (e : SignificantEventDetectionResult.t) : string :=
  "**Total Events Found:** " ++ fmt_int (SignificantEventDetectionResult.total_events_found e) ++ "  
**Verified Events:** " ++ fmt_int (SignificantEventDetectionResult.verified_count e) ++ "  
**Confidence:** " ++ fmt_pct (SignificantEventDetectionResult.confidence e) ++ "

**Detected Events:**
" ++ concat_map (event_block "Impact Assessment")
       (enumerate 1 (SignificantEventDetectionResult.events e))
  ++ titled_bullets (nl ++ "**Tool Validations:**" ++ nl)
       (SignificantEventDetectionResult.tool_validations e).

Definition events_not_available : string :=
  "*Event detection not available.*" ++ nl.

Definition event_detection_section
    (events : option SignificantEventDetectionResult.t) : string :=
  match events with
  | Some e => events_body e
  | None => events_not_available
  end.

Definition insight_entry (insight : TranscriptAnalysisAnswer.t) : string :=
  "#### " ++ TranscriptAnalysisAnswer.focus_item insight ++ "
**Question:** " ++ TranscriptAnalysisAnswer.question insight ++ "  
**Answer:** " ++ TranscriptAnalysisAnswer.answer insight ++ "  
**Confidence:** " ++ fmt_pct (TranscriptAnalysisAnswer.confidence insight) ++ "

".

Definition volatility_body (v : VolatilityPredictionResult.t) : string :=
  "**Predicted Volatility:** " ++ VolatilityPredictionResult.volatility_str
                                    (VolatilityPredictionResult.predicted_volatility v) ++ "  
**Volatility Score:** " ++ fmt_2f (VolatilityPredictionResult.volatility_score v) ++ " (range: 0.0 to 1.0)  
**Historical Volatility:** " ++ fmt_pct (VolatilityPredictionResult.historical_volatility v) ++ "  
**Confidence:** " ++ fmt_pct (VolatilityPredictionResult.confidence v) ++ "

**Key Volatility Drivers:**
" ++ bullets (VolatilityPredictionResult.key_volatility_drivers v)
  ++ nl ++ "**Sentiment Impact:**" ++ nl
  ++ VolatilityPredictionResult.sentiment_impact v ++ nl
  ++ nl ++ "**Event Impact:**" ++ nl
  ++ VolatilityPredictionResult.event_impact v ++ nl
  ++ titled_bullets (nl ++ "**Tool Validations:**" ++ nl)
       (VolatilityPredictionResult.tool_validations v)
  ++ (if nonempty (VolatilityPredictionResult.transcript_insights v)
      then nl ++ "### Transcript Insights" ++ nl ++ nl
           ++ concat_map insight_entry
                (VolatilityPredictionResult.transcript_insights v)
      else "").

Definition volatility_section (vol : option VolatilityPredictionResult.t)
  : string :=
  match vol with
  | Some v => volatility_body v
  | None => "*Volatility prediction not available.*" ++ nl
  end.

Definition guardrail_entry (g : GuardrailViolation.t) : string :=
  "- **" ++ GuardrailViolation.guardrail_type g ++ "** (" ++ GuardrailViolation.agent g ++ ")
  - " ++ GuardrailViolation.description g ++ "
  - Action: " ++ GuardrailViolation.action_taken g ++ "
".

Definition no_violations : string :=
  "*All confidence thresholds met. No guardrail violations detected.*" ++ nl.

Definition guardrails_section (guardrails : list GuardrailViolation.t)
    (self_model : FinSightSelfModel.t) : string :=
  "**Guardrail Checks Performed:** "
  ++ fmt_int (Z.of_nat (List.length guardrails)) ++ nl ++ nl
  ++ (if nonempty guardrails then concat_map guardrail_entry guardrails
      else no_violations)
  ++ nl ++ "**Active Guardrails:**" ++ nl
  ++ bullets (FinSightSelfModel.active_guardrails self_model)
  ++ nl ++ "**Operating Boundaries:**" ++ nl
  ++ bullets (FinSightSelfModel.operating_boundaries self_model).

(** ** Guardrail evaluation and the confidence table *)

Definition status_pass : string := "✓ Pass".
Definition status_low : string := "⚠ Low".

(** ["✓ Pass" if confidence >= threshold else "⚠ Low"] *)
Definition guardrail_status (confidence threshold : float) : string :=
  if float_ge confidence threshold then status_pass else status_low.

(** [self_model.agent_capabilities[i].confidence_threshold] *)
Definition threshold_of (self_model : FinSightSelfModel.t) (i : nat)
  : except float :=
  match nth_error (FinSightSelfModel.agent_capabilities self_model) i with
  | Some c => Ok (AgentCapability.confidence_threshold c)
  | None => Raise (IndexError "list index out of range")
  end.

Definition table_row (name : string) (confidence threshold : float) : string :=
  "| " ++ name ++ " | " ++ fmt_pct confidence ++ " | " ++ fmt_pct threshold
  ++ " | " ++ guardrail_status confidence threshold ++ " |" ++ nl.

(** The row of one agent, empty when the agent has no result. *)
Definition agent_row (self_model : FinSightSelfModel.t) (i : nat)
    (name : string) (confidence : option float) : except string :=
  match confidence with
  | Some c => t <- threshold_of self_model i ;; Ok (table_row name c t)
  | None => Ok ""
  end.

Definition table_header : string :=
  "| Agent | Confidence | Threshold | Status |" ++ nl
  ++ "|-------|-----------|-----------|--------|" ++ nl.

Definition confidence_table (self_model : FinSightSelfModel.t)
    (sent : option SentimentAnalysisResult.t)
    (events : option SignificantEventDetectionResult.t)
    (vol : option VolatilityPredictionResult.t) : except string :=
  r1 <- agent_row self_model 0 "Sentiment Analysis"
          (option_map SentimentAnalysisResult.confidence sent) ;;
  r2 <- agent_row self_model 1 "Event Detection"
          (option_map SignificantEventDetectionResult.confidence events) ;;
  r3 <- agent_row self_model 2 "Volatility Prediction"
          (option_map VolatilityPredictionResult.confidence vol) ;;
  Ok (table_header ++ r1 ++ r2 ++ r3).

Definition disclaimers (self_model : FinSightSelfModel.t) : string :=
  "**Mission:** " ++ FinSightSelfModel.mission self_model ++ nl ++ nl
  ++ "This analysis is for **informational and educational purposes only**. "
  ++ "It does NOT constitute investment advice or a recommendation to buy or sell securities. "
  ++ "Past performance does not guarantee future results. "
  ++ "All investments involve risk, including possible loss of principal."
  ++ nl ++ nl
  ++ "**Generated by:** " ++ FinSightSelfModel.system_name self_model
  ++ " v" ++ FinSightSelfModel.version self_model ++ nl.

Definition rule (title : string) : string :=
  nl ++ "---" ++ nl ++ nl ++ "## " ++ title ++ nl ++ nl.

(** [_generate_final_report]; [timestamp] is the clock reading rendered
    with ['%Y-%m-%d %H:%M:%S'], [guardrails] is
    [state.get('guardrails_applied', [])]. *)
Definition _generate_final_report (timestamp ticker : string)
    (self_model : FinSightSelfModel.t)
    (guardrails : list GuardrailViolation.t)
    (sent : option SentimentAnalysisResult.t)
    (events : option SignificantEventDetectionResult.t)
    (vol : option VolatilityPredictionResult.t)
    (decision : option MetacognitiveDecision.t) : except string :=
  table <- confidence_table self_model sent events vol ;;
  Ok (executive_summary timestamp ticker
        (FinSightSelfModel.version self_model) sent events vol
      ++ coordinator_section decision
      ++ rule "2. Sentiment Analysis"
      ++ sentiment_section sent
      ++ rule "3. Significant Event Detection"
      ++ event_detection_section events
      ++ rule "4. Volatility Prediction"
      ++ volatility_section vol
      ++ rule "5. Guardrails and System Boundaries"
      ++ guardrails_section guardrails self_model
      ++ rule "6. System Confidence Summary"
      ++ table
      ++ rule "Disclaimers"
      ++ disclaimers self_model).

End Report.

(* ================================================================== *)
(** * Agents and workflow (src/agents/*.py, src/orchestrator.py) *)

Module Orchestrator.
Import PyStr PyNum Formatter.
#[local] Open Scope string_scope.

(** ** Run state *)

(** The channels of the workflow state. The five keys every run starts
    with and that are read by subscript are fields; a key read with
    [state.get] is an optional field, absent until a node writes it. *)
Record GraphState := mkState {
  user_query : string;
  company_ticker : string;
  transcript_path : string;
  analysis_questions : list AnalysisQuestion.t;
  self_model : FinSightSelfModel.t;
  metacognitive_decision : option MetacognitiveDecision.t;
  transcript_content : option string;
  sentiment_result : option SentimentAnalysisResult.t;
  event_detection_result : option SignificantEventDetectionResult.t;
  volatility_result : option VolatilityPredictionResult.t;
  final_report : option string;
  guardrails_applied : option (list GuardrailViolation.t);
  errors : option (list string)
}.

(** The dictionary a node returns: only the keys it sets. *)
Record Update := mkUpdate {
  u_metacognitive_decision : option MetacognitiveDecision.t;
  u_transcript_content : option string;
  u_sentiment_result : option SentimentAnalysisResult.t;
  u_event_detection_result : option SignificantEventDetectionResult.t;
  u_volatility_result : option VolatilityPredictionResult.t;
  u_final_report : option string;
  u_guardrails_applied : option (list GuardrailViolation.t);
  u_errors : option (list string)
}.

Definition no_update : Update :=
  mkUpdate None None None None None None None None.

(** A key of the update replaces the value of the state. *)
Definition write {A} (new old : option A) : option A :=
  match new with
  | Some v => Some v
  | None => old
  end.

(** How the workflow engine applies a node's update. The graph state is
    declared as a plain [TypedDict] with no reducer on any key, so every
    key of the update overwrites the key of the state, list-valued keys
    included. *)
Definition merge (st : GraphState) (u : Update) : GraphState :=
  mkState
    (user_query st) (company_ticker st) (transcript_path st)
    (analysis_questions st) (self_model st)
    (write (u_metacognitive_decision u) (metacognitive_decision st))
    (write (u_transcript_content u) (transcript_content st))
    (write (u_sentiment_result u) (sentiment_result st))
    (write (u_event_detection_result u) (event_detection_result st))
    (write (u_volatility_result u) (volatility_result st))
    (write (u_final_report u) (final_report st))
    (write (u_guardrails_applied u) (guardrails_applied st))
    (write (u_errors u) (errors st)).

(** [state.get(key, [])] *)
Definition get_list {A} (v : option (list A)) : list A :=
  match v with
  | Some l => l
  | None => []
  end.

(** [xs + [x]], and [xs.append(x)] on a list nobody else holds. *)
Definition add_item (xs : list string) (x : string) : list string :=
  (xs ++ [x])%list.

(** [state.get('transcript_content', '')] *)
Definition get_text (v : option string) : string :=
  match v with
  | Some s => s
  | None => ""
  end.

(** ** The world outside the pipeline *)

Record datetime := mkDatetime {
  year : N; month : N; day : N; hour : N; minute : N; second : N
}.

Definition pad4 (n : N) : string :=
  (if (n <? 1000)%N then "0" else "") ++
  (if (n <? 100)%N then "0" else "") ++
  (if (n <? 10)%N then "0" else "") ++ dec_of_N n.

(** [strftime('%Y-%m-%d %H:%M:%S')] *)
Definition strftime_display (d : datetime) : string :=
  pad4 (year d) ++ "-" ++ pad2 (month d) ++ "-" ++ pad2 (day d) ++ " "
  ++ pad2 (hour d) ++ ":" ++ pad2 (minute d) ++ ":" ++ pad2 (second d).

(** [strftime('%Y%m%d_%H%M%S')] *)
Definition strftime_compact (d : datetime) : string :=
  pad4 (year d) ++ pad2 (month d) ++ pad2 (day d) ++ "_"
  ++ pad2 (hour d) ++ pad2 (minute d) ++ pad2 (second d).

Record FilingResult := mkFiling {
  filing_type : string;
  downloaded : Z;
  status : string
}.

(** Everything a run obtains from outside: the clock, the transcript file,
    the validation providers and the completion capability. A provider or
    completion call either returns a value or raises. *)
Record Env := mkEnv {
  (** the [n]-th reading of [datetime.now()] *)
  clock : nat -> datetime;
  (** the transcript file: [None] when the path does not exist *)
  read_file : string -> option (except string);
  (** titles of [news_search_tool.get_sentiment_news(ticker)] *)
  get_sentiment_news : string -> except (list (option string));
  (** [sec_filing_tool.download_recent_filings(ticker, ["8-K","10-Q"], 3)] *)
  download_recent_filings : string -> except (list FilingResult);
  (** [market_data_tool]: historical volatility, the [change_percent] of
      the price movement ([None] for an empty movement), stock info *)
  get_historical_volatility : string -> except float;
  get_price_movement : string -> except (option float);
  get_stock_info : string -> except unit;
  (** structured completions, by declared result shape *)
  complete_decision : string -> string -> except MetacognitiveDecision.t;
  complete_sentiment : string -> string -> except SentimentAnalysisResult.t;
  complete_events :
    string -> string -> except SignificantEventDetectionResult.t;
  complete_answer : string -> string -> except TranscriptAnalysisAnswer.t;
  complete_volatility :
    float -> option float -> string -> string -> string ->
    except VolatilityPredictionResult.t
}.

(** ** Tools *)

(** [transcript_reader.read_transcript] *)
Definition read_transcript (env : Env) (file_path : string) : string :=
  match read_file env file_path with
  | None => "Error: Transcript file not found at " ++ file_path
  | Some (Ok content) => content
  | Some (Raise e) => "Error reading transcript: " ++ exn_str e
  end.

(** ** Coordinator *)

Definition coordinator_process (env : Env) (state : GraphState) : Update :=
  match complete_decision env (user_query state) (company_ticker state) with
  | Ok decision =>
      mkUpdate (Some decision) None None None None None
        (Some (get_list (guardrails_applied state))) None
  | Raise e =>
      mkUpdate None None None None None None None
        (Some (add_item (get_list (errors state))
                 ("Coordinator error: " ++ exn_str e)))
  end.

(** ** Sentiment agent *)

Definition title_of (r : option string) : string :=
  take 100 (match r with Some t => t | None => "" end).

(** [_gather_news_context]: the headlines of the first five results,
    none when the search fails. *)
Definition _gather_news_context (env : Env) (ticker : string) : list string :=
  match get_sentiment_news env ticker with
  | Ok results => map title_of (firstn 5 results)
  | Raise _ => []
  end.

Definition excerpt_of (n : nat) (transcript : string) : string :=
  match transcript with
  | EmptyString => "No transcript available"
  | _ => take n transcript
  end.

Definition sentiment_process (env : Env) (state : GraphState) : Update :=
  let transcript := get_text (transcript_content state) in
  let ticker := company_ticker state in
  let news_headlines := _gather_news_context env ticker in
  let excerpt := excerpt_of 3000 transcript in
  let news_context :=
    if nonempty news_headlines then join nl news_headlines
    else "No recent news available" in
  match complete_sentiment env excerpt news_context with
  | Ok result =>
      let result' :=
        if nonempty news_headlines then
          SentimentAnalysisResult.mk
            (SentimentAnalysisResult.overall_sentiment result)
            (SentimentAnalysisResult.sentiment_score result)
            (SentimentAnalysisResult.market_sentiment result)
            (SentimentAnalysisResult.key_sentiment_drivers result)
            news_headlines
            (SentimentAnalysisResult.confidence result)
            (add_item (SentimentAnalysisResult.tool_validations result)
               ("Validated sentiment using "
                ++ fmt_int (Z.of_nat (List.length news_headlines))
                ++ " news articles from Tavily"))
        else result in
      mkUpdate None None (Some result') None None None None None
  | Raise e =>
      mkUpdate None None None None None None None
        (Some (add_item (get_list (errors state))
                 ("Sentiment analysis error: " ++ exn_str e)))
  end.

(** ** Event detection agent *)

Definition quote : ascii := "'".
Definition dquote : ascii := ascii_of_N 34.
Definition backslash : ascii := ascii_of_N 92.

Definition hex_digit (n : N) : ascii :=
  if (n <? 10)%N then ascii_of_N (48 + n) else ascii_of_N (87 + n).

Definition escape_char (q c : ascii) : string :=
  let n := code c in
  if ascii_eqb c backslash || ascii_eqb c q
  then String backslash (String c "")
  else if (n =? 10)%N then String backslash "n"
  else if (n =? 13)%N then String backslash "r"
  else if (n =? 9)%N then String backslash "t"
  else if (n <? 32)%N || (n =? 127)%N
  then String backslash
         (String "x" (String (hex_digit (n / 16)) (String (hex_digit (n mod 16)) "")))
  else String c "".

(** [repr(s)] of a text: single quotes, unless the text has a single quote
    and no double quote. Characters above ASCII are left as they are. *)
Definition repr_str (s : string) : string :=
  let q :=
    if contains (String quote "") s && negb (contains (String dquote "") s)
    then dquote else quote in
  String q (concat_map (escape_char q) (list_ascii_of_string s))
  ++ String q "".

(** [repr] of one entry and of the whole [filing_results] dictionary. *)
Definition repr_filing (f : FilingResult) : string :=
  repr_str (filing_type f) ++ ": {'downloaded': " ++ fmt_int (downloaded f)
  ++ ", 'status': " ++ repr_str (status f) ++ "}".

Definition repr_filings (fs : list FilingResult) : string :=
  "{" ++ join ", " (map repr_filing fs) ++ "}".

Definition filing_ok (f : FilingResult) : bool :=
  String.eqb (status f) "success" && (0 <? downloaded f)%Z.

(** [_validate_with_sec_filings]: whether filings were checked, their
    rendering, and the validation notes. *)
Definition _validate_with_sec_filings (env : Env) (ticker : string)
  : bool * string * list string :=
  match download_recent_filings env ticker with
  | Ok filing_results =>
      let successful := List.length (filter filing_ok filing_results) in
      (true, repr_filings filing_results,
       [if (0 <? successful)%nat
        then "Downloaded " ++ fmt_int (Z.of_nat successful)
             ++ " SEC filing types for cross-reference"
        else "No recent SEC filings available for validation"])
  | Raise e => (false, "{}", ["SEC filing error: " ++ exn_str e])
  end.

Definition events_process (env : Env) (state : GraphState) : Update :=
  let transcript := get_text (transcript_content state) in
  let ticker := company_ticker state in
  let '(filings_checked, filing_results, validation_notes) :=
    _validate_with_sec_filings env ticker in
  let excerpt := excerpt_of 3000 transcript in
  let validation_context := join nl validation_notes in
  match complete_events env excerpt validation_context with
  | Ok result =>
      let result' :=
        if filings_checked then
          SignificantEventDetectionResult.mk
            (SignificantEventDetectionResult.events result)
            (SignificantEventDetectionResult.total_events_found result)
            (SignificantEventDetectionResult.verified_count result)
            (SignificantEventDetectionResult.confidence result)
            (add_item (SignificantEventDetectionResult.tool_validations result)
               ("Validated events using SEC EDGAR: " ++ filing_results))
        else result in
      mkUpdate None None None (Some result') None None None None
  | Raise e =>
      mkUpdate None None None None None None None
        (Some (add_item (get_list (errors state))
                 ("Event detection error: " ++ exn_str e)))
  end.

(** ** Volatility agent *)

(** [_validate_with_market_data]: historical volatility, price movement
    and validation notes. *)
Definition _validate_with_market_data (env : Env) (ticker : string)
  : float * option float * list string :=
  let failed (e : exn) := "Market data error: " ++ exn_str e in
  match get_historical_volatility env ticker with
  | Raise e => (0%float, None, [failed e])
  | Ok hist_vol =>
      match get_price_movement env ticker with
      | Raise e => (hist_vol, None, [failed e])
      | Ok price_movement =>
          let notes :=
            match price_movement with
            | Some change =>
                ["1-month price change: " ++ fmt_2f change
                 ++ "%, volatility: " ++ fmt_pct hist_vol]
            | None => []
            end in
          match get_stock_info env ticker with
          | Raise e => (hist_vol, price_movement, add_item notes (failed e))
          | Ok _ => (hist_vol, price_movement, notes)
          end
      end
  end.

(** [_answer_analysis_questions]: one completion per question among the
    first five; a question whose completion fails is left out. *)
Definition _answer_analysis_questions (env : Env) (transcript : string)
    (questions : list AnalysisQuestion.t)
  : list TranscriptAnalysisAnswer.t :=
  let excerpt := excerpt_of 4000 transcript in
  flat_map
    (fun q =>
       match complete_answer env (AnalysisQuestion.question q) excerpt with
       | Ok answer => [answer]
       | Raise _ => []
       end)
    (firstn 5 questions).

Definition volatility_process (env : Env) (state : GraphState) : Update :=
  let transcript := get_text (transcript_content state) in
  let ticker := company_ticker state in
  let '(hist_vol, price_movement, validation_notes) :=
    _validate_with_market_data env ticker in
  let insights :=
    _answer_analysis_questions env transcript (analysis_questions state) in
  let sentiment_summary :=
    match sentiment_result state with
    | Some sent =>
        SentimentAnalysisResult.sentiment_str
          (SentimentAnalysisResult.overall_sentiment sent)
        ++ " (score: "
        ++ fmt_2f (SentimentAnalysisResult.sentiment_score sent) ++ ")"
    | None => "Unknown"
    end in
  let events_summary :=
    match event_detection_result state with
    | Some events =>
        fmt_int (SignificantEventDetectionResult.total_events_found events)
        ++ " events ("
        ++ fmt_int (SignificantEventDetectionResult.verified_count events)
        ++ " verified)"
    | None => "Unknown"
    end in
  let validation_context := join nl validation_notes in
  match complete_volatility env hist_vol price_movement sentiment_summary
          events_summary validation_context with
  | Ok result =>
      let validations :=
        if nonempty validation_notes then
          add_item (VolatilityPredictionResult.tool_validations result)
            ("Validated with yfinance: " ++ join ", " validation_notes)
        else VolatilityPredictionResult.tool_validations result in
      mkUpdate None None None None
        (Some (VolatilityPredictionResult.mk
                 (VolatilityPredictionResult.predicted_volatility result)
                 (VolatilityPredictionResult.volatility_score result)
                 insights
                 (VolatilityPredictionResult.key_volatility_drivers result)
                 (VolatilityPredictionResult.sentiment_impact result)
                 (VolatilityPredictionResult.event_impact result)
                 (VolatilityPredictionResult.confidence result)
                 hist_vol
                 validations))
        None None None
  | Raise e =>
      mkUpdate None None None None None None None
        (Some (add_item (get_list (errors state))
                 ("Volatility prediction error: " ++ exn_str e)))
  end.

(** ** Nodes of the workflow *)

(** The clock readings taken so far and the output directory. *)
Record Sys := mkSys {
  ticks : nat;
  output_dir : list Api.File
}.

Definition now (env : Env) (sys : Sys) : datetime := clock env (ticks sys).

Definition tick (sys : Sys) : Sys := mkSys (S (ticks sys)) (output_dir sys).

(** [open(filepath, 'w').write(text)]: a file of that name is replaced. *)
Definition write_file (name text : string) (sys : Sys) : Sys :=
  mkSys (ticks sys)
    (filter (fun f => negb (String.eqb (Api.file_name f) name))
       (output_dir sys)
     ++ [Api.mkFile name (Z.of_nat (ticks sys)) text])%list.

Definition _save_agent_report (env : Env) (ticker : string)
    (result : stage_result) (sys : Sys) : Sys :=
  let timestamp := strftime_compact (now env sys) in
  let sys := tick sys in
  let filename :=
    agent_name_of result ++ "_" ++ ticker ++ "_" ++ timestamp ++ ".md" in
  let report :=
    _format_agent_report ticker (strftime_display (now env sys)) result in
  write_file filename report (tick sys).

Definition node : Type :=
  Env -> GraphState -> Sys -> except (Update * Sys).

Definition _coordinator_node : node :=
  fun env state sys => Ok (coordinator_process env state, sys).

Definition load_transcript_update (env : Env) (state : GraphState)
  : Update :=
  let content := read_transcript env (transcript_path state) in
  if startswith "Error" content then
    mkUpdate None (Some "") None None None None None (Some [content])
  else
    mkUpdate None (Some content) None None None None None None.

Definition _load_transcript_node : node :=
  fun env state sys => Ok (load_transcript_update env state, sys).

(** A node that runs an agent and saves the result it produced. *)
Definition saving (process : Env -> GraphState -> Update)
    (produced : Update -> option stage_result) : node :=
  fun env state sys =>
    let result := process env state in
    Ok (result,
        match produced result with
        | Some r => _save_agent_report env (company_ticker state) r sys
        | None => sys
        end).

Definition _sentiment_node : node :=
  saving sentiment_process
    (fun u => option_map SentimentR (u_sentiment_result u)).

Definition _event_detection_node : node :=
  saving events_process
    (fun u => option_map EventR (u_event_detection_result u)).

Definition _volatility_prediction_node : node :=
  saving volatility_process
    (fun u => option_map VolatilityR (u_volatility_result u)).

Definition _synthesize_report_node : node :=
  fun env state sys =>
    report <-
      Report._generate_final_report
        (strftime_display (now env sys)) (company_ticker state)
        (self_model state) (get_list (guardrails_applied state))
        (sentiment_result state) (event_detection_result state)
        (volatility_result state) (metacognitive_decision state) ;;
    Ok (mkUpdate None None None None None (Some report) None None, tick sys).

(** The edges of [_build_workflow]: a single path from the entry point to
    the end. *)
Definition workflow : list node :=
  [ _coordinator_node; _load_transcript_node; _sentiment_node;
    _event_detection_node; _volatility_prediction_node;
    _synthesize_report_node ].

(** Runs the nodes in order, merging each update; returns the states the
    run goes through, the initial one first, and the final system. *)
Fixpoint run_nodes (env : Env) (nodes : list node) (state : GraphState)
    (sys : Sys) : except (list GraphState * Sys) :=
  match nodes with
  | [] => Ok ([state], sys)
  | n :: nodes' =>
      r <- n env state sys ;;
      rest <- run_nodes env nodes' (merge state (fst r)) (snd r) ;;
      Ok (state :: fst rest, snd rest)
  end.

Definition final_state (initial : GraphState) (states : list GraphState)
  : GraphState := List.last states initial.

Definition default_query (ticker : string) : string :=
  "Provide a comprehensive analysis of " ++ ticker ++ "'s earnings call, "
  ++ "including sentiment, significant events, and volatility prediction.".

Definition initial_state (transcript_path ticker : string)
    (user_query : option string) : GraphState :=
  mkState
    (match user_query with Some q => q | None => default_query ticker end)
    ticker transcript_path DEFAULT_ANALYSIS_QUESTIONS get_default_self_model
    None None None None None None (Some []) (Some []).

(** The states of a run, in order. *)
Definition run_trace (env : Env) (sys : Sys)
    (transcript_path ticker : string) (user_query : option string)
  : except (list GraphState * Sys) :=
  run_nodes env workflow (initial_state transcript_path ticker user_query) sys.

Definition save_final_report (env : Env) (ticker : string)
    (result : GraphState) (sys : Sys) : Sys :=
  match final_report result with
  | Some (String c report) =>
      write_file
        ("final_report_" ++ ticker ++ "_" ++ strftime_compact (now env sys)
         ++ ".md")
        (String c report) (tick sys)
  | _ => sys
  end.

(** [run_analysis]: the final state and the output directory. *)
Definition run_analysis (env : Env) (sys : Sys)
    (transcript_path ticker : string) (user_query : option string)
  : except (GraphState * Sys) :=
  r <- run_trace env sys transcript_path ticker user_query ;;
  let result :=
    final_state (initial_state transcript_path ticker user_query) (fst r) in
  Ok (result, save_final_report env ticker result (snd r)).

End Orchestrator.

Lemma Ok_inj {A} (a b : A) : Ok a = Ok b -> a = b.
Proof. intros H. injection H as H. exact H. Qed.

(* ================================================================== *)
(** * Facts about strings *)

Section StringFacts.
Import PyStr.

Lemma sapp_assoc (a b c : string) : ((a ++ b) ++ c = a ++ (b ++ c))%string.
Proof. induction a as [|x a IH]; simpl; [reflexivity | now rewrite IH]. Qed.

Lemma sapp_nil_r (a : string) : (a ++ "" = a)%string.
Proof. induction a as [|x a IH]; simpl; [reflexivity | now rewrite IH]. Qed.

Lemma length_sapp (a b : string) :
  String.length (a ++ b) = String.length a + String.length b.
Proof. induction a as [|x a IH]; simpl; [reflexivity | now rewrite IH]. Qed.

Lemma ascii_eqb_refl (a : ascii) : ascii_eqb a a = true.
Proof. apply Ascii.eqb_refl. Qed.

Lemma startswith_app (p s : string) : startswith p (p ++ s) = true.
Proof.
  induction p as [|x p IH]; simpl; [reflexivity|].
  now rewrite ascii_eqb_refl, IH.
Qed.

Lemma contains_here (n s : string) :
  startswith n s = true -> contains n s = true.
Proof. intros H. destruct s; simpl in *; rewrite H; reflexivity. Qed.

Lemma contains_app (n a b : string) : contains n (a ++ n ++ b) = true.
Proof.
  induction a as [|x a IH]; simpl.
  - apply contains_here, startswith_app.
  - rewrite IH. apply orb_true_r.
Qed.

End StringFacts.

Section Mentions.
Import PyStr.

Lemma contains_skip (n a s : string) :
  contains n s = true -> contains n (a ++ s) = true.
Proof.
  intros H. induction a as [|x a IH]; simpl; [exact H|].
  rewrite IH. apply orb_true_r.
Qed.

Lemma contains_prefix (n s : string) : contains n (n ++ s) = true.
Proof. apply contains_here, startswith_app. Qed.

End Mentions.

(** Steps over the first piece of a concatenation in search of a needle. *)
Ltac skip_piece :=
  lazymatch goal with
  | |- PyStr.contains ?n (String.append ?a ?s) = true =>
      apply (contains_skip n a s)
  end.

Section RunInvariants.
Import Orchestrator.

Variable env : Env.

(** A property of states that every node of a list maintains holds in
    every state of a run of these nodes. *)
Definition preserves (I : GraphState -> Prop) (n : node) : Prop :=
  forall st sys u sys',
    I st -> n env st sys = Ok (u, sys') -> I (merge st u).

Lemma run_nodes_invariant (I : GraphState -> Prop) :
  forall nodes, Forall (preserves I) nodes ->
  forall st sys tr sys',
    I st -> run_nodes env nodes st sys = Ok (tr, sys') -> Forall I tr.
Proof.
  induction nodes as [|n nodes IH]; intros Hn st sys tr sys' Hst Hrun.
  - simpl in Hrun. inversion Hrun; subst. constructor; [exact Hst|constructor].
  - inversion Hn as [|? ? Hp Hrest]; subst. simpl in Hrun.
    destruct (n env st sys) as [[u sys1]|e] eqn:En; simpl in Hrun;
      [|discriminate].
    destruct (run_nodes env nodes (merge st u) sys1) as [[tr1 sys2]|e] eqn:Er;
      simpl in Hrun; [|discriminate].
    inversion Hrun; subst. constructor; [exact Hst|].
    eapply IH; [exact Hrest | eapply Hp; [exact Hst | exact En] | exact Er].
Qed.

Definition always_returns (I : GraphState -> Prop) (n : node) : Prop :=
  forall st sys, I st ->
    exists u sys', n env st sys = Ok (u, sys') /\ I (merge st u).

Lemma run_nodes_returns (I : GraphState -> Prop) :
  forall nodes, Forall (always_returns I) nodes ->
  forall st sys, I st ->
    exists tr sys', run_nodes env nodes st sys = Ok (tr, sys').
Proof.
  induction nodes as [|n nodes IH]; intros Hn st sys Hst.
  - simpl. eauto.
  - inversion Hn as [|? ? Hp Hrest]; subst.
    destruct (Hp st sys Hst) as (u & sys1 & En & Hu).
    destruct (IH Hrest (merge st u) sys1 Hu) as (tr & sys2 & Er).
    simpl. rewrite En. simpl. rewrite Er. simpl. eauto.
Qed.

Lemma final_state_in : forall (tr : list GraphState) d,
  tr <> [] -> In (final_state d tr) tr.
Proof.
  intros tr d. unfold final_state. induction tr as [|a [|b tr] IH]; intros H.
  - congruence.
  - simpl. auto.
  - right. apply IH. discriminate.
Qed.

Lemma run_nodes_nonempty : forall nodes st sys tr sys',
  run_nodes env nodes st sys = Ok (tr, sys') -> tr <> [].
Proof.
  intros [|n nodes] st sys tr sys' H; simpl in H.
  - inversion H. discriminate.
  - destruct (n env st sys) as [[u sys1]|e]; simpl in H; [|discriminate].
    destruct (run_nodes env nodes (merge st u) sys1) as [[tr1 sys2]|e];
      simpl in H; [|discriminate].
    inversion H. discriminate.
Qed.

End RunInvariants.

(* ================================================================== *)
(** * Guardrail records are never produced *)

Section Guardrails.
Import Orchestrator.

Variable env : Env.

(** What every state of a run satisfies: no guardrail record, and the
    default self model. *)
Definition quiet (st : GraphState) : Prop :=
  guardrails_applied st = Some [] /\ self_model st = get_default_self_model.

Definition opt_row (name : string) (c : option float) (t : float) : string :=
  match c with
  | Some c => Report.table_row name c t
  | None => ""%string
  end.

Lemma confidence_table_default sent events vol :
  Report.confidence_table get_default_self_model sent events vol =
  Ok (Report.table_header
      ++ opt_row "Sentiment Analysis"
           (option_map SentimentAnalysisResult.confidence sent) 0.65
      ++ opt_row "Event Detection"
           (option_map SignificantEventDetectionResult.confidence events) 0.7
      ++ opt_row "Volatility Prediction"
           (option_map VolatilityPredictionResult.confidence vol) 0.6)%string.
Proof. destruct sent, events, vol; reflexivity. Qed.

Lemma coordinator_quiet : preserves env quiet _coordinator_node.
Proof.
  intros st sys u sys' [Hg Hm] H. unfold _coordinator_node in H.
  inversion H; subst; clear H. unfold coordinator_process.
  destruct (complete_decision env _ _); split; simpl; try assumption.
  rewrite Hg. reflexivity.
Qed.

Lemma load_quiet : preserves env quiet _load_transcript_node.
Proof.
  intros st sys u sys' [Hg Hm] H. unfold _load_transcript_node in H.
  inversion H; subst; clear H. unfold load_transcript_update.
  destruct (PyStr.startswith _ _); split; assumption.
Qed.

Lemma saving_quiet process produced :
  (forall st, u_guardrails_applied (process env st) = None) ->
  preserves env quiet (saving process produced).
Proof.
  intros Hp st sys u sys' [Hg Hm] H. unfold saving in H.
  inversion H; subst; clear H. split; simpl; [|assumption].
  rewrite Hp. exact Hg.
Qed.

Lemma sentiment_no_guardrails st :
  u_guardrails_applied (sentiment_process env st) = None.
Proof. unfold sentiment_process. destruct (complete_sentiment env _ _); reflexivity. Qed.

Lemma events_no_guardrails st :
  u_guardrails_applied (events_process env st) = None.
Proof.
  unfold events_process.
  destruct (_validate_with_sec_filings env _) as [[a b] c].
  destruct (complete_events env _ _); reflexivity.
Qed.

Lemma volatility_no_guardrails st :
  u_guardrails_applied (volatility_process env st) = None.
Proof.
  unfold volatility_process.
  destruct (_validate_with_market_data env _) as [[a b] c].
  destruct (complete_volatility env _ _ _ _ _); reflexivity.
Qed.

Lemma synthesize_quiet : preserves env quiet _synthesize_report_node.
Proof.
  intros st sys u sys' [Hg Hm] H. unfold _synthesize_report_node in H.
  destruct (Report._generate_final_report _ _ _ _ _ _ _ _); simpl in H;
    inversion H; subst; split; assumption.
Qed.

Lemma workflow_quiet : Forall (preserves env quiet) workflow.
Proof.
  unfold workflow.
  apply Forall_cons; [apply coordinator_quiet|].
  apply Forall_cons; [apply load_quiet|].
  apply Forall_cons;
    [apply saving_quiet, sentiment_no_guardrails|].
  apply Forall_cons;
    [apply saving_quiet, events_no_guardrails|].
  apply Forall_cons;
    [apply saving_quiet, volatility_no_guardrails|].
  apply Forall_cons; [apply synthesize_quiet|constructor].
Qed.

Lemma initial_quiet path ticker q : quiet (initial_state path ticker q).
Proof. split; reflexivity. Qed.

(** With the default self model the report is always produced. *)
Lemma generate_final_report_default ts ticker gs sent events vol decision :
  exists report,
    Report._generate_final_report ts ticker get_default_self_model gs
      sent events vol decision = Ok report.
Proof.
  unfold Report._generate_final_report.
  rewrite confidence_table_default. simpl. eauto.
Qed.

Definition returns_ok (n : node) : Prop :=
  forall st sys, quiet st -> exists u sys', n env st sys = Ok (u, sys').

Lemma workflow_returns : Forall (always_returns env quiet) workflow.
Proof.
  assert (H : forall n, preserves env quiet n -> returns_ok n ->
                        always_returns env quiet n).
  { intros n Hp Hr st sys Hst. destruct (Hr st sys Hst) as (u & sys' & E).
    exists u, sys'. split; [exact E | eapply Hp; eauto]. }
  pose proof workflow_quiet as Hq. unfold workflow in *.
  repeat match goal with
         | Hq : Forall _ (_ :: _) |- _ => inversion Hq; subst; clear Hq
         end.
  repeat (apply Forall_cons; [apply H; [assumption|]|]);
    [..|constructor]; intros st sys Hst.
  - unfold _coordinator_node; eauto.
  - unfold _load_transcript_node; eauto.
  - unfold _sentiment_node, saving; eauto.
  - unfold _event_detection_node, saving; eauto.
  - unfold _volatility_prediction_node, saving; eauto.
  - unfold _synthesize_report_node. destruct Hst as [_ Hm]. rewrite Hm.
    destruct (generate_final_report_default
                (strftime_display (now env sys)) (company_ticker st)
                (get_list (guardrails_applied st)) (sentiment_result st)
                (event_detection_result st) (volatility_result st)
                (metacognitive_decision st)) as [r Hr].
    rewrite Hr. simpl. eauto.
Qed.

(** Every run returns. *)
Lemma run_trace_returns sys path ticker q :
  exists tr sys', run_trace env sys path ticker q = Ok (tr, sys').
Proof.
  unfold run_trace.
  eapply run_nodes_returns; [apply workflow_returns | apply initial_quiet].
Qed.

(** The states of a run, node by node. *)
Definition after_coordinator (st0 : GraphState) : GraphState :=
  merge st0 (coordinator_process env st0).
Definition after_load (st0 : GraphState) : GraphState :=
  let st := after_coordinator st0 in merge st (load_transcript_update env st).
Definition after_sentiment (st0 : GraphState) : GraphState :=
  let st := after_load st0 in merge st (sentiment_process env st).
Definition after_events (st0 : GraphState) : GraphState :=
  let st := after_sentiment st0 in merge st (events_process env st).
Definition after_volatility (st0 : GraphState) : GraphState :=
  let st := after_events st0 in merge st (volatility_process env st).

Lemma run_nodes_workflow st0 sys tr sys' :
  run_nodes env workflow st0 sys = Ok (tr, sys') ->
  exists sys5 u,
    _synthesize_report_node env (after_volatility st0) sys5 = Ok (u, sys')
    /\ tr = [st0; after_coordinator st0; after_load st0; after_sentiment st0;
             after_events st0; after_volatility st0;
             merge (after_volatility st0) u].
Proof.
  unfold workflow.
  cbn [run_nodes _coordinator_node _load_transcript_node _sentiment_node
       _event_detection_node _volatility_prediction_node saving bind fst snd].
  fold (after_coordinator st0). fold (after_load st0).
  fold (after_sentiment st0). fold (after_events st0).
  fold (after_volatility st0).
  match goal with
  | |- context [_synthesize_report_node env ?st ?sy] =>
      destruct (_synthesize_report_node env st sy) as [[u s]|e] eqn:E
  end; cbn [bind fst snd]; intros H; inversion H; subst.
  eauto.
Qed.

End Guardrails.

Section GuardrailsClaim.
Import Orchestrator.

Lemma report_states_no_violations ts ticker m sent events vol decision report :
  Report._generate_final_report ts ticker m [] sent events vol decision
  = Ok report ->
  PyStr.contains Report.no_violations report = true
  /\ PyStr.contains "**Guardrail Checks Performed:** 0" report = true.
Proof.
  unfold Report._generate_final_report.
  destruct (Report.confidence_table m sent events vol) as [table|e];
    cbn [bind]; intros H; [|discriminate H].
  apply Ok_inj in H. subst report.
  unfold Report.guardrails_section. cbn [Formatter.nonempty List.length].
  rewrite !sapp_assoc. split.
  - do 13 skip_piece. apply contains_prefix.
  - do 9 skip_piece. apply contains_here. reflexivity.
Qed.

Lemma final_state_last (d : GraphState) (xs : list GraphState) (x : GraphState) :
  final_state d (xs ++ [x]) = x.
Proof. unfold final_state. apply last_last. Qed.


End GuardrailsClaim.

(* ================================================================== *)
(** * Ranges of confidence values and event counts *)

Section Ranges.
Import Orchestrator.

(** [0 <= x <= 1] on floats. *)
Definition in_unit (x : float) : bool :=
  PrimFloat.leb 0 x && PrimFloat.leb x 1.

Definition sentiment_in_range (r : SentimentAnalysisResult.t) : bool :=
  in_unit (SentimentAnalysisResult.confidence r).

Definition events_in_range (r : SignificantEventDetectionResult.t) : bool :=
  in_unit (SignificantEventDetectionResult.confidence r)
  && (SignificantEventDetectionResult.verified_count r
      <=? SignificantEventDetectionResult.total_events_found r)%Z.

Definition answer_in_range (a : TranscriptAnalysisAnswer.t) : bool :=
  in_unit (TranscriptAnalysisAnswer.confidence a).

Definition volatility_in_range (r : VolatilityPredictionResult.t) : bool :=
  in_unit (VolatilityPredictionResult.confidence r)
  && forallb answer_in_range (VolatilityPredictionResult.transcript_insights r).

Definition decision_in_range (d : MetacognitiveDecision.t) : bool :=
  in_unit (MetacognitiveDecision.confidence d).

Definition holds {A} (p : A -> bool) (v : option A) : bool :=
  match v with
  | Some a => p a
  | None => true
  end.

(** Every result held by a state is in range. *)
Definition state_in_range (st : GraphState) : bool :=
  holds decision_in_range (metacognitive_decision st)
  && holds sentiment_in_range (sentiment_result st)
  && holds events_in_range (event_detection_result st)
  && holds volatility_in_range (volatility_result st).

(** Every output of the completion capability is in range. *)
Definition completions_in_range (env : Env) : Prop :=
  (forall x y d, complete_decision env x y = Ok d ->
                 decision_in_range d = true)
  /\ (forall x y r, complete_sentiment env x y = Ok r ->
                    sentiment_in_range r = true)
  /\ (forall x y r, complete_events env x y = Ok r ->
                    events_in_range r = true)
  /\ (forall x y a, complete_answer env x y = Ok a ->
                    answer_in_range a = true)
  /\ (forall h p s e v r, complete_volatility env h p s e v = Ok r ->
                          in_unit (VolatilityPredictionResult.confidence r)
                          = true).

Variable env : Env.
Hypothesis Henv : completions_in_range env.

Definition ranged (st : GraphState) : Prop := state_in_range st = true.

Lemma ranged_split st :
  ranged st <->
  holds decision_in_range (metacognitive_decision st) = true
  /\ holds sentiment_in_range (sentiment_result st) = true
  /\ holds events_in_range (event_detection_result st) = true
  /\ holds volatility_in_range (volatility_result st) = true.
Proof.
  unfold ranged, state_in_range. rewrite !andb_true_iff. tauto.
Qed.

Lemma coordinator_ranged : preserves env ranged _coordinator_node.
Proof.
  intros st sys u sys' Hst H. unfold _coordinator_node in H.
  inversion H; subst; clear H. apply ranged_split in Hst.
  destruct Hst as (Hd & Hs & He & Hv). apply ranged_split.
  unfold coordinator_process.
  destruct (complete_decision env _ _) as [d|e] eqn:E; cbn; repeat split;
    try assumption.
  destruct Henv as (H1 & _). eapply H1; eauto.
Qed.

Lemma load_ranged : preserves env ranged _load_transcript_node.
Proof.
  intros st sys u sys' Hst H. unfold _load_transcript_node in H.
  inversion H; subst; clear H. apply ranged_split in Hst.
  apply ranged_split. unfold load_transcript_update.
  destruct (PyStr.startswith _ _); cbn; exact Hst.
Qed.

Lemma sentiment_ranged produced :
  preserves env ranged (saving sentiment_process produced).
Proof.
  intros st sys u sys' Hst H. unfold saving in H.
  inversion H; subst; clear H. apply ranged_split in Hst.
  destruct Hst as (Hd & Hs & He & Hv). apply ranged_split.
  unfold sentiment_process.
  destruct (complete_sentiment env _ _) as [r|e] eqn:E; cbn; repeat split;
    try assumption.
  destruct Henv as (_ & H2 & _). apply H2 in E.
  destruct (Formatter.nonempty _); exact E.
Qed.

Lemma events_ranged produced :
  preserves env ranged (saving events_process produced).
Proof.
  intros st sys u sys' Hst H. unfold saving in H.
  inversion H; subst; clear H. apply ranged_split in Hst.
  destruct Hst as (Hd & Hs & He & Hv). apply ranged_split.
  unfold events_process.
  destruct (_validate_with_sec_filings env _) as [[checked rendered] notes].
  destruct (complete_events env _ _) as [r|e] eqn:E; cbn; repeat split;
    try assumption.
  destruct Henv as (_ & _ & H3 & _). apply H3 in E.
  destruct checked; exact E.
Qed.

Lemma answers_in_range transcript questions :
  forallb answer_in_range
    (_answer_analysis_questions env transcript questions) = true.
Proof.
  unfold _answer_analysis_questions.
  induction (firstn 5 questions) as [|q qs IH]; [reflexivity|].
  cbn [flat_map]. rewrite forallb_app, IH, andb_true_r.
  destruct (complete_answer env _ _) as [a|e] eqn:E; [|reflexivity].
  cbn. rewrite andb_true_r. destruct Henv as (_ & _ & _ & H4 & _).
  eapply H4; eauto.
Qed.

Lemma volatility_ranged produced :
  preserves env ranged (saving volatility_process produced).
Proof.
  intros st sys u sys' Hst H. unfold saving in H.
  inversion H; subst; clear H. apply ranged_split in Hst.
  destruct Hst as (Hd & Hs & He & Hv). apply ranged_split.
  unfold volatility_process.
  destruct (_validate_with_market_data env _) as [[hv pm] notes].
  set (ins := _answer_analysis_questions env _ _).
  assert (Hins : forallb answer_in_range ins = true)
    by apply answers_in_range.
  clearbody ins.
  destruct (complete_volatility env _ _ _ _ _) as [r|e] eqn:E; cbn;
    repeat split; try assumption.
  destruct Henv as (_ & _ & _ & _ & H5). apply H5 in E.
  unfold volatility_in_range. cbn. rewrite E, Hins. reflexivity.
Qed.

Lemma synthesize_ranged : preserves env ranged _synthesize_report_node.
Proof.
  intros st sys u sys' Hst H. unfold _synthesize_report_node in H.
  destruct (Report._generate_final_report _ _ _ _ _ _ _ _); cbn in H;
    inversion H; subst. exact Hst.
Qed.

Lemma workflow_ranged : Forall (preserves env ranged) workflow.
Proof.
  unfold workflow.
  apply Forall_cons; [apply coordinator_ranged|].
  apply Forall_cons; [apply load_ranged|].
  apply Forall_cons; [apply sentiment_ranged|].
  apply Forall_cons; [apply events_ranged|].
  apply Forall_cons; [apply volatility_ranged|].
  apply Forall_cons; [apply synthesize_ranged|constructor].
Qed.

End Ranges.

Section Samples.
Import Orchestrator.

Definition sample_clock (n : nat) : datetime :=
  mkDatetime 2025 1 2 3 4 (N.of_nat n).

Definition sample_decision : MetacognitiveDecision.t :=
  MetacognitiveDecision.mk "Assess the quarter"
    ["Read the call"; "Score sentiment"; "Find events"]
    ["sentiment_analysis"; "event_detection"; "volatility_prediction"]
    0.9 "The query asks for a full analysis.".

Definition sample_sentiment : SentimentAnalysisResult.t :=
  SentimentAnalysisResult.mk SentimentAnalysisResult.positive 0.8
    "Analysts are upbeat." ["cloud growth"; "margins"] ["Shares rise"]
    0.72 ["news agree"].

Definition sample_event_1 : SignificantEvent.t :=
  SignificantEvent.mk "merger" "Acquired a rival" true true "transcript"
    SignificantEvent.high.

Definition sample_event_2 : SignificantEvent.t :=
  SignificantEvent.mk "buyback" "Announced a buyback" true false "transcript"
    SignificantEvent.low.

Definition sample_events : SignificantEventDetectionResult.t :=
  SignificantEventDetectionResult.mk [sample_event_1; sample_event_2] 2 1
    0.55 ["filings agree"].

Definition sample_answer : TranscriptAnalysisAnswer.t :=
  TranscriptAnalysisAnswer.mk "Financial Performance" "Dividends"
    "Did it pay a dividend?" "Yes, quarterly." 0.9 [].

Definition sample_volatility : VolatilityPredictionResult.t :=
  VolatilityPredictionResult.mk VolatilityPredictionResult.high 0.7 []
    ["rates"] "Positive tone lowers it." "The merger raises it." 0.8 0.0
    ["prices agree"].

(** An environment in which every call succeeds. *)
Definition sample_env : Env :=
  mkEnv sample_clock
    (fun _ => Some (Ok "Good quarter. Revenue grew."%string))
    (fun _ => Ok [Some "Shares rise after earnings"%string])
    (fun _ => Ok [mkFiling "8-K" 3 "success"])
    (fun _ => Ok 0.25%float) (fun _ => Ok (Some 3.5%float)) (fun _ => Ok tt)
    (fun _ _ => Ok sample_decision)
    (fun _ _ => Ok sample_sentiment)
    (fun _ _ => Ok sample_events)
    (fun _ _ => Ok sample_answer)
    (fun _ _ _ _ _ => Ok sample_volatility).

Definition with_sentiment (env : Env)
    (f : string -> string -> except SentimentAnalysisResult.t) : Env :=
  mkEnv (clock env) (read_file env) (get_sentiment_news env)
    (download_recent_filings env) (get_historical_volatility env)
    (get_price_movement env) (get_stock_info env) (complete_decision env)
    f (complete_events env) (complete_answer env) (complete_volatility env).

Definition with_events (env : Env)
    (f : string -> string -> except SignificantEventDetectionResult.t) : Env :=
  mkEnv (clock env) (read_file env) (get_sentiment_news env)
    (download_recent_filings env) (get_historical_volatility env)
    (get_price_movement env) (get_stock_info env) (complete_decision env)
    (complete_sentiment env) f (complete_answer env) (complete_volatility env).

Definition with_decision (env : Env)
    (f : string -> string -> except MetacognitiveDecision.t) : Env :=
  mkEnv (clock env) (read_file env) (get_sentiment_news env)
    (download_recent_filings env) (get_historical_volatility env)
    (get_price_movement env) (get_stock_info env) f
    (complete_sentiment env) (complete_events env) (complete_answer env)
    (complete_volatility env).

Definition with_file (env : Env) (f : string -> option (except string))
  : Env :=
  mkEnv (clock env) f (get_sentiment_news env)
    (download_recent_filings env) (get_historical_volatility env)
    (get_price_movement env) (get_stock_info env) (complete_decision env)
    (complete_sentiment env) (complete_events env) (complete_answer env)
    (complete_volatility env).

Definition empty_sys : Sys := mkSys 0 [].

End Samples.

Section RangeClaims.
Import Orchestrator.

Lemma initial_ranged path ticker q : ranged (initial_state path ticker q).
Proof. reflexivity. Qed.


Lemma sample_env_in_range : completions_in_range sample_env.
Proof.
  repeat split; cbn; intros; apply Ok_inj in H; subst; reflexivity.
Qed.


(** A completion capability whose outputs conform to the declared shapes
    but not to the bounds: a confidence of 1.5, and 5 verified events
    among 3. *)
Definition unbounded_sentiment : SentimentAnalysisResult.t :=
  SentimentAnalysisResult.mk SentimentAnalysisResult.positive 0.8
    "Analysts are upbeat." ["cloud growth"] [] 1.5 [].

Definition unbounded_events : SignificantEventDetectionResult.t :=
  SignificantEventDetectionResult.mk [sample_event_1] 3 5 0.9 [].

Definition unbounded_env : Env :=
  with_events (with_sentiment sample_env (fun _ _ => Ok unbounded_sentiment))
    (fun _ _ => Ok unbounded_events).

Definition produced (r : except (GraphState * Sys)) : option GraphState :=
  match r with
  | Ok (st, _) => Some st
  | Raise _ => None
  end.


End RangeClaims.

(* ================================================================== *)
(** * Errors of earlier stages *)

Section ErrorList.
Import Orchestrator.

(** The coordinator's completion fails and the transcript cannot be
    decoded. *)
Definition two_failures_env : Env :=
  with_file
    (with_decision sample_env
       (fun _ _ => Raise (RuntimeError "Connection error.")))
    (fun _ => Some (Raise (ValueError "invalid start byte"))).

(** C3, on the failing run: after the coordinator node the error list
    holds the coordinator's entry; the update of the load node carries
    its own [errors] list, which replaces it, and the final state has
    lost the coordinator's entry. *)
Theorem load_error_replaces_earlier_errors :
  let st0 := initial_state "call.txt" "ACME" None in
  errors (after_coordinator two_failures_env st0)
  = Some ["Coordinator error: Connection error."%string]
  /\ option_map errors
       (produced (run_analysis two_failures_env empty_sys "call.txt" "ACME" None))
     = Some (Some ["Error reading transcript: invalid start byte"%string]).
Proof. vm_compute. split; reflexivity. Qed.

End ErrorList.

(* ================================================================== *)
(** * Guardrail evaluation *)

Section GuardrailStatus.
Import Orchestrator.

Definition set_errors (st : GraphState) (errs : option (list string))
  : GraphState :=
  mkState (user_query st) (company_ticker st) (transcript_path st)
    (analysis_questions st) (self_model st) (metacognitive_decision st)
    (transcript_content st) (sentiment_result st)
    (event_detection_result st) (volatility_result st) (final_report st)
    (guardrails_applied st) errs.

(** C5. The status of a row of the confidence table is a function of the
    stage's confidence and of the fixed threshold of its agent (0.65,
    0.70, 0.60): 0.72 against 0.65 gives the pass mark, 0.55 against 0.70
    the low mark; each row of the table is built from the stage's own
    confidence only, and the report does not depend on the error list of
    the state. *)
Theorem guardrail_status_is_pure :
  Report.threshold_of get_default_self_model 0 = Ok 0.65%float
  /\ Report.threshold_of get_default_self_model 1 = Ok 0.7%float
  /\ Report.threshold_of get_default_self_model 2 = Ok 0.6%float
  /\ Report.guardrail_status 0.72 0.65 = "✓ Pass"%string
  /\ Report.guardrail_status 0.55 0.7 = "⚠ Low"%string
  /\ (forall name c t,
        Report.table_row name c t
        = ("| " ++ name ++ " | " ++ PyNum.fmt_pct c ++ " | "
           ++ PyNum.fmt_pct t ++ " | " ++ Report.guardrail_status c t
           ++ " |" ++ PyStr.nl)%string)
  /\ (forall sent events vol,
        Report.confidence_table get_default_self_model sent events vol
        = Ok (Report.table_header
              ++ opt_row "Sentiment Analysis"
                   (option_map SentimentAnalysisResult.confidence sent) 0.65
              ++ opt_row "Event Detection"
                   (option_map SignificantEventDetectionResult.confidence events)
                   0.7
              ++ opt_row "Volatility Prediction"
                   (option_map VolatilityPredictionResult.confidence vol) 0.6)%string)
  /\ (forall env st sys errs,
        _synthesize_report_node env (set_errors st errs) sys
        = _synthesize_report_node env st sys).
Proof.
  repeat split; try reflexivity.
  intros. apply confidence_table_default.
Qed.

End GuardrailStatus.

(* ================================================================== *)
(** * Extraction without an artifact *)

Section NoArtifact.
Import Api.

Lemma on_latest_none {A} dir pattern (body : string -> except A) :
  glob dir pattern = [] -> on_latest dir pattern body = Ok None.
Proof. intros H. unfold on_latest. rewrite H. reflexivity. Qed.


(** A directory that holds the artifacts of another ticker only. *)
Definition other_ticker_dir : list File :=
  [ mkFile "sentiment_MSFT_20250102_030405.md" 10 "# Sentiment Analysis Report";
    mkFile "event_detection_MSFT_20250102_030406.md" 11 "# Event Detection Report";
    mkFile "volatility_MSFT_20250102_030407.md" 12 "# Volatility Prediction Report";
    mkFile "final_report_MSFT_20250102_030408.md" 13 "# FinSight Multi-Agent Analysis Report";
    mkFile "notes.txt" 14 "" ].


End NoArtifact.

(* ================================================================== *)
(** * A run whose event detection fails *)

Section EventsFail.
Import Orchestrator.

Variable env : Env.

Lemma sentiment_process_ok st s :
  (forall x y, complete_sentiment env x y = Ok s) ->
  exists s', sentiment_process env st
             = mkUpdate None None (Some s') None None None None None.
Proof.
  intros H. unfold sentiment_process. rewrite H. eauto.
Qed.

Lemma events_process_fails st e :
  (forall x y, complete_events env x y = Raise e) ->
  events_process env st
  = mkUpdate None None None None None None None
      (Some (add_item (get_list (errors st))
               ("Event detection error: " ++ exn_str e)%string)).
Proof.
  intros H. unfold events_process.
  destruct (_validate_with_sec_filings env _) as [[a b] c].
  rewrite H. reflexivity.
Qed.

Lemma volatility_process_ok st v :
  (forall h p a b c, complete_volatility env h p a b c = Ok v) ->
  exists v', volatility_process env st
             = mkUpdate None None None None (Some v') None None None.
Proof.
  intros H. unfold volatility_process.
  destruct (_validate_with_market_data env _) as [[a b] c].
  rewrite H. eauto.
Qed.

Lemma errors_after_load path ticker q :
  exists l, errors (after_load env (initial_state path ticker q)) = Some l.
Proof.
  unfold after_load, after_coordinator, coordinator_process,
    load_transcript_update.
  destruct (complete_decision env _ _); destruct (PyStr.startswith _ _);
    cbn; eauto.
Qed.

Lemma events_absent_after_load path ticker q :
  event_detection_result (after_load env (initial_state path ticker q)) = None
  /\ self_model (after_load env (initial_state path ticker q))
     = get_default_self_model.
Proof.
  unfold after_load, after_coordinator, coordinator_process,
    load_transcript_update.
  destruct (complete_decision env _ _); destruct (PyStr.startswith _ _);
    cbn; auto.
Qed.

Definition mentions_event_error (m : string) : bool :=
  PyStr.contains "Event detection error" m.

Lemma count_mentions prior entry :
  forallb (fun m => negb (mentions_event_error m)) prior = true ->
  mentions_event_error entry = true ->
  List.length (filter mentions_event_error (add_item prior entry)) = 1.
Proof.
  intros Hp He. unfold add_item. rewrite filter_app. cbn [filter].
  rewrite He, length_app. cbn [List.length].
  induction prior as [|m prior IH]; [reflexivity|].
  cbn [forallb] in Hp. apply andb_true_iff in Hp. destruct Hp as [Hm Hp].
  cbn [filter]. destruct (mentions_event_error m); [discriminate|].
  apply IH, Hp.
Qed.

Lemma final_report_sections ts ticker m gs sent events vol decision report :
  Report._generate_final_report ts ticker m gs sent events vol decision
  = Ok report ->
  exists pre post,
    report
    = (pre
       ++ Report.rule "2. Sentiment Analysis"
       ++ Report.sentiment_section sent
       ++ Report.rule "3. Significant Event Detection"
       ++ Report.event_detection_section events
       ++ Report.rule "4. Volatility Prediction"
       ++ Report.volatility_section vol
       ++ Report.rule "5. Guardrails and System Boundaries"
       ++ post)%string.
Proof.
  unfold Report._generate_final_report.
  destruct (Report.confidence_table m sent events vol) as [table|e];
    cbn [bind]; intros H; [|discriminate H].
  apply Ok_inj in H. subst report.
  eexists (_ ++ _)%string, _. symmetry. apply sapp_assoc.
Qed.

Lemma state_before_synthesis st0 l s' v' entry :
  errors (after_load env st0) = Some l ->
  event_detection_result (after_load env st0) = None ->
  self_model (after_load env st0) = get_default_self_model ->
  sentiment_process env (after_load env st0)
  = mkUpdate None None (Some s') None None None None None ->
  events_process env (after_sentiment env st0)
  = mkUpdate None None None None None None None
      (Some (add_item (get_list (errors (after_sentiment env st0))) entry)) ->
  volatility_process env (after_events env st0)
  = mkUpdate None None None None (Some v') None None None ->
  sentiment_result (after_volatility env st0) = Some s'
  /\ event_detection_result (after_volatility env st0) = None
  /\ volatility_result (after_volatility env st0) = Some v'
  /\ errors (after_volatility env st0) = Some (add_item l entry)
  /\ self_model (after_volatility env st0) = get_default_self_model.
Proof.
  intros Hl Hev0 Hm0 Es Ee Ev.
  unfold after_volatility. rewrite Ev. unfold after_events. rewrite Ee.
  unfold after_sentiment. rewrite Es.
  cbn [merge write sentiment_result event_detection_result
       volatility_result errors self_model u_sentiment_result
       u_event_detection_result u_volatility_result u_errors get_list].
  rewrite Hl, Hev0, Hm0. cbn [get_list]. auto.
Qed.

Lemma final_state_of_trace (st0 s1 s2 s3 s4 s5 s6 : GraphState) :
  final_state st0 [st0; s1; s2; s3; s4; s5; s6] = s6.
Proof. reflexivity. Qed.

Lemma merge_report st report :
  let st' :=
    merge st (mkUpdate None None None None None (Some report) None None) in
  final_report st' = Some report
  /\ sentiment_result st' = sentiment_result st
  /\ event_detection_result st' = event_detection_result st
  /\ volatility_result st' = volatility_result st
  /\ errors st' = errors st.
Proof. cbv zeta. repeat split. Qed.


End EventsFail.

Section EventsFailWitness.
Import Orchestrator.

(** The completion of the Events stage returns text that does not fit
    the declared shape. *)
Definition events_fail_env : Env :=
  with_events sample_env
    (fun _ _ => Raise (ValueError "1 validation error for SignificantEventDetectionResult")).


End EventsFailWitness.

(* ================================================================== *)
(** * Facts about the matcher *)

Section RegexFacts.
Import PyStr Re.

Lemma drop_prefix_app (l s : string) : drop_prefix l (l ++ s) = Some s.
Proof.
  induction l as [|x l IH]; simpl; [reflexivity|].
  now rewrite ascii_eqb_refl.
Qed.

Lemma take_app (a b : string) : take (String.length a) (a ++ b) = a.
Proof. induction a as [|x a IH]; simpl; [reflexivity | now rewrite IH]. Qed.

Lemma consumed_app (a b : string) : consumed (a ++ b) b = a.
Proof.
  unfold consumed. rewrite length_sapp.
  replace (String.length a + String.length b - String.length b)
    with (String.length a) by lia.
  apply take_app.
Qed.

(** A property of every non-empty suffix of a text. *)
Fixpoint all_suffixes (P : string -> Prop) (a : string) : Prop :=
  match a with
  | EmptyString => True
  | String x a' => P (String x a') /\ all_suffixes P a'
  end.

Lemma all_suffixes_impl (P Q : string -> Prop) a :
  (forall s, P s -> Q s) -> all_suffixes P a -> all_suffixes Q a.
Proof.
  intros H. induction a as [|x a IH]; simpl; [tauto|].
  intros [H1 H2]. split; auto.
Qed.

Lemma all_suffixes_app (P : string -> Prop) a1 a2 :
  all_suffixes (fun s => P (s ++ a2)%string) a1 -> all_suffixes P a2 ->
  all_suffixes P (a1 ++ a2).
Proof.
  intros H1 H2. induction a1 as [|x a1 IH]; simpl in *; [exact H2|].
  destruct H1 as [H H1]. split; auto.
Qed.

(** The literal [l] occurs at no position of [a] in the text [a ++ b]. *)
Definition no_occ (l a b : string) : Prop :=
  all_suffixes (fun a' => drop_prefix l (a' ++ b) = None) a.

Lemma no_occ_app l a1 a2 b :
  no_occ l a1 (a2 ++ b) -> no_occ l a2 b -> no_occ l (a1 ++ a2) b.
Proof.
  unfold no_occ. intros H1 H2. apply all_suffixes_app.
  - eapply all_suffixes_impl; [|exact H1]. cbv beta. intros s Hs.
    rewrite sapp_assoc. exact Hs.
  - exact H2.
Qed.

Lemma no_occ_nil l b : no_occ l "" b.
Proof. exact I. Qed.

(** A text none of whose characters is [x]. *)
Definition lacks (x : ascii) (a : string) : bool :=
  all_chars (fun y => negb (ascii_eqb x y)) a.

Lemma no_occ_lacks x l a b : lacks x a = true -> no_occ (String x l) a b.
Proof.
  unfold no_occ, lacks. induction a as [|y a IH]; simpl; [tauto|].
  intros H. apply andb_true_iff in H. destruct H as [Hy Ha].
  split; [|auto]. destruct (ascii_eqb x y); [discriminate|reflexivity].
Qed.

(** [l] differs from [a] at a position that both have. *)
Fixpoint mismatch (l a : string) : bool :=
  match l, a with
  | String x l', String y a' =>
      if ascii_eqb x y then mismatch l' a' else true
  | _, _ => false
  end.

Lemma mismatch_drop l a b : mismatch l a = true -> drop_prefix l (a ++ b) = None.
Proof.
  revert a. induction l as [|x l IH]; intros [|y a] H; simpl in *;
    try discriminate.
  destruct (ascii_eqb x y); [apply IH, H|reflexivity].
Qed.

Fixpoint no_occ_b (l a : string) : bool :=
  match a with
  | EmptyString => true
  | String _ a' => mismatch l a && no_occ_b l a'
  end.

Lemma no_occ_of_b l a b : no_occ_b l a = true -> no_occ l a b.
Proof.
  unfold no_occ. induction a as [|y a IH]; simpl; [tauto|].
  intros H. apply andb_true_iff in H. destruct H as [H1 H2].
  split; [apply (mismatch_drop l (String y a) b H1)|auto].
Qed.

(** The first character of a text, if any, is outside a class. *)
Definition head_fails (p : ascii -> bool) (s : string) : bool :=
  match s with
  | EmptyString => true
  | String x _ => negb (p x)
  end.

Lemma length_lt_cons x (s : string) :
  (String.length s <? String.length (String x s))%nat = true.
Proof. apply Nat.ltb_lt. simpl. lia. Qed.

Lemma star_loop_0 body g k s c : star_loop body g k 0 s c = k s c.
Proof. reflexivity. Qed.

Lemma star_loop_greedy body k fuel s c :
  star_loop body true k (S fuel) s c
  = match body s c
            (fun s' c' =>
               if (String.length s' <? String.length s)%nat
               then star_loop body true k fuel s' c' else None) with
    | Some m => Some m
    | None => k s c
    end.
Proof. reflexivity. Qed.

Lemma star_loop_lazy body k fuel s c :
  star_loop body false k (S fuel) s c
  = match k s c with
    | Some m => Some m
    | None =>
        body s c
          (fun s' c' =>
             if (String.length s' <? String.length s)%nat
             then star_loop body false k fuel s' c' else None)
    end.
Proof. reflexivity. Qed.

Lemma rmatch_char_cons p x s c k :
  rmatch (RChar p) (String x s) c k = if p x then k s c else None.
Proof. reflexivity. Qed.

Lemma rmatch_char_fails p s c k :
  head_fails p s = true -> rmatch (RChar p) s c k = None.
Proof.
  destruct s as [|x s]; cbn [head_fails]; intros H; [reflexivity|].
  rewrite rmatch_char_cons. destruct (p x); [discriminate|reflexivity].
Qed.

Lemma rmatch_star_eq g r s c k :
  rmatch (RStar g r) s c k = star_loop (rmatch r) g k (String.length s) s c.
Proof. reflexivity. Qed.

Lemma rmatch_seq_eq r1 r2 s c k :
  rmatch (RSeq r1 r2) s c k = rmatch r1 s c (fun s' c' => rmatch r2 s' c' k).
Proof. reflexivity. Qed.

Lemma rmatch_group_eq i r s c k :
  rmatch (RGroup i r) s c k
  = rmatch r s c (fun s' c' => k s' ((i, consumed s s') :: c')).
Proof. reflexivity. Qed.

Lemma rmatch_lit_eq l s c k :
  rmatch (RLit l) s c k
  = match drop_prefix l s with Some s' => k s' c | None => None end.
Proof. reflexivity. Qed.

Lemma rmatch_lit_app l s c k : rmatch (RLit l) (l ++ s) c k = k s c.
Proof. rewrite rmatch_lit_eq, drop_prefix_app. reflexivity. Qed.

Lemma rmatch_alt_eq r1 r2 s c k :
  rmatch (RAlt r1 r2) s c k
  = match rmatch r1 s c k with Some m => Some m | None => rmatch r2 s c k end.
Proof. reflexivity. Qed.

Lemma rmatch_eps_eq s c k : rmatch REps s c k = k s c.
Proof. reflexivity. Qed.

(** A greedy repetition of a class takes the whole run of characters of
    the class when the continuation accepts what follows. *)
Lemma star_greedy_run p k w : forall rest c m fuel,
  all_chars p w = true -> head_fails p rest = true ->
  k rest c = Some m ->
  String.length (w ++ rest) <= fuel ->
  star_loop (rmatch (RChar p)) true k fuel (w ++ rest) c = Some m.
Proof.
  induction w as [|x w IH]; intros rest c m fuel Hw Hr Hk Hf.
  - cbn [append]. destruct fuel as [|fuel]; [exact Hk|].
    rewrite star_loop_greedy, rmatch_char_fails by exact Hr. exact Hk.
  - cbn [all_chars] in Hw. apply andb_true_iff in Hw. destruct Hw as [Hx Hw].
    cbn [append String.length] in Hf. destruct fuel as [|fuel]; [lia|].
    cbn [append]. rewrite star_loop_greedy, rmatch_char_cons, Hx.
    rewrite length_lt_cons.
    rewrite (IH rest c m fuel Hw Hr Hk); [reflexivity|lia].
Qed.

Lemma rmatch_star_run p k w rest c m :
  all_chars p w = true -> head_fails p rest = true ->
  k rest c = Some m ->
  rmatch (RStar true (RChar p)) (w ++ rest) c k = Some m.
Proof.
  intros. rewrite rmatch_star_eq. apply star_greedy_run; auto.
Qed.

(** A captured non-empty run [(p+)]. *)
Lemma rmatch_group_run i p k x w rest c m :
  all_chars p (String x w) = true -> head_fails p rest = true ->
  k rest ((i, String x w) :: c) = Some m ->
  rmatch (RGroup i (plus (RChar p))) (String x w ++ rest) c k = Some m.
Proof.
  intros Hw Hr Hk. cbn [all_chars] in Hw. apply andb_true_iff in Hw.
  destruct Hw as [Hx Hw]. unfold plus.
  rewrite rmatch_group_eq, rmatch_seq_eq. cbn [append].
  rewrite rmatch_char_cons, Hx.
  apply rmatch_star_run; auto.
  change (String x (w ++ rest)) with (String x w ++ rest)%string.
  rewrite consumed_app. exact Hk.
Qed.

(** A lazy repetition of a class skips a text of the class on which the
    continuation fails everywhere, and stops where it succeeds. *)
Lemma star_lazy_skip p k a : forall b c m fuel,
  all_chars p a = true ->
  all_suffixes (fun a' => k (a' ++ b)%string c = None) a ->
  k b c = Some m ->
  String.length (a ++ b) <= fuel ->
  star_loop (rmatch (RChar p)) false k fuel (a ++ b) c = Some m.
Proof.
  induction a as [|x a IH]; intros b c m fuel Ha Hs Hk Hf.
  - cbn [append]. destruct fuel; [exact Hk|].
    rewrite star_loop_lazy, Hk. reflexivity.
  - cbn [all_chars] in Ha. apply andb_true_iff in Ha. destruct Ha as [Hx Ha].
    cbn [all_suffixes] in Hs. destruct Hs as [H0 Hs].
    cbn [append String.length] in Hf. destruct fuel as [|fuel]; [lia|].
    cbn [append]. cbn [append] in H0.
    rewrite star_loop_lazy, H0, rmatch_char_cons, Hx, length_lt_cons.
    apply IH; auto. lia.
Qed.

Lemma rmatch_lazy_skip p k a b c m :
  all_chars p a = true ->
  all_suffixes (fun a' => k (a' ++ b)%string c = None) a ->
  k b c = Some m ->
  rmatch (RStar false (RChar p)) (a ++ b) c k = Some m.
Proof. intros. rewrite rmatch_star_eq. apply star_lazy_skip; auto. Qed.

(** A captured lazy text followed by a literal stops at the first
    occurrence of the literal that the rest of the pattern accepts. *)
Lemma rmatch_group_until i p l r a b c k m :
  all_chars p a = true -> no_occ l a (l ++ b) ->
  rmatch r b ((i, a) :: c) k = Some m ->
  rmatch (RSeq (RGroup i (RStar false (RChar p))) (RSeq (RLit l) r))
    (a ++ l ++ b) c k = Some m.
Proof.
  intros Ha Hn Hk. rewrite rmatch_seq_eq, rmatch_group_eq.
  apply rmatch_lazy_skip; [exact Ha| |].
  - eapply all_suffixes_impl; [|exact Hn]. cbv beta. intros s Hs.
    rewrite rmatch_seq_eq, rmatch_lit_eq, Hs. reflexivity.
  - rewrite rmatch_seq_eq, rmatch_lit_app, consumed_app. exact Hk.
Qed.

(** A pattern that can only match where the literal [l] starts. *)
Definition lit_headed (l : string) (r : regex) : Prop :=
  forall s c k, drop_prefix l s = None -> rmatch r s c k = None.

Lemma lit_headed_seq l r : lit_headed l (RSeq (RLit l) r).
Proof.
  intros s c k H. rewrite rmatch_seq_eq, rmatch_lit_eq, H. reflexivity.
Qed.

Lemma lit_headed_lit l : lit_headed l (RLit l).
Proof. intros s c k H. rewrite rmatch_lit_eq, H. reflexivity. Qed.

(** [re.search] steps over a text in which the head literal of the
    pattern does not occur. *)
Lemma search_skip l r a b :
  lit_headed l r -> no_occ l a b -> search r (a ++ b) = search r b.
Proof.
  intros Hr. unfold no_occ. induction a as [|x a IH]; cbn [all_suffixes];
    [reflexivity|].
  intros [H0 Hn]. cbn [append search]. unfold match_at at 1.
  cbn [append] in H0. rewrite (Hr _ _ _ H0). apply IH, Hn.
Qed.

Lemma search_here r s m : match_at r s = Some m -> search r s = Some m.
Proof. intros H. destruct s; cbn [search]; rewrite H; reflexivity. Qed.

End RegexFacts.

(* ================================================================== *)
(** * Facts about [strip], [split] and [in] *)

Section StripFacts.
Import PyStr.

Lemma rev_onto_spec a : forall acc, rev_onto a acc = (rev a ++ acc)%string.
Proof.
  unfold rev. induction a as [|x a IH]; intros acc; cbn [rev_onto];
    [reflexivity|].
  rewrite (IH (String x acc)), (IH (String x "")), sapp_assoc. reflexivity.
Qed.

Lemma rev_cons x a : rev (String x a) = (rev a ++ String x "")%string.
Proof. unfold rev at 1. cbn [rev_onto]. apply rev_onto_spec. Qed.

Lemma rev_app a b : rev (a ++ b) = (rev b ++ rev a)%string.
Proof.
  induction a as [|x a IH]; cbn [append].
  - symmetry. apply sapp_nil_r.
  - rewrite !rev_cons, IH, sapp_assoc. reflexivity.
Qed.

Lemma rev_involutive a : rev (rev a) = a.
Proof.
  induction a as [|x a IH]; [reflexivity|].
  rewrite rev_cons, rev_app, IH. reflexivity.
Qed.

Lemma all_chars_app p a b :
  all_chars p (a ++ b) = all_chars p a && all_chars p b.
Proof.
  induction a as [|x a IH]; cbn [append all_chars]; [reflexivity|].
  rewrite IH, andb_assoc. reflexivity.
Qed.

Lemma all_chars_rev p a : all_chars p (rev a) = all_chars p a.
Proof.
  induction a as [|x a IH]; [reflexivity|].
  rewrite rev_cons, all_chars_app, IH. cbn [all_chars].
  rewrite andb_true_r. apply andb_comm.
Qed.

Lemma lstrip_all p a b :
  all_chars p a = true -> lstrip_by p (a ++ b) = lstrip_by p b.
Proof.
  induction a as [|x a IH]; cbn [append all_chars lstrip_by]; [reflexivity|].
  intros H. apply andb_true_iff in H. destruct H as [Hx Ha].
  rewrite Hx. apply IH, Ha.
Qed.

Lemma lstrip_head p s : head_fails p s = true -> lstrip_by p s = s.
Proof.
  destruct s as [|x s]; cbn [head_fails lstrip_by]; [reflexivity|].
  destruct (p x); [discriminate|reflexivity].
Qed.

(** Right stripping removes a tail of the class behind a character
    outside it. *)
Lemma rstrip_tail p a x t :
  p x = false -> all_chars p t = true ->
  rstrip_by p ((a ++ String x "") ++ t) = (a ++ String x "")%string.
Proof.
  intros Hx Ht. unfold rstrip_by.
  rewrite rev_app, lstrip_all by (rewrite all_chars_rev; exact Ht).
  rewrite rev_app. change (rev (String x "")) with (String x "").
  cbn [append lstrip_by]. rewrite Hx, rev_cons, rev_involutive. reflexivity.
Qed.

Lemma lstrip_suffix p s : exists pre, s = (pre ++ lstrip_by p s)%string.
Proof.
  induction s as [|x s [pre IH]]; [exists ""%string; reflexivity|].
  cbn [lstrip_by]. destruct (p x).
  - exists (String x pre). cbn [append]. rewrite <- IH. reflexivity.
  - exists ""%string. reflexivity.
Qed.

Lemma rstrip_prefix p s : exists post, s = (rstrip_by p s ++ post)%string.
Proof.
  unfold rstrip_by. destruct (lstrip_suffix p (rev s)) as [pre H].
  exists (rev pre). rewrite <- rev_app, <- H. symmetry. apply rev_involutive.
Qed.

Lemma startswith_weaken n a b :
  startswith n a = true -> startswith n (a ++ b) = true.
Proof.
  revert a. induction n as [|x n IH]; intros a H; [reflexivity|].
  destruct a as [|y a]; cbn [startswith append] in *; [discriminate|].
  apply andb_true_iff in H. destruct H as [H1 H2].
  rewrite H1, (IH a H2). reflexivity.
Qed.

Lemma contains_weaken n a b :
  contains n a = true -> contains n (a ++ b) = true.
Proof.
  induction a as [|x a IH]; intros H.
  - cbn [contains] in H. rewrite orb_false_r in H.
    apply contains_here. apply (startswith_weaken n "" b H).
  - cbn [contains append] in *. apply orb_true_iff in H.
    destruct H as [H|H].
    + pose proof (startswith_weaken n (String x a) b H) as H'.
      cbn [append] in H'. rewrite H'. reflexivity.
    + rewrite (IH H). apply orb_true_r.
Qed.

(** What is found in a stripped text is in the text. *)
Lemma contains_strip n p s :
  contains n (strip_by p s) = true -> contains n s = true.
Proof.
  unfold strip_by. intros H.
  destruct (lstrip_suffix p s) as [pre Hs].
  destruct (rstrip_prefix p (lstrip_by p s)) as [post Hr].
  rewrite Hs, Hr. apply contains_skip, contains_weaken, H.
Qed.

(** Stripping a text that neither begins nor ends with a character of the
    class, behind a prefix and before a tail of the class. *)
Lemma strip_padded p pre a x post :
  all_chars p pre = true -> all_chars p post = true ->
  head_fails p (a ++ String x "") = true -> p x = false ->
  strip_by p (pre ++ (a ++ String x "") ++ post) = (a ++ String x "")%string.
Proof.
  intros Hpre Hpost Hh Hx. unfold strip_by.
  rewrite lstrip_all by exact Hpre.
  rewrite lstrip_head.
  - apply rstrip_tail; assumption.
  - destruct a; cbn [append head_fails] in *; exact Hh.
Qed.

Lemma split_on_lacks sep a : lacks sep a = true -> split_on sep a = [a].
Proof.
  unfold lacks. induction a as [|x a IH]; cbn [all_chars split_on];
    [reflexivity|].
  intros H. apply andb_true_iff in H. destruct H as [Hx Ha].
  unfold ascii_eqb in *. rewrite Ascii.eqb_sym.
  destruct (Ascii.eqb sep x); [discriminate|]. rewrite (IH Ha). reflexivity.
Qed.

Lemma split_on_app sep a b :
  lacks sep a = true ->
  split_on sep (a ++ String sep b) = a :: split_on sep b.
Proof.
  unfold lacks. induction a as [|x a IH]; cbn [all_chars append split_on].
  - intros _. rewrite ascii_eqb_refl. reflexivity.
  - intros H. apply andb_true_iff in H. destruct H as [Hx Ha].
    unfold ascii_eqb in *. rewrite Ascii.eqb_sym.
    destruct (Ascii.eqb sep x); [discriminate|]. rewrite (IH Ha). reflexivity.
Qed.

Lemma lacks_app x a b : lacks x (a ++ b) = lacks x a && lacks x b.
Proof. apply all_chars_app. Qed.

Lemma all_chars_impl (p q : ascii -> bool) a :
  (forall c, p c = true -> q c = true) ->
  all_chars p a = true -> all_chars q a = true.
Proof.
  intros H. induction a as [|x a IH]; cbn [all_chars]; [reflexivity|].
  intros Ha. apply andb_true_iff in Ha. destruct Ha as [Hx Ha].
  rewrite (H x Hx), (IH Ha). reflexivity.
Qed.

End StripFacts.

(* ================================================================== *)
(** * Facts about the rendering and the reading of numbers *)

Section NumberFacts.
Import PyStr PyNum.

(** A fact about every character, settled on the 256 of them. *)
Ltac by_cases_on_char c :=
  destruct c as [[] [] [] [] [] [] [] []]; try discriminate; reflexivity.

Lemma digits_of_uint d :
  all_chars is_digit (NilEmpty.string_of_uint d) = true.
Proof. induction d; cbn [NilEmpty.string_of_uint all_chars]; auto. Qed.

Lemma dec_of_N_digits n : all_chars is_digit (dec_of_N n) = true.
Proof.
  unfold dec_of_N, NilZero.string_of_uint.
  destruct (N.to_uint n); try apply digits_of_uint. reflexivity.
Qed.

Lemma dec_of_N_cons n : exists d ds, dec_of_N n = String d ds.
Proof.
  unfold dec_of_N, NilZero.string_of_uint.
  destruct (N.to_uint n); cbn [NilEmpty.string_of_uint]; eauto.
Qed.

Lemma pad2_digits n : all_chars is_digit (pad2 n) = true.
Proof.
  unfold pad2. destruct (n <? 10)%N; [|apply dec_of_N_digits].
  cbn [append all_chars]. rewrite dec_of_N_digits. reflexivity.
Qed.

Lemma pad2_cons n : exists d ds, pad2 n = String d ds.
Proof.
  unfold pad2. destruct (n <? 10)%N; [cbn [append]; eauto|].
  apply dec_of_N_cons.
Qed.

(** The shape of a rendered float: a special value, or a sign, digits, a
    point and digits. *)
Definition FixedShape (t : string) : Prop :=
  exists (s : bool) (d : ascii) (ds : string) (f : ascii) (fs : string),
    t = (sign_str s ++ String d ds ++ "." ++ String f fs)%string
    /\ all_chars is_digit (String d ds) = true
    /\ all_chars is_digit (String f fs) = true.

Lemma fixed2_shape s h : FixedShape (sign_str s ++ fixed2_of_hundredths h).
Proof.
  unfold fixed2_of_hundredths.
  destruct (dec_of_N_cons (Z.to_N (h / 100))) as (d & ds & Hd).
  destruct (pad2_cons (Z.to_N (h mod 100))) as (f & fs & Hf).
  exists s, d, ds, f, fs. rewrite <- Hd, <- Hf.
  split; [reflexivity|]. split; [apply dec_of_N_digits|apply pad2_digits].
Qed.

Lemma zero_shape s : FixedShape (sign_str s ++ "0.00").
Proof. exists s, "0"%char, ""%string, "0"%char, "0"%string. auto. Qed.

Definition is_finite (x : float) : bool :=
  match Prim2SF x with
  | S754_zero _ | S754_finite _ _ _ => true
  | _ => false
  end.

Lemma fmt_2f_cases x :
  fmt_2f x = "nan"%string \/ fmt_2f x = "inf"%string
  \/ fmt_2f x = "-inf"%string \/ FixedShape (fmt_2f x).
Proof.
  unfold fmt_2f. destruct (Prim2SF x) as [s|s| |s m e].
  - right; right; right. apply zero_shape.
  - destruct s; auto.
  - auto.
  - right; right; right. apply fixed2_shape.
Qed.

Lemma fmt_2f_finite x : is_finite x = true -> FixedShape (fmt_2f x).
Proof.
  unfold is_finite, fmt_2f. destruct (Prim2SF x) as [s|s| |s m e];
    try discriminate; intros _; [apply zero_shape|apply fixed2_shape].
Qed.

(** ** Reading back *)

Lemma read_digits_run w : forall acc cnt b rest,
  all_chars is_digit w = true ->
  head_fails (fun c => is_digit c || ascii_eqb c "_") rest = true ->
  exists acc',
    read_digits acc cnt b (w ++ rest) = (acc', cnt + String.length w, rest).
Proof.
  induction w as [|x w IH]; intros acc cnt b rest Hw Hr.
  - exists acc. cbn [append String.length]. rewrite Nat.add_0_r.
    destruct rest as [|y rest]; [reflexivity|].
    cbn [head_fails] in Hr. apply negb_true_iff, orb_false_iff in Hr.
    destruct Hr as [H1 H2]. cbn [read_digits]. rewrite H1, H2. reflexivity.
  - cbn [all_chars] in Hw. apply andb_true_iff in Hw. destruct Hw as [Hx Hw].
    cbn [append read_digits String.length]. rewrite Hx.
    destruct (IH (acc * 10 + digit_val x)%N (S cnt) true rest Hw Hr)
      as [acc' E].
    exists acc'. rewrite E. f_equal. f_equal. lia.
Qed.

Lemma read_sign_digit d s :
  is_digit d = true -> read_sign (String d s) = (false, String d s).
Proof. intros H. revert H. by_cases_on_char d. Qed.

Lemma lower_digit c : is_digit c || ascii_eqb c "." = true -> lower_char c = c.
Proof. intros H. revert H. by_cases_on_char c. Qed.

Lemma digit_not_letter c :
  is_digit c = true ->
  ascii_eqb c "n" = false /\ ascii_eqb c "i" = false.
Proof. intros H. revert H. split; revert H; by_cases_on_char c. Qed.

Lemma lower_head d s :
  is_digit d = true -> exists t, lower (String d s) = String d t.
Proof.
  intros H. unfold lower. cbn [map_chars].
  rewrite lower_digit by (rewrite H; reflexivity). eauto.
Qed.

(** Digits, a point and digits are read as a float. *)
Lemma parse_magnitude_fixed neg d ds f fs :
  all_chars is_digit (String d ds) = true ->
  all_chars is_digit (String f fs) = true ->
  exists y,
    parse_magnitude neg (String d ds ++ "." ++ String f fs) = Some y.
Proof.
  intros Hd Hf. unfold parse_magnitude.
  pose proof Hd as Hd0. cbn [all_chars] in Hd0.
  apply andb_true_iff in Hd0. destruct Hd0 as [Hd0 _].
  destruct (lower_head d (ds ++ "." ++ String f fs) Hd0) as [t Ht].
  cbn [append] in Ht |- *. rewrite Ht.
  destruct (digit_not_letter d Hd0) as [Hn Hi].
  assert (E1 : String.eqb (String d t) "nan" = false).
  { cbn [String.eqb]. unfold ascii_eqb in Hn. rewrite Hn. reflexivity. }
  assert (E2 : String.eqb (String d t) "inf" = false).
  { cbn [String.eqb]. unfold ascii_eqb in Hi. rewrite Hi. reflexivity. }
  assert (E3 : String.eqb (String d t) "infinity" = false).
  { cbn [String.eqb]. unfold ascii_eqb in Hi. rewrite Hi. reflexivity. }
  rewrite E1, E2, E3. cbn [orb].
  destruct (read_digits_run (String d ds) 0%N 0 false ("." ++ String f fs)
              Hd eq_refl) as [ip Ei].
  cbn [append] in Ei. rewrite Ei.
  destruct (read_digits_run (String f fs) ip 0 false "" Hf eq_refl)
    as [fp Ef].
  rewrite sapp_nil_r in Ef. rewrite Ef.
  cbn [String.length Nat.add read_exponent]. eauto.
Qed.

Lemma head_fails_rev_digits p q w rest :
  (forall c, q c = true -> p c = false) ->
  all_chars q w = true -> w <> ""%string ->
  head_fails p (rev w ++ rest) = true.
Proof.
  intros Hpq Hw Hne. rewrite <- all_chars_rev in Hw.
  destruct w as [|x w]; [congruence|].
  rewrite rev_cons in *. destruct (rev w) as [|y r]; cbn [append] in *;
    cbn [all_chars] in Hw; apply andb_true_iff in Hw; destruct Hw as [H _];
    cbn [head_fails]; rewrite (Hpq _ H); reflexivity.
Qed.

Lemma strip_tidy p s :
  head_fails p s = true -> head_fails p (rev s) = true -> strip_by p s = s.
Proof.
  intros H1 H2. unfold strip_by, rstrip_by.
  rewrite (lstrip_head p s H1), (lstrip_head p _ H2). apply rev_involutive.
Qed.

Lemma digit_not_space c :
  is_digit c = true -> is_c_space c = false /\ is_space c = false.
Proof. intros H. split; revert H; by_cases_on_char c. Qed.

Lemma fixed_shape_tidy p t :
  (forall c, is_digit c = true -> p c = false) -> p "-"%char = false ->
  FixedShape t ->
  head_fails p t = true /\ head_fails p (rev t) = true.
Proof.
  intros Hp Hm (s & d & ds & f & fs & -> & Hd & Hf). split.
  - cbn [all_chars] in Hd. apply andb_true_iff in Hd. destruct Hd as [Hd _].
    destruct s; cbn [sign_str append head_fails];
      [rewrite Hm|rewrite (Hp _ Hd)]; reflexivity.
  - rewrite !rev_app, !sapp_assoc.
    apply (head_fails_rev_digits p is_digit); [exact Hp|exact Hf|discriminate].
Qed.

Lemma py_float_fixed t : FixedShape t -> exists y, py_float t = Some y.
Proof.
  intros Ht. unfold py_float.
  destruct (fixed_shape_tidy is_c_space t) as [H1 H2];
    [intros c Hc; apply (digit_not_space c Hc)|reflexivity|exact Ht|].
  rewrite (strip_tidy _ _ H1 H2).
  destruct Ht as (s & d & ds & f & fs & -> & Hd & Hf).
  destruct s; cbn [sign_str append].
  - cbn [read_sign]. apply (parse_magnitude_fixed true d ds f fs Hd Hf).
  - pose proof Hd as Hd0. cbn [all_chars] in Hd0.
    apply andb_true_iff in Hd0. destruct Hd0 as [Hd0 _].
    rewrite (read_sign_digit d _ Hd0).
    apply (parse_magnitude_fixed false d ds f fs Hd Hf).
Qed.

(** Every rendering of a float with two decimals is read back as a
    float: [float] does not raise on it. *)
Lemma py_float_fmt_2f x : exists y, py_float (fmt_2f x) = Some y.
Proof.
  destruct (fmt_2f_cases x) as [H|[H|[H|H]]]; try (rewrite H; cbv; eauto).
  apply py_float_fixed, H.
Qed.

(** The characters of a rendered float. *)
Definition is_fmt_char (c : ascii) : bool :=
  is_digit c || mem_char c "-.nanif".

Lemma fixed_shape_chars t :
  FixedShape t -> all_chars Re.is_signed_num t = true.
Proof.
  intros (s & d & ds & f & fs & -> & Hd & Hf).
  assert (H : forall w, all_chars is_digit w = true ->
                        all_chars Re.is_signed_num w = true).
  { intros w. apply all_chars_impl. intros c Hc. unfold Re.is_signed_num.
    rewrite Hc, orb_true_r. reflexivity. }
  rewrite !all_chars_app, (H _ Hd), (H _ Hf). destruct s; reflexivity.
Qed.

Lemma fmt_2f_chars x : all_chars is_fmt_char (fmt_2f x) = true.
Proof.
  destruct (fmt_2f_cases x) as [H|[H|[H|H]]]; try (rewrite H; reflexivity).
  apply fixed_shape_chars in H. revert H. apply all_chars_impl.
  intros c. unfold Re.is_signed_num, is_fmt_char. by_cases_on_char c.
Qed.

End NumberFacts.

(* ================================================================== *)
(** * Matching line by line *)

Section LineFacts.
Import PyStr Re.

(** The class of [.]. *)
Definition dot_char (c : ascii) : bool := negb (is_nl c).

Lemma lacks_nl_dot a : lacks "010" a = true -> all_chars dot_char a = true.
Proof.
  apply all_chars_impl. intros c. unfold dot_char, is_nl, ascii_eqb.
  rewrite Ascii.eqb_sym. auto.
Qed.

Lemma no_occ_nl a b : lacks "010" a = true -> no_occ nl a b.
Proof. apply no_occ_lacks. Qed.

(** A greedy repetition of a class, whatever the text: the continuation
    is tried after the longest run first. *)
Fixpoint drop_while (p : ascii -> bool) (s : string) : string :=
  match s with
  | String x s' => if p x then drop_while p s' else s
  | EmptyString => EmptyString
  end.

Fixpoint take_while (p : ascii -> bool) (s : string) : string :=
  match s with
  | String x s' => if p x then String x (take_while p s') else EmptyString
  | EmptyString => EmptyString
  end.

Lemma take_drop_while p s : s = (take_while p s ++ drop_while p s)%string.
Proof.
  induction s as [|x s IH]; [reflexivity|]. cbn [take_while drop_while].
  destruct (p x); [cbn [append]; rewrite <- IH|]; reflexivity.
Qed.

Lemma take_while_all p s : all_chars p (take_while p s) = true.
Proof.
  induction s as [|x s IH]; [reflexivity|]. cbn [take_while].
  destruct (p x) eqn:E; [cbn [all_chars]; rewrite E, IH|]; reflexivity.
Qed.

Lemma drop_while_head p s : head_fails p (drop_while p s) = true.
Proof.
  induction s as [|x s IH]; [reflexivity|]. cbn [drop_while].
  destruct (p x) eqn:E; [exact IH|]. cbn [head_fails]. rewrite E. reflexivity.
Qed.

Lemma rmatch_star_drop p s c k m :
  k (drop_while p s) c = Some m ->
  rmatch (RStar true (RChar p)) s c k = Some m.
Proof.
  intros H. rewrite (take_drop_while p s) at 1.
  apply rmatch_star_run;
    [apply take_while_all|apply drop_while_head|exact H].
Qed.

(** [.*?\n]: the rest of the line. *)
Lemma rmatch_rest_of_line r a b c k m :
  lacks "010" a = true ->
  rmatch r b c k = Some m ->
  rmatch (RSeq (RStar false (RChar dot_char)) (RSeq (RLit nl) r))
    (a ++ nl ++ b) c k = Some m.
Proof.
  intros Ha Hk. rewrite rmatch_seq_eq.
  apply rmatch_lazy_skip; [apply lacks_nl_dot, Ha| |].
  - eapply all_suffixes_impl; [|apply (no_occ_nl a (nl ++ b) Ha)].
    cbv beta. intros s Hs. rewrite rmatch_seq_eq, rmatch_lit_eq, Hs.
    reflexivity.
  - rewrite rmatch_seq_eq, rmatch_lit_app. exact Hk.
Qed.

(** [(.*?)\n]: the rest of the line, captured. *)
Lemma rmatch_line_group i r a b c k m :
  lacks "010" a = true ->
  rmatch r b ((i, a) :: c) k = Some m ->
  rmatch (RSeq (RGroup i (RStar false (RChar dot_char))) (RSeq (RLit nl) r))
    (a ++ nl ++ b) c k = Some m.
Proof.
  intros Ha Hk.
  apply rmatch_group_until;
    [apply lacks_nl_dot, Ha|apply no_occ_nl, Ha|exact Hk].
Qed.

(** A greedy repetition of a body that takes one piece of a list of
    pieces at a time takes them all when the continuation accepts what
    follows and the body does not match there. *)
Lemma star_greedy_pieces body k post m pieces : forall c fuel,
  (forall piece s' c' K m',
     In piece pieces -> K s' c' = Some m' ->
     body (piece ++ s')%string c' K = Some m') ->
  Forall (fun piece => piece <> ""%string) pieces ->
  (forall K, body post c K = None) ->
  k post c = Some m ->
  String.length (concat_map (fun x => x) pieces ++ post) <= fuel ->
  star_loop body true k fuel (concat_map (fun x => x) pieces ++ post) c
  = Some m.
Proof.
  induction pieces as [|piece pieces IH]; intros c fuel Hb Hne Hpost Hk Hf.
  - cbn [concat_map append]. destruct fuel; [exact Hk|].
    rewrite star_loop_greedy, Hpost. exact Hk.
  - inversion Hne as [|? ? Hp Hne']; subst.
    cbn [concat_map] in *. rewrite sapp_assoc in *.
    assert (Hlen : String.length piece > 0).
    { destruct piece; [congruence|cbn; lia]. }
    rewrite length_sapp in Hf. destruct fuel as [|fuel]; [lia|].
    rewrite star_loop_greedy.
    rewrite (Hb piece _ c _ m (or_introl eq_refl)); [reflexivity|].
    assert (Hlt : (String.length (concat_map (fun x => x) pieces ++ post)
                   <? String.length
                        (piece ++ concat_map (fun x => x) pieces ++ post))%nat
                  = true).
    { apply Nat.ltb_lt. rewrite (length_sapp piece). lia. }
    rewrite Hlt. apply IH; auto.
    + intros p s' c' K m' Hin. apply Hb. right. exact Hin.
    + lia.
Qed.

End LineFacts.

(* ================================================================== *)
(** * The confidence table as the extractor reads it *)

Section ConfidenceTable.
Import PyStr PyNum Re Api.

(** The four cells of a line, bars excluded. *)
Definition cells : Type := (string * string * string * string)%type.

Definition line_body (r : cells) : string :=
  let '(c0, c1, c2, c3) := r in
  (c0 ++ "|" ++ c1 ++ "|" ++ c2 ++ "|" ++ c3 ++ "|")%string.

Definition table_line (r : cells) : string := ("|" ++ line_body r)%string.

Definition table_lines (rows : list cells) : string :=
  concat_map (fun r => table_line r ++ nl)%string rows.

Definition status_cell (r : cells) : string := snd r.

Definition cell_ok (c : string) : bool := lacks "|" c && lacks "010" c.

Definition cells_ok (r : cells) : bool :=
  let '(c0, c1, c2, c3) := r in
  cell_ok c0 && cell_ok c1 && cell_ok c2 && cell_ok c3.

(** What [confidence_row] makes of a line. *)
Definition row_reads (r : cells) (rec : ConfidenceRow) : Prop :=
  let '(c0, c1, c2, c3) := r in
  cr_agent rec = strip c0
  /\ py_float (remove_char "%" (strip c1)) = Some (cr_confidence rec)
  /\ py_float (remove_char "%" (strip c2)) = Some (cr_threshold rec)
  /\ cr_status rec
     = (if contains pass_mark (strip c3) then "Pass" else "Fail")%string.

Lemma row_eta (rec : ConfidenceRow) :
  rec = mkConfidenceRow (cr_agent rec) (cr_confidence rec)
          (cr_threshold rec) (cr_status rec).
Proof. destruct rec; reflexivity. Qed.

Lemma cell_ok_split c : cell_ok c = true ->
  lacks "|" c = true /\ lacks "010" c = true.
Proof. unfold cell_ok. apply andb_true_iff. Qed.

Lemma split_table_line c0 c1 c2 c3 :
  cells_ok (c0, c1, c2, c3) = true ->
  split_on "|" (table_line (c0, c1, c2, c3))
  = [""%string; c0; c1; c2; c3; ""%string].
Proof.
  unfold cells_ok. rewrite !andb_true_iff.
  intros [[[H0 H1] H2] H3].
  apply cell_ok_split in H0, H1, H2, H3.
  unfold table_line, line_body.
  change ("|" ++ c0 ++ "|" ++ c1 ++ "|" ++ c2 ++ "|" ++ c3 ++ "|")%string
    with ("" ++ String "|" (c0 ++ String "|" (c1 ++ String "|"
            (c2 ++ String "|" (c3 ++ String "|" "")))))%string.
  rewrite !split_on_app by tauto. reflexivity.
Qed.

Lemma confidence_row_cells r rec :
  cells_ok r = true -> row_reads r rec ->
  confidence_row (table_line r) = Ok (Some rec).
Proof.
  destruct r as [[[c0 c1] c2] c3]. intros Hok (Ha & Hc & Ht & Hs).
  unfold confidence_row. rewrite (split_table_line _ _ _ _ Hok).
  cbn [inner List.tl List.removelast map].
  unfold to_float. rewrite Hc. cbn [bind]. rewrite Ht. cbn [bind].
  rewrite <- Ha, <- Hs. rewrite <- row_eta. reflexivity.
Qed.

Lemma collect_rows_lines rows : forall recs,
  Forall (fun r => cells_ok r = true) rows -> Forall2 row_reads rows recs ->
  collect_rows (map table_line rows) = Ok recs.
Proof.
  induction rows as [|r rows IH]; intros recs Hok Hrd;
    inversion Hrd; subst; [reflexivity|].
  inversion Hok; subst. cbn [map collect_rows].
  rewrite (confidence_row_cells r y) by assumption. cbn [bind].
  rewrite (IH l') by assumption. reflexivity.
Qed.

Lemma lacks_line r : cells_ok r = true -> lacks "010" (line_body r) = true.
Proof.
  destruct r as [[[c0 c1] c2] c3]. unfold cells_ok.
  rewrite !andb_true_iff. intros [[[H0 H1] H2] H3].
  apply cell_ok_split in H0, H1, H2, H3. unfold line_body.
  rewrite !lacks_app. destruct H0 as [_ ->], H1 as [_ ->], H2 as [_ ->],
    H3 as [_ ->]. reflexivity.
Qed.

Lemma join_cons sep x y (l : list string) :
  join sep (x :: y :: l) = (x ++ sep ++ join sep (y :: l))%string.
Proof. reflexivity. Qed.

Lemma split_join lines :
  lines <> [] -> Forall (fun l => lacks "010" l = true) lines ->
  split_on "010" (join nl lines) = lines.
Proof.
  induction lines as [|x [|y lines] IH]; intros Hne Hl; [congruence| |].
  - inversion Hl; subst. cbn [join]. apply split_on_lacks. assumption.
  - inversion Hl; subst. rewrite join_cons.
    change (x ++ nl ++ join nl (y :: lines))%string
      with (x ++ String "010" (join nl (y :: lines)))%string.
    rewrite split_on_app by assumption. f_equal. apply IH; [discriminate|].
    assumption.
Qed.

Lemma table_lines_join rows :
  rows <> [] ->
  table_lines rows = (join nl (map table_line rows) ++ nl)%string.
Proof.
  unfold table_lines.
  induction rows as [|r [|r' rows] IH]; intros Hne; [congruence| |].
  - cbn [concat_map map join]. apply sapp_nil_r.
  - cbn [map]. rewrite join_cons.
    change (concat_map (fun r0 => (table_line r0 ++ nl)%string) (r :: r' :: rows))
      with ((table_line r ++ nl)
            ++ concat_map (fun r0 => (table_line r0 ++ nl)%string) (r' :: rows))%string.
    rewrite IH by discriminate. cbn [map].
    rewrite !sapp_assoc. reflexivity.
Qed.

Lemma join_ends_with_bar rows :
  rows <> [] ->
  exists a, join nl (map table_line rows) = ("|" ++ a ++ "|")%string.
Proof.
  induction rows as [|r [|r' rows] IH]; intros Hne; [congruence| |].
  - destruct r as [[[c0 c1] c2] c3]. cbn [map join].
    exists (c0 ++ "|" ++ c1 ++ "|" ++ c2 ++ "|" ++ c3)%string.
    unfold table_line, line_body. rewrite !sapp_assoc. reflexivity.
  - destruct IH as [a Ha]; [discriminate|]. cbn [map] in *.
    rewrite join_cons, Ha. exists (line_body r ++ nl ++ "|" ++ a)%string.
    unfold table_line. rewrite !sapp_assoc. reflexivity.
Qed.

Lemma strip_table_lines rows :
  rows <> [] -> strip (table_lines rows) = join nl (map table_line rows).
Proof.
  intros Hne. rewrite (table_lines_join rows Hne).
  destruct (join_ends_with_bar rows Hne) as [a ->].
  change ("|" ++ a ++ "|")%string with (String "|" (a ++ String "|" "")).
  change (String "|" (a ++ String "|" ""))
    with (String "|" a ++ String "|" "")%string.
  apply (strip_padded is_space "" (String "|" a) "|" nl); reflexivity.
Qed.

(** ** The table pattern on the table text *)

Definition line_pattern : regex :=
  RSeq (RLit "|") (RSeq (RStar false (RChar dot_char)) (RLit nl)).

Lemma rmatch_line content s c k m :
  lacks "010" content = true -> k s c = Some m ->
  rmatch line_pattern ("|" ++ content ++ nl ++ s) c k = Some m.
Proof.
  intros Hc Hk. unfold line_pattern.
  rewrite rmatch_seq_eq, rmatch_lit_app, rmatch_seq_eq.
  apply rmatch_lazy_skip; [apply lacks_nl_dot, Hc| |].
  - eapply all_suffixes_impl; [|apply (no_occ_nl content (nl ++ s) Hc)].
    cbv beta. intros t Ht. rewrite rmatch_lit_eq, Ht. reflexivity.
  - rewrite rmatch_lit_app. exact Hk.
Qed.

Lemma concat_map_map {A} (f : A -> string) xs :
  concat_map (fun x => x) (map f xs) = concat_map f xs.
Proof.
  induction xs as [|x xs IH]; cbn [map concat_map]; [|rewrite IH];
    reflexivity.
Qed.

Definition is_bar (c : ascii) : bool := ascii_eqb c "|".

Lemma line_pattern_needs_bar post c k :
  head_fails is_bar post = true -> rmatch line_pattern post c k = None.
Proof.
  intros H. unfold line_pattern. rewrite rmatch_seq_eq, rmatch_lit_eq.
  destruct post as [|x post]; [reflexivity|]. cbn [head_fails] in H.
  cbn [drop_prefix]. unfold is_bar, ascii_eqb in *.
  rewrite Ascii.eqb_sym. destruct (Ascii.eqb x "|"); [discriminate|].
  reflexivity.
Qed.

(** The captured group [((?:\|.*?\n)+)] takes every line of the table. *)
Lemma rmatch_table_rows rows post c k m :
  rows <> [] -> Forall (fun r => cells_ok r = true) rows ->
  head_fails is_bar post = true ->
  k post ((1, table_lines rows) :: c) = Some m ->
  rmatch (RGroup 1 (RSeq line_pattern (RStar true line_pattern)))
    (table_lines rows ++ post) c k = Some m.
Proof.
  intros Hne Hok Hpost Hk. destruct rows as [|r rows]; [congruence|].
  inversion Hok as [|? ? Hr Hrows]; subst.
  rewrite rmatch_group_eq.
  match goal with
  | |- rmatch _ _ _ ?K0 = _ => set (K := K0)
  end.
  assert (HK : K post c = Some m).
  { unfold K. rewrite consumed_app. exact Hk. }
  clearbody K. rewrite rmatch_seq_eq.
  unfold table_lines. cbn [concat_map]. fold (table_lines rows).
  unfold table_line at 1. rewrite !sapp_assoc.
  apply rmatch_line; [apply lacks_line, Hr|].
  rewrite rmatch_star_eq.
  unfold table_lines. rewrite <- concat_map_map.
  apply star_greedy_pieces.
  - intros piece s' c' K' m' Hin HK'. apply in_map_iff in Hin.
    destruct Hin as (r' & <- & Hin). unfold table_line.
    rewrite !sapp_assoc. apply rmatch_line; [|exact HK'].
    rewrite Forall_forall in Hrows. apply lacks_line, Hrows, Hin.
  - apply Forall_forall. intros piece Hin. apply in_map_iff in Hin.
    destruct Hin as (r' & <- & _). unfold table_line. discriminate.
  - intros K'. apply line_pattern_needs_bar, Hpost.
  - exact HK.
  - lia.
Qed.

End ConfidenceTable.

Section ConfidenceTableMatch.
Import PyStr PyNum Re Api.

(** Evaluates a function of the text on its known beginning. *)
Ltac eval_on_text f :=
  match goal with
  | |- context [f ?a ?s] =>
      let v := eval cbv in (f a s) in change (f a s) with v
  end.

Ltac lit_step :=
  rewrite rmatch_seq_eq, rmatch_lit_eq; eval_on_text drop_prefix; cbv iota beta.

Ltac ws_step :=
  rewrite rmatch_seq_eq; apply rmatch_star_drop; eval_on_text drop_while;
  cbv beta.

Lemma match_table rows post :
  rows <> [] -> Forall (fun r => cells_ok r = true) rows ->
  head_fails is_bar post = true ->
  match_at re_table (Report.table_header ++ table_lines rows ++ post)
  = Some (post, [(1, table_lines rows)]).
Proof.
  intros Hne Hok Hpost.
  pose proof (rmatch_table_rows rows post [] (fun s' c' => Some (s', c'))
                (post, [(1, table_lines rows)]) Hne Hok Hpost eq_refl) as HT.
  remember (table_lines rows ++ post)%string as T eqn:ET.
  unfold match_at, re_table.
  change (grp 1 (plus (seq [lit "|"; lazy dot; lit nl])))
    with (RGroup 1 (RSeq line_pattern (RStar true line_pattern))).
  cbv [seq lit star lazy ws Report.table_header].
  change (("| Agent | Confidence | Threshold | Status |" ++ nl
           ++ "|-------|-----------|-----------|--------|" ++ nl) ++ T)%string
    with ("| Agent | Confidence | Threshold | Status |" ++ nl
          ++ "|-------|-----------|-----------|--------|" ++ nl ++ T)%string.
  cbv [append nl].
  lit_step. ws_step. lit_step. ws_step. lit_step. ws_step. lit_step.
  apply (rmatch_rest_of_line _ " | Threshold | Status |"); [reflexivity|].
  lit_step.
  apply (rmatch_rest_of_line _ "-------|-----------|-----------|--------|");
    [reflexivity|].
  exact HT.
Qed.

Lemma re_table_headed : lit_headed "|" re_table.
Proof. apply lit_headed_seq. Qed.

(** The extractor on a report whose table has the lines [rows], after a
    text without a bar. *)
Lemma extract_table pre rows post recs :
  lacks "|" pre = true -> rows <> [] ->
  Forall (fun r => cells_ok r = true) rows ->
  head_fails is_bar post = true ->
  Forall2 row_reads rows recs ->
  extract_confidence_summary
    (pre ++ Report.table_header ++ table_lines rows ++ post)
  = Ok recs.
Proof.
  intros Hpre Hne Hok Hpost Hrd. unfold extract_confidence_summary.
  rewrite (search_skip "|" re_table pre _ re_table_headed)
    by (apply no_occ_lacks, Hpre).
  rewrite (search_here _ _ _ (match_table rows post Hne Hok Hpost)).
  unfold group. cbn [snd lookup Nat.eqb].
  rewrite (strip_table_lines rows Hne), split_join.
  - apply collect_rows_lines; assumption.
  - destruct rows; [congruence|discriminate].
  - apply Forall_forall. intros l Hin. apply in_map_iff in Hin.
    destruct Hin as (r & <- & Hin). rewrite Forall_forall in Hok.
    unfold table_line. rewrite lacks_app, (lacks_line r (Hok r Hin)).
    reflexivity.
Qed.

End ConfidenceTableMatch.

Section FormattedTable.
Import PyStr PyNum Re Api.

Ltac by_cases_on_char c :=
  destruct c as [[] [] [] [] [] [] [] []]; try discriminate; reflexivity.

Lemma remove_char_lacks c t : lacks c t = true -> remove_char c t = t.
Proof.
  unfold lacks. induction t as [|x t IH]; cbn [all_chars remove_char];
    [reflexivity|].
  intros H. apply andb_true_iff in H. destruct H as [Hx Ht].
  unfold ascii_eqb in *. rewrite Ascii.eqb_sym.
  destruct (Ascii.eqb c x); [discriminate|]. rewrite (IH Ht). reflexivity.
Qed.

Lemma remove_char_app c a b :
  remove_char c (a ++ b) = (remove_char c a ++ remove_char c b)%string.
Proof.
  induction a as [|x a IH]; cbn [append remove_char]; [reflexivity|].
  destruct (ascii_eqb x c); rewrite IH; reflexivity.
Qed.

Lemma fmt_2f_lacks x c :
  is_fmt_char c = false -> lacks c (fmt_2f x) = true.
Proof.
  intros Hc. unfold lacks. eapply all_chars_impl; [|apply fmt_2f_chars].
  intros y Hy. unfold ascii_eqb. destruct (Ascii.eqb_spec c y); [|reflexivity].
  subst. rewrite Hc in Hy. discriminate.
Qed.

Lemma fmt_2f_head x rest : head_fails is_space (fmt_2f x ++ rest) = true.
Proof.
  destruct (fmt_2f_cases x) as [H|[H|[H|H]]]; try (rewrite H; reflexivity).
  destruct (fixed_shape_tidy is_space (fmt_2f x)) as [H1 _];
    [intros c Hc; apply (digit_not_space c Hc)|reflexivity|exact H|].
  destruct H as (s & d & ds & f & fs & E & _). rewrite E in *.
  destruct s; cbn [sign_str append head_fails] in *; exact H1.
Qed.

(** The cell of a percentage is read back as a float. *)
Lemma percent_cell_reads x :
  exists y,
    py_float (remove_char "%" (strip (" " ++ fmt_pct x ++ " "))) = Some y.
Proof.
  unfold fmt_pct. set (t := fmt_2f (PrimFloat.mul x 100)).
  assert (E : strip (" " ++ (t ++ "%") ++ " ") = (t ++ "%")%string).
  { apply (strip_padded is_space " " t "%" " "); try reflexivity.
    apply fmt_2f_head. }
  rewrite E, remove_char_app, remove_char_lacks
    by (apply fmt_2f_lacks; reflexivity).
  cbn [remove_char ascii_eqb Ascii.eqb Bool.eqb]. rewrite sapp_nil_r.
  apply py_float_fmt_2f.
Qed.

Lemma fmt_pct_cell_ok x : cell_ok (" " ++ fmt_pct x ++ " ") = true.
Proof.
  unfold cell_ok, fmt_pct. rewrite !lacks_app.
  rewrite !fmt_2f_lacks by reflexivity. reflexivity.
Qed.

(** The cells of a row of the formatter. *)
Definition formatted_cells (row : string * float * float) : cells :=
  let '(name, c, t) := row in
  ((" " ++ name ++ " ")%string, (" " ++ fmt_pct c ++ " ")%string,
   (" " ++ fmt_pct t ++ " ")%string,
   (" " ++ Report.guardrail_status c t ++ " ")%string).

Lemma table_row_cells name c t :
  Report.table_row name c t
  = (table_line (formatted_cells (name, c, t)) ++ nl)%string.
Proof.
  unfold Report.table_row, table_line, line_body, formatted_cells.
  rewrite !sapp_assoc. reflexivity.
Qed.

(** The agents that have a result, with confidence and threshold. *)
Definition present_rows
    (sent : option SentimentAnalysisResult.t)
    (events : option SignificantEventDetectionResult.t)
    (vol : option VolatilityPredictionResult.t)
  : list (string * float * float) :=
  (match sent with
   | Some s => [("Sentiment Analysis"%string,
                 SentimentAnalysisResult.confidence s, 0.65%float)]
   | None => []
   end
   ++ match events with
      | Some e => [("Event Detection"%string,
                    SignificantEventDetectionResult.confidence e, 0.7%float)]
      | None => []
      end
   ++ match vol with
      | Some v => [("Volatility Prediction"%string,
                    VolatilityPredictionResult.confidence v, 0.6%float)]
      | None => []
      end)%list.

Definition agent_names : list string :=
  ["Sentiment Analysis"; "Event Detection"; "Volatility Prediction"]%string.

Lemma present_rows_names sent events vol :
  Forall (fun row => In (fst (fst row)) agent_names)
    (present_rows sent events vol).
Proof.
  unfold present_rows, agent_names.
  destruct sent, events, vol; cbn [app];
    repeat (apply Forall_cons; [cbn; tauto|]); constructor.
Qed.

Lemma formatted_table sent events vol :
  Report.confidence_table get_default_self_model sent events vol
  = Ok (Report.table_header
        ++ table_lines (map formatted_cells (present_rows sent events vol)))%string.
Proof.
  rewrite confidence_table_default. f_equal. f_equal.
  unfold present_rows, opt_row, table_lines.
  destruct sent, events, vol; cbn [option_map app map concat_map];
    rewrite ?table_row_cells, ?sapp_nil_r; reflexivity.
Qed.

Lemma formatted_cells_ok row :
  In (fst (fst row)) agent_names -> cells_ok (formatted_cells row) = true.
Proof.
  destruct row as [[name c] t]. cbn [fst formatted_cells cells_ok].
  intros Hn. rewrite !fmt_pct_cell_ok.
  assert (Hs : cell_ok (" " ++ Report.guardrail_status c t ++ " ") = true).
  { unfold Report.guardrail_status. destruct (float_ge c t); reflexivity. }
  rewrite Hs.
  destruct Hn as [<-|[<-|[<-|[]]]]; reflexivity.
Qed.

(** A row of the formatter is read without error, and its status is
    read as a failure whatever the formatter wrote: neither of its two
    status texts holds the mark the extractor looks for. *)
Lemma formatted_row_reads row :
  In (fst (fst row)) agent_names ->
  exists rec,
    row_reads (formatted_cells row) rec /\ cr_status rec = "Fail"%string.
Proof.
  destruct row as [[name c] t]. cbn [fst formatted_cells]. intros Hn.
  destruct (percent_cell_reads c) as [yc Hc].
  destruct (percent_cell_reads t) as [yt Ht].
  exists (mkConfidenceRow (strip (" " ++ name ++ " ")) yc yt "Fail").
  split; [|reflexivity]. unfold row_reads. cbn [cr_agent cr_confidence
    cr_threshold cr_status].
  split; [reflexivity|]. split; [exact Hc|]. split; [exact Ht|].
  unfold Report.guardrail_status. destruct (float_ge c t); reflexivity.
Qed.

Lemma formatted_rows_read rows :
  Forall (fun row => In (fst (fst row)) agent_names) rows ->
  exists recs,
    Forall2 row_reads (map formatted_cells rows) recs
    /\ Forall (fun rec => cr_status rec = "Fail"%string) recs
    /\ List.length recs = List.length rows.
Proof.
  induction rows as [|row rows IH]; intros H.
  - exists []. repeat constructor.
  - inversion H as [|? ? Hrow Hrows]; subst.
    destruct (IH Hrows) as (recs & H1 & H2 & H4).
    destruct (formatted_row_reads row Hrow) as (rec & Hr & Hs).
    exists (rec :: recs). cbn [map List.length].
    repeat constructor; auto.
Qed.

Definition report_tail : string :=
  (Report.rule "Disclaimers" ++ Report.disclaimers get_default_self_model)%string.

Lemma no_table_without_rows :
  search re_table (Report.table_header ++ report_tail) = None.
Proof. vm_compute. reflexivity. Qed.

(** C4. The extractor of the confidence table reads the status of a row
    as "Pass" exactly when the stripped status cell contains the
    character sequence that api.py tests for; a row whose cell does not
    contain it is read as "Fail", and reading the rows raises no error.
    The formatter writes the check mark U+2713, which is not that
    sequence, so every row of every table of the formatter is read as
    "Fail". *)
Theorem pass_status_needs_exact_mark :
  (forall pre post rows recs,
      lacks "|" pre = true -> head_fails is_bar post = true ->
      rows <> [] -> Forall (fun r => cells_ok r = true) rows ->
      Forall2 row_reads rows recs ->
      extract_confidence_summary
        (pre ++ Report.table_header ++ table_lines rows ++ post)
      = Ok recs)
  /\ (forall r rec,
        row_reads r rec ->
        (cr_status rec = "Pass"%string
         <-> contains pass_mark (strip (status_cell r)) = true))
  /\ (forall r rec,
        row_reads r rec -> contains pass_mark (status_cell r) = false ->
        cr_status rec = "Fail"%string)
  /\ (forall pre sent events vol table,
        lacks "|" pre = true ->
        Report.confidence_table get_default_self_model sent events vol
        = Ok table ->
        exists recs,
          extract_confidence_summary (pre ++ table ++ report_tail) = Ok recs
          /\ Forall (fun rec => cr_status rec = "Fail"%string) recs
          /\ List.length recs
             = List.length (present_rows sent events vol)).
Proof.
  split; [intros; apply extract_table; assumption|].
  split.
  { intros [[[c0 c1] c2] c3] rec (_ & _ & _ & Hs). cbn [status_cell snd].
    rewrite Hs. destruct (contains pass_mark (strip c3)); split;
      intros; try reflexivity; discriminate. }
  split.
  { intros [[[c0 c1] c2] c3] rec (_ & _ & _ & Hs) Hc.
    cbn [status_cell snd] in Hc. rewrite Hs.
    destruct (contains pass_mark (strip c3)) eqn:E; [|reflexivity].
    apply contains_strip in E. rewrite E in Hc. discriminate. }
  intros pre sent events vol table Hpre Htab.
  rewrite formatted_table in Htab. apply Ok_inj in Htab. subst table.
  destruct (formatted_rows_read _ (present_rows_names sent events vol))
    as (recs & Hrd & Hfail & Hlen).
  exists recs. split; [|split; assumption].
  destruct (present_rows sent events vol) as [|row rows] eqn:Erows.
  - inversion Hrd; subst. cbn [map table_lines concat_map].
    rewrite sapp_nil_r. unfold extract_confidence_summary.
    rewrite (search_skip "|" re_table pre _ re_table_headed)
      by (apply no_occ_lacks, Hpre).
    rewrite no_table_without_rows. reflexivity.
  - rewrite sapp_assoc.
    apply extract_table; [exact Hpre|discriminate| |reflexivity|exact Hrd].
    apply Forall_forall. intros r Hin. apply in_map_iff in Hin.
    destruct Hin as (row' & <- & Hin). apply formatted_cells_ok.
    pose proof (present_rows_names sent events vol) as Hn.
    rewrite Erows, Forall_forall in Hn. apply Hn, Hin.
Qed.

End FormattedTable.

(* ================================================================== *)
(** * Defaults of the extractor *)

Section Defaults.
Import PyStr PyNum Re Api.

(** Splits a hypothesis [x <- m ;; k = Ok r] on the outcome of [m]. *)
Ltac split_bind H :=
  repeat match type of H with
         | bind ?m _ = Ok _ =>
             let E := fresh "E" in
             destruct m eqn:E; cbn [bind] in H; [|discriminate H]
         end.

Lemma search1_none r content :
  search r content = None -> search1 r content = None.
Proof. unfold search1. intros ->. reflexivity. Qed.

Lemma opt_conv_none {A} (conv : string -> except A) v o :
  v = None -> opt_conv conv v = Ok o -> o = None.
Proof. intros -> H. cbn in H. apply Ok_inj in H. auto. Qed.

(** The keys of the metadata follow the matches of their patterns. *)
Lemma extract_metadata_keys content md :
  _extract_metadata content = Ok md ->
  md_ticker md = search1 re_ticker content
  /\ md_generated md = search1 re_generated content
  /\ md_sentiment md = search1 re_sentiment content
  /\ md_total_events md = option_map py_int (search1 re_total_events content)
  /\ md_verified_events md
     = option_map py_int (search1 re_verified_events content)
  /\ md_predicted_volatility md = search1 re_predicted_volatility content
  /\ opt_conv to_float (search1 re_score content) = Ok (md_score md)
  /\ opt_conv to_float (search1 re_confidence content) = Ok (md_confidence md)
  /\ opt_conv to_float (search1 re_volatility_score content)
     = Ok (md_volatility_score md)
  /\ opt_conv to_float (search1 re_historical_volatility content)
     = Ok (md_historical_volatility md).
Proof.
  unfold _extract_metadata. intros H. split_bind H.
  apply Ok_inj in H. subst md. cbn. repeat split; reflexivity.
Qed.

(** Every numeric label that matches captures a text that [float]
    accepts. *)
Definition numeral_ok (r : regex) (content : string) : bool :=
  match search1 r content with
  | Some t => match py_float t with Some _ => true | None => false end
  | None => true
  end.

Definition numerals_ok (content : string) : bool :=
  numeral_ok re_score content && numeral_ok re_confidence content
  && numeral_ok re_volatility_score content
  && numeral_ok re_historical_volatility content.

Lemma numeral_ok_conv r content :
  numeral_ok r content = true ->
  exists o, opt_conv to_float (search1 r content) = Ok o.
Proof.
  unfold numeral_ok, opt_conv, to_float.
  destruct (search1 r content) as [t|]; [|eauto].
  destruct (py_float t); [cbn; eauto|discriminate].
Qed.

Lemma extract_metadata_returns content :
  numerals_ok content = true -> exists md, _extract_metadata content = Ok md.
Proof.
  unfold numerals_ok. rewrite !andb_true_iff. intros [[[H1 H2] H3] H4].
  apply numeral_ok_conv in H1, H2, H3, H4.
  destruct H1 as [o1 E1], H2 as [o2 E2], H3 as [o3 E3], H4 as [o4 E4].
  unfold _extract_metadata. rewrite E1, E2, E3, E4. cbn [bind]. eauto.
Qed.


(** A sentiment report without its Score line. *)
Definition report_without_score : string :=
  "# Sentiment Analysis Report

**Ticker:** ACME  
**Generated:** 2025-01-02 03:04:05  
**Agent:** Sentiment Analysis Agent

---

## Overall Assessment

- **Sentiment:** negative
- **Confidence:** 72.00%

## Market Sentiment

Analysts are wary.

## Key Sentiment Drivers

- margins
".


(** The same report with a confidence that is not a number. *)
Definition report_with_bad_confidence : string :=
  "# Sentiment Analysis Report

**Ticker:** ACME  
**Generated:** 2025-01-02 03:04:05  
**Agent:** Sentiment Analysis Agent

---

## Overall Assessment

- **Sentiment:** negative
- **Confidence:** 7.2.0%

## Market Sentiment

Analysts are wary.
".


(** ** Event counts *)


(** An event report with one event section and no summary lines. *)
Definition events_without_summary : string :=
  "# Event Detection Report

**Ticker:** ACME  
**Generated:** 2025-01-02 03:04:05  
**Agent:** Significant Event Detection Agent

---

## Detected Events


### Event 1: merger

- **Description:** Acquired a rival
- **Mentioned in Call:** Yes
- **Verified:** Yes
- **Source:** transcript
- **Impact:** HIGH

".


Definition counts_of (r : except EventsData) : option (Z * Z * nat) :=
  match r with
  | Ok e => Some (ed_total_events e, ed_verified_events e,
                  List.length (ed_events e))
  | Raise _ => None
  end.


End Defaults.

(* ================================================================== *)
(** * Searching a report for a label or a section *)

Section SearchFacts.
Import PyStr PyNum Re Api.

(** The literal [l] starts nowhere inside [a], whatever follows [a]. *)
Definition free (l a : string) : Prop := forall b, no_occ l a b.

Lemma free_app l a1 a2 : free l a1 -> free l a2 -> free l (a1 ++ a2).
Proof. intros H1 H2 b. apply no_occ_app; [apply H1|apply H2]. Qed.

Lemma free_nil l : free l "".
Proof. intros b. exact I. Qed.

Lemma free_lit l a : no_occ_b l a = true -> free l a.
Proof. intros H b. apply no_occ_of_b, H. Qed.

Lemma free_lacks x l a : lacks x a = true -> free (String x l) a.
Proof. intros H b. apply no_occ_lacks, H. Qed.

Lemma free_concat_map {A} l (f : A -> string) xs :
  (forall x, In x xs -> free l (f x)) -> free l (concat_map f xs).
Proof.
  induction xs as [|x xs IH]; intros H; cbn [concat_map]; [apply free_nil|].
  apply free_app; [apply H; left; reflexivity|].
  apply IH. intros y Hy. apply H. right. exact Hy.
Qed.

Lemma search_free l r a b :
  lit_headed l r -> free l a -> search r (a ++ b) = search r b.
Proof. intros Hr Ha. apply (search_skip l r a b Hr (Ha b)). Qed.

Lemma search_absent x l r a :
  lit_headed (String x l) r -> free (String x l) a -> search r a = None.
Proof.
  intros Hr Ha. rewrite <- (sapp_nil_r a), (search_free _ r a "" Hr Ha).
  cbn [search]. unfold match_at. rewrite Hr; reflexivity.
Qed.

(** The first occurrence of a literal in a text: what precedes it and
    what follows it. *)
Fixpoint find_lit (l p : string) : option (string * string) :=
  match drop_prefix l p with
  | Some b => Some (EmptyString, b)
  | None =>
      match p with
      | EmptyString => None
      | String x p' =>
          match find_lit l p' with
          | Some (a, b) => Some (String x a, b)
          | None => None
          end
      end
  end.

Lemma drop_prefix_some l : forall s s',
  drop_prefix l s = Some s' -> s = (l ++ s')%string.
Proof.
  induction l as [|x l IH]; intros s s' H; cbn [drop_prefix] in H.
  - apply (f_equal (fun o => match o with Some t => t | None => s end)) in H.
    exact H.
  - destruct s as [|y s]; [discriminate|].
    unfold ascii_eqb in H. destruct (Ascii.eqb_spec x y) as [->|];
      [|discriminate].
    cbn [append]. f_equal. apply IH, H.
Qed.

Lemma drop_prefix_none_app l : forall s t,
  drop_prefix l s = None -> String.length l <= String.length s ->
  drop_prefix l (s ++ t) = None.
Proof.
  induction l as [|x l IH]; intros s t H Hlen; cbn [drop_prefix] in *;
    [discriminate|].
  destruct s as [|y s]; [cbn in Hlen; lia|]. cbn [append].
  destruct (ascii_eqb x y); [|reflexivity].
  apply IH; [exact H|]. cbn in Hlen. lia.
Qed.

Lemma find_lit_spec l : forall p a b,
  find_lit l p = Some (a, b) ->
  p = (a ++ l ++ b)%string /\ forall t, no_occ l a (l ++ b ++ t).
Proof.
  induction p as [|x p IH]; intros a b H; cbn [find_lit] in H.
  - destruct (drop_prefix l "") as [b'|] eqn:E; [|discriminate].
    apply drop_prefix_some in E.
    injection H as <- <-. split; [exact E|]. intros t. exact I.
  - destruct (drop_prefix l (String x p)) as [b'|] eqn:E.
    + apply drop_prefix_some in E. injection H as <- <-.
      split; [exact E|]. intros t. exact I.
    + destruct (find_lit l p) as [[a0 b0]|] eqn:F; [|discriminate].
      injection H as <- <-. destruct (IH a0 b0 eq_refl) as [Hp Hn].
      split; [cbn [append]; f_equal; exact Hp|].
      intros t. unfold no_occ. cbn [all_suffixes]. split; [|apply Hn].
      replace (String x a0 ++ l ++ b0 ++ t)%string
        with (String x p ++ t)%string.
      * apply drop_prefix_none_app; [exact E|].
        rewrite Hp. cbn [String.length]. rewrite !length_sapp. lia.
      * rewrite Hp. cbn [append]. f_equal. rewrite !sapp_assoc. reflexivity.
Qed.

Lemma search_find l r p a b t :
  lit_headed l r -> find_lit l p = Some (a, b) ->
  search r (p ++ t) = search r (l ++ b ++ t).
Proof.
  intros Hr H. destruct (find_lit_spec l p a b H) as [-> Hn].
  rewrite !sapp_assoc. apply (search_skip l); [exact Hr|apply Hn].
Qed.

(** ** Runs of a class *)

Lemma drop_while_fails p s : head_fails p s = true -> drop_while p s = s.
Proof.
  destruct s as [|x s]; cbn [head_fails drop_while]; [reflexivity|].
  destruct (p x); [discriminate|reflexivity].
Qed.

Lemma drop_while_all p a s :
  all_chars p a = true -> drop_while p (a ++ s) = drop_while p s.
Proof.
  induction a as [|x a IH]; cbn [all_chars append drop_while];
    [reflexivity|].
  intros H. apply andb_true_iff in H. destruct H as [Hx Ha].
  rewrite Hx. apply IH, Ha.
Qed.

Lemma take_while_run p v rest :
  all_chars p v = true -> head_fails p rest = true ->
  take_while p (v ++ rest) = v.
Proof.
  induction v as [|x v IH]; cbn [all_chars append]; intros Hv Hr.
  - destruct rest as [|y rest]; [reflexivity|].
    cbn [head_fails] in Hr. cbn [take_while].
    destruct (p y); [discriminate|reflexivity].
  - apply andb_true_iff in Hv. destruct Hv as [Hx Hv].
    cbn [take_while]. rewrite Hx, IH; auto.
Qed.

Lemma drop_while_run p v rest :
  all_chars p v = true -> head_fails p rest = true ->
  drop_while p (v ++ rest) = rest.
Proof.
  intros Hv Hr. rewrite drop_while_all by exact Hv.
  apply drop_while_fails, Hr.
Qed.

(** ** A labelled value *)

Definition label_lit (label : string) : string := "**" ++ label ++ ":**".

Definition final : string -> caps -> option match_obj :=
  fun s c => Some (s, c).

Lemma label_re_headed label value suffix :
  lit_headed (label_lit label) (label_re label value suffix).
Proof. unfold label_re. cbn [seq]. apply lit_headed_seq. Qed.

(** The value after a label: white space is passed, the longest run of
    the class is captured, and the suffix must follow. *)
Lemma match_label label p sfx pad v rest m :
  all_chars is_space pad = true ->
  v <> ""%string -> all_chars p v = true ->
  head_fails is_space v = true -> head_fails p rest = true ->
  rmatch sfx rest [(1, v)] final = Some m ->
  match_at (label_re label (plus (RChar p)) sfx)
    (label_lit label ++ pad ++ v ++ rest)
  = Some m.
Proof.
  intros Hpad Hne Hv Hsp Hrest Hm.
  unfold match_at, label_re, lit, star, grp, ws. cbn [seq].
  rewrite rmatch_seq_eq. unfold label_lit. rewrite rmatch_lit_app.
  rewrite rmatch_seq_eq. apply rmatch_star_drop.
  rewrite drop_while_all by exact Hpad.
  rewrite drop_while_fails.
  2:{ destruct v as [|x w]; [congruence|]. exact Hsp. }
  rewrite rmatch_seq_eq. destruct v as [|x w]; [congruence|].
  apply rmatch_group_run; [exact Hv|exact Hrest|exact Hm].
Qed.

(** A label inside the literal piece [piece], followed by its value. *)
Lemma search1_label label p piece a pad v rest :
  find_lit (label_lit label) piece = Some (a, pad) ->
  all_chars is_space pad = true ->
  v <> ""%string -> all_chars p v = true ->
  head_fails is_space v = true -> head_fails p rest = true ->
  search1 (label_re label (plus (RChar p)) REps) (piece ++ v ++ rest)
  = Some v.
Proof.
  intros Hf Hpad Hne Hv Hsp Hrest. unfold search1.
  rewrite (search_find _ _ _ _ _ (v ++ rest)
             (label_re_headed label _ _) Hf).
  rewrite (search_here _ _ (rest, [(1, v)])); [reflexivity|].
  apply match_label; auto.
Qed.

Lemma search1_label_percent label p piece a pad v rest :
  find_lit (label_lit label) piece = Some (a, pad) ->
  all_chars is_space pad = true ->
  v <> ""%string -> all_chars p v = true ->
  head_fails is_space v = true -> p "%"%char = false ->
  search1 (label_re label (plus (RChar p)) (lit "%"))
    (piece ++ v ++ "%" ++ rest)
  = Some v.
Proof.
  intros Hf Hpad Hne Hv Hsp Hp. unfold search1.
  rewrite (search_find _ _ _ _ _ (v ++ "%" ++ rest)
             (label_re_headed label _ _) Hf).
  rewrite (search_here _ _ (rest, [(1, v)])); [reflexivity|].
  apply match_label; auto.
  cbn [append head_fails]. rewrite Hp. reflexivity.
Qed.

Lemma search1_free label value sfx a b :
  free (label_lit label) a ->
  search1 (label_re label value sfx) (a ++ b)
  = search1 (label_re label value sfx) b.
Proof.
  intros H. unfold search1.
  rewrite (search_free _ _ a b (label_re_headed label _ _) H). reflexivity.
Qed.

Lemma search1_absent label value sfx a :
  free (label_lit label) a ->
  search1 (label_re label value sfx) a = None.
Proof.
  intros H. unfold search1.
  rewrite (search_absent "*" ("*" ++ label ++ ":**") _ a
             (label_re_headed label _ _) H).
  reflexivity.
Qed.

(** ** A section *)

Definition section_head (title : string) : string :=
  "## " ++ title ++ nl ++ nl.

Definition section_stop : string := nl ++ nl ++ "##".

Lemma section_re_headed title :
  lit_headed (section_head title) (section_re title).
Proof. unfold section_re. cbn [seq]. apply lit_headed_seq. Qed.

(** A text without [#] holds no section stop, whatever follows. *)
Lemma no_stop_in_text body t :
  lacks "#" body = true -> no_occ section_stop body (section_stop ++ t).
Proof.
  unfold no_occ. induction body as [|x body IH]; cbn [all_suffixes];
    [tauto|].
  intros H. unfold lacks in H. cbn [all_chars] in H.
  apply andb_true_iff in H. destruct H as [Hx Hb].
  split; [|apply IH, Hb]. clear IH.
  unfold section_stop, nl. cbn [append drop_prefix].
  destruct (ascii_eqb "010" x); [|reflexivity].
  destruct body as [|y body]; [reflexivity|]. cbn [append].
  destruct (ascii_eqb "010" y); [|reflexivity].
  destruct body as [|z body]; [reflexivity|]. cbn [append].
  cbn [all_chars] in Hb. apply andb_true_iff in Hb.
  destruct Hb as [_ Hb]. apply andb_true_iff in Hb. destruct Hb as [Hz _].
  destruct (ascii_eqb "#" z); [discriminate|reflexivity].
Qed.

(** The body of a section runs to the first stop. *)
Lemma search_section title piece a body next rest t :
  find_lit (section_head title) piece = Some (a, ""%string) ->
  lacks "#" body = true ->
  drop_prefix section_stop next = Some rest ->
  search (section_re title) (piece ++ body ++ next ++ t)
  = Some ((rest ++ t)%string, [(1, body)]).
Proof.
  intros Hf Hb Hn. apply drop_prefix_some in Hn. subst next.
  rewrite (search_find _ _ _ _ _ _ (section_re_headed title) Hf).
  apply search_here. unfold match_at, section_re, lit, grp, lazy, dot_all.
  cbn [seq append]. rewrite rmatch_seq_eq.
  change ("## " ++ title ++ nl ++ nl)%string with (section_head title).
  rewrite rmatch_lit_app, rmatch_seq_eq, rmatch_group_eq.
  rewrite sapp_assoc.
  apply rmatch_lazy_skip.
  - clear. induction body; cbn; auto.
  - eapply all_suffixes_impl; [|apply (no_stop_in_text body (rest ++ t) Hb)].
    cbv beta. intros s Hs. rewrite rmatch_lit_eq.
    change (nl ++ nl ++ "##")%string with section_stop. rewrite Hs.
    reflexivity.
  - change (nl ++ nl ++ "##")%string with section_stop.
    rewrite rmatch_lit_app, consumed_app. reflexivity.
Qed.

Lemma section_text_found title piece a body next rest t :
  find_lit (section_head title) piece = Some (a, ""%string) ->
  lacks "#" body = true ->
  drop_prefix section_stop next = Some rest ->
  section_text title (piece ++ body ++ next ++ t) = strip body.
Proof.
  intros Hf Hb Hn. unfold section_text.
  rewrite (search_section title piece a body next rest t Hf Hb Hn).
  reflexivity.
Qed.

Lemma section_items_found title piece a body next rest t :
  find_lit (section_head title) piece = Some (a, ""%string) ->
  lacks "#" body = true ->
  drop_prefix section_stop next = Some rest ->
  section_items title (piece ++ body ++ next ++ t)
  = dash_items (strip body).
Proof.
  intros Hf Hb Hn. unfold section_items.
  rewrite (search_section title piece a body next rest t Hf Hb Hn).
  reflexivity.
Qed.

Lemma section_text_free title a b :
  free (section_head title) a ->
  section_text title (a ++ b) = section_text title b.
Proof.
  intros H. unfold section_text.
  rewrite (search_free _ _ a b (section_re_headed title) H). reflexivity.
Qed.

Lemma section_items_free title a b :
  free (section_head title) a ->
  section_items title (a ++ b) = section_items title b.
Proof.
  intros H. unfold section_items.
  rewrite (search_free _ _ a b (section_re_headed title) H). reflexivity.
Qed.

End SearchFacts.

(* ================================================================== *)
(** * Values as the formatter renders them *)

Section RenderedValues.
Import PyStr PyNum Re Api Formatter.

(** ** Integers *)

Lemma int_of_digits_acc d : forall acc,
  int_of_digits (Npos acc) (NilEmpty.string_of_uint d)
  = Npos (Pos.of_uint_acc d acc).
Proof.
  induction d as [|d IH|d IH|d IH|d IH|d IH|d IH|d IH|d IH|d IH|d IH];
    intros acc; cbn [NilEmpty.string_of_uint int_of_digits Pos.of_uint_acc];
    [reflexivity| | | | | | | | | |];
    match goal with
    | |- int_of_digits ?n _ = Npos (Pos.of_uint_acc _ ?q) =>
        replace n with (Npos q);
        [|match goal with
          | |- context [digit_val ?c] =>
              let v := eval vm_compute in (digit_val c) in
              change (digit_val c) with v
          end; lia]
    end; apply IH.
Qed.

Lemma int_of_digits_uint d :
  int_of_digits 0 (NilEmpty.string_of_uint d) = Pos.of_uint d.
Proof.
  induction d as [|d IH|d IH|d IH|d IH|d IH|d IH|d IH|d IH|d IH|d IH];
    cbn [NilEmpty.string_of_uint int_of_digits Pos.of_uint];
    [reflexivity|exact IH| | | | | | | | |];
    match goal with
    | |- int_of_digits ?n _ = Npos (Pos.of_uint_acc _ ?q) =>
        change n with (Npos q)
    end; apply int_of_digits_acc.
Qed.

Lemma int_of_dec n : int_of_digits 0 (dec_of_N n) = n.
Proof.
  unfold dec_of_N. rewrite <- (DecimalN.Unsigned.of_to n) at 2.
  unfold N.of_uint. rewrite <- int_of_digits_uint.
  destruct (N.to_uint n); reflexivity.
Qed.

Lemma py_int_fmt_int z : (0 <= z)%Z -> py_int (fmt_int z) = z.
Proof.
  intros Hz. unfold py_int, fmt_int. destruct z as [|p|p]; [| |lia].
  - reflexivity.
  - rewrite int_of_dec. apply Z2N.id. lia.
Qed.

Lemma fmt_int_digits z :
  (0 <= z)%Z -> all_chars is_digit (fmt_int z) = true.
Proof.
  intros Hz. unfold fmt_int. destruct z; [| |lia]; apply dec_of_N_digits.
Qed.

Lemma fmt_int_cons z : exists d ds, fmt_int z = String d ds.
Proof.
  unfold fmt_int. destruct z; try apply dec_of_N_cons.
  cbn [append]. eauto.
Qed.

(** ** Floats *)

(** A finite float that is not negative, and not the negative zero. *)
Definition nonneg_finite (x : float) : bool :=
  match Prim2SF x with
  | S754_zero false | S754_finite false _ _ => true
  | _ => false
  end.

Lemma digits_are_num w :
  all_chars is_digit w = true -> all_chars is_num w = true.
Proof.
  apply all_chars_impl. intros c Hc. unfold is_num. rewrite Hc. reflexivity.
Qed.

Lemma fmt_2f_nonneg x :
  nonneg_finite x = true -> all_chars is_num (fmt_2f x) = true.
Proof.
  unfold nonneg_finite, fmt_2f.
  destruct (Prim2SF x) as [[|]|[|]| |[|] m e]; try discriminate; intros _.
  - reflexivity.
  - cbn [sign_str append]. unfold fixed2_of_hundredths.
    rewrite !all_chars_app, (digits_are_num _ (dec_of_N_digits _)),
      (digits_are_num _ (pad2_digits _)).
    reflexivity.
Qed.

Lemma nonneg_is_finite x : nonneg_finite x = true -> is_finite x = true.
Proof.
  unfold nonneg_finite, is_finite.
  destruct (Prim2SF x) as [[|]|[|]| |[|] m e]; auto.
Qed.

Lemma fixed_shape_cons t : FixedShape t -> t <> ""%string.
Proof.
  intros (s & d & ds & f & fs & -> & _). destruct s; discriminate.
Qed.

Lemma fixed_shape_head t : FixedShape t -> head_fails is_space t = true.
Proof.
  intros H.
  destruct (fixed_shape_tidy is_space t) as [H1 _];
    [intros c Hc; apply (digit_not_space c Hc)|reflexivity|exact H|exact H1].
Qed.

(** The value a rendered float is read back as. *)
Definition rendered (x y : float) : Prop := py_float (fmt_2f x) = Some y.

Definition percent (x : float) : float := PrimFloat.mul x 100.

Lemma fmt_pct_eq x : fmt_pct x = (fmt_2f (percent x) ++ "%")%string.
Proof. reflexivity. Qed.

(** ** Characters that a rendered value lacks *)

Lemma digits_lack c w :
  is_digit c = false -> all_chars is_digit w = true -> lacks c w = true.
Proof.
  intros Hc. unfold lacks. apply all_chars_impl. intros d Hd.
  unfold ascii_eqb. destruct (Ascii.eqb_spec c d) as [->|]; [|reflexivity].
  congruence.
Qed.

Lemma fmt_int_lacks c z :
  is_digit c = false -> ascii_eqb c "-" = false -> lacks c (fmt_int z) = true.
Proof.
  intros Hc Hm. unfold fmt_int.
  destruct z; try (apply digits_lack; [exact Hc|apply dec_of_N_digits]).
  rewrite lacks_app, (digits_lack c _ Hc (dec_of_N_digits _)).
  unfold lacks. cbn [all_chars]. rewrite Hm. reflexivity.
Qed.

Lemma lacks_join c sep xs :
  lacks c sep = true -> forallb (lacks c) xs = true ->
  lacks c (join sep xs) = true.
Proof.
  intros Hs. induction xs as [|x [|y xs] IH]; cbn [forallb]; intros H.
  - reflexivity.
  - cbn [join]. apply andb_true_iff in H. tauto.
  - apply andb_true_iff in H. destruct H as [Hx H].
    rewrite join_cons, !lacks_app, Hx, Hs. apply IH, H.
Qed.

Lemma forallb_map {A B} (f : A -> B) (p : B -> bool) xs :
  forallb p (map f xs) = forallb (fun x => p (f x)) xs.
Proof. induction xs as [|x xs IH]; cbn; [|rewrite IH]; reflexivity. Qed.

Lemma lacks_bullet_lines c xs :
  lacks c "- " = true -> lacks c nl = true ->
  forallb (lacks c) xs = true -> lacks c (bullet_lines xs) = true.
Proof.
  intros H1 H2 H. unfold bullet_lines. apply lacks_join; [exact H2|].
  rewrite forallb_map. rewrite forallb_forall in *. intros x Hx.
  rewrite lacks_app, H1. apply H, Hx.
Qed.

Lemma lacks_bullet_lines_or_none c xs :
  lacks c "- " = true -> lacks c nl = true -> lacks c "None" = true ->
  forallb (lacks c) xs = true -> lacks c (bullet_lines_or_none xs) = true.
Proof.
  intros H1 H2 H3 H. unfold bullet_lines_or_none.
  destruct (nonempty xs); [apply lacks_bullet_lines; assumption|exact H3].
Qed.

Lemma lacks_concat_map {A} c (f : A -> string) xs :
  (forall x, In x xs -> lacks c (f x) = true) ->
  lacks c (concat_map f xs) = true.
Proof.
  induction xs as [|x xs IH]; intros H; cbn [concat_map]; [reflexivity|].
  rewrite lacks_app, H by (left; reflexivity).
  apply IH. intros y Hy. apply H. right. exact Hy.
Qed.

(** ** Bulleted lists *)

(** The characters that [strip('- ')] and [strip()] remove. *)
Definition is_edge (c : ascii) : bool := is_space c || mem_char c "- ".

(** A list item that survives the reading of a bulleted list: one
    non-empty line that neither starts nor ends with a space or hyphen. *)
Definition tidy_item (d : string) : bool :=
  negb (String.eqb d "") && lacks "010" d
  && head_fails is_edge d && head_fails is_edge (rev d).

Lemma head_fails_weaken (p q : ascii -> bool) s :
  (forall c, q c = true -> p c = true) ->
  head_fails p s = true -> head_fails q s = true.
Proof.
  intros H. destruct s as [|x s]; cbn [head_fails]; [reflexivity|].
  destruct (q x) eqn:E; [rewrite (H x E); discriminate|reflexivity].
Qed.

Lemma head_fails_app p a b :
  a <> ""%string -> head_fails p a = true -> head_fails p (a ++ b) = true.
Proof. destruct a; [congruence|]. intros _ H. exact H. Qed.

Lemma rev_nonempty a : a <> ""%string -> rev a <> ""%string.
Proof.
  destruct a as [|x a]; [congruence|]. intros _. rewrite rev_cons.
  destruct (rev a); discriminate.
Qed.

Lemma tidy_item_parts d :
  tidy_item d = true ->
  d <> ""%string /\ lacks "010" d = true
  /\ head_fails is_edge d = true /\ head_fails is_edge (rev d) = true.
Proof.
  unfold tidy_item. rewrite !andb_true_iff, negb_true_iff.
  intros [[[H1 H2] H3] H4]. repeat split; auto.
  intros ->. discriminate.
Qed.

Lemma edge_space c : is_space c = true -> is_edge c = true.
Proof. unfold is_edge. intros ->. reflexivity. Qed.

Lemma edge_dash c : mem_char c "- " = true -> is_edge c = true.
Proof. unfold is_edge. intros ->. apply orb_true_r. Qed.

(** One bullet line is read back as its item. *)
Lemma bullet_line_item d :
  tidy_item d = true ->
  startswith "-" (strip ("- " ++ d)) = true
  /\ strip (strip_chars "- " ("- " ++ d)) = d.
Proof.
  intros H. destruct (tidy_item_parts d H) as (Hne & _ & Hh & Ht).
  assert (Hs : strip ("- " ++ d) = ("- " ++ d)%string).
  { apply strip_tidy; [reflexivity|].
    rewrite rev_app. apply head_fails_app; [apply rev_nonempty, Hne|].
    apply (head_fails_weaken is_edge); [apply edge_space|exact Ht]. }
  split; [rewrite Hs; reflexivity|].
  unfold strip_chars, strip_by.
  rewrite (lstrip_all _ "- " d) by reflexivity.
  fold (strip_by (fun c => mem_char c "- ") d).
  rewrite (strip_tidy _ d);
    [|apply (head_fails_weaken is_edge); [apply edge_dash|exact Hh]
     |apply (head_fails_weaken is_edge); [apply edge_dash|exact Ht]].
  apply strip_tidy; apply (head_fails_weaken is_edge);
    auto using edge_space.
Qed.

Lemma rev_join_tail p lines :
  lines <> [] ->
  Forall (fun l => l <> ""%string /\ head_fails p (rev l) = true) lines ->
  join nl lines <> ""%string /\ head_fails p (rev (join nl lines)) = true.
Proof.
  induction lines as [|x [|y lines] IH]; intros Hne H; [congruence| |].
  - cbn [join]. inversion H; subst. assumption.
  - inversion H as [|? ? Hx Hrest]; subst.
    destruct IH as [IH1 IH2]; [discriminate|exact Hrest|].
    rewrite join_cons. split.
    + destruct x; [destruct Hx; congruence|discriminate].
    + rewrite !rev_app, !sapp_assoc.
      apply head_fails_app; [apply rev_nonempty, IH1|exact IH2].
Qed.

Lemma dash_items_lines ds :
  Forall (fun d => tidy_item d = true) ds ->
  map (fun line => strip (strip_chars "- " line))
    (filter (fun line => startswith "-" (strip line))
       (map (fun d => "- " ++ d)%string ds))
  = ds.
Proof.
  induction 1 as [|d ds Hd _ IH]; [reflexivity|].
  destruct (bullet_line_item d Hd) as [H1 H2].
  cbn [map filter]. rewrite H1. cbn [map]. rewrite H2, IH. reflexivity.
Qed.

(** A bulleted list of tidy items is read back item by item. *)
Lemma dash_items_bullets ds :
  Forall (fun d => tidy_item d = true) ds ->
  dash_items (strip (bullet_lines ds)) = ds.
Proof.
  intros H. destruct ds as [|d ds]; [reflexivity|].
  assert (Hlines : Forall (fun l => lacks "010" l = true)
                     (map (fun d => "- " ++ d)%string (d :: ds))).
  { apply Forall_map. revert H. apply Forall_impl. intros x Hx.
    destruct (tidy_item_parts x Hx) as (_ & Hl & _).
    rewrite lacks_app, Hl. reflexivity. }
  assert (Htail : Forall (fun l => l <> ""%string
                                   /\ head_fails is_space (rev l) = true)
                    (map (fun d => "- " ++ d)%string (d :: ds))).
  { apply Forall_map. revert H. apply Forall_impl. intros x Hx.
    destruct (tidy_item_parts x Hx) as (Hne & _ & _ & Ht).
    split; [discriminate|].
    rewrite rev_app. apply head_fails_app; [apply rev_nonempty, Hne|].
    apply (head_fails_weaken is_edge); [apply edge_space|exact Ht]. }
  destruct (rev_join_tail is_space
              (map (fun d => "- " ++ d)%string (d :: ds))) as [_ Hrev];
    [discriminate|exact Htail|].
  assert (Hs : strip (bullet_lines (d :: ds)) = bullet_lines (d :: ds)).
  { apply strip_tidy; [|exact Hrev].
    unfold bullet_lines. cbn [map]. destruct ds; reflexivity. }
  rewrite Hs. unfold dash_items, bullet_lines.
  rewrite split_join; [|discriminate|exact Hlines].
  apply dash_items_lines, H.
Qed.

End RenderedValues.

(* ================================================================== *)
(** * Reading back a formatted report *)

(** A literal text, as opposed to a piece that depends on the result. *)
Ltac is_text s :=
  lazymatch s with
  | EmptyString => idtac
  | String _ ?s' => is_text s'
  end.

(** A fact about one character, by cases on its bits. *)
Ltac by_char_cases c :=
  destruct c as [[] [] [] [] [] [] [] []]; try discriminate; reflexivity.

Section Tokens.
Import PyStr PyNum Re Api Formatter.

(** A free text that holds no markup character of the report grammar. *)
Definition plain (s : string) : bool := lacks "*" s && lacks "#" s.

(** A non-empty text of word characters. *)
Definition word_text (s : string) : bool :=
  negb (String.eqb s "") && all_chars is_word s.

(** A value that a label pattern of class [p] captures whole. *)
Definition token (p : ascii -> bool) (v : string) : Prop :=
  v <> ""%string /\ all_chars p v = true /\ head_fails is_space v = true.

Lemma class_lacks (p : ascii -> bool) c w :
  p c = false -> all_chars p w = true -> lacks c w = true.
Proof.
  intros Hc. unfold lacks. apply all_chars_impl. intros d Hd.
  unfold ascii_eqb. destruct (Ascii.eqb_spec c d) as [->|]; [|reflexivity].
  congruence.
Qed.

Lemma plain_parts s :
  plain s = true -> lacks "*" s = true /\ lacks "#" s = true.
Proof. unfold plain. intros H. apply andb_true_iff in H. exact H. Qed.

Lemma plain_list_parts xs :
  forallb plain xs = true ->
  forallb (lacks "*") xs = true /\ forallb (lacks "#") xs = true.
Proof.
  induction xs as [|x xs IH]; cbn [forallb]; [auto|].
  intros H. apply andb_true_iff in H. destruct H as [Hx Hxs].
  destruct (plain_parts x Hx) as [H1 H2]. destruct (IH Hxs) as [H3 H4].
  rewrite H1, H2, H3, H4. auto.
Qed.

Lemma word_text_parts w :
  word_text w = true -> w <> ""%string /\ all_chars is_word w = true.
Proof.
  unfold word_text. intros H. apply andb_true_iff in H. destruct H as [H1 H2].
  split; [|exact H2]. intros ->. discriminate.
Qed.

Lemma word_not_space c : is_word c = true -> is_space c = false.
Proof. by_char_cases c. Qed.

Lemma token_of_class (p : ascii -> bool) v :
  (forall c, p c = true -> is_space c = false) ->
  v <> ""%string -> all_chars p v = true -> token p v.
Proof.
  intros Hp Hne Hv. repeat split; auto.
  destruct v as [|x v]; [congruence|]. cbn [all_chars head_fails] in *.
  apply andb_true_iff in Hv. destruct Hv as [Hx _].
  rewrite (Hp x Hx). reflexivity.
Qed.

Lemma token_word w : word_text w = true -> token is_word w.
Proof.
  intros H. destruct (word_text_parts w H) as [H1 H2].
  apply token_of_class; auto using word_not_space.
Qed.

Lemma token_signed x : is_finite x = true -> token is_signed_num (fmt_2f x).
Proof.
  intros H. pose proof (fmt_2f_finite x H) as Hs.
  repeat split;
    [apply fixed_shape_cons, Hs|apply fixed_shape_chars, Hs
    |apply fixed_shape_head, Hs].
Qed.

Lemma token_num x : nonneg_finite x = true -> token is_num (fmt_2f x).
Proof.
  intros H. pose proof (fmt_2f_finite x (nonneg_is_finite x H)) as Hs.
  repeat split;
    [apply fixed_shape_cons, Hs|apply fmt_2f_nonneg, H
    |apply fixed_shape_head, Hs].
Qed.

Lemma digit_is_not_space c : is_digit c = true -> is_space c = false.
Proof. intros H. apply (digit_not_space c H). Qed.

Lemma token_int z : (0 <= z)%Z -> token is_digit (fmt_int z).
Proof.
  intros Hz. apply token_of_class;
    [apply digit_is_not_space| |apply fmt_int_digits, Hz].
  destruct (fmt_int_cons z) as (d & ds & ->). discriminate.
Qed.

Lemma token_sentiment e :
  token is_word (SentimentAnalysisResult.sentiment_str e).
Proof. destruct e; repeat split; discriminate || reflexivity. Qed.

Lemma token_volatility e :
  token is_word (VolatilityPredictionResult.volatility_str e).
Proof. destruct e; repeat split; discriminate || reflexivity. Qed.

Lemma token_impact e :
  token is_word (upper (SignificantEvent.impact_str e)).
Proof. destruct e; repeat split; discriminate || reflexivity. Qed.

Lemma token_yes_no b : token is_word (yes_no b).
Proof. destruct b; repeat split; discriminate || reflexivity. Qed.

Lemma token_lacks (p : ascii -> bool) c v :
  p c = false -> token p v -> lacks c v = true.
Proof. intros Hc (_ & Hv & _). apply (class_lacks p); assumption. Qed.

(** The value of a label found in a literal piece of the report. *)
Lemma label_value label p piece a pad v rest :
  find_lit (label_lit label) piece = Some (a, pad) ->
  all_chars is_space pad = true ->
  token p v -> head_fails p rest = true ->
  search1 (label_re label (plus (RChar p)) REps) (piece ++ v ++ rest)
  = Some v.
Proof.
  intros Hf Hpad (H1 & H2 & H3) Hr.
  apply (search1_label label p piece a pad v rest); assumption.
Qed.

Lemma label_value_end label p piece a pad v :
  find_lit (label_lit label) piece = Some (a, pad) ->
  all_chars is_space pad = true ->
  token p v ->
  search1 (label_re label (plus (RChar p)) REps) (piece ++ v) = Some v.
Proof.
  intros Hf Hpad Hv. rewrite <- (sapp_nil_r v) at 1.
  apply (label_value label p piece a pad v ""); auto.
Qed.

Lemma label_percent label p piece a pad v rest :
  find_lit (label_lit label) piece = Some (a, pad) ->
  all_chars is_space pad = true ->
  token p v -> p "%"%char = false ->
  search1 (label_re label (plus (RChar p)) (lit "%"))
    (piece ++ v ++ "%" ++ rest)
  = Some v.
Proof.
  intros Hf Hpad (H1 & H2 & H3) Hr.
  apply (search1_label_percent label p piece a pad v rest); assumption.
Qed.

Lemma fmt_pct_app x t :
  (fmt_pct x ++ t = fmt_2f (percent x) ++ "%" ++ t)%string.
Proof. rewrite fmt_pct_eq, sapp_assoc. reflexivity. Qed.

Lemma free_lacks_head l a :
  match l with
  | String x _ => lacks x a = true
  | EmptyString => False
  end -> free l a.
Proof. destruct l as [|x l]; [tauto|]. apply free_lacks. Qed.

Lemma free_app_pair l a b c :
  free l (a ++ b) -> free l c -> free l (a ++ b ++ c).
Proof. intros H1 H2. rewrite <- sapp_assoc. apply free_app; assumption. Qed.

Lemma opt_conv_some t o :
  opt_conv to_float (Some t) = Ok o ->
  exists y, o = Some y /\ py_float t = Some y.
Proof.
  unfold opt_conv, to_float. destruct (py_float t) as [y|]; cbn [bind];
    [|discriminate].
  intros H. apply Ok_inj in H. subst o. eauto.
Qed.

Lemma numeral_ok_absent r content :
  search1 r content = None -> numeral_ok r content = true.
Proof. unfold numeral_ok. intros ->. reflexivity. Qed.

Lemma numeral_ok_rendered r content x :
  search1 r content = Some (fmt_2f x) -> numeral_ok r content = true.
Proof.
  unfold numeral_ok. intros ->. destruct (py_float_fmt_2f x) as [y ->].
  reflexivity.
Qed.

End Tokens.

(** A piece of a report lacks a character: by an assumption on the result
    or by the shape of a rendered value. *)
Ltac solve_lacks :=
  first
    [ assumption
    | reflexivity
    | apply fmt_2f_lacks; reflexivity
    | apply fmt_int_lacks; reflexivity
    | apply lacks_bullet_lines; [reflexivity|reflexivity|assumption]
    | apply lacks_bullet_lines_or_none;
      [reflexivity|reflexivity|reflexivity|assumption]
    | eapply token_lacks; [|solve [eauto using token_word, token_sentiment,
                                     token_volatility, token_impact,
                                     token_yes_no]]; reflexivity ].

Ltac solve_free :=
  lazymatch goal with
  | |- free ?l ?a =>
      tryif is_text a
      then (apply free_lit; vm_compute; reflexivity)
      else first
             [ assumption
             | apply free_lacks_head;
               cbv beta iota delta [label_lit section_head append];
               solve_lacks ]
  end.

(** The whole of a report is free of a literal, piece by piece; a piece
    that may end inside the literal is taken with the piece after it. *)
Ltac solve_free_all :=
  repeat first
    [ apply free_app; [solve_free|]
    | apply free_app_pair; [assumption|] ];
  solve_free.

Ltac skip_label_pieces :=
  repeat lazymatch goal with
         | |- Api.search1 (Api.label_re ?label ?v ?sfx)
                (String.append ?a ?b) = _ =>
             rewrite (search1_free label v sfx a b) by solve_free
         end.

Ltac at_label :=
  lazymatch goal with
  | |- Api.search1 (Api.label_re ?label _ (Re.lit _))
         (String.append ?piece (String.append ?v (String.append _ ?rest)))
       = _ =>
      let ab := eval vm_compute in (find_lit (label_lit label) piece) in
      lazymatch ab with
      | Some (?a, ?pad) =>
          apply (label_percent label _ piece a pad v rest);
          [vm_compute; reflexivity|reflexivity| |reflexivity]
      end
  | |- Api.search1 (Api.label_re ?label _ Re.REps)
         (String.append ?piece (String.append ?v ?rest)) = _ =>
      let ab := eval vm_compute in (find_lit (label_lit label) piece) in
      lazymatch ab with
      | Some (?a, ?pad) =>
          apply (label_value label _ piece a pad v rest);
          [vm_compute; reflexivity|reflexivity| |reflexivity]
      end
  | |- Api.search1 (Api.label_re ?label _ Re.REps)
         (String.append ?piece ?v) = _ =>
      let ab := eval vm_compute in (find_lit (label_lit label) piece) in
      lazymatch ab with
      | Some (?a, ?pad) =>
          apply (label_value_end label _ piece a pad v);
          [vm_compute; reflexivity|reflexivity|]
      end
  end.

Ltac find_label := skip_label_pieces; at_label.

Ltac no_label := apply search1_absent; solve_free_all.

Ltac skip_section_pieces :=
  repeat lazymatch goal with
         | |- Api.section_text ?title (String.append ?a ?b) = _ =>
             rewrite (section_text_free title a b) by solve_free
         | |- Api.section_items ?title (String.append ?a ?b) = _ =>
             rewrite (section_items_free title a b) by solve_free
         end.

Ltac at_section :=
  lazymatch goal with
  | |- ?f ?title
         (String.append ?piece
            (String.append ?body (String.append ?next ?t))) = _ =>
      let ab := eval vm_compute in (find_lit (section_head title) piece) in
      let rs := eval vm_compute in (Re.drop_prefix section_stop next) in
      lazymatch ab with
      | Some (?a, EmptyString) =>
          lazymatch rs with
          | Some ?rest =>
              first
                [ rewrite (section_text_found title piece a body next rest t)
                | rewrite (section_items_found title piece a body next rest t) ];
              [ |vm_compute; reflexivity|solve_lacks|vm_compute; reflexivity]
          end
      end
  end.

Ltac find_section := skip_section_pieces; at_section.

Section SentimentRoundTrip.
Import PyStr PyNum Re Api Formatter.
Import SentimentAnalysisResult.

(** What the reader of a sentiment artifact gives back of the result:
    numbers as rendered with two decimals, the confidence as a
    percentage, the market text stripped. *)
Definition sentiment_recovered (ticker : string) (r : t) (d : SentimentData)
  : Prop :=
  sd_ticker d = ticker
  /\ sd_sentiment d = sentiment_str (overall_sentiment r)
  /\ rendered (sentiment_score r) (sd_score d)
  /\ rendered (percent (confidence r)) (sd_confidence d)
  /\ sd_market_summary d = strip (market_sentiment r)
  /\ sd_key_drivers d = key_sentiment_drivers r.

(** A sentiment result that the formatter renders without ambiguity. *)
Definition well_formed_sentiment (ticker timestamp : string) (r : t) : bool :=
  word_text ticker && plain timestamp
  && is_finite (sentiment_score r)
  && nonneg_finite (percent (confidence r))
  && plain (market_sentiment r)
  && forallb tidy_item (key_sentiment_drivers r)
  && forallb plain (key_sentiment_drivers r)
  && forallb plain (news_headlines r)
  && forallb plain (tool_validations r).

Variables (ticker timestamp : string) (r : t).
Hypothesis Hwf : well_formed_sentiment ticker timestamp r = true.

Let content := format_sentiment_report ticker timestamp r.

Lemma sentiment_parts :
  word_text ticker = true
  /\ (lacks "*" ticker = true /\ lacks "#" ticker = true)
  /\ (lacks "*" timestamp = true /\ lacks "#" timestamp = true)
  /\ is_finite (sentiment_score r) = true
  /\ nonneg_finite (percent (confidence r)) = true
  /\ (lacks "*" (market_sentiment r) = true
      /\ lacks "#" (market_sentiment r) = true)
  /\ Forall (fun d => tidy_item d = true) (key_sentiment_drivers r)
  /\ (forallb (lacks "*") (key_sentiment_drivers r) = true
      /\ forallb (lacks "#") (key_sentiment_drivers r) = true)
  /\ (forallb (lacks "*") (news_headlines r) = true
      /\ forallb (lacks "#") (news_headlines r) = true)
  /\ (forallb (lacks "*") (tool_validations r) = true
      /\ forallb (lacks "#") (tool_validations r) = true).
Proof.
  pose proof Hwf as H. unfold well_formed_sentiment in H.
  rewrite !andb_true_iff in H.
  destruct H as [[[[[[[[H1 H2] H3] H4] H5] H6] H7] H8] H9].
  split; [exact H1|].
  split; [split; apply (token_lacks is_word); auto using token_word|].
  split; [apply plain_parts, H2|].
  split; [exact H3|]. split; [exact H4|].
  split; [apply plain_parts, H5|].
  split; [apply Forall_forall; rewrite forallb_forall in H6; exact H6|].
  split; [apply plain_list_parts, H7|].
  split; [apply plain_list_parts, H8|apply plain_list_parts, H9].
Qed.

Ltac open_report :=
  destruct sentiment_parts
    as (Hticker & [Ht1 Ht2] & [Hs1 Hs2] & Hscore & Hconf & [Hm1 Hm2]
        & Htidy & [Hd1 Hd2] & [Hh1 Hh2] & [Hv1 Hv2]);
  unfold content, format_sentiment_report; rewrite fmt_pct_app.

Lemma sentiment_report_ticker : search1 re_ticker content = Some ticker.
Proof.
  open_report. unfold re_ticker, word.
  find_label. apply token_word, Hticker.
Qed.

Lemma sentiment_report_label :
  search1 re_sentiment content = Some (sentiment_str (overall_sentiment r)).
Proof.
  open_report. unfold re_sentiment, word.
  find_label. apply token_sentiment.
Qed.

Lemma sentiment_report_score :
  search1 re_score content = Some (fmt_2f (sentiment_score r)).
Proof.
  open_report. unfold re_score, signed_num.
  find_label. apply token_signed, Hscore.
Qed.

Lemma sentiment_report_confidence :
  search1 re_confidence content = Some (fmt_2f (percent (confidence r))).
Proof.
  open_report. unfold re_confidence, num.
  find_label. apply token_num, Hconf.
Qed.

Lemma sentiment_report_no_volatility_score :
  search1 re_volatility_score content = None.
Proof. open_report. unfold re_volatility_score. no_label. Qed.

Lemma sentiment_report_no_historical :
  search1 re_historical_volatility content = None.
Proof. open_report. unfold re_historical_volatility. no_label. Qed.

Lemma sentiment_report_market :
  section_text "Market Sentiment" content = strip (market_sentiment r).
Proof. open_report. find_section. reflexivity. Qed.

Lemma sentiment_report_drivers :
  section_items "Key Sentiment Drivers" content = key_sentiment_drivers r.
Proof.
  open_report. find_section. apply dash_items_bullets, Htidy.
Qed.

Lemma sentiment_report_numerals : numerals_ok content = true.
Proof.
  unfold numerals_ok.
  rewrite (numeral_ok_rendered _ _ _ sentiment_report_score),
    (numeral_ok_rendered _ _ _ sentiment_report_confidence),
    (numeral_ok_absent _ _ sentiment_report_no_volatility_score),
    (numeral_ok_absent _ _ sentiment_report_no_historical).
  reflexivity.
Qed.

Lemma sentiment_round_trip (asked now : string) :
  exists d,
    sentiment_of_text asked now content = Ok d
    /\ sentiment_recovered ticker r d.
Proof.
  destruct (extract_metadata_returns content sentiment_report_numerals)
    as [md Hmd].
  destruct (extract_metadata_keys content md Hmd)
    as (Kt & _ & Ks & _ & _ & _ & Fs & Fc & _).
  rewrite sentiment_report_ticker in Kt.
  rewrite sentiment_report_label in Ks.
  rewrite sentiment_report_score in Fs.
  rewrite sentiment_report_confidence in Fc.
  destruct (opt_conv_some _ _ Fs) as (y1 & E1 & R1).
  destruct (opt_conv_some _ _ Fc) as (y2 & E2 & R2).
  unfold sentiment_of_text. rewrite Hmd. cbn [bind].
  eexists. split; [reflexivity|].
  unfold sentiment_recovered.
  cbn [sd_ticker sd_sentiment sd_score sd_confidence sd_market_summary
       sd_key_drivers].
  rewrite Kt, Ks, E1, E2. cbn [get].
  repeat split;
    [exact R1|exact R2|apply sentiment_report_market
    |apply sentiment_report_drivers].
Qed.

End SentimentRoundTrip.

(* ================================================================== *)
(** * Event sections *)

Section EventSections.
Import PyStr PyNum Re Api Formatter.
Import SignificantEvent.

Lemma rmatch_plus_run p k v rest c m :
  v <> ""%string -> all_chars p v = true -> head_fails p rest = true ->
  k rest c = Some m ->
  rmatch (plus (RChar p)) (v ++ rest) c k = Some m.
Proof.
  intros Hne Hv Hr Hk. destruct v as [|x w]; [congruence|].
  cbn [all_chars] in Hv. apply andb_true_iff in Hv. destruct Hv as [Hx Hw].
  unfold plus. rewrite rmatch_seq_eq. cbn [append].
  rewrite rmatch_char_cons, Hx. apply rmatch_star_run; assumption.
Qed.

(** A literal at the start of a literal piece. *)
Lemma rmatch_lit_piece l piece b t c k :
  drop_prefix l piece = Some b ->
  rmatch (RLit l) (piece ++ t) c k = k (b ++ t)%string c.
Proof.
  intros H. apply drop_prefix_some in H. subst piece.
  rewrite sapp_assoc. apply rmatch_lit_app.
Qed.

(** [(.*?)\n] at the end of a pattern. *)
Lemma rmatch_line_end i a b c k m :
  lacks "010" a = true ->
  k b ((i, a) :: c) = Some m ->
  rmatch (RSeq (RGroup i (RStar false (RChar dot_char))) (RLit nl))
    (a ++ nl ++ b) c k = Some m.
Proof.
  intros Ha Hk. rewrite rmatch_seq_eq, rmatch_group_eq.
  apply rmatch_lazy_skip; [apply lacks_nl_dot, Ha| |].
  - eapply all_suffixes_impl; [|apply (no_occ_nl a (nl ++ b) Ha)].
    cbv beta. intros s Hs. rewrite rmatch_lit_eq, Hs. reflexivity.
  - rewrite rmatch_lit_app, consumed_app. exact Hk.
Qed.

(** Where an event section may stop after its blank line. *)
Definition section_end (b b' : string) : Prop :=
  drop_prefix "###" b = Some b'
  \/ (drop_prefix "###" b = None /\ drop_prefix (nl ++ "##") b = Some b').

Definition blank : string := nl ++ nl.

(** One event section: heading, blank line, body up to the first blank
    line, and what may follow. *)
Lemma match_event_section idx type body b b' :
  token is_digit idx -> token is_word type ->
  free blank body -> section_end b b' ->
  match_at re_event_section
    ("### Event " ++ idx ++ ": " ++ type ++ blank ++ body ++ blank ++ b)
  = Some (b', [(2, body); (1, type)]).
Proof.
  intros (Hi1 & Hi2 & _) (Ht1 & Ht2 & _) Hbody Hend.
  unfold match_at, re_event_section, lit, grp, lazy, alt, digit, word,
    dot_all.
  cbn [seq]. rewrite rmatch_seq_eq, rmatch_lit_app, rmatch_seq_eq.
  apply rmatch_plus_run; [exact Hi1|exact Hi2|reflexivity|].
  rewrite rmatch_seq_eq, rmatch_lit_app, rmatch_seq_eq.
  destruct type as [|x w]; [congruence|].
  apply rmatch_group_run; [exact Ht2|reflexivity|].
  rewrite rmatch_seq_eq. fold blank. rewrite rmatch_lit_app.
  apply rmatch_group_until.
  - clear. induction body; cbn; auto.
  - apply Hbody.
  - rewrite !rmatch_alt_eq, !rmatch_lit_eq.
    destruct Hend as [->|[-> ->]]; reflexivity.
Qed.

(** The body of an event block, between the blank line after the heading
    and the blank line that ends the section. *)
Definition event_body (e : t) : string :=
  "- **Description:** " ++ description e ++ nl
  ++ "- **Mentioned in Call:** " ++ yes_no (mentioned_in_call e) ++ nl
  ++ "- **Verified:** " ++ yes_no (verified e) ++ nl
  ++ "- **Source:** " ++ source e ++ nl
  ++ "- **Impact:** " ++ upper (impact_str (impact_assessment e)).

Lemma event_block_body i e t :
  (event_block "Impact" (i, e) ++ t
   = nl ++ "### Event " ++ fmt_int i ++ ": " ++ event_type e ++ blank
     ++ event_body e ++ nl ++ t)%string.
Proof.
  unfold event_block, event_body, blank, nl. rewrite !sapp_assoc.
  reflexivity.
Qed.

(** An event whose block is read back: a one-word type and source, a
    description of one non-empty line that starts with no space. *)
Definition event_ok (e : t) : bool :=
  word_text (event_type e)
  && plain (description e) && lacks "010" (description e)
  && negb (String.eqb (description e) "")
  && head_fails is_space (description e)
  && word_text (source e).

Lemma event_ok_parts e :
  event_ok e = true ->
  word_text (event_type e) = true
  /\ (lacks "*" (description e) = true /\ lacks "#" (description e) = true)
  /\ lacks "010" (description e) = true
  /\ description e <> ""%string
  /\ head_fails is_space (description e) = true
  /\ word_text (source e) = true.
Proof.
  unfold event_ok. rewrite !andb_true_iff, negb_true_iff.
  intros [[[[[H1 H2] H3] H4] H5] H6].
  repeat split; auto; try apply plain_parts, H2.
  intros E. rewrite E in H4. discriminate.
Qed.

Variable e : t.
Hypothesis He : event_ok e = true.

Ltac open_event :=
  destruct (event_ok_parts e He)
    as (Htype & [Hd1 Hd2] & Hdnl & Hdne & Hdsp & Hsrc);
  pose proof (token_lacks is_word "*" _ eq_refl (token_word _ Hsrc)) as Hs1;
  pose proof (token_lacks is_word "010" _ eq_refl (token_word _ Hsrc)) as Hs2;
  unfold event_body, nl.

Lemma event_body_impact :
  search1 re_impact (event_body e)
  = Some (upper (impact_str (impact_assessment e))).
Proof.
  open_event. unfold re_impact, word. find_label. apply token_impact.
Qed.

Lemma event_body_source :
  search1 re_source (event_body e) = Some (source e).
Proof.
  open_event. unfold re_source, word. find_label. apply token_word, Hsrc.
Qed.

Lemma event_body_verified :
  search1 re_verified (event_body e) = Some (yes_no (verified e)).
Proof.
  open_event. unfold re_verified, word. find_label. apply token_yes_no.
Qed.

Lemma re_description_headed : lit_headed "**Description:**" re_description.
Proof. unfold re_description. cbn [seq]. apply lit_headed_seq. Qed.

Lemma event_body_description :
  search1 re_description (event_body e) = Some (description e).
Proof.
  open_event. unfold search1.
  rewrite (search_find "**Description:**" re_description
             "- **Description:** " "- " " " _ re_description_headed eq_refl).
  match goal with
  | |- option_map _ (search _ (_ ++ _ ++ _ ++ _ ++ ?rest)) = _ =>
      rewrite (search_here _ _ (rest, [(1, description e)]));
        [reflexivity|]
  end.
  unfold match_at, re_description, lit, star, grp, lazy, ws, dot.
  cbn [seq]. rewrite rmatch_seq_eq, rmatch_lit_app, rmatch_seq_eq.
  apply (rmatch_star_run is_space _ " ");
    [reflexivity|apply head_fails_app; assumption|].
  apply (rmatch_line_end 1 (description e)); [exact Hdnl|reflexivity].
Qed.

Definition event_read : EventData :=
  mkEventData (event_type e) (description e)
    (upper (impact_str (impact_assessment e))) (source e) (verified e).

Lemma event_of_section_body rest :
  event_of_section (rest, [(2, event_body e); (1, event_type e)])
  = event_read.
Proof.
  unfold event_of_section, group. cbn [snd lookup Nat.eqb].
  rewrite event_body_description, event_body_impact, event_body_source,
    event_body_verified.
  unfold event_read. cbn [get]. f_equal. destruct (verified e); reflexivity.
Qed.

(** An event body holds no blank line. *)
Lemma free_blank_line b :
  head_fails is_nl b = true -> b <> ""%string -> free blank b ->
  free blank (nl ++ b).
Proof.
  intros Hh Hne Hb t. unfold no_occ. cbn [nl append all_suffixes].
  split; [|apply Hb].
  destruct b as [|x b]; [congruence|]. cbn [head_fails] in Hh.
  unfold blank, nl. cbn [append drop_prefix]. rewrite ascii_eqb_refl.
  unfold is_nl in Hh. unfold ascii_eqb in *.
  rewrite (Ascii.eqb_sym "010" x).
  destruct (Ascii.eqb x "010"); [discriminate|reflexivity].
Qed.

Lemma event_body_free_blank : free blank (event_body e).
Proof.
  open_event.
  pose proof (token_lacks is_word "010" _ eq_refl
                (token_yes_no (mentioned_in_call e))) as Hy1.
  pose proof (token_lacks is_word "010" _ eq_refl
                (token_yes_no (verified e))) as Hy2.
  pose proof (token_lacks is_word "010" _ eq_refl
                (token_impact (impact_assessment e))) as Hy3.
  repeat first
    [ apply free_blank_line; [reflexivity|discriminate|]
    | apply free_app;
      [first [apply free_lit; vm_compute; reflexivity
             |apply (free_lacks "010"); assumption]|] ].
  apply (free_lacks "010"). exact Hy3.
Qed.

End EventSections.

(* ================================================================== *)
(** * Reading back an event report *)

Section EventsRoundTrip.
Import PyStr PyNum Re Api Formatter.
Import SignificantEventDetectionResult.

(** An event result that the formatter renders without ambiguity. *)
Definition well_formed_events (ticker timestamp : string) (r : t) : bool :=
  word_text ticker && plain timestamp
  && (0 <=? total_events_found r)%Z && (0 <=? verified_count r)%Z
  && nonneg_finite (percent (confidence r))
  && forallb event_ok (events r)
  && forallb plain (tool_validations r).

(** What the reader of an event artifact gives back of the result: the
    counts, the confidence as a percentage, and the first event of the
    list, which is the whole list when there is one event. *)
Definition events_recovered (r : t) (d : EventsData) : Prop :=
  ed_total_events d = total_events_found r
  /\ ed_verified_events d = verified_count r
  /\ rendered (percent (confidence r)) (ed_confidence d)
  /\ match events r with
     | [] => ed_events d = []
     | e :: es =>
         exists others,
           ed_events d = event_read e :: others
           /\ (es = [] -> others = [])
     end.

Lemma re_event_section_headed : lit_headed "### Event " re_event_section.
Proof. unfold re_event_section. cbn [seq]. apply lit_headed_seq. Qed.

Lemma or_else_block l ie x d :
  or_else (event_block l ie ++ x) d = (event_block l ie ++ x)%string.
Proof. destruct ie. reflexivity. Qed.

(** What follows the body of an event block: a blank line, and then the
    next event or the heading that follows the events. *)
Lemma after_event_body es p7 rest7 t : forall i,
  drop_prefix (nl ++ nl ++ "##") p7 = Some rest7 ->
  exists b b',
    (nl ++ concat_map (event_block "Impact") (enumerate i es) ++ p7 ++ t
     = blank ++ b)%string
    /\ section_end b b'
    /\ (es = [] -> b' = (rest7 ++ t)%string).
Proof.
  intros i H. apply drop_prefix_some in H. subst p7.
  destruct es as [|e es]; cbn [enumerate concat_map].
  - exists (nl ++ "##" ++ rest7 ++ t)%string, (rest7 ++ t)%string.
    split; [reflexivity|].
    split; [right; split; reflexivity|reflexivity].
  - set (tail := (concat_map (event_block "Impact") (enumerate (i + 1) es)
                  ++ (nl ++ nl ++ "##" ++ rest7) ++ t)%string).
    exists ("### Event " ++ fmt_int i ++ ": " ++ SignificantEvent.event_type e
            ++ blank ++ event_body e ++ nl ++ tail)%string,
           (" Event " ++ fmt_int i ++ ": " ++ SignificantEvent.event_type e
            ++ blank ++ event_body e ++ nl ++ tail)%string.
    split; [|split].
    + rewrite (sapp_assoc (event_block "Impact" (i, e))), event_block_body.
      reflexivity.
    + left. reflexivity.
    + discriminate.
Qed.

Lemma findall_fuel_free x l r s :
  lit_headed (String x l) r -> free (String x l) s ->
  forall fuel, findall_fuel fuel r s = [].
Proof.
  intros Hr Hs [|fuel]; [reflexivity|]. cbn [findall_fuel].
  rewrite (search_absent x l r s Hr Hs). reflexivity.
Qed.

(** The first match of [findall] is the match of [search]; no other
    follows when the pattern matches nowhere in the rest. *)
Lemma findall_first x l r s rest c :
  lit_headed (String x l) r ->
  search r s = Some (rest, c) ->
  exists others,
    findall r s = (rest, c) :: others
    /\ (free (String x l) rest -> others = []).
Proof.
  intros Hr Hs. unfold findall. cbn [findall_fuel]. rewrite Hs.
  eexists. split; [reflexivity|]. intros Hfree.
  destruct (_ <? _)%nat;
    [apply (findall_fuel_free x l); assumption|].
  destruct rest as [|y rest']; [reflexivity|].
  apply (findall_fuel_free x l); [assumption|].
  intros b. destruct (Hfree b) as [_ H']. exact H'.
Qed.

Lemma free_tail l x s : free l (String x s) -> free l s.
Proof. intros H b. destruct (H b) as [_ H']. exact H'. Qed.

Variables (ticker timestamp : string) (r : t).
Hypothesis Hwf : well_formed_events ticker timestamp r = true.

Let content := format_event_report ticker timestamp r.

Lemma events_parts :
  word_text ticker = true
  /\ (lacks "*" ticker = true /\ lacks "#" ticker = true)
  /\ (lacks "*" timestamp = true /\ lacks "#" timestamp = true)
  /\ (0 <= total_events_found r)%Z /\ (0 <= verified_count r)%Z
  /\ nonneg_finite (percent (confidence r)) = true
  /\ Forall (fun e => event_ok e = true) (events r)
  /\ (forallb (lacks "*") (tool_validations r) = true
      /\ forallb (lacks "#") (tool_validations r) = true).
Proof.
  pose proof Hwf as H. unfold well_formed_events in H.
  rewrite !andb_true_iff in H.
  destruct H as [[[[[[H1 H2] H3] H4] H5] H6] H7].
  split; [exact H1|].
  split; [split; apply (token_lacks is_word); auto using token_word|].
  split; [apply plain_parts, H2|].
  split; [apply Z.leb_le, H3|]. split; [apply Z.leb_le, H4|].
  split; [exact H5|].
  split; [apply Forall_forall; rewrite forallb_forall in H6; exact H6|].
  apply plain_list_parts, H7.
Qed.

(** The literal pieces of the events part of a report. *)
Definition event_literals : list string :=
  [nl; blank; "### Event "; ": "; "- **Description:** ";
   "- **Mentioned in Call:** "; "- **Verified:** "; "- **Source:** ";
   "- **Impact:** "]%string.

(** A literal that starts with a mark and starts in none of the literal
    pieces [lits]. *)
Definition marks_free (l : string) (lits : list string) : bool :=
  forallb (no_occ_b l) lits
  && match l with
     | String x _ => ascii_eqb x "*" || ascii_eqb x "#"
     | EmptyString => false
     end.

Lemma marks_free_parts l lits :
  marks_free l lits = true ->
  (forall p, In p lits -> free l p)
  /\ exists x l', l = String x l' /\ (x = "*" \/ x = "#")%char.
Proof.
  unfold marks_free. intros H. apply andb_true_iff in H.
  destruct H as [H1 H2]. split.
  - intros p Hp. apply free_lit. rewrite forallb_forall in H1. auto.
  - destruct l as [|x l']; [discriminate|]. exists x, l'. split; [reflexivity|].
    apply orb_true_iff in H2. unfold ascii_eqb in H2.
    destruct H2 as [H2|H2]; apply Ascii.eqb_eq in H2; auto.
Qed.

Lemma in_enumerate {A} (xs : list A) : forall i start x,
  In (i, x) (enumerate start xs) -> In x xs.
Proof.
  induction xs as [|y xs IH]; intros i start x H; cbn [enumerate] in H;
    [destruct H|].
  destruct H as [H|H]; [injection H as _ ->; left; reflexivity|].
  right. apply (IH i (start + 1)%Z). exact H.
Qed.

Ltac event_piece :=
  first
    [ left; assumption
    | right; left; cbv [event_literals In];
      solve [repeat first [left; reflexivity|right]]
    | right; right;
      solve [auto using token_word, token_yes_no, token_impact] ].

(** Neither a label nor a heading starts inside an event block. *)
Lemma event_block_free l i e :
  event_ok e = true -> marks_free l event_literals = true ->
  free l (event_block "Impact" (i, e)).
Proof.
  intros He Hl.
  destruct (marks_free_parts _ _ Hl) as (Hlit & x & l' & -> & Hx).
  destruct (event_ok_parts e He)
    as (Htype & [Hd1 Hd2] & Hdnl & Hdne & Hdsp & Hsrc).
  assert (Hw : is_word x = false) by (destruct Hx as [-> | ->]; reflexivity).
  assert (Hlacks : forall v, token is_word v -> free (String x l') v).
  { intros v Hv. apply free_lacks. apply (token_lacks is_word); assumption. }
  assert (Hint : free (String x l') (fmt_int i)).
  { apply free_lacks. destruct Hx as [-> | ->];
      apply fmt_int_lacks; reflexivity. }
  assert (Hdesc : free (String x l') (SignificantEvent.description e)).
  { apply free_lacks. destruct Hx as [-> | ->]; assumption. }
  assert (Hpiece : forall p, free (String x l') p
                             \/ In p event_literals
                             \/ token is_word p -> free (String x l') p).
  { intros p [H|[H|H]]; auto. }
  assert (Hbody : free (String x l') (event_body e)).
  { unfold event_body.
    repeat (apply free_app; [apply Hpiece; event_piece|]).
    apply Hlacks, token_impact. }
  rewrite <- (sapp_nil_r (event_block "Impact" (i, e))), event_block_body.
  repeat (apply free_app; [apply Hpiece; event_piece|]).
  apply free_nil.
Qed.

Lemma events_part_free l p7 :
  marks_free l event_literals = true ->
  no_occ_b l ("*No events detected*" ++ p7) = true ->
  no_occ_b l p7 = true ->
  free l (or_else (events_section r) "*No events detected*" ++ p7).
Proof.
  intros Hl Hnone Hp7.
  destruct events_parts as (_ & _ & _ & _ & _ & _ & Hev & _).
  unfold events_section. destruct (events r) as [|e es].
  - apply free_lit. exact Hnone.
  - cbn [enumerate concat_map]. rewrite or_else_block.
    inversion Hev as [|? ? He Hes]; subst.
    apply free_app; [|apply free_lit; exact Hp7].
    apply free_app; [apply event_block_free; assumption|].
    apply free_concat_map. intros [i e'] Hin.
    apply event_block_free; [|exact Hl].
    rewrite Forall_forall in Hes. apply Hes.
    apply (in_enumerate es i _ e' Hin).
Qed.

Ltac open_report :=
  destruct events_parts
    as (Hticker & [Ht1 Ht2] & [Hs1 Hs2] & Htotal & Hverified & Hconf
        & Hev & [Hv1 Hv2]);
  unfold content, format_event_report; rewrite fmt_pct_app.

Lemma event_report_total :
  search1 re_total_events content = Some (fmt_int (total_events_found r)).
Proof.
  open_report. unfold re_total_events, digit.
  find_label. apply token_int, Htotal.
Qed.

Lemma event_report_verified :
  search1 re_verified_events content = Some (fmt_int (verified_count r)).
Proof.
  open_report. unfold re_verified_events, digit.
  find_label. apply token_int, Hverified.
Qed.

Lemma event_report_confidence :
  search1 re_confidence content = Some (fmt_2f (percent (confidence r))).
Proof.
  open_report. unfold re_confidence, num.
  find_label. apply token_num, Hconf.
Qed.

Ltac no_label_in_events label :=
  open_report;
  lazymatch goal with
  | |- context [String.append (or_else _ _) (String.append ?p7 _)] =>
      pose proof (events_part_free (label_lit label) p7
                    eq_refl eq_refl eq_refl)
  end;
  no_label.

Lemma event_report_no_score : search1 re_score content = None.
Proof. unfold re_score. no_label_in_events "Score"%string. Qed.

Lemma event_report_no_volatility_score :
  search1 re_volatility_score content = None.
Proof.
  unfold re_volatility_score. no_label_in_events "Volatility Score"%string.
Qed.

Lemma event_report_no_historical :
  search1 re_historical_volatility content = None.
Proof.
  unfold re_historical_volatility.
  no_label_in_events "Historical Volatility"%string.
Qed.

Lemma event_report_numerals : numerals_ok content = true.
Proof.
  unfold numerals_ok.
  rewrite (numeral_ok_absent _ _ event_report_no_score),
    (numeral_ok_rendered _ _ _ event_report_confidence),
    (numeral_ok_absent _ _ event_report_no_volatility_score),
    (numeral_ok_absent _ _ event_report_no_historical).
  reflexivity.
Qed.

Lemma event_report_no_events :
  events r = [] -> extract_events content = [].
Proof.
  intros Hnone. unfold extract_events, findall.
  rewrite (findall_fuel_free "#" "## Event " re_event_section content
             re_event_section_headed); [reflexivity|].
  open_report. unfold events_section. rewrite Hnone.
  cbn [enumerate concat_map or_else]. solve_free_all.
Qed.

Lemma event_report_first e es :
  events r = e :: es ->
  exists rest,
    search re_event_section content
    = Some (rest, [(2, event_body e); (1, SignificantEvent.event_type e)])
    /\ (es = [] -> free "### Event " rest).
Proof.
  intros Hcons. open_report.
  assert (He : event_ok e = true).
  { rewrite Hcons in Hev. inversion Hev; assumption. }
  destruct (event_ok_parts e He) as (Htype & _).
  unfold events_section. rewrite Hcons. cbn [enumerate concat_map].
  rewrite or_else_block, (sapp_assoc (event_block "Impact" (1%Z, e))),
    event_block_body.
  lazymatch goal with
  | |- context [String.append nl
                  (String.append (concat_map ?f ?l)
                     (String.append ?p7 ?t))] =>
      let rs := eval vm_compute in (drop_prefix (nl ++ nl ++ "##") p7) in
      lazymatch rs with
      | Some ?rest7 =>
          destruct (after_event_body es p7 rest7 t (1 + 1)%Z eq_refl)
            as (b & b' & EQ & Hend & Hlast)
      end
  end.
  rewrite EQ.
  repeat lazymatch goal with
         | |- context [search ?rx (String.append ?a ?b)] =>
             rewrite (search_free "### Event " rx a b
                        re_event_section_headed) by solve_free
         end.
  exists b'. split.
  - apply search_here, match_event_section;
      [apply token_int; lia|apply token_word, Htype
      |apply event_body_free_blank, He|exact Hend].
  - intros Hnil. rewrite (Hlast Hnil). solve_free_all.
Qed.

Lemma events_round_trip (asked now : string) :
  exists d,
    events_of_text asked now content = Ok d /\ events_recovered r d.
Proof.
  destruct (extract_metadata_returns content event_report_numerals)
    as [md Hmd].
  destruct (extract_metadata_keys content md Hmd)
    as (_ & _ & _ & Kt & Kv & _ & _ & Fc & _).
  rewrite event_report_total in Kt. rewrite event_report_verified in Kv.
  rewrite event_report_confidence in Fc.
  destruct (opt_conv_some _ _ Fc) as (y & E & R).
  destruct events_parts as (_ & _ & _ & Htotal & Hverified & _ & Hev & _).
  unfold events_of_text. rewrite Hmd. cbn [bind].
  eexists. split; [reflexivity|].
  unfold events_recovered.
  cbn [ed_total_events ed_verified_events ed_confidence ed_events].
  rewrite Kt, Kv, E. cbn [option_map get].
  rewrite !py_int_fmt_int by assumption.
  split; [reflexivity|]. split; [reflexivity|]. split; [exact R|].
  destruct (events r) as [|e es] eqn:Hevents.
  - apply event_report_no_events. exact Hevents.
  - destruct (event_report_first e es Hevents) as (rest & Hs & Hlast).
    assert (He : event_ok e = true) by (inversion Hev; assumption).
    destruct (findall_first "#" "## Event " _ _ _ _
                re_event_section_headed Hs) as (others & Hall & Hnone).
    unfold extract_events. rewrite Hall. cbn [map].
    rewrite (event_of_section_body e He).
    exists (map event_of_section others). split; [reflexivity|].
    intros Hnil. rewrite (Hnone (Hlast Hnil)). reflexivity.
Qed.

End EventsRoundTrip.

(* ================================================================== *)
(** * The insights of a volatility report *)

Section InsightSections.
Import PyStr PyNum Re Api Formatter.

Lemma search_nowhere x l r a :
  lit_headed (String x l) r -> no_occ (String x l) a "" -> search r a = None.
Proof.
  intros Hr Ha. rewrite <- (sapp_nil_r a), (search_skip _ r a "" Hr Ha).
  cbn [search]. unfold match_at. rewrite Hr; reflexivity.
Qed.

Lemma findall_nowhere x l r a :
  lit_headed (String x l) r -> no_occ (String x l) a "" -> findall r a = [].
Proof.
  intros Hr Ha. unfold findall. cbn [findall_fuel].
  rewrite (search_nowhere x l r a Hr Ha). reflexivity.
Qed.

(** A match found by [search] is a match at some position. *)
Lemma search_some r s m :
  search r s = Some m ->
  exists pre t, s = (pre ++ t)%string /\ match_at r t = Some m.
Proof.
  induction s as [|x s IH]; cbn [search]; intros H.
  - destruct (match_at r "") as [m'|] eqn:E; [|discriminate].
    exists ""%string, ""%string. split; [reflexivity|]. congruence.
  - destruct (match_at r (String x s)) as [m'|] eqn:E.
    + exists ""%string, (String x s). split; [reflexivity|]. congruence.
    + destruct (IH H) as (pre & t & -> & Ht).
      exists (String x pre), t. split; [reflexivity|exact Ht].
Qed.

(** A lazy repetition of a class hands a suffix to what follows. *)
Lemma star_lazy_inv p k m : forall fuel s c,
  star_loop (rmatch (RChar p)) false k fuel s c = Some m ->
  exists a b, s = (a ++ b)%string /\ k b c = Some m.
Proof.
  induction fuel as [|fuel IH]; intros s c H.
  - exists ""%string, s. split; [reflexivity|exact H].
  - rewrite star_loop_lazy in H. destruct (k s c) as [m'|] eqn:E.
    + exists ""%string, s. split; [reflexivity|]. congruence.
    + destruct s as [|x s]; [discriminate|].
      rewrite rmatch_char_cons in H. destruct (p x); [|discriminate].
      destruct (_ <? _)%nat; [|discriminate].
      destruct (IH _ _ H) as (a & b & -> & Hk).
      exists (String x a), b. split; [reflexivity|exact Hk].
Qed.

(** The ways a block may stop add no group. *)
Lemma stops_keep_groups l1 l2 s c m :
  rmatch (RAlt (RLit l1) (RAlt (RLit l2) REnd)) s c final = Some m ->
  snd m = c.
Proof.
  rewrite !rmatch_alt_eq, !rmatch_lit_eq. unfold final.
  destruct (drop_prefix l1 s); [intros H; injection H as <-; reflexivity|].
  destruct (drop_prefix l2 s); [intros H; injection H as <-; reflexivity|].
  destruct s; cbn [rmatch]; [|discriminate].
  intros H; injection H as <-; reflexivity.
Qed.

(** The text of the insights section, when there is one, is a part of
    the report. *)
Lemma insights_section_inside content m :
  search re_insights_section content = Some m ->
  exists pre post, content = (pre ++ group 1 m ++ post)%string.
Proof.
  intros H. destruct (search_some _ _ _ H) as (pre & t & -> & Hm).
  unfold match_at, re_insights_section, lit, grp, lazy, alt, dot_all in Hm.
  cbn [seq] in Hm. rewrite rmatch_seq_eq, rmatch_lit_eq in Hm.
  destruct (drop_prefix _ t) as [t'|] eqn:E; [|discriminate].
  apply drop_prefix_some in E. subst t.
  rewrite rmatch_seq_eq, rmatch_group_eq, rmatch_star_eq in Hm.
  destruct (star_lazy_inv _ _ _ _ _ _ Hm) as (a & b & -> & Hk).
  fold final in Hk. apply stops_keep_groups in Hk.
  rewrite consumed_app in Hk.
  exists (pre ++ "### Transcript Insights" ++ nl ++ nl)%string, b.
  unfold group. rewrite Hk. cbn [lookup Nat.eqb].
  rewrite !sapp_assoc. reflexivity.
Qed.

Lemma drop_prefix_none_left l : forall s t,
  drop_prefix l (s ++ t) = None -> drop_prefix l s = None.
Proof.
  induction l as [|x l IH]; intros s t H; cbn [drop_prefix] in *;
    [discriminate|].
  destruct s as [|y s]; [reflexivity|]. cbn [append] in H.
  destruct (ascii_eqb x y); [apply (IH s t H)|reflexivity].
Qed.

Lemma all_suffixes_drop (P : string -> Prop) pre s :
  all_suffixes P (pre ++ s) -> all_suffixes P s.
Proof.
  induction pre as [|x pre IH]; cbn [append all_suffixes]; [auto|].
  intros [_ H]. apply IH, H.
Qed.

Lemma all_suffixes_left (P : string -> Prop) s post :
  all_suffixes P (s ++ post) ->
  all_suffixes (fun s' => P (s' ++ post)%string) s.
Proof.
  induction s as [|x s IH]; cbn [append all_suffixes]; [auto|].
  intros [H0 H]. split; [exact H0|apply IH, H].
Qed.

(** A literal that starts nowhere in a text starts nowhere in a part of
    it. *)
Lemma no_occ_inside l pre s post :
  no_occ l (pre ++ s ++ post) "" -> no_occ l s "".
Proof.
  unfold no_occ. intros H. apply all_suffixes_drop, all_suffixes_left in H.
  revert H. apply all_suffixes_impl. intros s' Hs.
  rewrite sapp_nil_r in *. apply (drop_prefix_none_left l s' post Hs).
Qed.

Lemma strip_inside s : exists pre post, s = (pre ++ strip s ++ post)%string.
Proof.
  unfold strip, strip_by.
  destruct (lstrip_suffix is_space s) as [pre Hpre].
  destruct (rstrip_prefix is_space (lstrip_by is_space s)) as [post Hpost].
  exists pre, post. rewrite <- Hpost. exact Hpre.
Qed.

Lemma re_insight_block_headed : lit_headed "#### " re_insight_block.
Proof. unfold re_insight_block. cbn [seq]. apply lit_headed_seq. Qed.

(** A report in which no heading of four marks starts has no insight
    block to read. *)
Lemma extract_insights_none content :
  no_occ "#### " content "" -> extract_insights content = Ok [].
Proof.
  intros Hno. unfold extract_insights.
  destruct (search re_insights_section content) as [m|] eqn:E;
    [|reflexivity].
  destruct (insights_section_inside content m E) as (pre & post & Hc).
  destruct (strip_inside (group 1 m)) as (pre' & post' & Hs).
  rewrite Hc in Hno. apply no_occ_inside in Hno.
  rewrite Hs in Hno. apply no_occ_inside in Hno.
  rewrite (findall_nowhere "#" "### " re_insight_block _
             re_insight_block_headed Hno).
  reflexivity.
Qed.

End InsightSections.

(* ================================================================== *)
(** * Reading back a volatility report *)

Section VolatilityRoundTrip.
Import PyStr PyNum Re Api Formatter.
Import VolatilityPredictionResult.

Definition insight_ok (a : TranscriptAnalysisAnswer.t) : bool :=
  plain (TranscriptAnalysisAnswer.focus_item a)
  && plain (TranscriptAnalysisAnswer.question a)
  && plain (TranscriptAnalysisAnswer.answer a).

(** A volatility result that the formatter renders without ambiguity. *)
Definition well_formed_volatility (ticker timestamp : string) (r : t)
  : bool :=
  word_text ticker && plain timestamp
  && nonneg_finite (volatility_score r)
  && nonneg_finite (percent (historical_volatility r))
  && nonneg_finite (percent (confidence r))
  && forallb tidy_item (key_volatility_drivers r)
  && forallb plain (key_volatility_drivers r)
  && plain (sentiment_impact r) && plain (event_impact r)
  && forallb insight_ok (transcript_insights r)
  && forallb plain (tool_validations r).

(** What the reader of a volatility artifact gives back of the result. *)
Definition volatility_recovered (r : t) (d : VolatilityData) : Prop :=
  vd_predicted_volatility d = volatility_str (predicted_volatility r)
  /\ rendered (volatility_score r) (vd_volatility_score d)
  /\ rendered (percent (historical_volatility r))
       (vd_historical_volatility d)
  /\ rendered (percent (confidence r)) (vd_confidence d)
  /\ vd_key_drivers d = key_volatility_drivers r
  /\ vd_sentiment_impact d = strip (sentiment_impact r)
  /\ vd_event_impact d = strip (event_impact r).

(** The literal pieces of an insight block. *)
Definition insight_literals : list string :=
  [nl ++ "### "; nl ++ nl ++ "**Question:** "; "  " ++ nl ++ "**Answer:** ";
   "  " ++ nl ++ "**Confidence:** "; nl]%string.

Lemma fmt_pct_lacks x c :
  is_fmt_char c = false -> ascii_eqb c "%" = false ->
  lacks c (fmt_pct x) = true.
Proof.
  intros H1 H2. rewrite fmt_pct_eq, lacks_app, (fmt_2f_lacks _ _ H1).
  unfold lacks. cbn [all_chars]. rewrite H2. reflexivity.
Qed.

Lemma insight_block_free l a :
  insight_ok a = true -> marks_free l insight_literals = true ->
  free l (insight_block a).
Proof.
  intros Ha Hl.
  destruct (marks_free_parts _ _ Hl) as (Hlit & x & l' & -> & Hx).
  unfold insight_ok in Ha. rewrite !andb_true_iff in Ha.
  destruct Ha as [[Hf Hq] Hans].
  apply plain_parts in Hf, Hq, Hans.
  assert (Hvar : forall v, lacks "*" v = true /\ lacks "#" v = true ->
                           free (String x l') v).
  { intros v [H1 H2]. apply free_lacks. destruct Hx as [-> | ->]; assumption. }
  assert (Hpct : free (String x l')
                   (fmt_pct (TranscriptAnalysisAnswer.confidence a))).
  { apply free_lacks. destruct Hx as [-> | ->];
      apply fmt_pct_lacks; reflexivity. }
  unfold insight_block.
  repeat (apply free_app;
          [first [assumption
                 |solve [apply Hlit; cbv [insight_literals In];
                         repeat first [left; reflexivity|right]]
                 |solve [apply Hvar; assumption]]|]).
  apply Hlit. cbv [insight_literals In].
  repeat first [left; reflexivity|right].
Qed.

Lemma or_else_insight a x d :
  or_else (insight_block a ++ x) d = (insight_block a ++ x)%string.
Proof. reflexivity. Qed.

Variables (ticker timestamp : string) (r : t).
Hypothesis Hwf : well_formed_volatility ticker timestamp r = true.

Let content := format_volatility_report ticker timestamp r.

Lemma volatility_parts :
  word_text ticker = true
  /\ (lacks "*" ticker = true /\ lacks "#" ticker = true)
  /\ (lacks "*" timestamp = true /\ lacks "#" timestamp = true)
  /\ nonneg_finite (volatility_score r) = true
  /\ nonneg_finite (percent (historical_volatility r)) = true
  /\ nonneg_finite (percent (confidence r)) = true
  /\ Forall (fun d => tidy_item d = true) (key_volatility_drivers r)
  /\ (forallb (lacks "*") (key_volatility_drivers r) = true
      /\ forallb (lacks "#") (key_volatility_drivers r) = true)
  /\ (lacks "*" (sentiment_impact r) = true
      /\ lacks "#" (sentiment_impact r) = true)
  /\ (lacks "*" (event_impact r) = true
      /\ lacks "#" (event_impact r) = true)
  /\ Forall (fun a => insight_ok a = true) (transcript_insights r)
  /\ (forallb (lacks "*") (tool_validations r) = true
      /\ forallb (lacks "#") (tool_validations r) = true).
Proof.
  pose proof Hwf as H. unfold well_formed_volatility in H.
  rewrite !andb_true_iff in H.
  destruct H as [[[[[[[[[[H1 H2] H3] H4] H5] H6] H7] H8] H9] H10] H11].
  split; [exact H1|].
  split; [split; apply (token_lacks is_word); auto using token_word|].
  split; [apply plain_parts, H2|].
  split; [exact H3|]. split; [exact H4|]. split; [exact H5|].
  split; [apply Forall_forall; rewrite forallb_forall in H6; exact H6|].
  split; [apply plain_list_parts, H7|].
  split; [apply plain_parts, H8|]. split; [apply plain_parts, H9|].
  split; [apply Forall_forall; rewrite forallb_forall in H10; exact H10|].
  apply plain_list_parts, H11.
Qed.

Lemma insights_part_free l p :
  marks_free l insight_literals = true ->
  no_occ_b l ("*No insights available*" ++ p) = true ->
  no_occ_b l p = true ->
  free l (or_else (insights_section r) "*No insights available*" ++ p).
Proof.
  intros Hl Hnone Hp.
  destruct volatility_parts
    as (_ & _ & _ & _ & _ & _ & _ & _ & _ & _ & Hins & _).
  unfold insights_section. destruct (transcript_insights r) as [|a ins].
  - apply free_lit. exact Hnone.
  - cbn [concat_map]. rewrite or_else_insight.
    inversion Hins as [|? ? Ha Hrest]; subst.
    apply free_app; [|apply free_lit; exact Hp].
    apply free_app; [apply insight_block_free; assumption|].
    apply free_concat_map. intros a' Hin.
    apply insight_block_free; [|exact Hl].
    rewrite Forall_forall in Hrest. apply Hrest, Hin.
Qed.

Ltac open_report :=
  destruct volatility_parts
    as (Hticker & [Ht1 Ht2] & [Hs1 Hs2] & Hscore & Hhist & Hconf & Htidy
        & [Hd1 Hd2] & [Hsi1 Hsi2] & [Hei1 Hei2] & Hins & [Hv1 Hv2]);
  unfold content, format_volatility_report; rewrite !fmt_pct_app.

Lemma volatility_report_label :
  search1 re_predicted_volatility content
  = Some (volatility_str (predicted_volatility r)).
Proof.
  open_report. unfold re_predicted_volatility, word.
  find_label. apply token_volatility.
Qed.

Lemma volatility_report_score :
  search1 re_volatility_score content = Some (fmt_2f (volatility_score r)).
Proof.
  open_report. unfold re_volatility_score, num.
  find_label. apply token_num, Hscore.
Qed.

Lemma volatility_report_historical :
  search1 re_historical_volatility content
  = Some (fmt_2f (percent (historical_volatility r))).
Proof.
  open_report. unfold re_historical_volatility, num.
  find_label. apply token_num, Hhist.
Qed.

Lemma volatility_report_confidence :
  search1 re_confidence content = Some (fmt_2f (percent (confidence r))).
Proof.
  open_report. unfold re_confidence, num.
  find_label. apply token_num, Hconf.
Qed.

Lemma volatility_report_no_score : search1 re_score content = None.
Proof.
  unfold re_score. open_report.
  lazymatch goal with
  | |- context [String.append (or_else _ _) (String.append ?p _)] =>
      pose proof (insights_part_free (label_lit "Score") p
                    eq_refl eq_refl eq_refl)
  end.
  no_label.
Qed.

Lemma volatility_report_numerals : numerals_ok content = true.
Proof.
  unfold numerals_ok.
  rewrite (numeral_ok_absent _ _ volatility_report_no_score),
    (numeral_ok_rendered _ _ _ volatility_report_confidence),
    (numeral_ok_rendered _ _ _ volatility_report_score),
    (numeral_ok_rendered _ _ _ volatility_report_historical).
  reflexivity.
Qed.

Lemma volatility_report_drivers :
  section_items "Key Volatility Drivers" content = key_volatility_drivers r.
Proof.
  open_report. find_section. apply dash_items_bullets, Htidy.
Qed.

Lemma volatility_report_sentiment_impact :
  section_text "Sentiment Impact" content = strip (sentiment_impact r).
Proof. open_report. find_section. reflexivity. Qed.

Lemma volatility_report_event_impact :
  section_text "Event Impact" content = strip (event_impact r).
Proof. open_report. find_section. reflexivity. Qed.

Lemma volatility_report_insights : extract_insights content = Ok [].
Proof.
  apply extract_insights_none.
  assert (H : free "#### " content); [|apply H].
  open_report.
  lazymatch goal with
  | |- context [String.append (or_else _ _) (String.append ?p _)] =>
      pose proof (insights_part_free "#### " p eq_refl eq_refl eq_refl)
  end.
  solve_free_all.
Qed.

Lemma volatility_round_trip (asked now : string) :
  exists d,
    volatility_of_text asked now content = Ok d
    /\ volatility_recovered r d.
Proof.
  destruct (extract_metadata_returns content volatility_report_numerals)
    as [md Hmd].
  destruct (extract_metadata_keys content md Hmd)
    as (_ & _ & _ & _ & _ & Kp & _ & Fc & Fv & Fh).
  rewrite volatility_report_label in Kp.
  rewrite volatility_report_confidence in Fc.
  rewrite volatility_report_score in Fv.
  rewrite volatility_report_historical in Fh.
  destruct (opt_conv_some _ _ Fc) as (y1 & E1 & R1).
  destruct (opt_conv_some _ _ Fv) as (y2 & E2 & R2).
  destruct (opt_conv_some _ _ Fh) as (y3 & E3 & R3).
  unfold volatility_of_text. rewrite Hmd. cbn [bind].
  rewrite volatility_report_insights. cbn [bind].
  eexists. split; [reflexivity|].
  unfold volatility_recovered.
  cbn [vd_predicted_volatility vd_volatility_score vd_historical_volatility
       vd_confidence vd_key_drivers vd_sentiment_impact vd_event_impact].
  rewrite Kp, E1, E2, E3. cbn [get].
  repeat split;
    [exact R2|exact R3|exact R1|apply volatility_report_drivers
    |apply volatility_report_sentiment_impact
    |apply volatility_report_event_impact].
Qed.

End VolatilityRoundTrip.

(* ================================================================== *)
(** * Round trip of the stage reports *)

Section RoundTrip.
Import PyStr PyNum Re Api Formatter.

(** ** The round trip as the specification states it *)

(** Two free texts that differ in surrounding white space only. *)
Definition same_text (a b : string) : Prop := strip a = strip b.

Definition sentiment_fully_recovered
    (r : SentimentAnalysisResult.t) (d : SentimentData) : Prop :=
  sd_sentiment d
  = SentimentAnalysisResult.sentiment_str
      (SentimentAnalysisResult.overall_sentiment r)
  /\ sd_score d = SentimentAnalysisResult.sentiment_score r
  /\ sd_confidence d = SentimentAnalysisResult.confidence r
  /\ same_text (sd_market_summary d)
       (SentimentAnalysisResult.market_sentiment r)
  /\ sd_key_drivers d = SentimentAnalysisResult.key_sentiment_drivers r
  /\ sd_news_headlines d = SentimentAnalysisResult.news_headlines r
  /\ sd_tool_validations d = SentimentAnalysisResult.tool_validations r.

Definition event_fully_recovered
    (e : SignificantEvent.t) (d : EventData) : Prop :=
  ev_type d = SignificantEvent.event_type e
  /\ same_text (ev_description d) (SignificantEvent.description e)
  /\ ev_impact d
     = SignificantEvent.impact_str (SignificantEvent.impact_assessment e)
  /\ ev_source d = SignificantEvent.source e
  /\ ev_verified d = SignificantEvent.verified e.

Definition events_fully_recovered
    (r : SignificantEventDetectionResult.t) (d : EventsData) : Prop :=
  ed_total_events d = SignificantEventDetectionResult.total_events_found r
  /\ ed_verified_events d = SignificantEventDetectionResult.verified_count r
  /\ ed_confidence d = SignificantEventDetectionResult.confidence r
  /\ Forall2 event_fully_recovered
       (SignificantEventDetectionResult.events r) (ed_events d)
  /\ ed_tool_validations d
     = SignificantEventDetectionResult.tool_validations r.

Definition insight_fully_recovered
    (a : TranscriptAnalysisAnswer.t) (d : InsightData) : Prop :=
  in_title d = TranscriptAnalysisAnswer.focus_item a
  /\ same_text (in_question d) (TranscriptAnalysisAnswer.question a)
  /\ same_text (in_answer d) (TranscriptAnalysisAnswer.answer a)
  /\ in_confidence d = TranscriptAnalysisAnswer.confidence a.

Definition volatility_fully_recovered
    (r : VolatilityPredictionResult.t) (d : VolatilityData) : Prop :=
  vd_predicted_volatility d
  = VolatilityPredictionResult.volatility_str
      (VolatilityPredictionResult.predicted_volatility r)
  /\ vd_volatility_score d = VolatilityPredictionResult.volatility_score r
  /\ vd_historical_volatility d
     = VolatilityPredictionResult.historical_volatility r
  /\ vd_confidence d = VolatilityPredictionResult.confidence r
  /\ vd_key_drivers d = VolatilityPredictionResult.key_volatility_drivers r
  /\ same_text (vd_sentiment_impact d)
       (VolatilityPredictionResult.sentiment_impact r)
  /\ same_text (vd_event_impact d)
       (VolatilityPredictionResult.event_impact r)
  /\ Forall2 insight_fully_recovered
       (VolatilityPredictionResult.transcript_insights r)
       (vd_transcript_insights d)
  /\ vd_tool_validations d = VolatilityPredictionResult.tool_validations r.

(** ** Sample results *)

Definition sample_stamp : string := "2025-01-02 03:04:05".

Definition sample_volatility_with_insight : VolatilityPredictionResult.t :=
  VolatilityPredictionResult.mk VolatilityPredictionResult.high 0.7
    [sample_answer] ["rates"] "Positive tone lowers it."
    "The merger raises it." 0.8 0.25 ["prices agree"].




End RoundTrip.

(* ================================================================== *)
(** * What every run does *)

Section EveryRun.
Import Orchestrator.

Variable env : Env.

Lemma report_not_empty ts ticker m gs sent events vol decision report :
  Report._generate_final_report ts ticker m gs sent events vol decision
  = Ok report ->
  exists c rest, report = String c rest.
Proof.
  unfold Report._generate_final_report.
  destruct (Report.confidence_table m sent events vol) as [table|e];
    cbn [bind]; intros H; [|discriminate H].
  apply Ok_inj in H. subst report. eexists _, _. reflexivity.
Qed.

Lemma startswith_pieces (a b c d : string) :
  PyStr.startswith (a ++ b ++ c) (a ++ b ++ c ++ d) = true.
Proof.
  replace (a ++ b ++ c ++ d)%string with ((a ++ b ++ c) ++ d)%string
    by (rewrite !sapp_assoc; reflexivity).
  apply startswith_app.
Qed.

Lemma last_of_trace (a b c d e f g d0 : GraphState) :
  final_state d0 [a; b; c; d; e; f; g] = g.
Proof. reflexivity. Qed.


(** ** Error entries *)

(** The forms of an error entry: one per stage that can fail. *)
Definition stage_error (m : string) : bool :=
  PyStr.startswith "Coordinator error: " m
  || PyStr.startswith "Error" m
  || PyStr.startswith "Sentiment analysis error: " m
  || PyStr.startswith "Event detection error: " m
  || PyStr.startswith "Volatility prediction error: " m.

Definition errors_named (st : GraphState) : Prop :=
  forallb stage_error (get_list (errors st)) = true.

Lemma forallb_add_item p l x :
  forallb p l = true -> p x = true -> forallb p (add_item l x) = true.
Proof.
  intros Hl Hx. unfold add_item. rewrite forallb_app, Hl. cbn [forallb].
  rewrite Hx. reflexivity.
Qed.

Lemma stage_error_prefix (prefix m : string) :
  stage_error prefix = true -> stage_error (prefix ++ m) = true.
Proof.
  unfold stage_error. intros H.
  repeat match type of H with
         | context [PyStr.startswith ?p prefix] =>
             let E := fresh "E" in
             destruct (PyStr.startswith p prefix) eqn:E;
             [rewrite (startswith_weaken _ _ m E), ?orb_true_r; reflexivity|]
         end.
  discriminate H.
Qed.

Lemma coordinator_errors_named : preserves env errors_named _coordinator_node.
Proof.
  intros st sys u sys' Hst H. unfold _coordinator_node in H.
  apply Ok_inj in H. pose proof (f_equal fst H) as Hu. cbn [fst] in Hu.
  subst u. unfold coordinator_process, errors_named in *.
  destruct (complete_decision env _ _) as [d|e];
    cbn [merge write errors u_errors get_list]; [exact Hst|].
  apply forallb_add_item; [exact Hst|].
  apply (stage_error_prefix "Coordinator error: "). reflexivity.
Qed.

Lemma load_errors_named : preserves env errors_named _load_transcript_node.
Proof.
  intros st sys u sys' Hst H. unfold _load_transcript_node in H.
  apply Ok_inj in H. pose proof (f_equal fst H) as Hu. cbn [fst] in Hu.
  subst u. unfold load_transcript_update, errors_named in *.
  destruct (PyStr.startswith "Error" _) eqn:E;
    cbn [merge write errors u_errors get_list forallb]; [|exact Hst].
  unfold stage_error. rewrite E, orb_true_r. reflexivity.
Qed.

Lemma saving_errors_named process produced :
  (forall st, errors_named st -> errors_named (merge st (process env st))) ->
  preserves env errors_named (saving process produced).
Proof.
  intros Hp st sys u sys' Hst H. unfold saving in H.
  apply Ok_inj in H. pose proof (f_equal fst H) as Hu. cbn [fst] in Hu.
  subst u. apply Hp, Hst.
Qed.

Lemma sentiment_errors_named st :
  errors_named st -> errors_named (merge st (sentiment_process env st)).
Proof.
  unfold errors_named, sentiment_process. intros Hst.
  destruct (complete_sentiment env _ _);
    cbn [merge write errors u_errors get_list]; [exact Hst|].
  apply forallb_add_item; [exact Hst|].
  apply (stage_error_prefix "Sentiment analysis error: "). reflexivity.
Qed.

Lemma events_errors_named st :
  errors_named st -> errors_named (merge st (events_process env st)).
Proof.
  unfold errors_named, events_process. intros Hst.
  destruct (_validate_with_sec_filings env _) as [[a b] c].
  destruct (complete_events env _ _);
    cbn [merge write errors u_errors get_list]; [exact Hst|].
  apply forallb_add_item; [exact Hst|].
  apply (stage_error_prefix "Event detection error: "). reflexivity.
Qed.

Lemma volatility_errors_named st :
  errors_named st -> errors_named (merge st (volatility_process env st)).
Proof.
  unfold errors_named, volatility_process. intros Hst.
  destruct (_validate_with_market_data env _) as [[a b] c].
  destruct (complete_volatility env _ _ _ _ _);
    cbn [merge write errors u_errors get_list]; [exact Hst|].
  apply forallb_add_item; [exact Hst|].
  apply (stage_error_prefix "Volatility prediction error: "). reflexivity.
Qed.

Lemma synthesize_errors_named :
  preserves env errors_named _synthesize_report_node.
Proof.
  intros st sys u sys' Hst H. unfold _synthesize_report_node in H.
  destruct (Report._generate_final_report _ _ _ _ _ _ _ _); cbn [bind] in H;
    [|discriminate H].
  apply Ok_inj in H. pose proof (f_equal fst H) as Hu. cbn [fst] in Hu.
  subst u. exact Hst.
Qed.

(** In every state of every run, each entry of the error list is the
    message of a stage that failed: it starts with the name of the
    coordinator, of an agent, or with the word the transcript reader puts
    before its message. *)
Theorem error_entries_name_their_stage :
  forall sys path ticker q tr sys',
    run_trace env sys path ticker q = Ok (tr, sys') ->
    Forall errors_named tr.
Proof.
  intros sys path ticker q tr sys' Hrun. unfold run_trace in Hrun.
  apply (run_nodes_invariant env errors_named workflow) in Hrun;
    [exact Hrun| |reflexivity].
  unfold workflow.
  apply Forall_cons; [apply coordinator_errors_named|].
  apply Forall_cons; [apply load_errors_named|].
  apply Forall_cons; [apply saving_errors_named, sentiment_errors_named|].
  apply Forall_cons; [apply saving_errors_named, events_errors_named|].
  apply Forall_cons; [apply saving_errors_named, volatility_errors_named|].
  apply Forall_cons; [apply synthesize_errors_named|constructor].
Qed.

End EveryRun.

Lemma error_entries_name_their_stage_witness :
  exists tr sys',
    Orchestrator.run_trace two_failures_env empty_sys "call.txt" "ACME" None
    = Ok (tr, sys')
    /\ Forall errors_named tr.
Proof.
  destruct (run_trace_returns two_failures_env empty_sys "call.txt" "ACME"
              None) as (tr & sys' & Hrun).
  exists tr, sys'. split; [exact Hrun|].
  exact (error_entries_name_their_stage two_failures_env empty_sys
           "call.txt" "ACME" None tr sys' Hrun).
Defined.

(* ================================================================== *)
(** * Artifacts: what the orchestrator saves and the reader finds *)

Section Artifacts.
Import PyStr Api Formatter Orchestrator.

(** A text with none of the characters that a file pattern treats
    specially. *)
Definition no_wildcard (s : string) : bool :=
  lacks "*" s && lacks "?" s && lacks "[" s.

Lemma fnmatch_star pat name :
  fnmatch (String "*" pat) name
  = fnmatch pat name
    || match name with
       | EmptyString => false
       | String _ name' => fnmatch (String "*" pat) name'
       end.
Proof. destruct name; reflexivity. Qed.

Lemma fnmatch_same l :
  lacks "*" l = true -> fnmatch l l = true.
Proof.
  induction l as [|c l IH]; [reflexivity|].
  unfold lacks. cbn [all_chars]. intros H. apply andb_true_iff in H.
  destruct H as [Hc Hl]. cbn [fnmatch].
  unfold ascii_eqb in *. rewrite Ascii.eqb_sym in Hc.
  apply negb_true_iff in Hc. rewrite Hc, Ascii.eqb_refl, orb_true_r.
  apply IH, Hl.
Qed.

Lemma fnmatch_prefix l pat name :
  lacks "*" l = true ->
  fnmatch (l ++ pat) (l ++ name) = fnmatch pat name.
Proof.
  induction l as [|c l IH]; [reflexivity|].
  unfold lacks. cbn [all_chars]. intros H. apply andb_true_iff in H.
  destruct H as [Hc Hl]. cbn [append fnmatch].
  unfold ascii_eqb in *. rewrite Ascii.eqb_sym in Hc.
  apply negb_true_iff in Hc. rewrite Hc, Ascii.eqb_refl, orb_true_r.
  apply IH, Hl.
Qed.

Lemma fnmatch_any_then tail s :
  lacks "*" tail = true -> fnmatch (String "*" tail) (s ++ tail) = true.
Proof.
  intros Ht. induction s as [|x s IH]; rewrite fnmatch_star.
  - cbn [append]. rewrite (fnmatch_same tail Ht). reflexivity.
  - cbn [append]. rewrite IH. apply orb_true_r.
Qed.

(** The name under which a stage artifact is saved matches the pattern
    with which the reader looks for the artifacts of that stage and
    ticker. *)
Lemma saved_name_matches agent ticker stamp :
  lacks "*" agent = true -> no_wildcard ticker = true ->
  fnmatch (agent ++ "_" ++ ticker ++ "_*.md")
    (agent ++ "_" ++ ticker ++ "_" ++ stamp ++ ".md") = true.
Proof.
  intros Ha Ht. unfold no_wildcard in Ht. rewrite !andb_true_iff in Ht.
  destruct Ht as [[Ht _] _].
  rewrite (fnmatch_prefix agent) by exact Ha.
  rewrite (fnmatch_prefix "_") by reflexivity.
  rewrite (fnmatch_prefix ticker) by exact Ht.
  change ("_*.md")%string with ("_" ++ String "*" ".md")%string.
  rewrite (fnmatch_prefix "_") by reflexivity.
  apply fnmatch_any_then. reflexivity.
Qed.

(** ** The newest file *)

(** The file the readers parse is one of the matching files and none of
    them is newer. *)
Lemma latest_from_greatest : forall files best,
  In (latest_from best files) (best :: files)
  /\ Forall (fun f => (st_mtime f <= st_mtime (latest_from best files))%Z)
       (best :: files).
Proof.
  induction files as [|f files IH]; intros best; cbn [latest_from].
  - split; [left; reflexivity|]. constructor; [lia|constructor].
  - destruct (st_mtime best <? st_mtime f)%Z eqn:E.
    + destruct (IH f) as [Hin Hall]. split; [right; exact Hin|].
      inversion Hall as [|? ? Hf Hrest]; subst.
      constructor; [apply Z.ltb_lt in E; lia|].
      constructor; assumption.
    + destruct (IH best) as [Hin Hall]. split.
      * destruct Hin as [Hin|Hin]; [left; exact Hin|right; right; exact Hin].
      * inversion Hall as [|? ? Hb Hrest]; subst.
        constructor; [exact Hb|].
        constructor; [apply Z.ltb_ge in E; lia|exact Hrest].
Qed.

Lemma latest_from_newer : forall files best new,
  Forall (fun f => (st_mtime f < st_mtime new)%Z) (best :: files) ->
  latest_from best (files ++ [new]) = new.
Proof.
  induction files as [|f files IH]; intros best new H;
    inversion H as [|? ? Hb Hrest]; subst; cbn [app latest_from].
  - apply Z.ltb_lt in Hb. rewrite Hb. reflexivity.
  - destruct (st_mtime best <? st_mtime f)%Z; apply IH.
    + exact Hrest.
    + inversion Hrest; subst. constructor; assumption.
Qed.

(** When some file matches, a reader parses a matching file than which
    no matching file is newer. *)
Theorem reader_parses_newest_artifact :
  forall (A : Type) (dir : list File) (pattern : string)
         (body : string -> except A) (f : File),
    In f dir -> fnmatch pattern (file_name f) = true ->
    exists g,
      In g dir /\ fnmatch pattern (file_name g) = true
      /\ (forall h, In h dir -> fnmatch pattern (file_name h) = true ->
                    (st_mtime h <= st_mtime g)%Z)
      /\ on_latest dir pattern body
         = (r <- body (file_text g) ;; Ok (Some r)).
Proof.
  intros A dir pattern body f Hin Hm. unfold on_latest.
  assert (Hf : In f (glob dir pattern)).
  { unfold glob. apply filter_In. split; assumption. }
  destruct (glob dir pattern) as [|g0 files] eqn:E; [destruct Hf|].
  destruct (latest_from_greatest files g0) as [Hg Hall].
  exists (latest_from g0 files).
  rewrite <- E in Hg. unfold glob in Hg. apply filter_In in Hg.
  destruct Hg as [Hg1 Hg2].
  split; [exact Hg1|]. split; [exact Hg2|]. split; [|reflexivity].
  intros h Hh Hhm. rewrite Forall_forall in Hall. apply Hall.
  rewrite <- E. unfold glob. apply filter_In. split; assumption.
Qed.

Lemma reader_parses_newest_artifact_witness :
  exists g,
    on_latest [mkFile "sentiment_ACME_1.md" 5 "old";
               mkFile "sentiment_ACME_2.md" 9 "new";
               mkFile "volatility_ACME_3.md" 12 "other"]
      "sentiment_ACME_*.md" (fun text => Ok text)
    = (r <- Ok (file_text g) ;; Ok (Some r))
    /\ file_text g = "new"%string.
Proof.
  destruct (reader_parses_newest_artifact string
              [mkFile "sentiment_ACME_1.md" 5 "old";
               mkFile "sentiment_ACME_2.md" 9 "new";
               mkFile "volatility_ACME_3.md" 12 "other"]
              "sentiment_ACME_*.md" (fun text => Ok text)
              (mkFile "sentiment_ACME_1.md" 5 "old")
              (or_introl eq_refl) eq_refl)
    as (g & Hin & Hm & Hmax & Hread).
  exists g. split; [exact Hread|].
  vm_compute in Hread. apply Ok_inj in Hread.
  injection Hread as Hread. symmetry. exact Hread.
Defined.

(** ** Saving, then reading *)

Lemma glob_after_write dir pattern name text t :
  fnmatch pattern name = true ->
  glob (output_dir (write_file name text (mkSys t dir))) pattern
  = (glob (filter (fun f => negb (String.eqb (file_name f) name)) dir)
       pattern ++ [mkFile name (Z.of_nat t) text])%list.
Proof.
  intros Hm. unfold write_file, glob. cbn [output_dir ticks].
  rewrite filter_app. cbn [filter file_name]. rewrite Hm. reflexivity.
Qed.

Lemma on_latest_after_write {A} dir pattern name text t
    (body : string -> except A) :
  fnmatch pattern name = true ->
  Forall (fun f => (st_mtime f < Z.of_nat t)%Z) dir ->
  on_latest (output_dir (write_file name text (mkSys t dir))) pattern body
  = (r <- body text ;; Ok (Some r)).
Proof.
  intros Hm Hold. unfold on_latest. rewrite (glob_after_write _ _ _ _ _ Hm).
  set (old := glob _ pattern).
  assert (Hall : Forall (fun f => (st_mtime f
                                   < st_mtime (mkFile name (Z.of_nat t) text))%Z)
                   old).
  { apply Forall_forall. intros f Hf. unfold old, glob in Hf.
    apply filter_In in Hf. destruct Hf as [Hf _].
    apply filter_In in Hf. destruct Hf as [Hf _].
    rewrite Forall_forall in Hold. apply (Hold f Hf). }
  destruct old as [|f files]; cbn [app].
  - reflexivity.
  - rewrite (latest_from_newer files f _ Hall). reflexivity.
Qed.

Lemma agent_name_plain res : lacks "*" (agent_name_of res) = true.
Proof. destruct res; reflexivity. Qed.



End Artifacts.

(* ================================================================== *)
(** * One artifact for each stage that produced a result *)

Section StageArtifacts.
Import PyStr Api Formatter Orchestrator.

Variable env : Env.

(** The files a node adds to the output directory. *)
Definition save_opt (ticker : string) (r : option stage_result) (sys : Sys)
  : Sys :=
  match r with
  | Some res => _save_agent_report env ticker res sys
  | None => sys
  end.

Definition sentiment_saved (st0 : GraphState) : option stage_result :=
  option_map SentimentR
    (u_sentiment_result (sentiment_process env (after_load env st0))).
Definition events_saved (st0 : GraphState) : option stage_result :=
  option_map EventR
    (u_event_detection_result
       (events_process env (after_sentiment env st0))).
Definition volatility_saved (st0 : GraphState) : option stage_result :=
  option_map VolatilityR
    (u_volatility_result (volatility_process env (after_events env st0))).

(** The system a run of the workflow ends in. *)
Lemma run_nodes_workflow_sys st0 sys tr sys' :
  run_nodes env workflow st0 sys = Ok (tr, sys') ->
  sys' = tick (save_opt (company_ticker st0) (volatility_saved st0)
                 (save_opt (company_ticker st0) (events_saved st0)
                    (save_opt (company_ticker st0) (sentiment_saved st0)
                       sys))).
Proof.
  unfold workflow.
  cbn [run_nodes _coordinator_node _load_transcript_node _sentiment_node
       _event_detection_node _volatility_prediction_node saving bind fst snd].
  fold (after_coordinator env st0). fold (after_load env st0).
  fold (after_sentiment env st0). fold (after_events env st0).
  fold (after_volatility env st0).
  match goal with
  | |- context [_synthesize_report_node env ?st ?sy] =>
      destruct (_synthesize_report_node env st sy) as [[u s]|e] eqn:E
  end; cbn [bind fst snd]; intros H; [|discriminate H].
  apply Ok_inj in H. pose proof (f_equal snd H) as Hs. cbn [snd] in Hs.
  subst sys'. unfold _synthesize_report_node in E.
  destruct (Report._generate_final_report _ _ _ _ _ _ _ _); cbn [bind] in E;
    [|discriminate E].
  apply Ok_inj in E. pose proof (f_equal snd E) as Hs. cbn [snd] in Hs.
  subst s. reflexivity.
Qed.

(** ** Which node sets which result *)

Lemma coordinator_sets_no_result st :
  u_sentiment_result (coordinator_process env st) = None
  /\ u_event_detection_result (coordinator_process env st) = None
  /\ u_volatility_result (coordinator_process env st) = None.
Proof.
  unfold coordinator_process. destruct (complete_decision env _ _); auto.
Qed.

Lemma load_sets_no_result st :
  u_sentiment_result (load_transcript_update env st) = None
  /\ u_event_detection_result (load_transcript_update env st) = None
  /\ u_volatility_result (load_transcript_update env st) = None.
Proof.
  unfold load_transcript_update. destruct (startswith _ _); auto.
Qed.

Lemma sentiment_sets_own_result st :
  u_event_detection_result (sentiment_process env st) = None
  /\ u_volatility_result (sentiment_process env st) = None.
Proof.
  unfold sentiment_process. destruct (complete_sentiment env _ _); auto.
Qed.

Lemma events_sets_own_result st :
  u_sentiment_result (events_process env st) = None
  /\ u_volatility_result (events_process env st) = None.
Proof.
  unfold events_process.
  destruct (_validate_with_sec_filings env _) as [[a b] c].
  destruct (complete_events env _ _); auto.
Qed.

Lemma volatility_sets_own_result st :
  u_sentiment_result (volatility_process env st) = None
  /\ u_event_detection_result (volatility_process env st) = None.
Proof.
  unfold volatility_process.
  destruct (_validate_with_market_data env _) as [[a b] c].
  destruct (complete_volatility env _ _ _ _ _); auto.
Qed.

Lemma merge_results st u :
  sentiment_result (merge st u)
  = write (u_sentiment_result u) (sentiment_result st)
  /\ event_detection_result (merge st u)
     = write (u_event_detection_result u) (event_detection_result st)
  /\ volatility_result (merge st u)
     = write (u_volatility_result u) (volatility_result st).
Proof. repeat split. Qed.

Lemma results_after_load st0 :
  sentiment_result (after_load env st0) = sentiment_result st0
  /\ event_detection_result (after_load env st0) = event_detection_result st0
  /\ volatility_result (after_load env st0) = volatility_result st0.
Proof.
  destruct (coordinator_sets_no_result st0) as (C1 & C2 & C3).
  destruct (load_sets_no_result (after_coordinator env st0))
    as (L1 & L2 & L3).
  change (after_load env st0)
    with (merge (after_coordinator env st0)
            (load_transcript_update env (after_coordinator env st0))).
  destruct (merge_results (after_coordinator env st0)
              (load_transcript_update env (after_coordinator env st0)))
    as (-> & -> & ->).
  rewrite L1, L2, L3. cbn [write].
  change (after_coordinator env st0)
    with (merge st0 (coordinator_process env st0)).
  destruct (merge_results st0 (coordinator_process env st0))
    as (-> & -> & ->).
  rewrite C1, C2, C3. repeat split.
Qed.

Lemma results_after_sentiment st0 :
  sentiment_result (after_sentiment env st0)
  = write (u_sentiment_result (sentiment_process env (after_load env st0)))
      (sentiment_result st0)
  /\ event_detection_result (after_sentiment env st0)
     = event_detection_result st0
  /\ volatility_result (after_sentiment env st0) = volatility_result st0.
Proof.
  destruct (results_after_load st0) as (L1 & L2 & L3).
  destruct (sentiment_sets_own_result (after_load env st0)) as (S2 & S3).
  change (after_sentiment env st0)
    with (merge (after_load env st0)
            (sentiment_process env (after_load env st0))).
  destruct (merge_results (after_load env st0)
              (sentiment_process env (after_load env st0)))
    as (-> & -> & ->).
  rewrite S2, S3, L1, L2, L3. repeat split.
Qed.

Lemma results_after_events st0 :
  sentiment_result (after_events env st0)
  = write (u_sentiment_result (sentiment_process env (after_load env st0)))
      (sentiment_result st0)
  /\ event_detection_result (after_events env st0)
     = write (u_event_detection_result
                (events_process env (after_sentiment env st0)))
         (event_detection_result st0)
  /\ volatility_result (after_events env st0) = volatility_result st0.
Proof.
  destruct (results_after_sentiment st0) as (L1 & L2 & L3).
  destruct (events_sets_own_result (after_sentiment env st0)) as (S1 & S3).
  change (after_events env st0)
    with (merge (after_sentiment env st0)
            (events_process env (after_sentiment env st0))).
  destruct (merge_results (after_sentiment env st0)
              (events_process env (after_sentiment env st0)))
    as (-> & -> & ->).
  rewrite S1, S3, L1, L2, L3. repeat split.
Qed.

(** The results of the state before the synthesis are those the three
    agents returned. *)
Lemma results_before_synthesis st0 :
  sentiment_result st0 = None -> event_detection_result st0 = None ->
  volatility_result st0 = None ->
  option_map SentimentR (sentiment_result (after_volatility env st0))
  = sentiment_saved st0
  /\ option_map EventR (event_detection_result (after_volatility env st0))
     = events_saved st0
  /\ option_map VolatilityR (volatility_result (after_volatility env st0))
     = volatility_saved st0.
Proof.
  intros H1 H2 H3. unfold sentiment_saved, events_saved, volatility_saved.
  destruct (results_after_events st0) as (L1 & L2 & L3).
  destruct (volatility_sets_own_result (after_events env st0)) as (V1 & V2).
  change (after_volatility env st0)
    with (merge (after_events env st0)
            (volatility_process env (after_events env st0))).
  destruct (merge_results (after_events env st0)
              (volatility_process env (after_events env st0)))
    as (-> & -> & ->).
  rewrite V1, V2, L1, L2, L3, H1, H2, H3. cbn [write].
  repeat split;
    match goal with
    | |- option_map _ (write ?x None) = _ => destruct x; reflexivity
    end.
Qed.

(** ** The output directory *)

(** A file saved for a stage and a ticker. *)
Definition named (ticker stage : string) (f : File) : Prop :=
  startswith (stage ++ "_" ++ ticker ++ "_") (file_name f) = true.

Definition stage_names (rs : list (option stage_result)) : list string :=
  flat_map (fun r => match r with
                     | Some res => [agent_name_of res]
                     | None => []
                     end) rs.

(** The files [news] were added, in this order and one for each stage of
    [stages], to what is left of the directory [old]. *)
Definition added (old : list File) (ticker : string) (stages : list string)
    (dir : list File) : Prop :=
  exists kept news,
    dir = (kept ++ news)%list /\ incl kept old
    /\ Forall2 (fun f stage => named ticker stage f) news stages.

Definition differs (s t : string) : bool :=
  match s, t with
  | String a _, String b _ => negb (Ascii.eqb a b)
  | _, _ => false
  end.

Lemma names_differ s t x y u v :
  differs s t = true ->
  startswith (s ++ u) x = true -> startswith (t ++ v) y = true ->
  String.eqb x y = false.
Proof.
  destruct s as [|a s], t as [|b t]; try discriminate.
  cbn [differs append startswith]. intros Hd Hx Hy.
  destruct x as [|a' x]; [discriminate|].
  destruct y as [|b' y]; [discriminate|].
  apply andb_true_iff in Hx, Hy. destruct Hx as [Hx _], Hy as [Hy _].
  unfold ascii_eqb in *. apply Ascii.eqb_eq in Hx, Hy. subst a' b'.
  apply negb_true_iff in Hd. cbn [String.eqb]. rewrite Hd. reflexivity.
Qed.

Lemma startswith_four (a b c d e : string) :
  startswith (a ++ b ++ c ++ d) (a ++ b ++ c ++ d ++ e) = true.
Proof.
  replace (a ++ b ++ c ++ d ++ e)%string
    with ((a ++ b ++ c ++ d) ++ e)%string
    by (rewrite !sapp_assoc; reflexivity).
  apply startswith_app.
Qed.

Lemma added_write old ticker stages stage stamp text sys :
  added old ticker stages (output_dir sys) ->
  forallb (fun s => differs s stage) stages = true ->
  added old ticker (stages ++ [stage])
    (output_dir
       (write_file (stage ++ "_" ++ ticker ++ "_" ++ stamp ++ ".md") text
          sys)).
Proof.
  intros (kept & news & Hdir & Hkept & Hnews) Hdiff.
  set (name := (stage ++ "_" ++ ticker ++ "_" ++ stamp ++ ".md")%string).
  assert (Hname : startswith (stage ++ "_" ++ ticker ++ "_") name = true)
    by apply startswith_four.
  unfold write_file. cbn [output_dir]. rewrite Hdir, filter_app.
  exists (filter (fun f => negb (String.eqb (file_name f) name)) kept),
         (news ++ [mkFile name (Z.of_nat (ticks sys)) text])%list.
  split; [|split].
  - rewrite <- List.app_assoc. f_equal. f_equal.
    clear Hdir. revert stages Hnews Hdiff.
    induction news as [|f news IH]; intros stages Hnews Hdiff;
      [reflexivity|].
    inversion Hnews as [|? s0 ? stages' Hf Hrest]; subst.
    cbn [forallb] in Hdiff. apply andb_true_iff in Hdiff.
    destruct Hdiff as [Hd Hdiff]. cbn [filter].
    rewrite (names_differ s0 stage (file_name f) name _ _ Hd Hf Hname).
    cbn [negb]. f_equal. apply (IH stages' Hrest Hdiff).
  - intros f Hf. apply filter_In in Hf. apply Hkept, Hf.
  - apply Forall2_app; [exact Hnews|].
    constructor; [exact Hname|constructor].
Qed.

Lemma added_save old ticker stages r sys :
  added old ticker stages (output_dir sys) ->
  forallb (fun s => forallb (differs s) (stage_names [r])) stages = true ->
  added old ticker (stages ++ stage_names [r])
    (output_dir (save_opt ticker r sys)).
Proof.
  intros Hadd Hdiff. destruct r as [res|]; cbn [stage_names flat_map app].
  - unfold save_opt, _save_agent_report. apply added_write; [exact Hadd|].
    rewrite forallb_forall in *. intros s Hs. specialize (Hdiff s Hs).
    cbn [stage_names flat_map app forallb] in Hdiff.
    apply andb_true_iff in Hdiff. apply Hdiff.
  - rewrite List.app_nil_r. exact Hadd.
Qed.

(** The stages of which the final state holds a result, and the final
    report. *)
Definition artifact_stages (st : GraphState) : list string :=
  (stage_names
     [option_map SentimentR (sentiment_result st);
      option_map EventR (event_detection_result st);
      option_map VolatilityR (volatility_result st)]
   ++ ["final_report"%string])%list.

Lemma run_analysis_shape sys path ticker q st sys' :
  run_analysis env sys path ticker q = Ok (st, sys') ->
  let st0 := initial_state path ticker q in
  exists u sys1 c rest,
    st = merge (after_volatility env st0) u
    /\ u = mkUpdate None None None None None (Some (String c rest)) None None
    /\ sys1 = tick (save_opt ticker (volatility_saved st0)
                      (save_opt ticker (events_saved st0)
                         (save_opt ticker (sentiment_saved st0) sys)))
    /\ sys' = write_file
                ("final_report_" ++ ticker ++ "_"
                 ++ strftime_compact (now env sys1) ++ ".md")
                (String c rest) (tick sys1).
Proof.
  intros H st0. unfold run_analysis in H.
  destruct (run_trace env sys path ticker q) as [[tr sys1]|e] eqn:Hrun;
    cbn [bind fst snd] in H; [|discriminate H].
  unfold run_trace in Hrun. fold st0 in Hrun.
  pose proof (run_nodes_workflow_sys _ _ _ _ Hrun) as Hsys.
  destruct (run_nodes_workflow env _ _ _ _ Hrun) as (sys5 & u & Hsyn & ->).
  rewrite last_of_trace in H.
  unfold _synthesize_report_node in Hsyn.
  destruct (Report._generate_final_report _ _ _ _ _ _ _ _) as [report|e]
    eqn:Hrep; cbn [bind] in Hsyn; [|discriminate Hsyn].
  apply Ok_inj in Hsyn.
  pose proof (f_equal fst Hsyn) as Hu. cbn [fst] in Hu. subst u.
  destruct (report_not_empty _ _ _ _ _ _ _ _ _ Hrep) as (c & rest & ->).
  unfold save_final_report in H.
  cbn [merge write final_report u_final_report] in H.
  apply Ok_inj in H.
  pose proof (f_equal fst H) as H1. pose proof (f_equal snd H) as H2.
  cbn [fst snd] in H1, H2.
  exists (mkUpdate None None None None None (Some (String c rest)) None None),
    sys1, c, rest.
  split; [symmetry; exact H1|]. split; [reflexivity|].
  split; [exact Hsys|]. symmetry. exact H2.
Qed.


End StageArtifacts.



(* ================================================================== *)
(** * What the agents add to a completion *)

Section AgentResults.
Import PyStr PyNum Formatter Orchestrator.

Variable env : Env.

Lemma firstn_at_most {A} n (l : list A) : List.length (firstn n l) <= n.
Proof. apply firstn_le_length. Qed.

(** The sentiment agent: at most five headlines are gathered and a failing
    news search yields none; the headlines gathered replace those of the
    completion and add one validation note; with no headline the result of
    the completion is stored as it is. No error entry is written. *)
Theorem gathered_news_replace_headlines :
  forall (st : GraphState) (result : SentimentAnalysisResult.t),
    (forall x y, complete_sentiment env x y = Ok result) ->
    let headlines := _gather_news_context env (company_ticker st) in
    let u := sentiment_process env st in
    List.length headlines <= 5
    /\ (forall e, get_sentiment_news env (company_ticker st) = Raise e ->
                  headlines = [])
    /\ u_errors u = None
    /\ (headlines = [] -> u_sentiment_result u = Some result)
    /\ (headlines <> [] ->
        u_sentiment_result u
        = Some (SentimentAnalysisResult.mk
                  (SentimentAnalysisResult.overall_sentiment result)
                  (SentimentAnalysisResult.sentiment_score result)
                  (SentimentAnalysisResult.market_sentiment result)
                  (SentimentAnalysisResult.key_sentiment_drivers result)
                  headlines
                  (SentimentAnalysisResult.confidence result)
                  (SentimentAnalysisResult.tool_validations result
                   ++ ["Validated sentiment using "
                       ++ fmt_int (Z.of_nat (List.length headlines))
                       ++ " news articles from Tavily"]%string)%list)).
Proof.
  intros st result Hc headlines u. subst u. unfold sentiment_process.
  fold headlines. rewrite Hc. cbn [u_errors u_sentiment_result].
  split.
  - subst headlines. unfold _gather_news_context.
    destruct (get_sentiment_news env _) as [rs|e]; cbn [List.length]; [|lia].
    rewrite length_map. apply firstn_at_most.
  - split.
    + intros e He. subst headlines. unfold _gather_news_context.
      rewrite He. reflexivity.
    + split; [reflexivity|]. split.
      * intros ->. reflexivity.
      * intros Hne. destruct headlines as [|h hs]; [congruence|].
        reflexivity.
Qed.

(** ** The volatility agent *)

Lemma answers_at_most questions transcript :
  List.length (_answer_analysis_questions env transcript questions) <= 5
  /\ List.length (_answer_analysis_questions env transcript questions)
     <= List.length questions.
Proof.
  unfold _answer_analysis_questions.
  set (f := fun q => match complete_answer env _ _ with
                     | Ok answer => [answer]
                     | Raise _ => []
                     end).
  assert (H : forall l, List.length (flat_map f l) <= List.length l).
  { induction l as [|q l IH]; [reflexivity|]. cbn [flat_map].
    rewrite length_app. cbn [List.length]. subst f. cbv beta.
    destruct (complete_answer env _ _); cbn [List.length]; lia. }
  pose proof (H (firstn 5 questions)) as H5.
  pose proof (firstn_at_most 5 questions) as Hn.
  rewrite length_firstn in *. lia.
Qed.

(** The volatility agent: the insights and the historical volatility of
    the stored result are the agent's own, whatever the completion gave
    for them: the answers to at most five questions, and the provider's
    historical volatility, 0.0 when the provider fails. The other fields
    are those of the completion. *)
Theorem volatility_result_carries_agent_data :
  forall (st : GraphState) (result : VolatilityPredictionResult.t),
    (forall h p a b c, complete_volatility env h p a b c = Ok result) ->
    exists stored,
      u_volatility_result (volatility_process env st) = Some stored
      /\ u_errors (volatility_process env st) = None
      /\ VolatilityPredictionResult.transcript_insights stored
         = _answer_analysis_questions env
             (get_text (transcript_content st)) (analysis_questions st)
      /\ List.length (VolatilityPredictionResult.transcript_insights stored)
         <= 5
      /\ VolatilityPredictionResult.historical_volatility stored
         = fst (fst (_validate_with_market_data env (company_ticker st)))
      /\ (forall e,
             get_historical_volatility env (company_ticker st) = Raise e ->
             VolatilityPredictionResult.historical_volatility stored
             = 0%float)
      /\ (forall h,
             get_historical_volatility env (company_ticker st) = Ok h ->
             VolatilityPredictionResult.historical_volatility stored = h)
      /\ VolatilityPredictionResult.predicted_volatility stored
         = VolatilityPredictionResult.predicted_volatility result
      /\ VolatilityPredictionResult.volatility_score stored
         = VolatilityPredictionResult.volatility_score result
      /\ VolatilityPredictionResult.confidence stored
         = VolatilityPredictionResult.confidence result.
Proof.
  intros st result Hc. unfold volatility_process.
  destruct (_validate_with_market_data env (company_ticker st))
    as [[hv pm] notes] eqn:Hv.
  rewrite Hc. cbn [u_volatility_result u_errors fst].
  eexists. split; [reflexivity|]. split; [reflexivity|].
  cbn [VolatilityPredictionResult.transcript_insights
       VolatilityPredictionResult.historical_volatility
       VolatilityPredictionResult.predicted_volatility
       VolatilityPredictionResult.volatility_score
       VolatilityPredictionResult.confidence].
  split; [reflexivity|].
  split; [apply answers_at_most|]. split; [reflexivity|].
  split; [|split].
  - intros e He. unfold _validate_with_market_data in Hv. rewrite He in Hv.
    injection Hv as <- _ _. reflexivity.
  - intros h Hh. unfold _validate_with_market_data in Hv. rewrite Hh in Hv.
    destruct (get_price_movement env _); [destruct (get_stock_info env _)|];
      injection Hv as <- _ _; reflexivity.
  - repeat split.
Qed.

(** ** The event agent *)

(** The event agent: when the filing provider answers, one validation
    note that renders its answer is added to those of the completion;
    when it raises, the result of the completion is stored as it is and
    no error entry is written. *)
Theorem filing_check_adds_one_note :
  forall (st : GraphState) (result : SignificantEventDetectionResult.t),
    (forall x y, complete_events env x y = Ok result) ->
    u_errors (events_process env st) = None
    /\ (forall e,
           download_recent_filings env (company_ticker st) = Raise e ->
           u_event_detection_result (events_process env st) = Some result)
    /\ (forall filings,
           download_recent_filings env (company_ticker st) = Ok filings ->
           u_event_detection_result (events_process env st)
           = Some (SignificantEventDetectionResult.mk
                     (SignificantEventDetectionResult.events result)
                     (SignificantEventDetectionResult.total_events_found
                        result)
                     (SignificantEventDetectionResult.verified_count result)
                     (SignificantEventDetectionResult.confidence result)
                     (SignificantEventDetectionResult.tool_validations result
                      ++ [("Validated events using SEC EDGAR: "
                           ++ repr_filings filings)%string])%list)).
Proof.
  intros st result Hc. unfold events_process, _validate_with_sec_filings.
  destruct (download_recent_filings env (company_ticker st)) as [fs|e];
    rewrite Hc; cbn [u_errors u_event_detection_result].
  - split; [reflexivity|]. split; [discriminate|].
    intros filings H. apply Ok_inj in H. subst fs. reflexivity.
  - split; [reflexivity|]. split; [reflexivity|discriminate].
Qed.

End AgentResults.

Section AgentSamples.
Import PyStr PyNum Formatter Orchestrator.

Lemma gathered_news_replace_headlines_witness :
  u_sentiment_result
    (sentiment_process sample_env (initial_state "call.txt" "ACME" None))
  = Some (SentimentAnalysisResult.mk SentimentAnalysisResult.positive 0.8
            "Analysts are upbeat." ["cloud growth"; "margins"]%string
            ["Shares rise after earnings"%string] 0.72
            ["news agree";
             "Validated sentiment using 1 news articles from Tavily"]%string).
Proof.
  destruct (gathered_news_replace_headlines sample_env
              (initial_state "call.txt" "ACME" None) sample_sentiment
              (fun _ _ => eq_refl)) as (_ & _ & _ & _ & H).
  rewrite H; [reflexivity|discriminate].
Defined.

Lemma volatility_result_carries_agent_data_witness :
  exists stored,
    u_volatility_result
      (volatility_process sample_env (initial_state "call.txt" "ACME" None))
    = Some stored
    /\ VolatilityPredictionResult.historical_volatility stored = 0.25%float
    /\ List.length (VolatilityPredictionResult.transcript_insights stored) = 5.
Proof.
  destruct (volatility_result_carries_agent_data sample_env
              (initial_state "call.txt" "ACME" None) sample_volatility
              (fun _ _ _ _ _ => eq_refl))
    as (stored & Hs & _ & Hi & _ & _ & _ & Hh & _).
  exists stored. split; [exact Hs|].
  split; [apply Hh; reflexivity|]. rewrite Hi. reflexivity.
Defined.

Lemma filing_check_adds_one_note_witness :
  option_map SignificantEventDetectionResult.tool_validations
    (u_event_detection_result
       (events_process sample_env (initial_state "call.txt" "ACME" None)))
  = Some ["filings agree";
          "Validated events using SEC EDGAR: {'8-K': {'downloaded': 3, 'status': 'success'}}"]%string.
Proof.
  destruct (filing_check_adds_one_note sample_env
              (initial_state "call.txt" "ACME" None) sample_events
              (fun _ _ => eq_refl)) as (_ & _ & H).
  rewrite (H _ eq_refl). reflexivity.
Defined.

End AgentSamples.

(* ================================================================== *)
(** * Loading the transcript *)

Section TranscriptLoading.
Import PyStr Orchestrator.

Variable env : Env.

(** The load node tells a failure from a transcript by the first word of
    what the reader returns. A missing or unreadable file, and also a
    transcript whose text starts with "Error", leave an empty transcript
    and an error list that holds that one text; any other text is stored
    and the error list is left as it was. With an empty transcript the
    agents work on a placeholder. *)
Theorem transcript_that_starts_with_error_is_dropped :
  forall (st : GraphState),
    let u := load_transcript_update env st in
    (read_file env (transcript_path st) = None ->
     u_transcript_content u = Some ""%string
     /\ u_errors u
        = Some [("Error: Transcript file not found at "
                 ++ transcript_path st)%string])
    /\ (forall e,
           read_file env (transcript_path st) = Some (Raise e) ->
           u_transcript_content u = Some ""%string
           /\ u_errors u
              = Some [("Error reading transcript: " ++ exn_str e)%string])
    /\ (forall content,
           read_file env (transcript_path st) = Some (Ok content) ->
           if startswith "Error" content
           then u_transcript_content u = Some ""%string
                /\ u_errors u = Some [content]
           else u_transcript_content u = Some content /\ u_errors u = None)
    /\ (u_transcript_content u = Some ""%string ->
        excerpt_of 3000 (get_text (transcript_content (merge st u)))
        = "No transcript available"%string).
Proof.
  intros st u. subst u. unfold load_transcript_update, read_transcript.
  split; [|split; [|split]].
  - intros ->. split; reflexivity.
  - intros e ->. split; reflexivity.
  - intros content ->. destruct (startswith "Error" content) eqn:E;
      split; reflexivity.
  - intros H. cbn [merge write transcript_content]. rewrite H. reflexivity.
Qed.

End TranscriptLoading.

(* ================================================================== *)
(** * Shape of the final report *)

Section ReportShape.
Import PyStr PyNum Formatter.

Lemma lstrip_is_drop_while p s : lstrip_by p s = drop_while p s.
Proof.
  induction s as [|x s IH]; [reflexivity|]. cbn [lstrip_by drop_while].
  rewrite IH. reflexivity.
Qed.

(** The characters that the plan loop removes in front of a step. *)
Definition is_numbering (c : ascii) : bool := mem_char c "0123456789. ".

(** A step of the analysis plan is written with its position in the plan
    and without the numbering it came with: what is removed in front of
    the step is made of digits, dots and spaces only, and what is kept
    starts with none of them. *)
Theorem plan_steps_are_renumbered :
  forall (i : Z) (step : string),
    exists numbering clean,
      step = (numbering ++ clean)%string
      /\ all_chars is_numbering numbering = true
      /\ head_fails is_numbering clean = true
      /\ Report.plan_line (i, step)
         = (fmt_int i ++ ". " ++ clean ++ nl)%string.
Proof.
  intros i step.
  exists (take_while is_numbering step), (drop_while is_numbering step).
  split; [apply take_drop_while|].
  split; [apply take_while_all|]. split; [apply drop_while_head|].
  unfold Report.plan_line, lstrip_chars.
  rewrite lstrip_is_drop_while. reflexivity.
Qed.

(** ** Thresholds *)

Lemma threshold_of_some sm i :
  i < List.length (FinSightSelfModel.agent_capabilities sm) ->
  exists t, Report.threshold_of sm i = Ok t.
Proof.
  intros H. unfold Report.threshold_of.
  destruct (nth_error _ i) as [c|] eqn:E; [eauto|].
  apply nth_error_None in E. lia.
Qed.

Lemma agent_row_some sm i name c :
  i < List.length (FinSightSelfModel.agent_capabilities sm) ->
  exists row, Report.agent_row sm i name c = Ok row.
Proof.
  intros H. unfold Report.agent_row. destruct c as [c|]; [|eauto].
  destruct (threshold_of_some sm i H) as [t ->]. cbn [bind]. eauto.
Qed.

(** The final report reads the threshold of each stage that has a result
    from the self model by position. With three capabilities or more it
    is always produced; with no stage result it is produced whatever the
    self model; with no capability and some stage result the index error
    of the first lookup comes out. *)
Theorem report_needs_a_threshold_per_result :
  forall ts ticker sm gs sent events vol decision,
    (3 <= List.length (FinSightSelfModel.agent_capabilities sm) ->
     exists report,
       Report._generate_final_report ts ticker sm gs sent events vol decision
       = Ok report)
    /\ (sent = None -> events = None -> vol = None ->
        exists report,
          Report._generate_final_report ts ticker sm gs sent events vol
            decision = Ok report)
    /\ (FinSightSelfModel.agent_capabilities sm = [] ->
        sent <> None \/ events <> None \/ vol <> None ->
        Report._generate_final_report ts ticker sm gs sent events vol decision
        = Raise (IndexError "list index out of range")).
Proof.
  intros ts ticker sm gs sent events vol decision.
  unfold Report._generate_final_report, Report.confidence_table.
  split; [|split].
  - intros H.
    destruct (agent_row_some sm 0 "Sentiment Analysis"
                (option_map SentimentAnalysisResult.confidence sent))
      as [r1 ->]; [lia|].
    destruct (agent_row_some sm 1 "Event Detection"
                (option_map SignificantEventDetectionResult.confidence events))
      as [r2 ->]; [lia|].
    destruct (agent_row_some sm 2 "Volatility Prediction"
                (option_map VolatilityPredictionResult.confidence vol))
      as [r3 ->]; [lia|].
    cbn [bind]. eauto.
  - intros -> -> ->. cbn [option_map Report.agent_row bind]. eauto.
  - intros Hnil H. unfold Report.agent_row, Report.threshold_of.
    rewrite Hnil.
    destruct sent as [s|]; cbn [option_map nth_error bind]; [reflexivity|].
    destruct events as [e|]; cbn [option_map nth_error bind]; [reflexivity|].
    destruct vol as [v|]; cbn [option_map nth_error bind]; [reflexivity|].
    destruct H as [H|[H|H]]; congruence.
Qed.

Lemma report_needs_a_threshold_per_result_witness :
  (exists report,
      Report._generate_final_report "2025-01-02 03:04:05" "ACME"
        get_default_self_model [] (Some sample_sentiment) None None None
      = Ok report)
  /\ Report._generate_final_report "2025-01-02 03:04:05" "ACME"
       (FinSightSelfModel.mk "FinSight Agent" "1.0" "" [] [] 0.7 [] [])
       [] (Some sample_sentiment) None None None
     = Raise (IndexError "list index out of range").
Proof.
  split.
  - destruct (report_needs_a_threshold_per_result "2025-01-02 03:04:05"
                "ACME" get_default_self_model [] (Some sample_sentiment)
                None None None) as (H & _ & _).
    apply H. vm_compute. apply le_n.
  - destruct (report_needs_a_threshold_per_result "2025-01-02 03:04:05"
                "ACME"
                (FinSightSelfModel.mk "FinSight Agent" "1.0" "" [] [] 0.7
                   [] [])
                [] (Some sample_sentiment) None None None) as (_ & _ & H).
    apply H; [reflexivity|left; discriminate].
Defined.

End ReportShape.

Lemma transcript_that_starts_with_error_is_dropped_witness :
  let env := with_file sample_env
               (fun _ => Some (Ok "Error margins narrowed this quarter."%string)) in
  let st := Orchestrator.initial_state "call.txt" "ACME" None in
  Orchestrator.u_transcript_content
    (Orchestrator.load_transcript_update env st) = Some ""%string
  /\ Orchestrator.u_errors (Orchestrator.load_transcript_update env st)
     = Some ["Error margins narrowed this quarter."%string].
Proof.
  intros env st.
  destruct (transcript_that_starts_with_error_is_dropped env st)
    as (_ & _ & H & _).
  exact (H "Error margins narrowed this quarter."%string eq_refl).
Defined.

(* ================================================================== *)
(** * Fixed parts of the final report *)

Section ReportFixedParts.
Import PyStr Orchestrator.

(** Looks for the needle at the head of the first piece, and steps over
    the piece when it is not there. *)
Ltac here_or_skip :=
  lazymatch goal with
  | |- contains ?n (String.append ?a ?s) = true =>
      first [ solve [ apply (contains_here n (String.append a s));
                      apply (startswith_weaken n a s);
                      vm_compute; reflexivity ]
            | apply (contains_skip n a s) ]
  | |- contains ?n ?a = true =>
      apply (contains_here n a); vm_compute; reflexivity
  end.

Lemma contains_after (n : string) (c : ascii) (s : string) :
  contains n s = true -> contains n (String c s) = true.
Proof. exact (contains_skip n (String c "") s). Qed.

(** Walks through a text made of literal and variable pieces up to the
    place where the needle stands. *)
Ltac seek :=
  repeat first
    [ solve [ lazymatch goal with
              | |- contains ?n ?s = true =>
                  apply (contains_here n s); reflexivity
              end ]
    | lazymatch goal with
      | |- contains ?n (String ?c ?s) = true => apply (contains_after n c s)
      end
    | skip_piece ].

Ltac in_summary :=
  lazymatch goal with
  | |- contains ?n (String.append ?a ?b) = true =>
      apply (contains_weaken n a b)
  end;
  unfold Report.executive_summary; cbv zeta; cbn [String.append]; seek.

Definition advice_notice : string :=
  "It does NOT constitute investment advice or a recommendation to buy or sell securities.".

Definition purpose_notice : string :=
  "This analysis is for **informational and educational purposes only**.".

(** Whatever the stages produced, and whatever the self model says, a
    final report that is generated carries the two notices of its
    disclaimer: that the analysis is informational only and that it is
    not investment advice. *)
Theorem report_always_carries_disclaimer :
  forall ts ticker sm gs sent events vol decision report,
    Report._generate_final_report ts ticker sm gs sent events vol decision
    = Ok report ->
    contains purpose_notice report = true
    /\ contains advice_notice report = true.
Proof.
  intros ts ticker sm gs sent events vol decision report.
  unfold Report._generate_final_report.
  destruct (Report.confidence_table sm sent events vol) as [table|e];
    cbn [bind]; intros H; [|discriminate H].
  apply Ok_inj in H. subst report.
  split; do 12 skip_piece; unfold Report.disclaimers;
    repeat here_or_skip.
Qed.

Definition sentiment_not_available : string :=
  "*Sentiment analysis not available.*".
Definition volatility_not_available : string :=
  "*Volatility prediction not available.*".

(** A stage without a result is named as not available in its section
    of the final report, and its line of the executive summary shows a
    confidence of 0% without decimals. *)
Theorem missing_stage_is_marked_unavailable :
  forall ts ticker sm gs sent events vol decision report,
    Report._generate_final_report ts ticker sm gs sent events vol decision
    = Ok report ->
    (sent = None ->
     contains sentiment_not_available report = true
     /\ contains "**Sentiment:** N/A (Score: 0.00, Confidence: 0%)" report
        = true)
    /\ (events = None ->
        contains Report.events_not_available report = true
        /\ contains "**Events Detected:** 0 (0 verified, Confidence: 0%)"
             report = true)
    /\ (vol = None ->
        contains volatility_not_available report = true
        /\ contains
             "**Predicted Volatility:** N/A (Score: 0.00, Confidence: 0%)"
             report = true
        /\ contains "**Historical Volatility:** 0%" report = true).
Proof.
  intros ts ticker sm gs sent events vol decision report.
  unfold Report._generate_final_report.
  destruct (Report.confidence_table sm sent events vol) as [table|e];
    cbn [bind]; intros H; [|discriminate H].
  apply Ok_inj in H. subst report.
  split; [|split]; intros ->.
  - split.
    + do 3 skip_piece. cbn [Report.sentiment_section].
      unfold sentiment_not_available. here_or_skip.
    + in_summary.
  - split.
    + do 5 skip_piece. cbn [Report.event_detection_section].
      unfold Report.events_not_available. here_or_skip.
    + in_summary.
  - split; [|split].
    + do 7 skip_piece. cbn [Report.volatility_section].
      unfold volatility_not_available. here_or_skip.
    + in_summary.
    + in_summary.
Qed.

End ReportFixedParts.

Section ReportFixedPartsSamples.
Import PyStr Orchestrator.

Lemma report_always_carries_disclaimer_witness :
  exists report,
    Report._generate_final_report "2025-01-02 03:04:05" "ACME"
      get_default_self_model [] None None None None = Ok report
    /\ contains purpose_notice report = true
    /\ contains advice_notice report = true.
Proof.
  eexists. split; [vm_compute; reflexivity|].
  apply (report_always_carries_disclaimer "2025-01-02 03:04:05" "ACME"
           get_default_self_model [] None None None None).
  vm_compute. reflexivity.
Defined.

Lemma missing_stage_is_marked_unavailable_witness :
  exists report,
    Report._generate_final_report "2025-01-02 03:04:05" "ACME"
      get_default_self_model [] None None None None = Ok report
    /\ contains sentiment_not_available report = true
    /\ contains Report.events_not_available report = true
    /\ contains volatility_not_available report = true.
Proof.
  eexists. split; [vm_compute; reflexivity|].
  destruct (missing_stage_is_marked_unavailable "2025-01-02 03:04:05" "ACME"
              get_default_self_model [] None None None None _ eq_refl)
    as (Hs & He & Hv).
  split; [apply Hs; reflexivity|].
  split; [apply He; reflexivity|apply Hv; reflexivity].
Defined.

End ReportFixedPartsSamples.

(* ================================================================== *)
(** * A number the readers cannot convert *)

Section BadNumbers.
Import PyStr PyNum Re Api.

(** The texts captured after the four numeric labels. *)
Definition numeric_captures (content : string) : list (option string) :=
  [search1 re_score content; search1 re_confidence content;
   search1 re_volatility_score content;
   search1 re_historical_volatility content].



End BadNumbers.

(* ================================================================== *)
(** * Configuration (src/config.py) *)

Module Config.
Import PyStr Formatter.
#[local] Open Scope string_scope.

(** [os.getenv(key, default)]; the process environment gives the value of
    a variable that is set. *)
Definition getenv (environ : string -> option string) (key default : string)
  : string :=
  match environ key with
  | Some v => v
  | None => default
  end.

Record ScalewayConfig := mkScalewayConfig {
  project_id : string;
  api_key : string;
  model : string;
  temperature : float;
  max_tokens : Z
}.

Definition base_url (c : ScalewayConfig) : string :=
  "https://api.scaleway.ai/" ++ project_id c ++ "/v1".

Record APIConfig := mkAPIConfig {
  tavily_search_api_key : string;
  google_api_key : string
}.

Record SECConfig := mkSECConfig {
  company_name : string;
  email : string
}.

Record PathConfig := mkPathConfig {
  output_dir : string;
  input_dir : string
}.

Record t := mkConfig {
  scaleway : ScalewayConfig;
  api : APIConfig;
  sec : SECConfig;
  paths : PathConfig
}.

(** [Config.__init__] *)
Definition init (environ : string -> option string) : t :=
  mkConfig
    (mkScalewayConfig (getenv environ "SCW_DEFAULT_PROJECT_ID" "")
       (getenv environ "SCW_SECRET_KEY" "")
       "qwen3-235b-a22b-instruct-2507" 0%float 2048)
    (mkAPIConfig (getenv environ "TAVILY_API_KEY" "")
       (getenv environ "GOOGLE_API_KEY" ""))
    (mkSECConfig "FinSightAI" "research@finsight.ai")
    (mkPathConfig "./data/output" "./data/input").

(** The truth value of a text: false for the empty text only. *)
Definition truthy (s : string) : bool :=
  match s with
  | EmptyString => false
  | _ => true
  end.

(** [Config.validate] *)
Definition validate (c : t) : except bool :=
  let required_checks :=
    [(project_id (scaleway c), "SCW_DEFAULT_PROJECT_ID");
     (api_key (scaleway c), "SCW_SECRET_KEY");
     (tavily_search_api_key (api c), "TAVILY_API_KEY")] in
  let missing :=
    map snd (filter (fun check => negb (truthy (fst check))) required_checks) in
  if nonempty missing
  then Raise (ValueError ("Missing required environment variables: "
                          ++ join ", " missing))
  else Ok true.

(** Reading an attribute of an object by its name either finds it or
    raises AttributeError. *)
Inductive attribute (A : Type) : Type :=
| Found (a : A)
| AttributeError (msg : string).
Arguments Found {A} a.
Arguments AttributeError {A} msg.

(** [getattr] on an [APIConfig]: the class declares two fields and
    nothing else answers for a name. *)
Definition api_getattr (c : APIConfig) (name : string) : attribute string :=
  if String.eqb name "tavily_search_api_key" then Found (tavily_search_api_key c)
  else if String.eqb name "google_api_key" then Found (google_api_key c)
  else AttributeError ("'APIConfig' object has no attribute '" ++ name ++ "'").

End Config.

(* ================================================================== *)
(** * Providers (src/tools.py) *)

Module Tools.
Import PyStr Formatter Orchestrator.
#[local] Open Scope string_scope.

(** What the search backend hands back: a list of results, of which the
    pipeline reads the title, or something that is not a list. *)
Inductive invoke_result : Type :=
| ResultList (items : list (option string))
| NotAList.

(** [FinancialNewsSearchTool]: the backend is set up only with a key. *)
Record FinancialNewsSearchTool := mkNewsTool {
  news_api_key : string;
  search_tool : option (string -> except invoke_result)
}.

(** [FinancialNewsSearchTool.__init__] *)
Definition new_news_tool (api_key : string)
    (backend : string -> except invoke_result) : FinancialNewsSearchTool :=
  mkNewsTool api_key (if Config.truthy api_key then Some backend else None).

(** [FinancialNewsSearchTool.search] *)
Definition search (tool : FinancialNewsSearchTool) (query company_name : string)
  : list (option string) :=
  match search_tool tool with
  | None => []
  | Some invoke =>
      let full_query :=
        if Config.truthy company_name
        then company_name ++ " " ++ query ++ " financial news"
        else query in
      match invoke full_query with
      | Ok (ResultList results) => results
      | Ok NotAList => []
      | Raise _ => []
      end
  end.

(** [get_recent_news]; [max_results] is a count, not negative. *)
Definition get_recent_news (tool : FinancialNewsSearchTool) (ticker : string)
    (max_results : nat) : list (option string) :=
  firstn max_results (search tool (ticker ++ " earnings stock news latest") "").

Definition get_sentiment_news (tool : FinancialNewsSearchTool)
    (ticker : string) : list (option string) :=
  search tool (ticker ++ " earnings sentiment market reaction analyst") "".

(** The module-level [news_search_tool]: built from the attribute
    [tavily_api_key] of the API configuration. *)
Definition news_search_tool (config : Config.t)
    (backend : string -> except invoke_result)
  : Config.attribute FinancialNewsSearchTool :=
  match Config.api_getattr (Config.api config) "tavily_api_key" with
  | Config.Found key => Config.Found (new_news_tool key backend)
  | Config.AttributeError msg => Config.AttributeError msg
  end.

(** [SECFilingTool.download_recent_filings]. [get] is the downloader:
    filing type, ticker and limit give the number of filings downloaded,
    or an error. The result is a dictionary keyed by filing type, kept
    in insertion order. *)
Definition filing_entry (get : string -> string -> Z -> except Z)
    (ticker : string) (limit : Z) (filing_type : string) : FilingResult :=
  match get filing_type ticker limit with
  | Ok num_downloaded => mkFiling filing_type num_downloaded "success"
  | Raise e => mkFiling filing_type 0 ("error: " ++ exn_str e)
  end.

(** [results[key] = entry] *)
Fixpoint dict_set (entry : FilingResult) (results : list FilingResult)
  : list FilingResult :=
  match results with
  | [] => [entry]
  | r :: results' =>
      if String.eqb (filing_type r) (filing_type entry)
      then entry :: results'
      else r :: dict_set entry results'
  end.

Definition download_recent_filings (get : string -> string -> Z -> except Z)
    (ticker : string) (filing_types : option (list string)) (limit : Z)
  : list FilingResult :=
  let filing_types :=
    match filing_types with
    | Some l => l
    | None => ["10-K"; "10-Q"; "8-K"]
    end in
  fold_left (fun results filing_type =>
               dict_set (filing_entry get ticker limit filing_type) results)
    filing_types [].

(** The run environment whose news and filings come from these tools,
    called the way the agents call them. *)
Definition with_tools (env : Env) (news : FinancialNewsSearchTool)
    (get : string -> string -> Z -> except Z) : Env :=
  mkEnv (clock env) (read_file env)
    (fun ticker => Ok (get_sentiment_news news ticker))
    (fun ticker =>
       Ok (download_recent_filings get ticker (Some ["8-K"; "10-Q"]) 3))
    (get_historical_volatility env)
    (get_price_movement env) (get_stock_info env) (complete_decision env)
    (complete_sentiment env) (complete_events env) (complete_answer env)
    (complete_volatility env).

End Tools.

(* ================================================================== *)
(** * Start-up *)

Section Startup.
Import PyStr Formatter.

(** A required variable counts as missing when it is unset or empty. *)
Definition unset (environ : string -> option string) (key : string) : bool :=
  match environ key with
  | Some v => negb (Config.truthy v)
  | None => true
  end.

Definition required_variables : list string :=
  ["SCW_DEFAULT_PROJECT_ID"; "SCW_SECRET_KEY"; "TAVILY_API_KEY"]%string.

(** Validation of the configuration passes exactly when the three
    required variables are set and not empty; otherwise it raises a
    ValueError that names every missing one, in the fixed order of the
    checks. No other variable is looked at. *)
Theorem validate_names_missing_settings :
  forall (environ : string -> option string),
    let missing := filter (unset environ) required_variables in
    (missing = [] -> Config.validate (Config.init environ) = Ok true)
    /\ (missing <> [] ->
        Config.validate (Config.init environ)
        = Raise (ValueError ("Missing required environment variables: "
                             ++ join ", " missing)%string)).
Proof.
  intros environ. unfold Config.validate, Config.init, required_variables,
    unset, Config.getenv.
  cbn [Config.project_id Config.api_key Config.tavily_search_api_key
       Config.scaleway Config.api filter map fst snd].
  destruct (environ "SCW_DEFAULT_PROJECT_ID"%string) as [[|a1 v1]|];
    destruct (environ "SCW_SECRET_KEY"%string) as [[|a2 v2]|];
    destruct (environ "TAVILY_API_KEY"%string) as [[|a3 v3]|];
    cbn; split; intros H; try reflexivity; try discriminate H;
    try (exfalso; apply H; reflexivity).
Qed.

(** The provider module builds its news tool from an attribute named
    [tavily_api_key], while the API configuration declares
    [tavily_search_api_key]. Whatever the environment holds, and also
    when validation of the configuration passes, building the tool
    raises AttributeError; read under the declared name, the same key
    is found. *)
Theorem news_tool_reads_undeclared_setting :
  forall (environ : string -> option string) backend,
    Tools.news_search_tool (Config.init environ) backend
    = Config.AttributeError
        "'APIConfig' object has no attribute 'tavily_api_key'"
    /\ Config.api_getattr (Config.api (Config.init environ))
         "tavily_search_api_key"
       = Config.Found (Config.getenv environ "TAVILY_API_KEY" "").
Proof. intros environ backend. split; reflexivity. Qed.

End Startup.

Section StartupSamples.
Import PyStr Formatter.

Definition partial_environ (key : string) : option string :=
  if String.eqb key "SCW_SECRET_KEY" then Some "secret"%string
  else if String.eqb key "TAVILY_API_KEY" then Some ""%string
  else None.

Lemma validate_names_missing_settings_witness :
  Config.validate (Config.init partial_environ)
  = Raise (ValueError
             "Missing required environment variables: SCW_DEFAULT_PROJECT_ID, TAVILY_API_KEY").
Proof.
  destruct (validate_names_missing_settings partial_environ) as [_ H].
  rewrite H; [reflexivity|discriminate].
Defined.

End StartupSamples.

(* ================================================================== *)
(** * The agents over the providers *)

Section AgentsOverTools.
Import PyStr PyNum Formatter Orchestrator.

Variable env : Env.

(** The news tool never lets a failure through: without a key, when the
    backend raises and when it returns something that is not a list, the
    search gives no result. The sentiment agent then stores the result of
    the completion as it is, without a validation note, and nothing is
    added to the error list: an outage of the news search leaves no trace
    in the run state. *)
Theorem news_outage_leaves_no_trace :
  forall (st : GraphState) (key : string) backend get
         (result : SentimentAnalysisResult.t),
    (forall x y, complete_sentiment env x y = Ok result) ->
    key = ""%string
    \/ (exists e,
           backend (company_ticker st
                    ++ " earnings sentiment market reaction analyst")%string
           = Raise e)
    \/ backend (company_ticker st
                ++ " earnings sentiment market reaction analyst")%string
       = Ok Tools.NotAList ->
    let tool := Tools.new_news_tool key backend in
    let u := sentiment_process (Tools.with_tools env tool get) st in
    Tools.get_sentiment_news tool (company_ticker st) = []
    /\ u_sentiment_result u = Some result
    /\ u_errors u = None.
Proof.
  intros st key backend get result Hc Hout tool u.
  assert (Hnews : Tools.get_sentiment_news tool (company_ticker st) = []).
  { unfold tool, Tools.get_sentiment_news, Tools.search, Tools.new_news_tool.
    cbn [Tools.search_tool Config.truthy].
    destruct Hout as [->|[(e & He)|He]]; [reflexivity| |].
    - destruct key; [reflexivity|]. cbn [Config.truthy]. rewrite He.
      reflexivity.
    - destruct key; [reflexivity|]. cbn [Config.truthy]. rewrite He.
      reflexivity. }
  split; [exact Hnews|].
  unfold u, sentiment_process, _gather_news_context, Tools.with_tools.
  cbn [get_sentiment_news complete_sentiment].
  fold tool. rewrite Hnews. cbn [firstn map nonempty].
  rewrite Hc. split; reflexivity.
Qed.

(** The number of filing types whose download gave at least one filing. *)
Definition types_with_filings (get : string -> string -> Z -> except Z)
    (ticker : string) : nat :=
  List.length
    (filter (fun filing_type =>
               match get filing_type ticker 3%Z with
               | Ok n => (0 <? n)%Z
               | Raise _ => false
               end) ["8-K"; "10-Q"]%string).

(** The filing tool catches the failure of each download by itself, so
    the event agent always gets an answer from it: one entry for 8-K and
    one for 10-Q, in that order, a failed download with 0 filings and the
    error as its status. Only a download that returned at least one
    filing counts as successful, and the note of the agent gives that
    count, or says that no filing is available when the count is 0. *)
Theorem failed_download_is_not_counted :
  forall (ticker : string) news (get : string -> string -> Z -> except Z),
    let filings :=
      Tools.download_recent_filings get ticker (Some ["8-K"; "10-Q"]%string) 3
    in
    let k := types_with_filings get ticker in
    filings = [Tools.filing_entry get ticker 3 "8-K";
               Tools.filing_entry get ticker 3 "10-Q"]
    /\ (forall f e,
           In f filings -> get (filing_type f) ticker 3%Z = Raise e ->
           downloaded f = 0%Z /\ filing_ok f = false)
    /\ _validate_with_sec_filings (Tools.with_tools env news get) ticker
       = (true, repr_filings filings,
          [if (0 <? k)%nat
           then ("Downloaded " ++ fmt_int (Z.of_nat k)
                 ++ " SEC filing types for cross-reference")%string
           else "No recent SEC filings available for validation"%string]).
Proof.
  intros ticker news get filings k.
  assert (Hf : filings = [Tools.filing_entry get ticker 3 "8-K";
                          Tools.filing_entry get ticker 3 "10-Q"]).
  { unfold filings, Tools.download_recent_filings.
    cbn [fold_left Tools.dict_set].
    assert (Ht : forall ft, filing_type (Tools.filing_entry get ticker 3 ft)
                            = ft).
    { intros ft. unfold Tools.filing_entry.
      destruct (get ft ticker 3%Z); reflexivity. }
    rewrite !Ht. reflexivity. }
  split; [exact Hf|]. split.
  - intros f e Hin He. rewrite Hf in Hin.
    assert (Hbad : forall ft,
               f = Tools.filing_entry get ticker 3 ft ->
               downloaded f = 0%Z /\ filing_ok f = false).
    { intros ft ->. unfold Tools.filing_entry in *.
      destruct (get ft ticker 3%Z) as [n|e'] eqn:E.
      - cbn [filing_type] in He. rewrite E in He. discriminate He.
      - split; [reflexivity|]. unfold filing_ok. cbn [status downloaded].
        rewrite andb_false_r. reflexivity. }
    destruct Hin as [<-|[<-|[]]]; eapply Hbad; reflexivity.
  - unfold _validate_with_sec_filings, Tools.with_tools.
    cbn [download_recent_filings]. fold filings.
    assert (Hk : List.length (filter filing_ok filings) = k).
    { rewrite Hf. unfold k, types_with_filings, Tools.filing_entry, filing_ok.
      cbn [filter].
      destruct (get "8-K"%string ticker 3%Z) as [n1|e1];
        destruct (get "10-Q"%string ticker 3%Z) as [n2|e2];
        cbn [status downloaded String.eqb Ascii.eqb Bool.eqb andb];
        try destruct (0 <? n1)%Z; try destruct (0 <? n2)%Z; reflexivity. }
    rewrite Hk. reflexivity.
Qed.

End AgentsOverTools.

Section AgentsOverToolsSamples.
Import PyStr PyNum Formatter Orchestrator.

Definition failing_backend (query : string) : except Tools.invoke_result :=
  Raise (RuntimeError "connection refused").

Definition sample_downloader (filing_type ticker : string) (limit : Z)
  : except Z :=
  if String.eqb filing_type "8-K" then Ok 2%Z
  else Raise (RuntimeError "rate limited").

Lemma news_outage_leaves_no_trace_witness :
  u_sentiment_result
    (sentiment_process
       (Tools.with_tools sample_env
          (Tools.new_news_tool "key" failing_backend) sample_downloader)
       (initial_state "call.txt" "ACME" None))
  = Some sample_sentiment.
Proof.
  apply (news_outage_leaves_no_trace sample_env
           (initial_state "call.txt" "ACME" None) "key" failing_backend
           sample_downloader sample_sentiment (fun _ _ => eq_refl)).
  right. left. eexists. reflexivity.
Defined.

End AgentsOverToolsSamples.

(* ================================================================== *)
(** * The executive summary as the reader of the final report sees it *)

Section SummaryLines.
Import PyStr PyNum Re Api Formatter.

(** What follows the first value of a summary line. *)
Definition summary_tail : regex :=
  seq [star ws; lit "(Score:"; star ws; grp 2 (plus num); lit ","; star ws;
       lit "Confidence:"; star ws; grp 3 (plus num); lit "%)"].

Definition events_tail : regex :=
  seq [star ws; lit "("; grp 2 (plus digit); star ws; lit "verified,";
       star ws; lit "Confidence:"; star ws; grp 3 (plus num); lit "%)"].

Lemma summary_re_label label :
  summary_re label = label_re label (plus (RChar is_word)) summary_tail.
Proof. reflexivity. Qed.

Lemma events_summary_label :
  re_events_summary
  = label_re "Events Detected" (plus (RChar is_digit)) events_tail.
Proof. reflexivity. Qed.

(** One blank, then the rest of the pattern. *)
Lemma rmatch_blank r rest c k m :
  head_fails is_space rest = true ->
  rmatch r rest c k = Some m ->
  rmatch (RSeq (star ws) r) (" " ++ rest) c k = Some m.
Proof.
  intros Hr Hm. rewrite rmatch_seq_eq. unfold star, ws.
  apply (rmatch_star_run is_space _ " " rest); [reflexivity|exact Hr|exact Hm].
Qed.

(** A captured value of class [p], then the rest of the pattern. *)
Lemma rmatch_value i p r v rest c k m :
  token p v -> head_fails p rest = true ->
  rmatch r rest ((i, v) :: c) k = Some m ->
  rmatch (RSeq (grp i (plus (RChar p))) r) (v ++ rest) c k = Some m.
Proof.
  intros (Hne & Hv & _) Hr Hm. rewrite rmatch_seq_eq. unfold grp.
  destruct v as [|x w]; [congruence|].
  apply rmatch_group_run; [exact Hv|exact Hr|exact Hm].
Qed.

Lemma rmatch_word l r rest c k m :
  rmatch r rest c k = Some m ->
  rmatch (RSeq (lit l) r) (l ++ rest) c k = Some m.
Proof. intros Hm. rewrite rmatch_seq_eq. unfold lit. rewrite rmatch_lit_app. exact Hm. Qed.

Lemma rmatch_last l rest c :
  rmatch (lit l) (l ++ rest) c final = Some (rest, c).
Proof. unfold lit. rewrite rmatch_lit_app. reflexivity. Qed.

Lemma token_head_space p v rest :
  token p v -> head_fails is_space (v ++ rest) = true.
Proof. intros (Hne & _ & Hs). apply head_fails_app; assumption. Qed.

(** A summary line with a name, a score and a confidence. *)
Lemma match_summary label name sc cf rest :
  token is_word name -> token is_num sc -> token is_num cf ->
  match_at (summary_re label)
    (label_lit label ++ " " ++ name ++ " (Score: " ++ sc
     ++ ", Confidence: " ++ cf ++ "%)" ++ rest)
  = Some (rest, [(3, cf); (2, sc); (1, name)]).
Proof.
  intros Hn Hs Hc. rewrite summary_re_label.
  destruct Hn as (Hn1 & Hn2 & Hn3).
  apply (match_label label is_word summary_tail " " name); auto.
  unfold summary_tail. cbn [seq].
  change (" (Score: " ++ sc ++ ", Confidence: " ++ cf ++ "%)" ++ rest)%string
    with (" " ++ "(Score:" ++ " " ++ sc ++ "," ++ " " ++ "Confidence:"
          ++ " " ++ cf ++ "%)" ++ rest)%string.
  apply rmatch_blank; [reflexivity|].
  apply rmatch_word.
  apply rmatch_blank; [apply (token_head_space is_num), Hs|].
  apply rmatch_value; [exact Hs|reflexivity|].
  apply rmatch_word.
  apply rmatch_blank; [reflexivity|].
  apply rmatch_word.
  apply rmatch_blank; [apply (token_head_space is_num), Hc|].
  apply rmatch_value; [exact Hc|reflexivity|].
  apply rmatch_last.
Qed.

(** The summary line of the events, with two counts and a confidence. *)
Lemma match_events_summary total verified cf rest :
  token is_digit total -> token is_digit verified -> token is_num cf ->
  match_at re_events_summary
    (label_lit "Events Detected" ++ " " ++ total ++ " (" ++ verified
     ++ " verified, Confidence: " ++ cf ++ "%)" ++ rest)
  = Some (rest, [(3, cf); (2, verified); (1, total)]).
Proof.
  intros Ht Hv Hc. rewrite events_summary_label.
  destruct Ht as (Ht1 & Ht2 & Ht3).
  apply (match_label "Events Detected" is_digit events_tail " " total); auto.
  unfold events_tail. cbn [seq].
  change (" (" ++ verified ++ " verified, Confidence: " ++ cf ++ "%)"
          ++ rest)%string
    with (" " ++ "(" ++ verified ++ " " ++ "verified," ++ " "
          ++ "Confidence:" ++ " " ++ cf ++ "%)" ++ rest)%string.
  apply rmatch_blank; [reflexivity|].
  apply rmatch_word.
  apply rmatch_value; [exact Hv|reflexivity|].
  apply rmatch_blank; [reflexivity|].
  apply rmatch_word.
  apply rmatch_blank; [reflexivity|].
  apply rmatch_word.
  apply rmatch_blank; [apply (token_head_space is_num), Hc|].
  apply rmatch_value; [exact Hc|reflexivity|].
  apply rmatch_last.
Qed.

(** A labelled value with all its groups, found in a literal piece. *)
Lemma search_label label p sfx piece a pad v rest m :
  find_lit (label_lit label) piece = Some (a, pad) ->
  all_chars is_space pad = true ->
  token p v -> head_fails p rest = true ->
  rmatch sfx rest [(1, v)] final = Some m ->
  search (label_re label (plus (RChar p)) sfx) (piece ++ v ++ rest) = Some m.
Proof.
  intros Hf Hpad (H1 & H2 & H3) Hr Hm.
  rewrite (search_find _ _ _ _ _ (v ++ rest) (label_re_headed label _ _) Hf).
  apply search_here. apply match_label; auto.
Qed.

End SummaryLines.

(** Steps over the pieces of a text that are free of the literal a
    pattern starts with. *)
Ltac skip_pieces Hhead :=
  repeat lazymatch goal with
         | |- context [Re.search ?r (String.append ?a ?b)] =>
             rewrite (search_free _ r a b Hhead) by solve_free
         end.

Section ExecutiveSummary.
Import PyStr PyNum Re Api Formatter.

(** The line of a summary that starts in the literal piece [piece]. *)
Lemma search_summary_line label piece a name sc cf tail rest :
  find_lit (label_lit label) piece = Some (a, " "%string) ->
  token is_word name -> token is_num sc -> token is_num cf ->
  drop_prefix ")" tail = Some rest ->
  search (summary_re label)
    (piece ++ name ++ " (Score: " ++ sc ++ ", Confidence: " ++ cf ++ "%"
     ++ tail)
  = Some (rest, [(3, cf); (2, sc); (1, name)]).
Proof.
  intros Hf Hn Hs Hc Ht. apply drop_prefix_some in Ht. subst tail.
  rewrite summary_re_label.
  rewrite (search_find _ _ _ _ _ _ (label_re_headed label _ _) Hf).
  apply search_here. rewrite <- summary_re_label.
  apply (match_summary label name sc cf rest Hn Hs Hc).
Qed.

Lemma search_events_line piece a total verified cf tail rest :
  find_lit (label_lit "Events Detected") piece = Some (a, " "%string) ->
  token is_digit total -> token is_digit verified -> token is_num cf ->
  drop_prefix ")" tail = Some rest ->
  search re_events_summary
    (piece ++ total ++ " (" ++ verified ++ " verified, Confidence: " ++ cf
     ++ "%" ++ tail)
  = Some (rest, [(3, cf); (2, verified); (1, total)]).
Proof.
  intros Hf Hn Hs Hc Ht. apply drop_prefix_some in Ht. subst tail.
  rewrite events_summary_label.
  rewrite (search_find _ _ _ _ _ _ (label_re_headed _ _ _) Hf).
  apply search_here. rewrite <- events_summary_label.
  apply (match_events_summary total verified cf rest Hn Hs Hc).
Qed.

(** A header text: one non-empty line without markup that does not
    start with white space. *)
Definition header_text (s : string) : bool :=
  negb (String.eqb s "") && lacks "010" s && plain s
  && head_fails is_space s.

Lemma header_text_parts s :
  header_text s = true ->
  s <> ""%string /\ lacks "010" s = true /\ lacks "*" s = true
  /\ lacks "#" s = true /\ head_fails is_space s = true.
Proof.
  unfold header_text, plain. rewrite !andb_true_iff, negb_true_iff.
  intros [[[H1 H2] [H3 H4]] H5]. repeat split; auto.
  intros ->. discriminate.
Qed.

(** The numbers of the three results that the summary patterns admit:
    none of them negative. *)
Definition sentiment_numbers (s : SentimentAnalysisResult.t) : bool :=
  nonneg_finite (SentimentAnalysisResult.sentiment_score s)
  && nonneg_finite (percent (SentimentAnalysisResult.confidence s)).

Definition events_numbers (e : SignificantEventDetectionResult.t) : bool :=
  (0 <=? SignificantEventDetectionResult.total_events_found e)%Z
  && (0 <=? SignificantEventDetectionResult.verified_count e)%Z
  && nonneg_finite (percent (SignificantEventDetectionResult.confidence e)).

Definition volatility_numbers (v : VolatilityPredictionResult.t) : bool :=
  nonneg_finite (VolatilityPredictionResult.volatility_score v)
  && nonneg_finite (percent (VolatilityPredictionResult.confidence v))
  && nonneg_finite
       (percent (VolatilityPredictionResult.historical_volatility v)).

Definition summary_numbers (s : SentimentAnalysisResult.t)
    (e : SignificantEventDetectionResult.t)
    (v : VolatilityPredictionResult.t) : bool :=
  sentiment_numbers s && events_numbers e && volatility_numbers v.

Lemma summary_numbers_parts s e v :
  summary_numbers s e v = true ->
  sentiment_numbers s = true /\ events_numbers e = true
  /\ volatility_numbers v = true.
Proof.
  unfold summary_numbers. rewrite !andb_true_iff. tauto.
Qed.

(** The three texts of the sentiment line, for a stage with or without a
    result. *)
Definition sentiment_name (sent : option SentimentAnalysisResult.t)
  : string :=
  match sent with
  | Some s => SentimentAnalysisResult.sentiment_str
                (SentimentAnalysisResult.overall_sentiment s)
  | None => "N/A"
  end.

Definition sentiment_score_text (sent : option SentimentAnalysisResult.t)
  : string :=
  match sent with
  | Some s => fmt_2f (SentimentAnalysisResult.sentiment_score s)
  | None => "0.00"
  end.

Definition sentiment_confidence_text
    (sent : option SentimentAnalysisResult.t) : string :=
  match sent with
  | Some s => fmt_2f (percent (SentimentAnalysisResult.confidence s))
  | None => "0"
  end.

Lemma sentiment_name_lacks c sent :
  is_word c = false -> ascii_eqb c "/" = false ->
  lacks c (sentiment_name sent) = true.
Proof.
  intros Hw Hs. destruct sent as [s|]; cbn [sentiment_name].
  - apply (token_lacks is_word); [exact Hw|apply token_sentiment].
  - destruct c as [[] [] [] [] [] [] [] []];
      try discriminate Hw; try discriminate Hs; reflexivity.
Qed.

Lemma sentiment_score_lacks c sent :
  is_fmt_char c = false -> lacks c (sentiment_score_text sent) = true.
Proof.
  intros Hc. destruct sent as [s|]; cbn [sentiment_score_text].
  - apply fmt_2f_lacks, Hc.
  - change "0.00"%string with (fmt_2f 0%float). apply fmt_2f_lacks, Hc.
Qed.

Lemma sentiment_confidence_lacks c sent :
  is_fmt_char c = false -> lacks c (sentiment_confidence_text sent) = true.
Proof.
  intros Hc. destruct sent as [s|]; cbn [sentiment_confidence_text].
  - apply fmt_2f_lacks, Hc.
  - assert (H : lacks c "0.00" = true)
      by (change "0.00"%string with (fmt_2f 0%float); apply fmt_2f_lacks, Hc).
    unfold lacks in *. cbn [all_chars] in *.
    apply andb_true_iff in H. destruct H as [H _]. rewrite H. reflexivity.
Qed.

Lemma summary_pieces ts ticker version sent e v rest :
  (Report.executive_summary ts ticker version sent (Some e) (Some v)
   ++ rest)%string
  = ("# FinSight Multi-Agent Analysis Report

**Generated:** " ++ ts ++ "  " ++ "
**Company:** " ++ ticker ++ "  
**System Version:** " ++ version ++ "

---

## Executive Summary

- **Sentiment:** " ++ sentiment_name sent ++ " (Score: " ++ sentiment_score_text sent ++ ", Confidence: " ++ sentiment_confidence_text sent ++ "%" ++ ")
- **Events Detected:** " ++ fmt_int (SignificantEventDetectionResult.total_events_found e) ++ " (" ++ fmt_int (SignificantEventDetectionResult.verified_count e) ++ " verified, Confidence: " ++ fmt_2f (percent (SignificantEventDetectionResult.confidence e)) ++ "%" ++ ")
- **Predicted Volatility:** " ++ VolatilityPredictionResult.volatility_str (VolatilityPredictionResult.predicted_volatility v) ++ " (Score: " ++ fmt_2f (VolatilityPredictionResult.volatility_score v) ++ ", Confidence: " ++ fmt_2f (percent (VolatilityPredictionResult.confidence v)) ++ "%" ++ ")
- **Historical Volatility:** " ++ fmt_2f (percent (VolatilityPredictionResult.historical_volatility v)) ++ "%" ++ "

---

## 1. Coordinator's Metacognitive Analysis

" ++ rest)%string.
Proof.
  unfold Report.executive_summary, sentiment_name, sentiment_score_text,
    sentiment_confidence_text.
  cbv zeta. destruct sent; rewrite !fmt_pct_eq, !sapp_assoc; reflexivity.
Qed.

Variables (ts ticker version : string).
Variable sent : option SentimentAnalysisResult.t.
Variable s : SentimentAnalysisResult.t.
Variable e : SignificantEventDetectionResult.t.
Variable v : VolatilityPredictionResult.t.
Variable rest : string.

Hypothesis Hts : header_text ts = true.
Hypothesis Hticker : plain ticker = true.
Hypothesis Hversion : header_text version = true.
Hypothesis Hsent : sent = Some s.
Hypothesis Hsn : sentiment_numbers s = true.
Hypothesis Hen : events_numbers e = true.
Hypothesis Hvn : volatility_numbers v = true.

Let content : string :=
  (Report.executive_summary ts ticker version sent (Some e) (Some v)
   ++ rest)%string.

Let name := sentiment_name sent.
Let sc := sentiment_score_text sent.
Let pc := sentiment_confidence_text sent.
Let total := fmt_int (SignificantEventDetectionResult.total_events_found e).
Let verified := fmt_int (SignificantEventDetectionResult.verified_count e).
Let pe := fmt_2f (percent (SignificantEventDetectionResult.confidence e)).
Let vname := VolatilityPredictionResult.volatility_str
               (VolatilityPredictionResult.predicted_volatility v).
Let vs := fmt_2f (VolatilityPredictionResult.volatility_score v).
Let pv := fmt_2f (percent (VolatilityPredictionResult.confidence v)).
Let ph := fmt_2f
            (percent (VolatilityPredictionResult.historical_volatility v)).

Lemma sentiment_tokens :
  token is_word name /\ token is_num sc /\ token is_num pc.
Proof.
  unfold sentiment_numbers in Hsn. rewrite !andb_true_iff in Hsn.
  destruct Hsn as [H1 H2]. unfold name, sc, pc. rewrite Hsent.
  split; [apply token_sentiment|].
  split; apply token_num; assumption.
Qed.

Lemma events_tokens :
  token is_digit total /\ token is_digit verified /\ token is_num pe.
Proof.
  unfold events_numbers in Hen. rewrite !andb_true_iff in Hen.
  destruct Hen as [[H1 H2] H3]. apply Z.leb_le in H1, H2.
  split; [apply token_int, H1|].
  split; [apply token_int, H2|apply token_num, H3].
Qed.

Lemma volatility_tokens :
  token is_word vname /\ token is_num vs /\ token is_num pv
  /\ token is_num ph.
Proof.
  unfold volatility_numbers in Hvn. rewrite !andb_true_iff in Hvn.
  destruct Hvn as [[H1 H2] H3].
  split; [apply token_volatility|].
  split; [apply token_num, H1|].
  split; apply token_num; assumption.
Qed.

Ltac header_facts :=
  destruct (header_text_parts ts Hts) as (Hts0 & Hts1 & Hts2 & Hts3 & Hts4);
  destruct (header_text_parts version Hversion)
    as (Hv0 & Hv1 & Hv2 & Hv3 & Hv4);
  destruct (plain_parts ticker Hticker) as (Htk1 & Htk2);
  assert (Lname : lacks "*" name = true)
    by (apply sentiment_name_lacks; reflexivity);
  assert (Lsc : lacks "*" sc = true)
    by (apply sentiment_score_lacks; reflexivity);
  assert (Lpc : lacks "*" pc = true)
    by (apply sentiment_confidence_lacks; reflexivity);
  assert (Ltotal : lacks "*" total = true)
    by (unfold total; apply fmt_int_lacks; reflexivity);
  assert (Lverified : lacks "*" verified = true)
    by (unfold verified; apply fmt_int_lacks; reflexivity);
  assert (Lpe : lacks "*" pe = true)
    by (unfold pe; apply fmt_2f_lacks; reflexivity);
  assert (Lvname : lacks "*" vname = true)
    by (apply (token_lacks is_word); [reflexivity|apply token_volatility]);
  assert (Lvs : lacks "*" vs = true)
    by (unfold vs; apply fmt_2f_lacks; reflexivity);
  assert (Lpv : lacks "*" pv = true)
    by (unfold pv; apply fmt_2f_lacks; reflexivity);
  assert (Lph : lacks "*" ph = true)
    by (unfold ph; apply fmt_2f_lacks; reflexivity).

Lemma summary_sentiment :
  exists r,
    search (summary_re "Sentiment") content
    = Some (r, [(3, pc); (2, sc); (1, name)]).
Proof.
  header_facts. destruct sentiment_tokens as (Tname & Tsc & Tpc).
  unfold content; rewrite summary_pieces, summary_re_label.
  skip_pieces (label_re_headed "Sentiment" (plus (RChar is_word))
                 summary_tail).
  rewrite <- summary_re_label. eexists.
  eapply search_summary_line;
    [reflexivity|assumption|assumption|assumption|reflexivity].
Qed.

Lemma summary_events :
  exists r,
    search re_events_summary content
    = Some (r, [(3, pe); (2, verified); (1, total)]).
Proof.
  header_facts. destruct events_tokens as (Ttotal & Tverified & Tpe).
  unfold content; rewrite summary_pieces, events_summary_label.
  skip_pieces (label_re_headed "Events Detected" (plus (RChar is_digit))
                 events_tail).
  rewrite <- events_summary_label. eexists.
  eapply search_events_line;
    [reflexivity|assumption|assumption|assumption|reflexivity].
Qed.

Lemma summary_volatility :
  exists r,
    search (summary_re "Predicted Volatility") content
    = Some (r, [(3, pv); (2, vs); (1, vname)]).
Proof.
  header_facts. destruct volatility_tokens as (Tvname & Tvs & Tpv & Tph).
  unfold content; rewrite summary_pieces, summary_re_label.
  skip_pieces (label_re_headed "Predicted Volatility" (plus (RChar is_word))
                 summary_tail).
  rewrite <- summary_re_label. eexists.
  eapply search_summary_line;
    [reflexivity|assumption|assumption|assumption|reflexivity].
Qed.

Lemma summary_historical :
  exists r,
    search re_historical_volatility content = Some (r, [(1, ph)]).
Proof.
  header_facts. destruct volatility_tokens as (Tvname & Tvs & Tpv & Tph).
  unfold content; rewrite summary_pieces. unfold re_historical_volatility.
  skip_pieces (label_re_headed "Historical Volatility" (plus num) (lit "%")).
  eexists.
  eapply (search_label "Historical Volatility" is_num);
    [reflexivity|reflexivity|exact Tph|reflexivity|].
  apply rmatch_last.
Qed.

Lemma token_line t pad :
  t <> ""%string -> lacks "010" t = true -> head_fails is_space t = true ->
  lacks "010" pad = true ->
  token dot_char (t ++ pad).
Proof.
  intros Hne Hl Hh Hp. repeat split.
  - destruct t; [congruence|discriminate].
  - rewrite all_chars_app.
    rewrite (lacks_nl_dot t Hl), (lacks_nl_dot pad Hp). reflexivity.
  - apply head_fails_app; assumption.
Qed.

Lemma header_generated :
  exists r, search re_generated content = Some (r, [(1, (ts ++ "  ")%string)]).
Proof.
  header_facts. unfold content; rewrite summary_pieces. unfold re_generated, not_nl.
  rewrite <- (sapp_assoc ts "  "). eexists.
  eapply (search_label "Generated" dot_char);
    [reflexivity|reflexivity
    |apply token_line; auto|reflexivity|].
  rewrite rmatch_eps_eq. reflexivity.
Qed.

Lemma header_version :
  exists r,
    search (label_re "System Version" (plus not_nl) REps) content
    = Some (r, [(1, version)]).
Proof.
  header_facts. unfold content; rewrite summary_pieces. unfold not_nl.
  skip_pieces (label_re_headed "System Version"
                 (plus (RChar (fun c => negb (is_nl c)))) REps).
  eexists.
  eapply (search_label "System Version" dot_char);
    [reflexivity|reflexivity| |reflexivity|].
  - rewrite <- (sapp_nil_r version). apply token_line; auto.
  - rewrite rmatch_eps_eq. reflexivity.
Qed.

End ExecutiveSummary.

(* ================================================================== *)
(** * Fields and sections of the final report *)

Section FieldPatterns.
Import PyStr PyNum Re Api Formatter.

(** A pattern that matches nowhere at the head of a text, whatever was
    captured before and whatever follows in the pattern. *)
Definition refuses (r : regex) (t : string) : Prop :=
  forall c k, rmatch r t c k = None.

Lemma refuses_lit l t : drop_prefix l t = None -> refuses (RLit l) t.
Proof. intros H c k. rewrite rmatch_lit_eq, H. reflexivity. Qed.

Lemma refuses_alt r1 r2 t :
  refuses r1 t -> refuses r2 t -> refuses (RAlt r1 r2) t.
Proof. intros H1 H2 c k. rewrite rmatch_alt_eq, H1, H2. reflexivity. Qed.

Lemma refuses_end x t : refuses REnd (String x t).
Proof. intros c k. reflexivity. Qed.

(** A captured lazy text stops where what follows is first accepted. *)
Lemma rmatch_lazy_group i p sfx a b c k m :
  all_chars p a = true ->
  all_suffixes (fun a' => refuses sfx (a' ++ b)) a ->
  rmatch sfx b ((i, a) :: c) k = Some m ->
  rmatch (RSeq (RGroup i (RStar false (RChar p))) sfx) (a ++ b) c k = Some m.
Proof.
  intros Ha Hn Hk. rewrite rmatch_seq_eq, rmatch_group_eq.
  apply rmatch_lazy_skip; [exact Ha| |].
  - eapply all_suffixes_impl; [|exact Hn]. cbv beta. intros s Hs. apply Hs.
  - rewrite consumed_app. exact Hk.
Qed.

Lemma refuses_stop_or_end stop v t :
  no_occ stop v t ->
  all_suffixes (fun a' => refuses (RAlt (RLit stop) REnd) (a' ++ t)) v.
Proof.
  unfold no_occ. induction v as [|x v IH]; cbn [all_suffixes]; [tauto|].
  intros [H0 H]. split; [|apply IH, H].
  apply refuses_alt; [apply refuses_lit, H0|]. cbn [append].
  apply refuses_end.
Qed.

Lemma refuses_two_stops s1 s2 v t :
  no_occ s1 v t -> no_occ s2 v t ->
  all_suffixes (fun a' => refuses (RAlt (RLit s1) (RLit s2)) (a' ++ t)) v.
Proof.
  unfold no_occ. induction v as [|x v IH]; cbn [all_suffixes]; [tauto|].
  intros [H1 H1'] [H2 H2']. split; [|apply IH; assumption].
  apply refuses_alt; apply refuses_lit; assumption.
Qed.

(** The pattern of a field that runs to a stop or to the end of the
    text, seen as a label pattern. *)
Definition until_re (label : string) (p : ascii -> bool) (stop : string)
  : regex :=
  label_re label (lazy (RChar p)) (alt (lit stop) REnd).

Lemma field_until_label label stop :
  field_until label stop = until_re label (fun _ => true) stop.
Proof. reflexivity. Qed.

Lemma re_agents_label :
  re_agents = until_re "Agents Invoked" (fun c => negb (is_nl c)) nl.
Proof. reflexivity. Qed.

Lemma until_re_headed label p stop :
  lit_headed (label_lit label) (until_re label p stop).
Proof. apply label_re_headed. Qed.

(** A field whose value is followed by the stop. *)
Lemma search1_until label p stop piece a pad v b :
  find_lit (label_lit label) piece = Some (a, pad) ->
  all_chars is_space pad = true ->
  all_chars p v = true -> v <> ""%string -> head_fails is_space v = true ->
  no_occ stop v (stop ++ b) ->
  search1 (until_re label p stop) (piece ++ v ++ stop ++ b) = Some v.
Proof.
  intros Hf Hpad Hv Hne Hh Hn. unfold search1.
  rewrite (search_find _ _ _ _ _ (v ++ stop ++ b)
             (until_re_headed label p stop) Hf).
  rewrite (search_here _ _ (b, [(1, v)])); [reflexivity|].
  unfold match_at, until_re, label_re, lit, star, grp, ws, lazy, alt.
  cbn [seq]. rewrite rmatch_seq_eq. unfold label_lit. rewrite rmatch_lit_app.
  rewrite rmatch_seq_eq. apply rmatch_star_drop.
  rewrite drop_while_all by exact Hpad.
  rewrite drop_while_fails by (apply head_fails_app; assumption).
  apply rmatch_lazy_group;
    [exact Hv|apply refuses_stop_or_end, Hn|].
  rewrite rmatch_alt_eq, rmatch_lit_app. reflexivity.
Qed.

(** A field whose value runs to the end of the text. *)
Lemma search1_until_end label p stop piece a pad v :
  find_lit (label_lit label) piece = Some (a, pad) ->
  all_chars is_space pad = true ->
  all_chars p v = true -> v <> ""%string -> head_fails is_space v = true ->
  drop_prefix stop "" = None ->
  no_occ stop v "" ->
  search1 (until_re label p stop) (piece ++ v) = Some v.
Proof.
  intros Hf Hpad Hv Hne Hh Hs Hn. unfold search1.
  rewrite (search_find _ _ _ _ _ v (until_re_headed label p stop) Hf).
  rewrite (search_here _ _ (""%string, [(1, v)])); [reflexivity|].
  unfold match_at, until_re, label_re, lit, star, grp, ws, lazy, alt.
  cbn [seq]. rewrite rmatch_seq_eq. unfold label_lit. rewrite rmatch_lit_app.
  rewrite rmatch_seq_eq. apply rmatch_star_drop.
  rewrite drop_while_all by exact Hpad.
  rewrite drop_while_fails by exact Hh.
  rewrite <- (sapp_nil_r v) at 1.
  apply rmatch_lazy_group; [exact Hv| |].
  - rewrite <- (sapp_nil_r v) at 1. apply refuses_stop_or_end.
    rewrite sapp_nil_r. exact Hn.
  - rewrite rmatch_alt_eq, rmatch_lit_eq, Hs. reflexivity.
Qed.

Lemma search1_until_free label p stop a b :
  free (label_lit label) a ->
  search1 (until_re label p stop) (a ++ b)
  = search1 (until_re label p stop) b.
Proof. intros H. apply search1_free, H. Qed.

(** ** Numbered sections *)

Definition numbered_head (title : string) : string :=
  "## " ++ title ++ nl ++ nl.

Definition rule_stop : string := nl ++ nl ++ "---".

Lemma numbered_section_headed title :
  lit_headed (numbered_head title) (numbered_section_re title).
Proof. unfold numbered_section_re. cbn [seq]. apply lit_headed_seq. Qed.

Lemma all_chars_any a : all_chars (fun _ => true) a = true.
Proof. induction a; cbn; auto. Qed.

(** The body of a numbered section runs to the rule that ends it, when
    neither stop of the pattern occurs earlier. *)
Lemma search_numbered title piece a body t :
  find_lit (numbered_head title) piece = Some (a, ""%string) ->
  no_occ rule_stop body (rule_stop ++ t) ->
  no_occ section_stop body (rule_stop ++ t) ->
  search (numbered_section_re title) (piece ++ body ++ rule_stop ++ t)
  = Some (t, [(1, body)]).
Proof.
  intros Hf H1 H2.
  rewrite (search_find _ _ _ _ _ _ (numbered_section_headed title) Hf).
  apply search_here.
  unfold match_at, numbered_section_re, lit, grp, lazy, dot_all, alt.
  cbn [seq append]. rewrite rmatch_seq_eq.
  change ("## " ++ title ++ nl ++ nl)%string with (numbered_head title).
  rewrite rmatch_lit_app.
  change (nl ++ nl ++ "---")%string with rule_stop.
  change (nl ++ nl ++ "##")%string with section_stop.
  apply rmatch_lazy_group;
    [apply all_chars_any|apply refuses_two_stops; assumption|].
  rewrite rmatch_alt_eq, rmatch_lit_app. reflexivity.
Qed.

(** ** Lines *)

(** After a line break, a non-empty text without line break starts no
    text that begins with two line breaks. *)
Lemma free_line l x :
  x <> ""%string -> lacks "010" x = true ->
  free (String "010" (String "010" l)) (String "010" x).
Proof.
  intros Hne Hx b. unfold no_occ. cbn [all_suffixes]. split.
  - destruct x as [|y x]; [congruence|].
    cbn [append drop_prefix]. unfold lacks in Hx. cbn [all_chars] in Hx.
    apply andb_true_iff in Hx. destruct Hx as [Hy _].
    apply negb_true_iff in Hy.
    change (ascii_eqb "010" "010") with true. cbv iota.
    rewrite Hy. reflexivity.
  - apply (no_occ_lacks "010" _ x b Hx).
Qed.

End FieldPatterns.

(* ================================================================== *)
(** * The coordinator's section as the reader of the final report sees it *)

Section CoordinatorAnalysis.
Import PyStr PyNum Re Api Formatter.
Import MetacognitiveDecision.

(** One line of text without an asterisk that is not empty and does not
    start with white space. *)
Definition line_text (s : string) : bool :=
  negb (String.eqb s "") && lacks "010" s && lacks "*" s
  && head_fails is_space s.

Lemma line_text_parts s :
  line_text s = true ->
  s <> ""%string /\ lacks "010" s = true /\ lacks "*" s = true
  /\ head_fails is_space s = true.
Proof.
  unfold line_text. rewrite !andb_true_iff, negb_true_iff.
  intros [[[H1 H2] H3] H4]. repeat split; auto.
  intros ->. discriminate.
Qed.

Definition step_text (s : string) : bool := lacks "010" s && lacks "*" s.

(** A decision whose section of the report is read without ambiguity. *)
Definition decision_ok (d : t) : bool :=
  line_text (user_intent d)
  && forallb step_text (analysis_plan d)
  && line_text (join ", " (agents_to_invoke d))
  && nonneg_finite (percent (confidence d))
  && line_text (reasoning d)
  && head_fails is_space (rev (reasoning d)).

Lemma lacks_lstrip c p s :
  lacks c s = true -> lacks c (lstrip_by p s) = true.
Proof.
  induction s as [|x s IH]; [reflexivity|]. intros H.
  cbn [lstrip_by]. destruct (p x); [|exact H].
  apply IH. unfold lacks in H. cbn [all_chars] in H.
  apply andb_true_iff in H. tauto.
Qed.

Lemma plan_line_lacks c i step :
  is_digit c = false -> ascii_eqb c "-" = false ->
  lacks c ". " = true -> lacks c step = true ->
  lacks c (fmt_int i ++ ". " ++ lstrip_chars "0123456789. " step) = true.
Proof.
  intros Hd Hm Hl Hs.
  rewrite !lacks_app, (fmt_int_lacks c i Hd Hm), Hl.
  unfold lstrip_chars. rewrite (lacks_lstrip c _ step Hs). reflexivity.
Qed.

Definition agents_label : string := "
**Agents Invoked:** ".

(** The lines of the plan, between the line break that precedes them and
    the label that follows them, hold no text that starts with two line
    breaks and then something other than an asterisk. *)
Lemma plan_block_free l plan :
  free (String "010" (String "010" l)) (nl ++ agents_label) ->
  forallb step_text plan = true ->
  forall i,
    free (String "010" (String "010" l))
      (nl ++ concat_map Report.plan_line (enumerate i plan) ++ agents_label).
Proof.
  intros Hbase. induction plan as [|step plan IH]; intros Hp i.
  - exact Hbase.
  - cbn [forallb] in Hp. apply andb_true_iff in Hp. destruct Hp as [Hs Hp].
    unfold step_text in Hs. apply andb_true_iff in Hs. destruct Hs as [Hs1 Hs2].
    cbn [enumerate concat_map]. unfold Report.plan_line at 1.
    replace (nl ++ ((fmt_int i ++ ". " ++ lstrip_chars "0123456789. " step
                     ++ nl)
                    ++ concat_map Report.plan_line
                         (enumerate (i + 1) plan)) ++ agents_label)%string
      with ((nl ++ fmt_int i ++ ". " ++ lstrip_chars "0123456789. " step)
            ++ (nl ++ concat_map Report.plan_line (enumerate (i + 1) plan)
                ++ agents_label))%string
      by (rewrite !sapp_assoc; reflexivity).
    apply free_app; [|apply IH, Hp].
    apply (free_line l).
    + destruct (fmt_int_cons i) as (d & ds & ->). discriminate.
    + apply plan_line_lacks; auto.
Qed.

Lemma plan_lines_lack c plan :
  is_digit c = false -> ascii_eqb c "-" = false ->
  lacks c ". " = true -> lacks c nl = true ->
  forallb (lacks c) plan = true ->
  forall i, lacks c (concat_map Report.plan_line (enumerate i plan)) = true.
Proof.
  intros Hd Hm Hl Hn. induction plan as [|step plan IH]; intros Hp i;
    [reflexivity|].
  cbn [forallb] in Hp. apply andb_true_iff in Hp. destruct Hp as [Hs Hp].
  cbn [enumerate concat_map]. unfold Report.plan_line at 1.
  rewrite lacks_app, (IH Hp), andb_true_r.
  rewrite <- !sapp_assoc, lacks_app, Hn, andb_true_r, !sapp_assoc.
  apply plan_line_lacks; auto.
Qed.

Variable dec : t.
Hypothesis Hdec : decision_ok dec = true.

Let lines : string :=
  concat_map Report.plan_line (enumerate 1 (analysis_plan dec)).
Let agents : string := join ", " (agents_to_invoke dec).
Let pcd : string := fmt_2f (percent (confidence dec)).

(** The text of the section without its last line break. *)
Definition coordinator_body : string :=
  ("**User Intent:** " ++ user_intent dec ++ "

**Analysis Plan:**
" ++ lines ++ agents_label ++ agents ++ "
**Coordinator Confidence:** " ++ pcd ++ "%" ++ "

**Reasoning:** " ++ reasoning dec)%string.

Lemma coordinator_section_body :
  Report.coordinator_section (Some dec) = (coordinator_body ++ nl)%string.
Proof.
  unfold Report.coordinator_section, coordinator_body, agents_label.
  rewrite fmt_pct_eq, !sapp_assoc. reflexivity.
Qed.

Lemma decision_parts :
  (user_intent dec <> ""%string /\ lacks "010" (user_intent dec) = true
   /\ lacks "*" (user_intent dec) = true
   /\ head_fails is_space (user_intent dec) = true)
  /\ forallb step_text (analysis_plan dec) = true
  /\ (agents <> ""%string /\ lacks "010" agents = true
      /\ lacks "*" agents = true /\ head_fails is_space agents = true)
  /\ nonneg_finite (percent (confidence dec)) = true
  /\ (reasoning dec <> ""%string /\ lacks "010" (reasoning dec) = true
      /\ lacks "*" (reasoning dec) = true
      /\ head_fails is_space (reasoning dec) = true)
  /\ head_fails is_space (rev (reasoning dec)) = true.
Proof.
  unfold decision_ok in Hdec. rewrite !andb_true_iff in Hdec.
  destruct Hdec as [[[[[H1 H2] H3] H4] H5] H6].
  repeat split; auto;
    solve [ apply (line_text_parts _ H1) | apply (line_text_parts _ H3)
          | apply (line_text_parts _ H5) ].
Qed.

Lemma steps_lack_nl : forallb (lacks "010") (analysis_plan dec) = true.
Proof.
  destruct decision_parts as (_ & H & _).
  rewrite forallb_forall in *. intros x Hx. specialize (H x Hx).
  unfold step_text in H. apply andb_true_iff in H. tauto.
Qed.

Lemma steps_lack_star : forallb (lacks "*") (analysis_plan dec) = true.
Proof.
  destruct decision_parts as (_ & H & _).
  rewrite forallb_forall in *. intros x Hx. specialize (H x Hx).
  unfold step_text in H. apply andb_true_iff in H. tauto.
Qed.

Lemma lines_lack_star : lacks "*" lines = true.
Proof.
  apply plan_lines_lack; try reflexivity. apply steps_lack_star.
Qed.

(** Neither stop of the section pattern occurs in the body. *)
Lemma coordinator_body_free l :
  l = "---"%string \/ l = "##"%string ->
  free (String "010" (String "010" l)) coordinator_body.
Proof.
  intros Hl.
  destruct decision_parts
    as ((U0 & U1 & U2 & U3) & Hp & (A0 & A1 & A2 & A3) & Hc
        & (R0 & R1 & R2 & R3) & R4).
  unfold coordinator_body.
  assert (Hlit : forall a, no_occ_b (String "010" (String "010" l)) a = true ->
                           free (String "010" (String "010" l)) a).
  { intros a. apply free_lit. }
  apply free_app; [apply Hlit; destruct Hl as [-> | ->]; reflexivity|].
  apply free_app; [apply free_lacks, U1|].
  lazymatch goal with
  | |- context [String.append ?lit (String.append lines ?X)] =>
      change (String.append lit (String.append lines X))
        with ("

**Analysis Plan:**" ++ nl ++ lines ++ X)%string
  end.
  apply free_app; [apply Hlit; destruct Hl as [-> | ->]; reflexivity|].
  rewrite <- (sapp_assoc lines), <- (sapp_assoc nl).
  apply free_app.
  { apply plan_block_free; [|exact Hp].
    apply Hlit; destruct Hl as [-> | ->]; reflexivity. }
  apply free_app; [apply free_lacks, A1|].
  apply free_app; [apply Hlit; destruct Hl as [-> | ->]; reflexivity|].
  apply free_app; [apply free_lacks, fmt_2f_lacks; reflexivity|].
  apply free_app; [apply Hlit; destruct Hl as [-> | ->]; reflexivity|].
  apply free_app; [apply Hlit; destruct Hl as [-> | ->]; reflexivity|].
  apply free_lacks, R1.
Qed.

(** Stripping leaves the body as it is. *)
Lemma coordinator_body_tidy : strip coordinator_body = coordinator_body.
Proof.
  destruct decision_parts as (_ & _ & _ & _ & (R0 & _) & R4).
  apply strip_tidy; [reflexivity|].
  unfold coordinator_body. rewrite <- !sapp_assoc, rev_app.
  apply head_fails_app; [apply rev_nonempty, R0|exact R4].
Qed.

Ltac decision_facts :=
  destruct decision_parts
    as ((U0 & U1 & U2 & U3) & Hp & (A0 & A1 & A2 & A3) & Hc
        & (R0 & R1 & R2 & R3) & R4);
  pose proof lines_lack_star as Hlines;
  assert (Hpcd : lacks "*" pcd = true)
    by (unfold pcd; apply fmt_2f_lacks; reflexivity).

Lemma body_user_intent :
  search1 (field_until "User Intent" (nl ++ nl ++ "**")) coordinator_body
  = Some (user_intent dec).
Proof.
  decision_facts. rewrite field_until_label. unfold coordinator_body.
  lazymatch goal with
  | |- context [String.append (user_intent dec) (String.append ?l ?X)] =>
      change (String.append l X)
        with ((nl ++ nl ++ "**") ++ "Analysis Plan:**
" ++ X)%string
  end.
  eapply (search1_until "User Intent" _ _ "**User Intent:** " "" " "
            (user_intent dec));
    [reflexivity|reflexivity|apply all_chars_any|exact U0|exact U3|].
  apply (no_occ_lacks "010"), U1.
Qed.

Lemma body_agents : search1 re_agents coordinator_body = Some agents.
Proof.
  decision_facts. rewrite re_agents_label. unfold coordinator_body, until_re.
  skip_label_pieces.
  lazymatch goal with
  | |- context [String.append agents (String.append ?l ?X)] =>
      change (String.append l X)
        with (nl ++ "**Coordinator Confidence:** " ++ X)%string
  end.
  eapply (search1_until "Agents Invoked" _ nl agents_label nl " " agents);
    [reflexivity|reflexivity|apply lacks_nl_dot, A1|exact A0|exact A3|].
  apply (no_occ_lacks "010"), A1.
Qed.

Lemma body_confidence :
  search1 (label_re "Coordinator Confidence" (plus num) (lit "%"))
    coordinator_body
  = Some pcd.
Proof.
  decision_facts. unfold coordinator_body.
  skip_label_pieces.
  rewrite (search1_free _ _ _ agents_label) by (apply free_lit; reflexivity).
  find_label. apply token_num, Hc.
Qed.

Lemma body_reasoning :
  search1 (field_until "Reasoning" (nl ++ nl ++ "---")) coordinator_body
  = Some (reasoning dec).
Proof.
  decision_facts. rewrite field_until_label. unfold coordinator_body, until_re.
  skip_label_pieces.
  rewrite (search1_free _ _ _ agents_label) by (apply free_lit; reflexivity).
  skip_label_pieces.
  eapply (search1_until_end "Reasoning" _ _ _ _ " " (reasoning dec));
    [reflexivity|reflexivity|apply all_chars_any|exact R0|exact R3
    |reflexivity|].
  apply (no_occ_lacks "010"), R1.
Qed.

End CoordinatorAnalysis.

(* ================================================================== *)
(** * Reading a final report back *)

Section MetacognitiveRecord.
Import PyStr PyNum Re Api Formatter.

Variables (ts ticker version : string).
Variable sent : option SentimentAnalysisResult.t.
Variable e : SignificantEventDetectionResult.t.
Variable v : VolatilityPredictionResult.t.
Variable dec : MetacognitiveDecision.t.
Variable post : string.

Hypothesis Hts : header_text ts = true.
Hypothesis Hticker : plain ticker = true.
Hypothesis Hversion : header_text version = true.
Hypothesis Hdec : decision_ok dec = true.

Let content : string :=
  (Report.executive_summary ts ticker version sent (Some e) (Some v)
   ++ Report.coordinator_section (Some dec)
   ++ Report.rule "2. Sentiment Analysis" ++ post)%string.

Definition coordinator_title : string :=
  "1. Coordinator's Metacognitive Analysis".

Lemma coordinator_section_found :
  exists t,
    search (numbered_section_re coordinator_title) content
    = Some (t, [(1, coordinator_body dec)]).
Proof.
  destruct (header_text_parts ts Hts) as (_ & _ & _ & Hts3 & _).
  destruct (header_text_parts version Hversion) as (_ & _ & _ & Hv3 & _).
  destruct (plain_parts ticker Hticker) as (_ & Htk2).
  pose proof (sentiment_name_lacks "#" sent eq_refl eq_refl) as Lname.
  pose proof (sentiment_score_lacks "#" sent eq_refl) as Lsc.
  pose proof (sentiment_confidence_lacks "#" sent eq_refl) as Lpc.
  assert (Hh : lit_headed "## 1. Coordinator's Metacognitive Analysis

" (numbered_section_re coordinator_title))
    by apply (numbered_section_headed coordinator_title).
  unfold content. rewrite summary_pieces.
  skip_pieces Hh.
  rewrite coordinator_section_body.
  replace ((coordinator_body dec ++ nl)
           ++ Report.rule "2. Sentiment Analysis" ++ post)%string
    with (coordinator_body dec ++ rule_stop
          ++ (nl ++ nl ++ "## " ++ "2. Sentiment Analysis" ++ nl ++ nl)
          ++ post)%string
    by (unfold Report.rule, rule_stop; rewrite !sapp_assoc; reflexivity).
  eexists. eapply search_numbered; [reflexivity| |].
  - apply (coordinator_body_free dec Hdec "---"). left. reflexivity.
  - apply (coordinator_body_free dec Hdec "##"). right. reflexivity.
Qed.

(** What the reader makes of the coordinator's section. *)
Definition decision_read_back (m : Metacognitive) : Prop :=
  mc_user_intent m = Some (strip (MetacognitiveDecision.user_intent dec))
  /\ mc_agents_invoked m
     = Some (strip (join ", " (MetacognitiveDecision.agents_to_invoke dec)))
  /\ (exists y,
         mc_coordinator_confidence m = Some y
         /\ rendered (percent (MetacognitiveDecision.confidence dec)) y)
  /\ mc_reasoning m = Some (strip (MetacognitiveDecision.reasoning dec)).

Lemma metacognitive_read :
  exists m, extract_metacognitive content = Ok m /\ decision_read_back m.
Proof.
  destruct coordinator_section_found as [t Hsec].
  unfold extract_metacognitive. fold coordinator_title. rewrite Hsec.
  unfold group. cbn [snd lookup Nat.eqb].
  rewrite (coordinator_body_tidy dec Hdec).
  rewrite (body_user_intent dec Hdec), (body_agents dec Hdec),
    (body_confidence dec Hdec), (body_reasoning dec Hdec).
  destruct (py_float_fmt_2f (percent (MetacognitiveDecision.confidence dec)))
    as [y Hy].
  unfold opt_conv, to_float. rewrite Hy. cbn [bind option_map].
  eexists. split; [reflexivity|].
  unfold decision_read_back.
  cbn [mc_user_intent mc_agents_invoked mc_coordinator_confidence
       mc_reasoning].
  repeat split; try reflexivity. exists y. split; [reflexivity|exact Hy].
Qed.

End MetacognitiveRecord.

Section FinalReportReadBack.
Import PyStr PyNum Re Api Formatter.

(** The rows of a table of the formatter after any text without a bar. *)
Lemma formatted_table_read pre sent events vol table :
  lacks "|" pre = true ->
  Report.confidence_table get_default_self_model sent events vol = Ok table ->
  exists recs,
    extract_confidence_summary (pre ++ table ++ report_tail) = Ok recs
    /\ Forall (fun rec => cr_status rec = "Fail"%string) recs
    /\ List.length recs = List.length (present_rows sent events vol).
Proof.
  intros Hpre Htab.
  rewrite formatted_table in Htab. apply Ok_inj in Htab. subst table.
  destruct (formatted_rows_read _ (present_rows_names sent events vol))
    as (recs & Hrd & Hfail & Hlen).
  exists recs. split; [|split; assumption].
  destruct (present_rows sent events vol) as [|row rows] eqn:Erows.
  - inversion Hrd; subst. cbn [map table_lines concat_map].
    rewrite sapp_nil_r. unfold extract_confidence_summary.
    rewrite (search_skip "|" re_table pre _ re_table_headed)
      by (apply no_occ_lacks, Hpre).
    rewrite no_table_without_rows. reflexivity.
  - rewrite sapp_assoc.
    apply extract_table; [exact Hpre|discriminate| |reflexivity|exact Hrd].
    apply Forall_forall. intros r Hin. apply in_map_iff in Hin.
    destruct Hin as (row' & <- & Hin). apply formatted_cells_ok.
    pose proof (present_rows_names sent events vol) as Hn.
    rewrite Erows, Forall_forall in Hn. apply Hn, Hin.
Qed.

(** The report up to the confidence table. *)
Definition text_before_table (ts ticker : string)
    (gs : list GuardrailViolation.t)
    (sent : option SentimentAnalysisResult.t)
    (events : option SignificantEventDetectionResult.t)
    (vol : option VolatilityPredictionResult.t)
    (decision : option MetacognitiveDecision.t) : string :=
  (Report.executive_summary ts ticker
     (FinSightSelfModel.version get_default_self_model) sent events vol
   ++ Report.coordinator_section decision
   ++ Report.rule "2. Sentiment Analysis"
   ++ Report.sentiment_section sent
   ++ Report.rule "3. Significant Event Detection"
   ++ Report.event_detection_section events
   ++ Report.rule "4. Volatility Prediction"
   ++ Report.volatility_section vol
   ++ Report.rule "5. Guardrails and System Boundaries"
   ++ Report.guardrails_section gs get_default_self_model
   ++ Report.rule "6. System Confidence Summary")%string.

(** The two ways the proofs look at a report: after its summary, and
    around its table. *)
Lemma report_views ts ticker gs sent events vol decision report :
  Report._generate_final_report ts ticker get_default_self_model gs sent
    events vol decision = Ok report ->
  exists table post,
    Report.confidence_table get_default_self_model sent events vol = Ok table
    /\ report
       = (Report.executive_summary ts ticker
            (FinSightSelfModel.version get_default_self_model) sent events vol
          ++ Report.coordinator_section decision
          ++ Report.rule "2. Sentiment Analysis" ++ post)%string
    /\ report
       = (text_before_table ts ticker gs sent events vol decision
          ++ table ++ report_tail)%string.
Proof.
  unfold Report._generate_final_report.
  destruct (Report.confidence_table get_default_self_model sent events vol)
    as [table|err]; cbn [bind]; intros H; [|discriminate H].
  apply Ok_inj in H. subst report.
  exists table. eexists. split; [reflexivity|]. split; [reflexivity|].
  unfold text_before_table, report_tail. rewrite !sapp_assoc. reflexivity.
Qed.

(** What the reader of the final report gives back of the results that
    went into it: of the heading, *)
Definition heading_read_back (ts : string) (d : FinalReportData) : Prop :=
  fr_generated d = (ts ++ "  ")%string
  /\ fr_version d = FinSightSelfModel.version get_default_self_model.

(** of the sentiment, *)
Definition sentiment_read_back (s : SentimentAnalysisResult.t)
    (d : FinalReportData) : Prop :=
  fr_sentiment d
  = SentimentAnalysisResult.sentiment_str
      (SentimentAnalysisResult.overall_sentiment s)
  /\ rendered (SentimentAnalysisResult.sentiment_score s)
       (fr_sentiment_score d)
  /\ rendered (percent (SentimentAnalysisResult.confidence s))
       (fr_sentiment_confidence d).

(** of the events, *)
Definition events_read_back (e : SignificantEventDetectionResult.t)
    (d : FinalReportData) : Prop :=
  fr_events_detected d = SignificantEventDetectionResult.total_events_found e
  /\ fr_events_verified d = SignificantEventDetectionResult.verified_count e
  /\ rendered (percent (SignificantEventDetectionResult.confidence e))
       (fr_events_confidence d).

(** and of the volatility. *)
Definition volatility_read_back (v : VolatilityPredictionResult.t)
    (d : FinalReportData) : Prop :=
  fr_predicted_volatility d
  = VolatilityPredictionResult.volatility_str
      (VolatilityPredictionResult.predicted_volatility v)
  /\ rendered (VolatilityPredictionResult.volatility_score v)
       (fr_volatility_score d)
  /\ rendered (percent (VolatilityPredictionResult.confidence v))
       (fr_volatility_confidence d)
  /\ rendered (percent (VolatilityPredictionResult.historical_volatility v))
       (fr_historical_volatility d).

(** The inputs of a report that is read without ambiguity, the
    sentiment numbers apart: the generation time is one line of text,
    ticker and time hold no markup, no number of the events and the
    volatility is negative, the texts of the decision are single lines
    without asterisk, and no bar occurs before the table. *)
Definition report_inputs_ok (ts ticker : string)
    (gs : list GuardrailViolation.t)
    (sent : option SentimentAnalysisResult.t)
    (e : SignificantEventDetectionResult.t)
    (v : VolatilityPredictionResult.t) (dec : MetacognitiveDecision.t)
  : bool :=
  header_text ts && plain ticker && events_numbers e && volatility_numbers v
  && decision_ok dec
  && lacks "|"
       (text_before_table ts ticker gs sent (Some e) (Some v) (Some dec)).

(** What the reader finds in such a report, whatever the sentiment line
    holds. *)
Lemma common_reads ts ticker gs sent e v dec report :
  report_inputs_ok ts ticker gs sent e v dec = true ->
  Report._generate_final_report ts ticker get_default_self_model gs
    sent (Some e) (Some v) (Some dec) = Ok report ->
  exists r2 r3 r4 r5 r6 m recs post,
    search re_events_summary report
    = Some (r2, [(3, fmt_2f (percent
                               (SignificantEventDetectionResult.confidence e)));
                 (2, fmt_int
                       (SignificantEventDetectionResult.verified_count e));
                 (1, fmt_int
                       (SignificantEventDetectionResult.total_events_found
                          e))])
    /\ search (summary_re "Predicted Volatility") report
       = Some (r3, [(3, fmt_2f (percent
                                  (VolatilityPredictionResult.confidence v)));
                    (2, fmt_2f (VolatilityPredictionResult.volatility_score v));
                    (1, VolatilityPredictionResult.volatility_str
                          (VolatilityPredictionResult.predicted_volatility
                             v))])
    /\ search re_historical_volatility report
       = Some (r4, [(1, fmt_2f
                          (percent
                             (VolatilityPredictionResult.historical_volatility
                                v)))])
    /\ search re_generated report = Some (r5, [(1, (ts ++ "  ")%string)])
    /\ search (label_re "System Version" (plus not_nl) REps) report
       = Some (r6, [(1, FinSightSelfModel.version get_default_self_model)])
    /\ extract_metacognitive report = Ok m
    /\ decision_read_back dec m
    /\ extract_confidence_summary report = Ok recs
    /\ Forall (fun rec => cr_status rec = "Fail"%string) recs
    /\ List.length recs
       = List.length (present_rows sent (Some e) (Some v))
    /\ report
       = (Report.executive_summary ts ticker
            (FinSightSelfModel.version get_default_self_model)
            sent (Some e) (Some v)
          ++ Report.coordinator_section (Some dec)
          ++ Report.rule "2. Sentiment Analysis" ++ post)%string.
Proof.
  unfold report_inputs_ok. rewrite !andb_true_iff.
  intros [[[[[Hts Htk] Hen] Hvn] Hdec] Hbar] Hgen.
  destruct (report_views _ _ _ _ _ _ _ _ Hgen)
    as (table & post & Htab & Hv1 & Hv2).
  assert (Hver : header_text (FinSightSelfModel.version get_default_self_model)
                 = true) by reflexivity.
  set (rest := (Report.coordinator_section (Some dec)
                ++ Report.rule "2. Sentiment Analysis" ++ post)%string) in *.
  destruct (summary_events ts ticker _ sent e v rest Hts Htk Hver Hen)
    as [r2 S2].
  destruct (summary_volatility ts ticker _ sent e v rest Hts Htk Hver Hvn)
    as [r3 S3].
  destruct (summary_historical ts ticker _ sent e v rest Hts Htk Hver Hvn)
    as [r4 S4].
  destruct (header_generated ts ticker _ sent e v rest Hts Htk Hver)
    as [r5 S5].
  destruct (header_version ts ticker _ sent e v rest Hts Htk Hver)
    as [r6 S6].
  destruct (metacognitive_read ts ticker _ sent e v dec post Hts Htk Hver
              Hdec) as (m & Hm & Hmr).
  fold rest in Hm.
  destruct (formatted_table_read _ _ _ _ _ Hbar Htab)
    as (recs & Hrecs & Hfail & Hlen).
  rewrite <- Hv1 in S2, S3, S4, S5, S6, Hm. rewrite <- Hv2 in Hrecs.
  exists r2, r3, r4, r5, r6, m, recs, post.
  repeat (split; [assumption|]). exact Hv1.
Qed.

(** The record the reader builds once its searches are known. *)
Lemma record_of_matches tk now report sm em vm hm gm verm m recs :
  search (summary_re "Sentiment") report = sm ->
  search re_events_summary report = em ->
  search (summary_re "Predicted Volatility") report = vm ->
  search re_historical_volatility report = hm ->
  search re_generated report = gm ->
  search (label_re "System Version" (plus not_nl) REps) report = verm ->
  extract_metacognitive report = Ok m ->
  extract_confidence_summary report = Ok recs ->
  final_report_of_text tk now report
  = (sentiment_score <- float_group sm 2 0.75%float ;;
     sentiment_confidence <- float_group sm 3 85.0%float ;;
     events_confidence <- float_group em 3 85.0%float ;;
     volatility_score <- float_group vm 2 0.65%float ;;
     volatility_confidence <- float_group vm 3 85.0%float ;;
     historical_volatility <- float_group hm 1 20.0%float ;;
     Ok (mkFinalReportData tk (str_group gm 1 now) (str_group verm 1 "1.0")
           (str_group sm 1 "positive") sentiment_score sentiment_confidence
           (int_group em 1 0) (int_group em 2 0) events_confidence
           (str_group vm 1 "medium") volatility_score volatility_confidence
           historical_volatility recs m (extract_guardrails report))).
Proof.
  intros <- <- <- <- <- <- Hm Hr. unfold final_report_of_text. cbv zeta.
  rewrite Hm, Hr. reflexivity.
Qed.


End FinalReportReadBack.

Section FinalReportSample.
Import PyStr PyNum Re Api Formatter.

Definition sample_final_report : string :=
  match Report._generate_final_report "2025-01-02 03:04:06" "ACME"
          get_default_self_model [] (Some sample_sentiment)
          (Some sample_events) (Some sample_volatility)
          (Some sample_decision) with
  | Ok report => report
  | Raise _ => ""%string
  end.


End FinalReportSample.

(* ================================================================== *)
(** * A summary line the reader cannot match *)

Section RefusedLines.
Import PyStr PyNum Re Api Formatter.

(** A greedy run of a class fails when the continuation fails after
    every part of the run. *)
Lemma star_none p k w : forall rest c fuel,
  all_chars p w = true -> head_fails p rest = true ->
  String.length (w ++ rest) <= fuel ->
  all_suffixes (fun w' => forall c', k (w' ++ rest)%string c' = None) w ->
  (forall c', k rest c' = None) ->
  star_loop (rmatch (RChar p)) true k fuel (w ++ rest) c = None.
Proof.
  induction w as [|x w IH]; intros rest c fuel Hw Hr Hf Hs Hk.
  - cbn [append]. destruct fuel as [|fuel]; [apply Hk|].
    rewrite star_loop_greedy, rmatch_char_fails by exact Hr. apply Hk.
  - cbn [all_chars] in Hw. apply andb_true_iff in Hw. destruct Hw as [Hx Hw].
    cbn [all_suffixes] in Hs. destruct Hs as [H0 Hs].
    cbn [append String.length] in Hf. destruct fuel as [|fuel]; [lia|].
    cbn [append]. rewrite star_loop_greedy, rmatch_char_cons, Hx.
    rewrite length_lt_cons.
    rewrite (IH rest c fuel Hw Hr); [apply H0|lia|exact Hs|exact Hk].
Qed.

Lemma refuses_star_then p r w rest :
  all_chars p w = true -> head_fails p rest = true ->
  all_suffixes (fun w' => refuses r (w' ++ rest)) w ->
  refuses r rest ->
  refuses (RSeq (RStar true (RChar p)) r) (w ++ rest).
Proof.
  intros Hw Hr Hs Hk c k. rewrite rmatch_seq_eq, rmatch_star_eq.
  apply star_none; [exact Hw|exact Hr|apply le_n| |].
  - eapply all_suffixes_impl; [|exact Hs]. cbv beta. intros t Ht c'.
    apply Ht.
  - intros c'. apply Hk.
Qed.

Lemma refuses_lit_then l r t :
  refuses r t -> refuses (RSeq (RLit l) r) (l ++ t).
Proof.
  intros H c k. rewrite rmatch_seq_eq, rmatch_lit_app. apply H.
Qed.

Lemma refuses_lit_miss l r t :
  drop_prefix l t = None -> refuses (RSeq (RLit l) r) t.
Proof.
  intros H c k. rewrite rmatch_seq_eq, rmatch_lit_eq, H. reflexivity.
Qed.

Lemma refuses_group_miss i p r t :
  head_fails p t = true ->
  refuses (RSeq (RGroup i (plus (RChar p))) r) t.
Proof.
  intros H c k. unfold plus.
  rewrite rmatch_seq_eq, rmatch_group_eq, rmatch_seq_eq.
  apply rmatch_char_fails, H.
Qed.

Lemma refuses_group_then i p r x w rest :
  all_chars p (String x w) = true -> head_fails p rest = true ->
  all_suffixes (fun w' => refuses r (w' ++ rest)) w ->
  refuses r rest ->
  refuses (RSeq (RGroup i (plus (RChar p))) r) (String x w ++ rest).
Proof.
  intros Hw Hr Hs Hk c k. cbn [all_chars] in Hw.
  apply andb_true_iff in Hw. destruct Hw as [Hx Hw]. unfold plus.
  rewrite rmatch_seq_eq, rmatch_group_eq, rmatch_seq_eq. cbn [append].
  rewrite rmatch_char_cons, Hx, rmatch_star_eq.
  apply star_none; [exact Hw|exact Hr|apply le_n| |].
  - eapply all_suffixes_impl; [|exact Hs]. cbv beta. intros t Ht c'.
    apply Ht.
  - intros c'. apply Hk.
Qed.

(** After a part of a word, the rest of a summary line cannot start. *)
Lemma summary_tail_after_word w rest :
  all_chars is_word w = true ->
  all_suffixes (fun w' => refuses summary_tail (w' ++ rest)) w.
Proof.
  induction w as [|x w IH]; cbn [all_suffixes all_chars]; [tauto|].
  intros H. apply andb_true_iff in H. destruct H as [Hx Hw].
  split; [|apply IH, Hw].
  unfold summary_tail, star, ws, lit. cbn [seq].
  apply (refuses_star_then is_space _ "" (String x w ++ rest)).
  - reflexivity.
  - cbn [append head_fails]. rewrite (word_not_space x Hx). reflexivity.
  - exact I.
  - apply refuses_lit_miss. cbn [append drop_prefix].
    destruct (ascii_eqb "(" x) eqn:E; [|reflexivity].
    unfold ascii_eqb in E. apply Ascii.eqb_eq in E. subst x. discriminate.
Qed.

(** A summary line whose score starts with a character that is neither a
    digit nor a dot is not matched. *)
Lemma summary_line_refused label name sc tail :
  token is_word name -> head_fails is_num sc = true ->
  sc <> ""%string -> head_fails is_space sc = true ->
  match_at (summary_re label)
    (label_lit label ++ " " ++ name ++ " (Score: " ++ sc ++ tail)
  = None.
Proof.
  intros (Hn1 & Hn2 & Hn3) Hs Hne Hsp. unfold match_at.
  rewrite summary_re_label. unfold label_re, lit, star, grp, ws.
  cbn [seq]. unfold label_lit.
  apply refuses_lit_then.
  apply (refuses_star_then is_space _ " ").
  - reflexivity.
  - apply head_fails_app; assumption.
  - cbn [all_suffixes]. split; [|exact I].
    apply refuses_group_miss. reflexivity.
  - destruct name as [|x w]; [congruence|].
    assert (Htail : refuses summary_tail (" (Score: " ++ sc ++ tail)).
    { unfold summary_tail, star, ws, lit, grp. cbn [seq].
      change (" (Score: " ++ sc ++ tail)%string
        with (" " ++ "(Score:" ++ " " ++ sc ++ tail)%string.
      apply (refuses_star_then is_space _ " ").
      - reflexivity.
      - reflexivity.
      - cbn [all_suffixes]. split; [|exact I].
        apply refuses_lit_miss. reflexivity.
      - apply refuses_lit_then.
        apply (refuses_star_then is_space _ " ").
        + reflexivity.
        + apply head_fails_app; assumption.
        + cbn [all_suffixes]. split; [|exact I].
          apply refuses_group_miss. reflexivity.
        + apply refuses_group_miss. apply head_fails_app; assumption. }
    apply refuses_group_then.
    + exact Hn2.
    + reflexivity.
    + cbn [all_chars] in Hn2. apply andb_true_iff in Hn2.
      apply summary_tail_after_word. tauto.
    + exact Htail.
Qed.

(** The line of a stage without a result: its name is not a word that
    a blank follows. *)
Lemma summary_line_not_available label tail :
  match_at (summary_re label) (label_lit label ++ " " ++ "N/A" ++ tail)
  = None.
Proof.
  unfold match_at.
  rewrite summary_re_label. unfold label_re, lit, star, grp, ws.
  cbn [seq]. unfold label_lit.
  apply refuses_lit_then.
  apply (refuses_star_then is_space _ " ").
  - reflexivity.
  - reflexivity.
  - cbn [all_suffixes]. split; [|exact I].
    apply refuses_group_miss. reflexivity.
  - change ("N/A" ++ tail)%string with (String "N" "" ++ "/A" ++ tail)%string.
    apply refuses_group_then; [reflexivity|reflexivity|exact I|].
    unfold summary_tail, star, ws, lit. cbn [seq].
    apply (refuses_star_then is_space _ "" ("/A" ++ tail));
      [reflexivity|reflexivity|exact I|].
    apply refuses_lit_miss. reflexivity.
Qed.

(** ** Counting a label *)

(** The number of positions of a text at which [l] starts. *)
Fixpoint occurrences (l s : string) : nat :=
  match s with
  | EmptyString => 0
  | String _ s' => (if startswith l s then 1 else 0) + occurrences l s'
  end.

Lemma startswith_drop_prefix l : forall s,
  startswith l s = false -> drop_prefix l s = None.
Proof.
  induction l as [|a l IH]; intros s H; [discriminate|].
  destruct s as [|b s]; [reflexivity|].
  cbn [startswith] in H. cbn [drop_prefix].
  destruct (ascii_eqb a b); [|reflexivity]. apply IH, H.
Qed.

Lemma occurrences_none l s : occurrences l s = 0 -> no_occ l s "".
Proof.
  unfold no_occ. induction s as [|x s IH]; cbn [occurrences all_suffixes];
    [tauto|].
  intros H. rewrite sapp_nil_r.
  destruct (startswith l (String x s)) eqn:E; [discriminate H|].
  split; [apply startswith_drop_prefix, E|apply IH, H].
Qed.

Lemma occurrences_suffix l a : forall t,
  occurrences l t <= occurrences l (a ++ t).
Proof.
  induction a as [|x a IH]; intros t; [apply le_n|].
  cbn [append occurrences]. specialize (IH t). lia.
Qed.

Lemma occurrences_once l a : forall y t,
  startswith l (String y t) = true ->
  occurrences l (a ++ String y t) = 1 ->
  no_occ l a (String y t) /\ occurrences l t = 0.
Proof.
  unfold no_occ. induction a as [|x a IH]; intros y t Hs H.
  - cbn [append occurrences] in H. rewrite Hs in H.
    split; [exact I|]. lia.
  - cbn [append occurrences] in H.
    pose proof (occurrences_suffix l a (String y t)) as Hle.
    cbn [occurrences] in Hle. rewrite Hs in Hle.
    destruct (startswith l (String x (a ++ String y t))) eqn:E; [lia|].
    destruct (IH y t Hs) as [Hn Ht]; [lia|].
    split; [|exact Ht]. cbn [all_suffixes].
    split; [apply startswith_drop_prefix, E|exact Hn].
Qed.

(** A pattern headed by a label that occurs once in a text, where it is
    not matched, is matched nowhere in the text. *)
Lemma search_single x l r a y t :
  lit_headed (String x l) r ->
  startswith (String x l) (String y t) = true ->
  occurrences (String x l) (a ++ String y t) = 1 ->
  match_at r (String y t) = None ->
  search r (a ++ String y t) = None.
Proof.
  intros Hr Hs Ho Hm.
  destruct (occurrences_once _ a y t Hs Ho) as [Hn Ht].
  rewrite (search_skip _ r a _ Hr Hn). cbn [search]. rewrite Hm.
  apply (search_nowhere x l r t Hr). apply occurrences_none, Ht.
Qed.

End RefusedLines.

(* ================================================================== *)
(** * A negative score in the final report *)

Section NegativeScore.
Import PyStr PyNum Re Api Formatter.

(** A finite number with the sign bit set: a negative number, or the
    negative zero. *)
Definition negative_finite (x : float) : bool :=
  match Prim2SF x with
  | S754_zero true | S754_finite true _ _ => true
  | _ => false
  end.

Lemma fmt_2f_negative x :
  negative_finite x = true -> exists t, fmt_2f x = String "-" t.
Proof.
  unfold negative_finite, fmt_2f.
  destruct (Prim2SF x) as [[|]|[|]| |[|] m e]; try discriminate; intros _;
    cbn [sign_str append]; eexists; reflexivity.
Qed.

(** What the reader returns when it finds no sentiment line. *)
Definition sentiment_defaults (d : FinalReportData) : Prop :=
  fr_sentiment d = "positive"%string
  /\ fr_sentiment_score d = 0.75%float
  /\ fr_sentiment_confidence d = 85.0%float.

(** A report whose sentiment line is not matched where it stands, and
    whose label occurs nowhere else, is read with the defaults of the
    sentiment. *)
Lemma defaults_without_sentiment_line ts ticker tk now gs sent e v dec report :
  report_inputs_ok ts ticker gs sent e v dec = true ->
  (forall tail,
      match_at (summary_re "Sentiment")
        (label_lit "Sentiment" ++ " " ++ sentiment_name sent ++ " (Score: "
         ++ sentiment_score_text sent ++ tail) = None) ->
  occurrences "**Sentiment:**" report = 1 ->
  Report._generate_final_report ts ticker get_default_self_model gs
    sent (Some e) (Some v) (Some dec) = Ok report ->
  exists d,
    final_report_of_text tk now report = Ok d
    /\ sentiment_defaults d
    /\ events_read_back e d
    /\ volatility_read_back v d
    /\ List.length (fr_confidence_summary d)
       = List.length (present_rows sent (Some e) (Some v)).
Proof.
  intros Hok Hline Hocc Hgen.
  destruct (common_reads ts ticker gs sent e v dec report Hok Hgen)
    as (r2 & r3 & r4 & r5 & r6 & m & recs & post
        & S2 & S3 & S4 & S5 & S6 & Hm & Hmr & Hrecs & Hfail & Hlen & Hv1).
  unfold report_inputs_ok in Hok. rewrite !andb_true_iff in Hok.
  destruct Hok as [[[[[Hts Htk] Hen] Hvn] Hdec] Hbar].
  assert (S1 : search (summary_re "Sentiment") report = None).
  { assert (Hshape : exists a tail,
               report
               = (a ++ String "*"
                         ("*Sentiment:** " ++ sentiment_name sent
                          ++ " (Score: " ++ sentiment_score_text sent
                          ++ tail))%string).
    { exists ("# FinSight Multi-Agent Analysis Report

**Generated:** " ++ ts ++ "  " ++ "
**Company:** " ++ ticker ++ "  
**System Version:** " ++ FinSightSelfModel.version get_default_self_model ++ "

---

## Executive Summary

- ")%string.
      eexists. rewrite Hv1, summary_pieces, !sapp_assoc. reflexivity. }
    destruct Hshape as (a & tail & Hshape).
    rewrite Hshape in Hocc |- *.
    apply (search_single "*" "*Sentiment:**" _ a "*" _
             (label_re_headed "Sentiment" (plus (RChar is_word))
                summary_tail));
      [reflexivity|exact Hocc|].
    apply (Hline tail). }
  clear Hv1 Hgen Hbar Hocc.
  rewrite (record_of_matches tk now report _ _ _ _ _ _ m recs
             S1 S2 S3 S4 S5 S6 Hm Hrecs).
  destruct (py_float_fmt_2f
              (percent (SignificantEventDetectionResult.confidence e)))
    as [y3 Y3].
  destruct (py_float_fmt_2f (VolatilityPredictionResult.volatility_score v))
    as [y4 Y4].
  destruct (py_float_fmt_2f
              (percent (VolatilityPredictionResult.confidence v)))
    as [y5 Y5].
  destruct (py_float_fmt_2f
              (percent (VolatilityPredictionResult.historical_volatility v)))
    as [y6 Y6].
  unfold events_numbers in Hen. rewrite !andb_true_iff in Hen.
  destruct Hen as [[N3 N4] _]. apply Z.leb_le in N3, N4.
  unfold float_group, int_group, str_group, group, to_float.
  cbn [snd lookup Nat.eqb].
  rewrite Y3, Y4, Y5, Y6. cbn [bind].
  eexists. split; [reflexivity|].
  unfold sentiment_defaults, events_read_back, volatility_read_back.
  cbn [fr_sentiment fr_sentiment_score fr_confidence_summary
       fr_sentiment_confidence fr_events_detected fr_events_verified
       fr_events_confidence fr_predicted_volatility fr_volatility_score
       fr_volatility_confidence fr_historical_volatility].
  rewrite !py_int_fmt_int by assumption.
  split; [repeat split; reflexivity|].
  split; [repeat split; assumption|].
  split; [repeat split; assumption|exact Hlen].
Qed.

(** The summary pattern of the reader admits no sign in front of the
    score. When the sentiment score of a run is rendered with a minus
    sign, and the label of the summary line occurs nowhere else in the
    report, the reader finds no sentiment line and returns its defaults:
    the sentiment "positive" with score 0.75 and confidence 85.0,
    whatever the report says; the events and the volatility are read
    back as written. *)
Theorem negative_score_is_read_as_positive :
  forall (ts ticker tk now : string) (gs : list GuardrailViolation.t)
         (s : SentimentAnalysisResult.t)
         (e : SignificantEventDetectionResult.t)
         (v : VolatilityPredictionResult.t)
         (dec : MetacognitiveDecision.t) (report : string),
    report_inputs_ok ts ticker gs (Some s) e v dec = true ->
    negative_finite (SentimentAnalysisResult.sentiment_score s) = true ->
    occurrences "**Sentiment:**" report = 1 ->
    Report._generate_final_report ts ticker get_default_self_model gs
      (Some s) (Some e) (Some v) (Some dec) = Ok report ->
    exists d,
      final_report_of_text tk now report = Ok d
      /\ sentiment_defaults d
      /\ events_read_back e d
      /\ volatility_read_back v d.
Proof.
  intros ts ticker tk now gs s e v dec report Hok Hneg Hocc Hgen.
  destruct (fmt_2f_negative _ Hneg) as [digits Hsc].
  destruct (defaults_without_sentiment_line ts ticker tk now gs (Some s)
              e v dec report Hok) as (d & Hd & H1 & H2 & H3 & _);
    [|exact Hocc|exact Hgen|exists d; auto].
  intros tail. cbn [sentiment_name sentiment_score_text].
  apply summary_line_refused.
  - apply token_sentiment.
  - rewrite Hsc. reflexivity.
  - rewrite Hsc. discriminate.
  - rewrite Hsc. reflexivity.
Qed.

(** A run whose sentiment stage stored no result writes "N/A" in the
    sentiment line of the summary. The reader does not match that line
    and, the label occurring nowhere else, returns the sentiment
    "positive" with score 0.75 and confidence 85.0; the confidence table
    it reads has the two rows of the other stages. *)
Theorem missing_sentiment_is_read_as_positive :
  forall (ts ticker tk now : string) (gs : list GuardrailViolation.t)
         (e : SignificantEventDetectionResult.t)
         (v : VolatilityPredictionResult.t)
         (dec : MetacognitiveDecision.t) (report : string),
    report_inputs_ok ts ticker gs None e v dec = true ->
    occurrences "**Sentiment:**" report = 1 ->
    Report._generate_final_report ts ticker get_default_self_model gs
      None (Some e) (Some v) (Some dec) = Ok report ->
    exists d,
      final_report_of_text tk now report = Ok d
      /\ sentiment_defaults d
      /\ events_read_back e d
      /\ volatility_read_back v d
      /\ List.length (fr_confidence_summary d) = 2.
Proof.
  intros ts ticker tk now gs e v dec report Hok Hocc Hgen.
  apply (defaults_without_sentiment_line ts ticker tk now gs None e v dec
           report Hok); [|exact Hocc|exact Hgen].
  intros tail. cbn [sentiment_name sentiment_score_text].
  apply (summary_line_not_available "Sentiment").
Qed.

End NegativeScore.

Section NegativeScoreSample.
Import PyStr PyNum Re Api Formatter.

Definition gloomy_sentiment : SentimentAnalysisResult.t :=
  SentimentAnalysisResult.mk SentimentAnalysisResult.very_negative (-0.85)
    "Analysts cut their targets." ["guidance cut"; "margins"]%string
    ["Shares fall after earnings"%string] 0.9 ["news agree"%string].

Definition gloomy_final_report : string :=
  match Report._generate_final_report "2025-01-02 03:04:06" "ACME"
          get_default_self_model [] (Some gloomy_sentiment)
          (Some sample_events) (Some sample_volatility)
          (Some sample_decision) with
  | Ok report => report
  | Raise _ => ""%string
  end.

Lemma negative_score_is_read_as_positive_witness :
  contains "**Sentiment:** very_negative (Score: -0.85, Confidence: 90.00%)"
    gloomy_final_report = true
  /\ exists d,
      final_report_of_text "ACME" "2025-02-01 00:00:00" gloomy_final_report
      = Ok d
      /\ fr_sentiment d = "positive"%string
      /\ fr_sentiment_score d = 0.75%float
      /\ fr_sentiment_confidence d = 85.0%float.
Proof.
  split; [vm_compute; reflexivity|].
  destruct (negative_score_is_read_as_positive "2025-01-02 03:04:06" "ACME"
              "ACME" "2025-02-01 00:00:00" [] gloomy_sentiment sample_events
              sample_volatility sample_decision gloomy_final_report)
    as (d & Hd & (H1 & H2 & H3) & _);
    [vm_compute; reflexivity|vm_compute; reflexivity
    |vm_compute; reflexivity|vm_compute; reflexivity|].
  exists d. repeat split; assumption.
Defined.

Definition report_without_sentiment : string :=
  match Report._generate_final_report "2025-01-02 03:04:06" "ACME"
          get_default_self_model [] None
          (Some sample_events) (Some sample_volatility)
          (Some sample_decision) with
  | Ok report => report
  | Raise _ => ""%string
  end.

Lemma missing_sentiment_is_read_as_positive_witness :
  contains "*Sentiment analysis not available.*" report_without_sentiment
  = true
  /\ exists d,
      final_report_of_text "ACME" "2025-02-01 00:00:00"
        report_without_sentiment = Ok d
      /\ fr_sentiment d = "positive"%string
      /\ fr_sentiment_score d = 0.75%float
      /\ fr_sentiment_confidence d = 85.0%float.
Proof.
  split; [vm_compute; reflexivity|].
  destruct (missing_sentiment_is_read_as_positive "2025-01-02 03:04:06"
              "ACME" "ACME" "2025-02-01 00:00:00" [] sample_events
              sample_volatility sample_decision report_without_sentiment)
    as (d & Hd & (H1 & H2 & H3) & _);
    [vm_compute; reflexivity|vm_compute; reflexivity
    |vm_compute; reflexivity|].
  exists d. repeat split; assumption.
Defined.

End NegativeScoreSample.

(* ================================================================== *)
(** * The guardrail lists of the final report *)

Section GuardrailsReadBack.
Import PyStr PyNum Re Api Formatter.

Definition guardrails_title : string := "5. Guardrails and System Boundaries".

(** The section of a run without violation, its last line break apart. *)
Definition guardrails_body : string :=
  Eval vm_compute in
    strip (Report.guardrails_section [] get_default_self_model).

Lemma guardrails_section_body :
  Report.guardrails_section [] get_default_self_model
  = (guardrails_body ++ nl)%string.
Proof. vm_compute. reflexivity. Qed.

(** A pattern headed by a label that occurs once in a text is searched
    from that occurrence on. *)
Lemma search_once x l r a y t :
  lit_headed (String x l) r ->
  startswith (String x l) (String y t) = true ->
  occurrences (String x l) (a ++ String y t) = 1 ->
  search r (a ++ String y t) = search r (String y t).
Proof.
  intros Hr Hs Ho.
  destruct (occurrences_once _ a y t Hs Ho) as [Hn _].
  apply (search_skip _ r a _ Hr Hn).
Qed.

Lemma guardrails_body_found t :
  search (numbered_section_re guardrails_title)
    (numbered_head guardrails_title ++ guardrails_body ++ rule_stop ++ t)
  = Some (t, [(1, guardrails_body)]).
Proof.
  apply (search_numbered guardrails_title (numbered_head guardrails_title)
           "" guardrails_body t).
  - vm_compute. reflexivity.
  - apply free_lit. vm_compute. reflexivity.
  - apply free_lit. vm_compute. reflexivity.
Qed.

(** The reader of the final report gives back the guardrail lists of the
    self model. For every report of a run without guardrail violation,
    whatever the stages produced, in which the heading of the guardrail
    section occurs once, the reader finds 0 checks performed and the
    active guardrails and operating boundaries of the self model, item by
    item; this is the guardrail entry of every record it returns. *)
Theorem guardrail_lists_read_back :
  forall ts ticker sent events vol decision report,
    Report._generate_final_report ts ticker get_default_self_model []
      sent events vol decision = Ok report ->
    occurrences (numbered_head guardrails_title) report = 1 ->
    extract_guardrails report
    = mkGuardrails (Some 0%Z)
        (Some (FinSightSelfModel.active_guardrails get_default_self_model))
        (Some (FinSightSelfModel.operating_boundaries get_default_self_model))
    /\ forall tk now d,
        final_report_of_text tk now report = Ok d ->
        fr_guardrails d = extract_guardrails report.
Proof.
  intros ts ticker sent events vol decision report Hgen Hocc.
  split.
  - assert (Hshape : exists a t,
               report
               = (a ++ numbered_head guardrails_title ++ guardrails_body
                  ++ rule_stop ++ t)%string).
    { unfold Report._generate_final_report in Hgen.
      destruct (Report.confidence_table get_default_self_model sent events vol)
        as [table|err]; cbn [bind] in Hgen; [|discriminate Hgen].
      apply Ok_inj in Hgen. subst report.
      exists (Report.executive_summary ts ticker
                (FinSightSelfModel.version get_default_self_model)
                sent events vol
              ++ Report.coordinator_section decision
              ++ Report.rule "2. Sentiment Analysis"
              ++ Report.sentiment_section sent
              ++ Report.rule "3. Significant Event Detection"
              ++ Report.event_detection_section events
              ++ Report.rule "4. Volatility Prediction"
              ++ Report.volatility_section vol
              ++ nl ++ "---" ++ nl ++ nl)%string.
      exists (nl ++ nl ++ "## " ++ "6. System Confidence Summary" ++ nl ++ nl
              ++ table ++ Report.rule "Disclaimers"
              ++ Report.disclaimers get_default_self_model)%string.
      rewrite guardrails_section_body.
      unfold Report.rule, numbered_head, rule_stop, guardrails_title.
      rewrite !sapp_assoc. reflexivity. }
    destruct Hshape as (a & t & Hshape).
    rewrite Hshape in Hocc |- *.
    unfold extract_guardrails. fold guardrails_title.
    change (numbered_head guardrails_title ++ guardrails_body ++ rule_stop
            ++ t)%string
      with (String "#" ("# " ++ guardrails_title ++ nl ++ nl
                        ++ guardrails_body ++ rule_stop ++ t))%string
      in Hocc |- *.
    assert (Hs : startswith (String "#" ("# " ++ guardrails_title ++ nl ++ nl))
                   (String "#" ("# " ++ guardrails_title ++ nl ++ nl
                                ++ guardrails_body ++ rule_stop ++ t))
                 = true) by reflexivity.
    rewrite (search_once "#" ("# " ++ guardrails_title ++ nl ++ nl) _ a "#" _
               (numbered_section_headed guardrails_title) Hs Hocc).
    change (String "#" ("# " ++ guardrails_title ++ nl ++ nl
                        ++ guardrails_body ++ rule_stop ++ t))%string
      with (numbered_head guardrails_title ++ guardrails_body ++ rule_stop
            ++ t)%string.
    rewrite guardrails_body_found.
    vm_compute. reflexivity.
  - intros tk now d Hd. unfold final_report_of_text in Hd. cbv zeta in Hd.
    repeat match type of Hd with
           | bind ?m _ = Ok _ =>
               destruct m; cbn [bind] in Hd; [|discriminate Hd]
           end.
    apply Ok_inj in Hd. subst d. reflexivity.
Qed.

End GuardrailsReadBack.

Section GuardrailsReadBackSample.
Import PyStr PyNum Re Api Formatter.

Lemma guardrail_lists_read_back_witness :
  gr_active_guardrails (extract_guardrails gloomy_final_report)
  = Some ["Confidence threshold enforcement";
          "Source verification requirement";
          "Investment advice prohibition";
          "Transparent limitation disclosure"]%string.
Proof.
  destruct (guardrail_lists_read_back "2025-01-02 03:04:06" "ACME"
              (Some gloomy_sentiment) (Some sample_events)
              (Some sample_volatility) (Some sample_decision)
              gloomy_final_report) as [H _];
    [vm_compute; reflexivity|vm_compute; reflexivity|].
  rewrite H. reflexivity.
Defined.

End GuardrailsReadBackSample.
